(* ===== verification/_CoqProject ===== *)
-Q . S2P
Prelude.v
PyValue.v
Documents.v
Runtime.v
DocId.v
TableItemReader.v
StreamsRecordReader.v
ReaderContract.v
Stateless.v
Segments.v
ToMap.v
SparkEngine.v
SparkReducer.v
Groups.v
SparkMapper.v
RowOrder.v
WarcRecord.v
SparkSchema.v
Percentile.v
SparkJob.v
JobSpec.v
