(* ===== verification/Prelude.v ===== *)
(** * Verification of the letsdata-python-examples user data handlers

    ** The program

    The repository holds four example "user data handlers" that a managed
    ingestion platform calls, one record (or one Spark job) at a time:

    - [src/letsdata_interfaces/readers/dynamodb/DynamoDBTableItemReader.py],
      method [parseDynamoDBItem]: builds a document id from the values of
      the [keys] dict, joined with a vertical bar, and classifies the
      scanned [item] as a SUCCESS document or, when it is None or empty, as
      an ERROR document; any exception is caught and turned into an ERROR
      document whose id is a fresh uuid4.
    - [src/letsdata_interfaces/readers/dynamodbstreams/DynamoDBStreamsRecordReader.py],
      method [parseRecord]: the same derivation; an absent or empty
      [newImage] gives a SKIP document, an exception an ERROR document.
    - [src/letsdata_interfaces/readers/spark/SparkMapperInterface.py]:
      the [to_map] udf (a list [h, k1, v1, k2, v2, ...] to a dict) and the
      [mapper] pipeline of dataframe operators over WARC records.
    - [src/letsdata_interfaces/readers/spark/SparkReducerInterface.py]:
      [reducer], which reads the input uris, groups by language and
      aggregates the content length.

    The handlers keep no state of their own.  What they touch is: the
    process-wide logger, the uuid generator, and the objects they are
    passed (a list that is the first key value is extended in place by
    [docId += ...], because [docId] is that very object).

    ** The files, in dependency order

    - [Prelude] (this file): the notation scope [py_scope], the outcome
      type, the state-and-exception monad [SE] in which the handlers are
      written (state survives an exception, as in Python), its pointwise
      equivalence with [Proper] instances, the indexed loop combinator
      that models [for x in xs], string and list lemmas (the separator
      join), the tactics and the hint databases [py] and [se].
    - [PyValue]: the Python values the handlers can be passed ([pyval]:
      None, bool, int, str, list, dict with string keys in insertion
      order), their induction principle and decidable equality, the
      exceptions ([exn]) with CPython's messages, and the primitives the
      code uses: [dict.values()], [len], [str + x], [x += str].
    - [Documents]: the result classes of the external letsdata_interfaces
      package ([Document], [ErrorDoc], [SkipDoc], [ParseDocumentResult]),
      modelled from the way the handlers call their constructors and from
      the specification's data model.
    - [Runtime]: the world a handler runs in (the log written by
      [logger.debug] and [logger.error], the uuid4 supply) and the
      handler state (world plus the caller's [keys] object).
    - [DocId]: the document id loop shared by both readers, with the
      aliasing between [docId] and the first key value; the reference
      definition ([join_ids]) and their equivalence on string keys.
    - [TableItemReader]: [parseDynamoDBItem], the whole handler with its
      try body, its guard and its except clause.
    - [StreamsRecordReader]: [parseRecord], likewise.
    - [ReaderContract]: the record-to-result contract as a type class
      (what a caller may rely on), an abstract specification of the
      classification, the two instances, and a sequence of calls, one
      per record ([run_batch]), with theorems proved against the class
      only.
    - [Stateless]: statelessness, the concurrency contract of section 5
      of the specification, as a relation between two runs of one
      computation from states with the same [keys] ([stateless]), with
      one lemma per operation of the monad and of the id loop, and the
      class [StatelessHandler] that both readers are instances of.
    - [Segments]: calls for several segments or shards at once, as a
      sequence of whole calls over an interleaving of the segments
      ([merge], the function of a schedule, and [interleaved], the
      relation), and the records whose call takes no except clause
      ([quiet]).
    - [ToMap]: the [to_map] udf: its index loop, the exceptions it
      catches, the line it prints, and the dict it builds, with Python's
      equality of keys; [insert_pairs] and [header_map] are the reference
      definitions.
    - [SparkEngine]: the operators of pyspark and of
      [letsdata_utils.spark_utils] that the two Spark handlers call
      (dataframes as column names and rows, column expressions and their
      evaluation, [select], [withColumn], [where], [drop], [union],
      [groupBy]/[agg], [orderBy], the three regular expressions of the
      mapper as trimming and splitting on literal separators, the cast of
      a string to a 32-bit integer, the exact percentile), and the state
      a job runs
      in: environment variables, what each uri holds, the sessions, reads
      and writes made.
    - [SparkReducer]: [reducer], statement by statement: the credential
      helpers, [readUris[0]], the read loop (whose [union] result is
      dropped), the aggregate and the write.
    - [Groups]: the groups of [groupBy("language")]: the languages of a
      dataframe ([languages_of]), the rows [count] counts
      ([with_length]) and the sum of the counts of a result
      ([total_samples]).
    - [SparkMapper]: [mapper], statement by statement, and [warc_row],
      the same statements read for one WARC record.
    - [RowOrder]: dataframes up to the order of their rows
      ([df_equiv]), results up to it ([outcome_equiv]), the partitions
      of a dataframe and their union, with the instances that let
      [rewrite] work under every operator of the engine.
    - [WarcRecord]: the layout of a WARC record as the comments of
      [mapper] show it, as a printer ([render_record]), the condition
      under which a record can be taken apart ([printable]), header
      lines whose value has the separator inside ([field_of_line]), and
      the row of a printed record ([row_of_fields]).
    - [SparkSchema]: the data types the sources name, the typing of
      cells, rows and dataframes, the static type of a column expression
      ([column_type]) and the schemas of the results of [mapper] and
      [reducer].
    - [Percentile]: the range of the percentile the reducer computes
      ([content_lengths], [percentile_within]).
    - [SparkJob]: the dataset configuration the docstrings of [mapper]
      and [reducer] describe (read connector, manifest file, write
      connector, run configuration), the arguments each task is called
      with ([mapper_args], [reducer_args]) and the job ([run_job]): one
      mapper task per manifest file, then the reducer.  All of this is
      the caller's side, taken from the docstrings; the code it runs is
      [mapper] and [reducer].
    - [JobSpec]: what a job is meant to compute according to the two
      docstrings, as a function of the dataframes the manifest files
      hold ([combined], [reducer_spec], [job_spec]).

    ** What the theorems show

    - Identifier derivation: on string key values the loop computes the
      bar-separated join in iteration order, leaves [keys] untouched and
      cannot raise; the well-formedness invariant of the loop state is
      preserved by every step; a None value is skipped as a first value
      and raises as a later one; a list as first value is mutated in
      place.
    - Handlers: no input makes a handler raise (fault containment); the
      status string always agrees with the class of the document; the
      functional behaviour on each branch (success, empty payload,
      exception), including what is logged and how many uuids are drawn;
      [oldImage] does not influence [parseRecord].
    - Refinement: on well-typed inputs the handlers implement the
      abstract classification of the specification.
    - Sequences of calls: a handler called once per record, proved
      against the type class only: no record stops the sequence, the log
      only grows, every uuid drawn is the id of a result.
    - Statelessness: the outcome of a handler, the [keys] it leaves and
      the entries it logs are the same in every world whose next uuid is
      the same, and a call draws at most one uuid; a call that draws
      none does the same in every world.
    - Concurrent segments: an interleaving has the elements of the
      segments and maps commute with it; whatever the schedule, the
      calls over an interleaving of quiet segments give every record
      the result it gets alone in a fresh process, draws no uuid and
      leaves a log that is an interleaving of the logs of the segments;
      records with string keys and a payload that is absent or a
      mapping are quiet; the error documents of faults get the uuids of
      the supply one after the other in the order of the calls, so
      their ids follow the schedule and differ from one another when
      the supply does not repeat itself.
    - [to_map]: it never raises; on a list its index loop equals the
      recursion over the elements two at a time; on string tokens a
      lookup in its result is a lookup in the header map, where the last
      pair of a key wins; it prints exactly when a key has no value.
    - Reducer: on readable uris it creates one session, reads every uri
      and writes the aggregate of the first uri alone; the rows written
      are one per language with the percentile and the count, in
      descending order of the count; an empty list of uris raises.
    - Groups: every language of the input, null included, has exactly
      one row in the result; the counts of the result add up to the
      number of rows of the input that have a content length, so that
      no sample is lost and none is counted twice.
    - Mapper: on a dataframe with a [value] column the operator pipeline
      equals the reference definition record by record; every row written
      has the type [conversion] and one value under [url], [docId] and
      [partitionKey].
    - Order of rows: every operator of the engine, and with them the
      transformations of the mapper and of the reducer, return the same
      rows in some order when given the same rows in some order; the
      transformation of the mapper distributes over the partitions of
      a dataframe; without ties in the number of samples the result of
      the reducer is the same row for row, and with ties the sort key
      does not determine it.  These are laws of the engine model: they
      hold for any grouping key and aggregate.
    - WARC records: the splitting of the mapper parses what the printer
      prints (the tokens of a printed header are its version, keys and
      values, and pairing them gives the fields back), and the row of
      the mapper for a printable record holds the last value printed
      under each key; no blank line starts within a header of clean
      tokens, and trimming leaves a record alone whose version line
      starts and whose payload ends with a character that is not white
      space; of a payload with a blank line the row holds the text
      before that line only, whatever follows it; a header value with
      [": "] inside is split into tokens of their own, the values after
      it are read as keys, and a record whose type comes after it is
      dropped.
    - Types: evaluation of a column expression preserves its static
      type; every dataframe the mapper pipeline returns has the mapper
      schema; on a dataframe of that schema the reducer pipeline cannot
      fail and returns the reducer schema; the dict of the udf on
      strings conforms to the map type it is declared with.
    - Percentile: the 90th percentile of a language is null or lies
      between any two bounds of the content lengths of the input; on
      the output of the mapper it is within the 32-bit range.
    - Job: the mapper tasks leave one file per manifest file (the
      intermediate file when a reducer follows, the output file in a
      job of mappers alone) and touch no other uri, in whatever order
      they run; a job of mappers and reducer ends with the aggregate of
      the first manifest file alone at the write uri; a job of the
      reducer alone over text files raises the analysis error of the
      unresolved column after reading every file; a job with an empty
      manifest fails in the reducer.
    - Specification of a job: it does not depend on the order of the
      manifest files, up to the order of the rows of its result; it
      equals one pass of the two transformations over the union of the
      files; the job as the code runs it implements it when no file
      after the first contributes a row, and not on the documented
      manifest of four files.

    Each theorem that has a hypothesis comes with a lemma named
    [..._witness] that applies it to concrete arguments.

    ** What is translated from code

    The definitions of [DocId], [TableItemReader], [StreamsRecordReader],
    [ToMap], [SparkMapper] and [SparkReducer] translate the statements
    of the four source files line by line, and the records of handler
    arguments follow the parameter lists.  Everything they call is
    outside the repository and is modelled from its documented
    behaviour: the Python primitives, the document classes, the logger,
    the uuid generator, the operators of the dataframe engine.  Three
    groups of definitions are neither: the reference definitions a
    handler is compared with ([join_ids], [classify_item],
    [classify_record], [header_map], [samples_of], [reducer_spec],
    [job_spec]), which come from the specification, the docstrings and
    the comments; the input format of the mapper ([render_record] and
    the definitions around it), which comes from the comments of
    [mapper]; and the caller's side ([run_batch], [merge], [run_job],
    [mapper_args], [reducer_args]), which comes from section 5 of the
    specification and from the docstrings.  What a theorem asserts of a
    sequence of calls or of a job is the result of the handlers' code
    on the arguments the caller is documented to pass.

    ** Bounds and assumptions

    The handlers use no fuel: every loop is structural recursion over
    the list it iterates; [range(1, len(arr), 2)] is the list of its
    members.  The tasks of a Spark job run one after the other.  Calls
    made at once are a sequence of whole calls in some order: a handler
    neither blocks nor yields, and what it shares with other calls is
    the logger and the uuid generator.  The theorem on schedules is
    about records whose call takes no except clause, which is decidable
    ([quiet]) and holds of well-typed records; the theorem on faults
    covers the others.  The uuid generator is a supply that is read in
    order; where freshness matters the supply is assumed not to repeat
    itself.  The engine is modelled with ANSI mode off: an index out of
    range, a missing map key and a failed cast give null.  The cast of
    a string to integer removes the characters up to code 0x20 at both
    ends, reads an optional sign, digits and an optional fraction that
    is dropped, and is kept at 32 bits: a numeral outside
    [-2^31, 2^31 - 1] gives null.  Percentiles are computed in exact
    rationals, where the engine uses doubles: the bounds proved of a
    percentile are exact in that idealisation.  [to_timestamp] is a
    parameter of the mapper's theorems.  The order of the groups of
    [groupBy] and of rows with equal sort keys is the engine's choice;
    the theorems on the reducer's output speak of permutations and
    sortedness, and [RowOrder] shows that nothing else depends on the
    choice.  Strings are Rocq strings (sequences of 8-bit characters).
    The value universe is closed: bytes, float, Decimal, set and tuple
    values are outside the model.  Input objects are trees (no value is
    shared between two places of the input), which holds for values a
    JSON or DynamoDB deserialiser builds.  The constructors of the
    document classes are assumed not to raise.  The rendering of an
    interpolated value inside a log message is not modelled: a log entry
    records the literal fragments and the interpolated values.

    ** Not modelled

    The platform around the handlers is not in the repository and the
    specification leaves it out of scope: the DynamoDB scan, the task
    that writes results to the write and error destinations,
    checkpoints and throws on errors, the retry of a call and the
    restart of a task are not modelled.  The docstring of
    [parseDynamoDBItem] sketches that task without fixing what it does
    with a SKIP result, whether a failing task has written the error
    document, or where a restarted task resumes, so a model of it would
    be a design of its own.  Parallel segments are modelled as
    interleavings of whole calls, which is what a synchronous handler
    admits; threads that share a [keys] object between two calls are
    not.  Of the distributed execution of a Spark job the
    order of rows, the partitions of a dataframe and the schedule of
    the mapper tasks are modelled; executors, shuffles, laziness and
    the failure and retry of a single task are not.  Neither are the
    network call of the secret manager, the file formats and
    compression, the parsing of a manifest's [fileContents] into file
    names, and the lines [to_map] prints on the executors when it runs
    inside a job.  [RecordParseHint] and [RecordHintType] are imported
    and never used.  The lines of the sources that no definition models
    are imports and the prose of the docstrings about the platform, the
    dataset configuration and the steps of the transformations. *)

From stdpp Require Import base tactics option list strings.
From Stdlib Require Import ZArith Lia.

Declare Scope py_scope.
Delimit Scope py_scope with py.

(** ** Outcomes: a value or a raised exception *)

Inductive outcome (E A : Type) : Type :=
| Ok (a : A)
| Raised (e : E).
Arguments Ok {E A} a.
Arguments Raised {E A} e.

#[export] Instance outcome_eq_dec {E A} `{EqDecision E, EqDecision A} :
  EqDecision (outcome E A).
Proof. solve_decision. Defined.

Definition is_ok {E A} (o : outcome E A) : bool :=
  match o with Ok _ => true | Raised _ => false end.

Definition outcome_map {E A B} (f : A → B) (o : outcome E A) : outcome E B :=
  match o with Ok a => Ok (f a) | Raised e => Raised e end.

Definition outcome_bind {E A B} (o : outcome E A) (f : A → outcome E B) :
  outcome E B :=
  match o with Ok a => f a | Raised e => Raised e end.

(** ** The state-and-exception monad

    A computation takes the state and returns an outcome together with
    the state it leaves behind.  An exception does not roll the state
    back: what was logged or mutated before the raise stays. *)

Section StateExc.
Context {St E : Type}.

Definition SE (A : Type) : Type := St → outcome E A * St.

Definition ret {A} (a : A) : SE A := λ s, (Ok a, s).

Definition raise {A} (e : E) : SE A := λ s, (Raised e, s).

Definition bind {A B} (m : SE A) (k : A → SE B) : SE B :=
  λ s, match m s with
       | (Ok a, s') => k a s'
       | (Raised e, s') => (Raised e, s')
       end.

Definition lift {A} (o : outcome E A) : SE A := λ s, (o, s).

Definition gets {A} (f : St → A) : SE A := λ s, (Ok (f s), s).

Definition modify (f : St → St) : SE unit := λ s, (Ok tt, f s).

(** [try: body except Exception as ex: handler ex]. *)
Definition try_except {A} (body : SE A) (handler : E → SE A) : SE A :=
  λ s, match body s with
       | (Ok a, s') => (Ok a, s')
       | (Raised e, s') => handler e s'
       end.

(** [for x in xs: acc = body i x acc], where [i] is the position of [x]. *)
Fixpoint for_each {A B} (body : nat → A → B → SE B) (i : nat) (xs : list A)
    (acc : B) : SE B :=
  match xs with
  | [] => ret acc
  | x :: xs' => bind (body i x acc) (for_each body (S i) xs')
  end.

(** Pointwise equality of computations. *)
Definition se_equiv {A} (m1 m2 : SE A) : Prop := ∀ s, m1 s = m2 s.

(** A computation that cannot raise, whatever the state. *)
Definition never_raises {A} (m : SE A) : Prop :=
  ∀ s, is_ok (m s).1 = true.

End StateExc.

Arguments SE St E A : clear implicits.

Notation "x <- m ;; k" := (bind m (λ x, k))
  (at level 100, m at next level, right associativity) : py_scope.
Notation "m ;;; k" := (bind m (λ _, k))
  (at level 100, right associativity) : py_scope.
Infix "=se=" := se_equiv (at level 70) : py_scope.
Notation "x <~ o ;; k" := (outcome_bind o (λ x, k))
  (at level 100, o at next level, right associativity) : py_scope.

Open Scope py_scope.

(** ** Hint databases and tactics *)

Create HintDb py discriminated.
Create Rewrite HintDb se.

(** Unfold the monad's operations and compute. *)
Ltac se_unfold :=
  unfold try_except, bind, ret, raise, lift, gets, modify in *; simpl in *.

(** Case analysis on the first [match] or [if] the goal is stuck on. *)
Ltac se_case :=
  match goal with
  | |- context [match ?m ?s with _ => _ end] =>
      let o := fresh "o" in let s' := fresh "s" in
      let Hrun := fresh "Hrun" in
      destruct (m s) as [o s'] eqn:Hrun; destruct o
  end.

Section StateExcLaws.
Context {St E : Type}.
Implicit Types s : St.

#[export] Instance se_equiv_equivalence {A} : Equivalence (@se_equiv St E A).
Proof.
  split.
  - by intros m s.
  - by intros m1 m2 H s.
  - intros m1 m2 m3 H12 H23 s. by rewrite H12.
Qed.

#[export] Instance bind_proper {A B} :
  Proper (se_equiv ==> pointwise_relation A se_equiv ==> se_equiv)
    (@bind St E A B).
Proof.
  intros m1 m2 Hm k1 k2 Hk s. unfold bind. rewrite Hm.
  destruct (m2 s) as [[a|e] s']; [apply Hk | done].
Qed.

#[export] Instance try_except_proper {A} :
  Proper (se_equiv ==> pointwise_relation E se_equiv ==> se_equiv)
    (@try_except St E A).
Proof.
  intros m1 m2 Hm h1 h2 Hh s. unfold try_except. rewrite Hm.
  destruct (m2 s) as [[a|e] s']; [done | apply Hh].
Qed.

Lemma bind_ret_l {A B} (a : A) (k : A → SE St E B) s :
  bind (ret a) k s = k a s.
Proof. done. Qed.

Lemma bind_ret_r {A} (m : SE St E A) : bind m ret =se= m.
Proof. intros s. unfold bind. by destruct (m s) as [[a|e] s']. Qed.

Lemma bind_assoc {A B C} (m : SE St E A) (k : A → SE St E B)
    (h : B → SE St E C) :
  bind (bind m k) h =se= bind m (λ a, bind (k a) h).
Proof. intros s. unfold bind. by destruct (m s) as [[a|e] s']. Qed.

Lemma bind_raise {A B} (e : E) (k : A → SE St E B) s :
  bind (raise e) k s = (Raised e, s).
Proof. done. Qed.

Lemma bind_ok {A B} (m : SE St E A) (k : A → SE St E B) s a s' :
  m s = (Ok a, s') → bind m k s = k a s'.
Proof. intros H. unfold bind. by rewrite H. Qed.

Lemma bind_raised {A B} (m : SE St E A) (k : A → SE St E B) s e s' :
  m s = (Raised e, s') → bind m k s = (Raised e, s').
Proof. intros H. unfold bind. by rewrite H. Qed.

Lemma try_except_ok {A} (m : SE St E A) h s a s' :
  m s = (Ok a, s') → try_except m h s = (Ok a, s').
Proof. intros H. unfold try_except. by rewrite H. Qed.

Lemma try_except_raised {A} (m : SE St E A) h s e s' :
  m s = (Raised e, s') → try_except m h s = h e s'.
Proof. intros H. unfold try_except. by rewrite H. Qed.

(** A body that returns makes the try return the same. *)
Lemma try_except_returns {A} (m : SE St E A) h s (p : outcome E A * St) :
  m s = p → is_ok p.1 = true → try_except m h s = p.
Proof. intros <- H. unfold try_except. by destruct (m s) as [[a|e] s']. Qed.

(** A try whose handler cannot raise cannot raise. *)
Lemma try_except_never_raises {A} (m : SE St E A) (h : E → SE St E A) :
  (∀ e, never_raises (h e)) → never_raises (try_except m h).
Proof.
  intros Hh s. unfold try_except.
  destruct (m s) as [[a|e] s']; [done | apply Hh].
Qed.

Lemma never_raises_ret {A} (a : A) : never_raises (@ret St E A a).
Proof. by intros s. Qed.

Lemma never_raises_gets {A} (f : St → A) : never_raises (@gets St E A f).
Proof. by intros s. Qed.

Lemma never_raises_modify (f : St → St) : never_raises (@modify St E f).
Proof. by intros s. Qed.

Lemma never_raises_bind {A B} (m : SE St E A) (k : A → SE St E B) :
  never_raises m → (∀ a, never_raises (k a)) → never_raises (bind m k).
Proof.
  intros Hm Hk s. unfold bind. specialize (Hm s).
  destruct (m s) as [[a|e] s']; [apply Hk | done].
Qed.

Lemma never_raises_run {A} (m : SE St E A) s :
  never_raises m → ∃ a s', m s = (Ok a, s').
Proof.
  intros Hm. specialize (Hm s). destruct (m s) as [[a|e] s']; [eauto | done].
Qed.

(** The loop over a concatenation is the loop over the first part
    followed by the loop over the second, positions shifted. *)
Lemma for_each_app {A B} (body : nat → A → B → SE St E B) xs ys i acc :
  for_each body i (xs ++ ys) acc
  =se= bind (for_each body i xs acc) (for_each body (i + length xs) ys).
Proof.
  revert i acc. induction xs as [|x xs IH]; intros i acc s; simpl.
  - by rewrite Nat.add_0_r.
  - rewrite (bind_assoc _ _ _ s).
    destruct (body i x acc s) as [[b|e] s'] eqn:Hb.
    + rewrite !(bind_ok _ _ _ _ _ Hb), IH.
      by replace (i + S (length xs)) with (S i + length xs) by lia.
    + by rewrite !(bind_raised _ _ _ _ _ Hb).
Qed.

(** A property of the state that every iteration keeps, whether it
    returns or raises, holds after the loop. *)
Lemma for_each_inv {A B} (I : St → Prop)
    (body : nat → A → B → SE St E B) xs i acc s :
  (∀ i x acc s, I s → I (body i x acc s).2) →
  I s → I (for_each body i xs acc s).2.
Proof.
  intros Hbody. revert i acc s.
  induction xs as [|x xs IH]; intros i acc s Hs; [done|].
  cbn [for_each]. unfold bind. specialize (Hbody i x acc s Hs).
  destruct (body i x acc s) as [[b|e] s']; [by apply IH | done].
Qed.

End StateExcLaws.

#[export] Hint Resolve never_raises_ret never_raises_gets never_raises_modify
  never_raises_bind try_except_never_raises : py.
#[export] Hint Rewrite @bind_ret_l @bind_raise : se.

(** ** Strings *)

(** The string made of one double quote, for messages that quote a type
    name. *)
Definition dquote : string := String (Ascii.ascii_of_nat 34) EmptyString.

(** [sep.join(l)] of Python: the elements of [l] with [sep] between two
    neighbours. *)
Fixpoint str_join (sep : string) (l : list string) : string :=
  match l with
  | [] => ""
  | [x] => x
  | x :: l' => x +:+ sep +:+ str_join sep l'
  end.

(** [list(s)] of Python: the characters of [s], each a string of its own. *)
Fixpoint chars (s : string) : list string :=
  match s with
  | EmptyString => []
  | String c s' => String c EmptyString :: chars s'
  end.

(** stdpp keeps [simpl] from unfolding the append of strings; these two
    equations are its computation rules. *)
Lemma string_app_nil_l (s : string) : "" +:+ s = s.
Proof. done. Qed.

Lemma string_app_cons (c : Ascii.ascii) (s t : string) :
  String c s +:+ t = String c (s +:+ t).
Proof. done. Qed.

Lemma string_app_nil_r (s : string) : s +:+ "" = s.
Proof.
  induction s as [|c s IH]; [done | by rewrite string_app_cons, IH].
Qed.

Lemma string_app_assoc (s1 s2 s3 : string) :
  (s1 +:+ s2) +:+ s3 = s1 +:+ s2 +:+ s3.
Proof.
  induction s1 as [|c s1 IH]; [done | by rewrite !string_app_cons, IH].
Qed.

Lemma string_app_length (s1 s2 : string) :
  String.length (s1 +:+ s2) = String.length s1 + String.length s2.
Proof.
  induction s1 as [|c s1 IH]; [done|].
  rewrite string_app_cons. simpl. by rewrite IH.
Qed.

Lemma chars_length (s : string) : length (chars s) = String.length s.
Proof. induction s as [|c s IH]; simpl; [done | by rewrite IH]. Qed.

Lemma chars_app (s1 s2 : string) : chars (s1 +:+ s2) = chars s1 ++ chars s2.
Proof.
  induction s1 as [|c s1 IH]; [done|].
  rewrite string_app_cons. simpl. by rewrite IH.
Qed.

Lemma str_join_chars (s : string) : str_join "" (chars s) = s.
Proof.
  induction s as [|c s IH]; [done|].
  simpl. destruct (chars s) as [|d l] eqn:Hc.
  - destruct s; [done | discriminate].
  - rewrite string_app_nil_l, IH. done.
Qed.

Lemma str_join_cons (sep x y : string) (l : list string) :
  str_join sep (x :: y :: l) = x +:+ sep +:+ str_join sep (y :: l).
Proof. done. Qed.

(** Appending one more element to a non-empty join, the step the id loop
    performs. *)
Lemma str_join_snoc (sep x y : string) (l : list string) :
  str_join sep ((x :: l) ++ [y]) = str_join sep (x :: l) +:+ sep +:+ y.
Proof.
  revert x. induction l as [|z l IH]; intros x; [done|].
  change ((x :: z :: l) ++ [y]) with (x :: (z :: l) ++ [y]).
  destruct ((z :: l) ++ [y]) as [|w l'] eqn:Happ; [done|].
  rewrite str_join_cons, <- Happ, IH, str_join_cons.
  by rewrite !string_app_assoc.
Qed.

#[export] Hint Rewrite string_app_nil_l string_app_cons string_app_nil_r
  string_app_assoc chars_length chars_app : se.

(** ** Lists *)

(** Induction two elements at a time, for loops that step by two. *)
Lemma list_pair_ind {A} (P : list A → Prop) :
  P [] → (∀ x, P [x]) → (∀ x y l, P l → P (x :: y :: l)) → ∀ l, P l.
Proof.
  intros H0 H1 H2 l. cut (P l ∧ ∀ x, P (x :: l)); [by intros []|].
  induction l as [|y l [IH1 IH2]]; split; auto.
Qed.

Lemma list_lookup_middle_next {A} (l1 l2 : list A) (x y : A) :
  (l1 ++ x :: y :: l2) !! (length l1 + 1) = Some y.
Proof.
  rewrite lookup_app_r by lia.
  by replace (length l1 + 1 - length l1) with 1 by lia.
Qed.

(** Mapping, filtering and mapping again is one pass that keeps or
    drops each element. *)
Lemma fmap_filter_fmap {A B C} (g : A → B) (h : B → C) (P : B → Prop)
    `{∀ y, Decision (P y)} (l : list A) :
  h <$> filter P (g <$> l)
  = omap (λ x, if decide (P (g x)) then Some (h (g x)) else None) l.
Proof.
  induction l as [|x l IH]; [done|].
  rewrite fmap_cons, filter_cons. cbn [omap list_omap].
  destruct (decide (P (g x))); by rewrite ?fmap_cons, IH.
Qed.

Lemma omap_fmap {A B C} (f : A → B) (g : B → option C) (l : list A) :
  omap g (f <$> l) = omap (λ x, g (f x)) l.
Proof.
  induction l as [|x l IH]; [done|].
  rewrite fmap_cons. cbn [omap list_omap]. by rewrite IH.
Qed.

Lemma list_insert_id_lookup {A} (l : list A) (i : nat) (x : A) :
  l !! i = Some x → <[i:=x]> l = l.
Proof. apply list_insert_id. Qed.

Lemma list_lookup_insert_same {A} (l : list A) (i : nat) (x y : A) :
  l !! i = Some y → <[i:=x]> l !! i = Some x.
Proof. intros H. apply list_lookup_insert_eq. by eapply lookup_lt_Some. Qed.

Lemma fmap_snd_insert {A B} (l : list (A * B)) (i : nat) (k : A) (v w : B) :
  l !! i = Some (k, w) → (<[i:=(k, v)]> l).*1 = l.*1.
Proof.
  intros H. rewrite list_fmap_insert. simpl.
  apply list_insert_id. by rewrite list_lookup_fmap, H.
Qed.

(** Searching a list with two predicates that agree on its elements. *)
Lemma list_find_agree {A} (P Q : A → Prop) `{!∀ x, Decision (P x)}
    `{!∀ x, Decision (Q x)} (l : list A) :
  Forall (λ x, P x ↔ Q x) l → list_find P l = list_find Q l.
Proof.
  induction 1 as [|x l Hx _ IH]; [done|]. cbn [list_find]. rewrite IH.
  destruct (decide (P x)), (decide (Q x)); tauto.
Qed.
