(* ===== verification/PyValue.v ===== *)
(** * Python values, exceptions and the primitives the handlers use

    The handlers are duck-typed: [keys], [item] and [newImage] are
    annotated as dicts but nothing checks it, and what the code does on
    another value (an AttributeError, a TypeError, a silent success) is
    part of its behaviour.  [pyval] is the universe of values a JSON or
    DynamoDB deserialiser can hand to a handler; [exn] the exceptions the
    primitives below raise, with the message CPython gives them, since
    the handlers copy that message into the error document. *)

From stdpp Require Import base tactics option list strings pretty.
From Stdlib Require Import ZArith Lia.
From S2P Require Import Prelude.

(** ** Values *)

Unset Elimination Schemes.

(** A dict is the list of its entries in insertion order, which is the
    order [dict.values()] iterates in. *)
Inductive pyval : Type :=
| PNone
| PBool (b : bool)
| PInt (z : Z)
| PStr (s : string)
| PList (l : list pyval)
| PDict (d : list (string * pyval)).

Set Elimination Schemes.

(** The induction principle: the values inside a list or a dict satisfy
    the property. *)
Definition pyval_nested_ind (P : pyval → Prop)
    (HNone : P PNone)
    (HBool : ∀ b, P (PBool b))
    (HInt : ∀ z, P (PInt z))
    (HStr : ∀ s, P (PStr s))
    (HList : ∀ l, Forall P l → P (PList l))
    (HDict : ∀ d, Forall (λ kv, P kv.2) d → P (PDict d)) :
  ∀ v, P v :=
  fix go (v : pyval) : P v :=
    match v with
    | PNone => HNone
    | PBool b => HBool b
    | PInt z => HInt z
    | PStr s => HStr s
    | PList l =>
        HList l ((fix go_list (l : list pyval) : Forall P l :=
                    match l with
                    | [] => @List.Forall_nil _ P
                    | x :: l' => @List.Forall_cons _ P x l' (go x) (go_list l')
                    end) l)
    | PDict d =>
        HDict d ((fix go_dict (d : list (string * pyval)) :
                      Forall (λ kv, P kv.2) d :=
                    match d with
                    | [] => @List.Forall_nil _ _
                    | kv :: d' =>
                        @List.Forall_cons _ (λ kv, P kv.2) kv d' (go kv.2) (go_dict d')
                    end) d)
    end.

#[export] Instance pyval_inhabited : Inhabited pyval := populate PNone.

(** Structural equality of two values, decided by recursion through the
    nested lists. *)
Fixpoint pyval_eqb (v w : pyval) : bool :=
  match v, w with
  | PNone, PNone => true
  | PBool a, PBool b => bool_decide (a = b)
  | PInt a, PInt b => bool_decide (a = b)
  | PStr a, PStr b => bool_decide (a = b)
  | PList l1, PList l2 =>
      (fix go (l1 l2 : list pyval) : bool :=
         match l1, l2 with
         | [], [] => true
         | x :: l1', y :: l2' => pyval_eqb x y && go l1' l2'
         | _, _ => false
         end) l1 l2
  | PDict d1, PDict d2 =>
      (fix go (d1 d2 : list (string * pyval)) : bool :=
         match d1, d2 with
         | [], [] => true
         | (k1, x) :: d1', (k2, y) :: d2' =>
             bool_decide (k1 = k2) && pyval_eqb x y && go d1' d2'
         | _, _ => false
         end) d1 d2
  | _, _ => false
  end.

(** ** Types and exceptions *)

(** [type(v).__name__]. *)
Definition type_name (v : pyval) : string :=
  match v with
  | PNone => "NoneType"
  | PBool _ => "bool"
  | PInt _ => "int"
  | PStr _ => "str"
  | PList _ => "list"
  | PDict _ => "dict"
  end.

Inductive exn : Type :=
| TypeError (msg : string)
| AttributeError (msg : string)
| IndexError (msg : string)
| KeyError (msg : string)
| AnalysisException (msg : string)
| IllegalArgumentException (msg : string).

#[export] Instance exn_eq_dec : EqDecision exn.
Proof. solve_decision. Defined.

(** [str(ex)]. *)
Definition exn_str (e : exn) : string :=
  match e with
  | TypeError msg | AttributeError msg | IndexError msg | KeyError msg
  | AnalysisException msg | IllegalArgumentException msg => msg
  end.

(** The messages of the interpreter. *)
Definition msg_no_attribute (v : pyval) (attr : string) : string :=
  "'" +:+ type_name v +:+ "' object has no attribute '" +:+ attr +:+ "'".

Definition msg_cannot_concat (v : pyval) : string :=
  "can only concatenate str (not " +:+ dquote +:+ type_name v +:+ dquote
  +:+ ") to str".

Definition msg_unsupported_iadd (v : pyval) : string :=
  "unsupported operand type(s) for +=: '" +:+ type_name v +:+ "' and 'str'".

Definition msg_no_len (v : pyval) : string :=
  "object of type '" +:+ type_name v +:+ "' has no len()".

Definition msg_index_out_of_range : string := "list index out of range".

Definition msg_string_index_out_of_range : string :=
  "string index out of range".

Definition msg_not_subscriptable (v : pyval) : string :=
  "'" +:+ type_name v +:+ "' object is not subscriptable".

Definition msg_unhashable (v : pyval) : string :=
  "unhashable type: '" +:+ type_name v +:+ "'".

(** ** Primitives *)

Definition is_none (v : pyval) : bool :=
  match v with PNone => true | _ => false end.

Definition is_str (v : pyval) : bool :=
  match v with PStr _ => true | _ => false end.

Definition is_list (v : pyval) : bool :=
  match v with PList _ => true | _ => false end.

(** [keys.values()]: the values of a dict in insertion order; any other
    value has no such attribute. *)
Definition py_values (keys : pyval) : outcome exn (list pyval) :=
  match keys with
  | PDict d => Ok d.*2
  | _ => Raised (AttributeError (msg_no_attribute keys "values"))
  end.

(** [s + v] for a str [s]: a str, or a TypeError when [v] is no str. *)
Definition str_concat (s : string) (v : pyval) : outcome exn string :=
  match v with
  | PStr t => Ok (s +:+ t)
  | _ => Raised (TypeError (msg_cannot_concat v))
  end.

(** [v += s] for a str [s]: the value [v] is bound to afterwards.  A str
    gives a new str; a list is extended by the characters of [s] (the
    caller decides what else sees that list); nothing else supports it. *)
Definition iadd_str (v : pyval) (s : string) : outcome exn pyval :=
  match v with
  | PStr a => Ok (PStr (a +:+ s))
  | PList l => Ok (PList (l ++ (PStr <$> chars s)))
  | _ => Raised (TypeError (msg_unsupported_iadd v))
  end.

(** [len(v)]. *)
Definition py_len (v : pyval) : outcome exn Z :=
  match v with
  | PStr s => Ok (Z.of_nat (String.length s))
  | PList l => Ok (Z.of_nat (length l))
  | PDict d => Ok (Z.of_nat (length d))
  | _ => Raised (TypeError (msg_no_len v))
  end.

(** [v is None or len(v) <= 0], the guard both readers apply to the
    payload; [or] does not evaluate [len] on None. *)
Definition is_none_or_empty (v : pyval) : outcome exn bool :=
  if is_none v then Ok true
  else outcome_map (λ n, bool_decide (n ≤ 0)%Z) (py_len v).

(** [arr[i]] for an index [i >= 0]: an element of a list, a character of
    a str; a dict is looked up by key, and has no int key here. *)
Definition py_getitem (arr : pyval) (i : nat) : outcome exn pyval :=
  match arr with
  | PList l =>
      match l !! i with
      | Some v => Ok v
      | None => Raised (IndexError msg_index_out_of_range)
      end
  | PStr s =>
      match chars s !! i with
      | Some c => Ok (PStr c)
      | None => Raised (IndexError msg_string_index_out_of_range)
      end
  | PDict _ => Raised (KeyError (pretty i))
  | _ => Raised (TypeError (msg_not_subscriptable arr))
  end.

(** [range(start, stop, step)] for a positive step, as the list of its
    members. *)
Definition py_range (start stop step : nat) : list nat :=
  (λ j, start + j * step) <$> seq 0 ((stop - start + (step - 1)) / step).

(** A dict all of whose values are strings: the shape the specification
    assumes for a key mapping. *)
Fixpoint str_values (d : list (string * pyval)) : option (list string) :=
  match d with
  | [] => Some []
  | (_, PStr s) :: d' => cons s <$> str_values d'
  | _ => None
  end.

(** ** Lemmas *)

Lemma pyval_eqb_refl (v : pyval) : pyval_eqb v v = true.
Proof.
  induction v as [| | | |l IH|d IH] using pyval_nested_ind; simpl;
    rewrite ?bool_decide_eq_true_2 by done; try done.
  - induction IH as [|x l Hx _ IHl]; [done | by rewrite Hx, IHl].
  - induction IH as [|[k x] d Hx _ IHd]; [done|].
    simpl in Hx. by rewrite bool_decide_eq_true_2, Hx, IHd by done.
Qed.

Lemma pyval_eqb_eq (v w : pyval) : pyval_eqb v w = true → v = w.
Proof.
  revert w. induction v as [| | | |l IH|d IH] using pyval_nested_ind;
    intros [] H;
    simpl in H; try done;
    try (apply bool_decide_eq_true_1 in H; by subst).
  - f_equal. revert l0 H.
    induction IH as [|x l Hx _ IHl]; intros [|y l2] H; try done.
    apply andb_prop in H as [H1 H2]. f_equal; auto.
  - f_equal. revert d0 H.
    induction IH as [|[k x] d Hx _ IHd]; intros [|[k2 y] d2] H; try done.
    apply andb_prop in H as [H12 H3]. apply andb_prop in H12 as [H1 H2].
    apply bool_decide_eq_true_1 in H1. simpl in Hx.
    f_equal; [f_equal|]; auto.
Qed.

#[export] Instance pyval_eq_dec : EqDecision pyval.
Proof.
  intros v w. destruct (pyval_eqb v w) eqn:H.
  - left. by apply pyval_eqb_eq.
  - right. intros ->. by rewrite pyval_eqb_refl in H.
Defined.

Lemma py_values_ok (keys : pyval) (vs : list pyval) :
  py_values keys = Ok vs ↔ ∃ d, keys = PDict d ∧ vs = d.*2.
Proof.
  split.
  - destruct keys; simpl; intros [= <-]; eauto.
  - by intros (d & -> & ->).
Qed.

Lemma str_concat_ok (s : string) (v : pyval) (r : string) :
  str_concat s v = Ok r ↔ ∃ t, v = PStr t ∧ r = s +:+ t.
Proof.
  split.
  - destruct v; simpl; intros [= <-]; eauto.
  - by intros (t & -> & ->).
Qed.

Lemma str_concat_raises (s : string) (v : pyval) :
  is_str v = false →
  str_concat s v = Raised (TypeError (msg_cannot_concat v)).
Proof. by destruct v. Qed.

Lemma py_len_nonneg (v : pyval) (n : Z) : py_len v = Ok n → (0 ≤ n)%Z.
Proof. destruct v; simpl; intros [= <-]; lia. Qed.

Lemma is_none_or_empty_dict (d : list (string * pyval)) :
  is_none_or_empty (PDict d) = Ok (bool_decide (d = [])).
Proof.
  unfold is_none_or_empty. simpl. f_equal.
  destruct d; [done|]. rewrite !bool_decide_eq_false_2; [done..|].
  simpl. lia.
Qed.

Lemma str_values_fmap (d : list (string * pyval)) (ss : list string) :
  str_values d = Some ss ↔ d.*2 = PStr <$> ss.
Proof.
  revert ss. induction d as [|[k v] d IH]; intros ss; simpl.
  - split; [by intros [= <-] | by destruct ss].
  - split.
    + destruct v; try done. destruct (str_values d) as [ss'|]; [|done].
      intros [= <-]. simpl. f_equal. by apply IH.
    + destruct ss as [|s ss']; [done|]. intros [= -> Hd].
      apply IH in Hd. by rewrite Hd.
Qed.

Lemma py_getitem_list (l : list pyval) (i : nat) (v : pyval) :
  l !! i = Some v → py_getitem (PList l) i = Ok v.
Proof. simpl. by intros ->. Qed.

Lemma py_getitem_list_out (l : list pyval) (i : nat) :
  length l ≤ i →
  py_getitem (PList l) i = Raised (IndexError msg_index_out_of_range).
Proof. intros H. simpl. by rewrite lookup_ge_None_2. Qed.

Lemma py_range_nil (start stop step : nat) :
  0 < step → stop ≤ start → py_range start stop step = [].
Proof.
  intros Hs Hle. unfold py_range.
  replace (stop - start + (step - 1)) with (step - 1) by lia.
  by rewrite Nat.div_small by lia.
Qed.

Lemma py_range_cons (start stop step : nat) :
  0 < step → start < stop →
  py_range start stop step = start :: py_range (start + step) stop step.
Proof.
  intros Hs Hlt. unfold py_range.
  assert ((stop - start + (step - 1)) / step
          = S ((stop - (start + step) + (step - 1)) / step)) as ->.
  { destruct (decide (start + step ≤ stop)).
    - replace (stop - start + (step - 1))
        with (stop - (start + step) + (step - 1) + 1 * step) by lia.
      rewrite Nat.div_add by lia. lia.
    - replace (stop - (start + step) + (step - 1)) with (step - 1) by lia.
      rewrite (Nat.div_small (step - 1)) by lia.
      replace (stop - start + (step - 1))
        with (stop - start - 1 + 1 * step) by lia.
      rewrite Nat.div_add, Nat.div_small by lia. done. }
  rewrite <- cons_seq, fmap_cons, <- fmap_S_seq, <- list_fmap_compose.
  f_equal; [lia|]. apply list_fmap_ext. intros _ j _. simpl. lia.
Qed.

Lemma py_range_bounds (start stop step i : nat) :
  i ∈ py_range start stop step → start ≤ i.
Proof. unfold py_range. intros (j & -> & _)%list_elem_of_fmap. lia. Qed.

#[export] Hint Rewrite is_none_or_empty_dict : se.
