(* ===== verification/Documents.v ===== *)
(** * The result classes of letsdata_interfaces

    [Document], [ErrorDoc], [SkipDoc], [DocumentType] and
    [ParseDocumentResult] are imported by the readers from a package that
    is not part of the repository.  They are modelled as plain records
    whose fields are the constructors' positional arguments, in the order
    the readers pass them; the constructors are assumed to store their
    arguments and not to raise.  [ParseDocumentResultStatus] is imported
    by the readers too, but they pass the status as a string. *)

From stdpp Require Import base tactics option list strings.
From Stdlib Require Import ZArith.
From S2P Require Import Prelude PyValue.

(** The one member of the enumeration the readers use. *)
Variant DocumentType : Type := DocumentType_Document.

#[export] Instance DocumentType_eq_dec : EqDecision DocumentType.
Proof. solve_decision. Defined.

(** [Document(documentType, documentId, recordType, partitionKey,
    documentMetadata, documentKeyValuesMap)]. *)
Record Document : Type := mkDocument {
  doc_documentType : DocumentType;
  doc_documentId : pyval;
  doc_recordType : string;
  doc_partitionKey : pyval;
  doc_documentMetadata : pyval;
  doc_documentKeyValuesMap : pyval
}.

(** [ErrorDoc(documentId, recordType, partitionKey, documentMetadata,
    documentKeyValuesMap, errorStartOffsetMap, errorEndOffsetMap,
    errorMessage)]: the specification's ErrorDoc, with its reason code
    ([recordType]), its two context slots (the offset maps) and its reason
    text ([errorMessage]). *)
Record ErrorDoc : Type := mkErrorDoc {
  err_documentId : pyval;
  err_recordType : string;
  err_partitionKey : pyval;
  err_documentMetadata : pyval;
  err_documentKeyValuesMap : pyval;
  err_errorStartOffsetMap : pyval;
  err_errorEndOffsetMap : pyval;
  err_errorMessage : string
}.

(** [SkipDoc(...)], of the same shape. *)
Record SkipDoc : Type := mkSkipDoc {
  skip_documentId : pyval;
  skip_recordType : string;
  skip_partitionKey : pyval;
  skip_documentMetadata : pyval;
  skip_documentKeyValuesMap : pyval;
  skip_skipStartOffsetMap : pyval;
  skip_skipEndOffsetMap : pyval;
  skip_skipMessage : string
}.

(** What the second field of a result holds. *)
Inductive any_doc : Type :=
| IsDocument (d : Document)
| IsErrorDoc (e : ErrorDoc)
| IsSkipDoc (s : SkipDoc).

Inductive ParseDocumentResultStatus : Type := SUCCESS | SKIP | ERROR.

(** [ParseDocumentResult(hint, document, status)]: the first argument is
    always None in the readers. *)
Record ParseDocumentResult : Type := mkParseDocumentResult {
  pdr_hint : pyval;
  pdr_document : any_doc;
  pdr_status : string
}.

#[export] Instance Document_eq_dec : EqDecision Document.
Proof. solve_decision. Defined.
#[export] Instance ErrorDoc_eq_dec : EqDecision ErrorDoc.
Proof. solve_decision. Defined.
#[export] Instance SkipDoc_eq_dec : EqDecision SkipDoc.
Proof. solve_decision. Defined.
#[export] Instance any_doc_eq_dec : EqDecision any_doc.
Proof. solve_decision. Defined.
#[export] Instance ParseDocumentResultStatus_eq_dec :
  EqDecision ParseDocumentResultStatus.
Proof. solve_decision. Defined.
#[export] Instance ParseDocumentResult_eq_dec : EqDecision ParseDocumentResult.
Proof. solve_decision. Defined.

(** The member of the status enumeration a status string names. *)
Definition status_of_string (s : string) : option ParseDocumentResultStatus :=
  if decide (s = "SUCCESS") then Some SUCCESS
  else if decide (s = "SKIP") then Some SKIP
  else if decide (s = "ERROR") then Some ERROR
  else None.

Definition string_of_status (st : ParseDocumentResultStatus) : string :=
  match st with SUCCESS => "SUCCESS" | SKIP => "SKIP" | ERROR => "ERROR" end.

(** The status that fits the class of a document. *)
Definition status_of_doc (d : any_doc) : ParseDocumentResultStatus :=
  match d with
  | IsDocument _ => SUCCESS
  | IsErrorDoc _ => ERROR
  | IsSkipDoc _ => SKIP
  end.

(** The outbound contract: the status string is one of the three tags
    and matches the class of the document. *)
Definition result_consistent (r : ParseDocumentResult) : bool :=
  bool_decide (status_of_string (pdr_status r)
               = Some (status_of_doc (pdr_document r))).

(** The identifier a result carries, whatever its class. *)
Definition result_id (r : ParseDocumentResult) : pyval :=
  match pdr_document r with
  | IsDocument d => doc_documentId d
  | IsErrorDoc e => err_documentId e
  | IsSkipDoc s => skip_documentId s
  end.

(** The empty dict literal and a dict literal with one entry. *)
Definition empty_dict : pyval := PDict [].
Definition dict1 (k : string) (v : pyval) : pyval := PDict [(k, v)].

Lemma status_string_roundtrip (st : ParseDocumentResultStatus) :
  status_of_string (string_of_status st) = Some st.
Proof. by destruct st. Qed.

Lemma status_of_string_inv (s : string) (st : ParseDocumentResultStatus) :
  status_of_string s = Some st → s = string_of_status st.
Proof.
  unfold status_of_string. repeat case_decide; intros [= <-]; by subst.
Qed.

Lemma result_consistent_status (r : ParseDocumentResult) :
  result_consistent r = true →
  pdr_status r = string_of_status (status_of_doc (pdr_document r)).
Proof.
  unfold result_consistent. intros H%bool_decide_eq_true_1.
  by apply status_of_string_inv.
Qed.
