(* ===== verification/Runtime.v ===== *)
(** * The world a handler runs in

    The handlers reach three things outside their arguments: the logger
    of [letsdata_utils.logging_utils] ([logger.debug], [logger.error]),
    [uuid.uuid4()] and, in [to_map], [print].  The world records the log
    entries and the printed lines in the order they were written, and
    holds the supply the uuids are drawn from: [w_uuids n] is what the
    [n]-th call of [str(uuid.uuid4())] of the process returns.

    A log entry keeps the f-string it was built from as its literal
    fragments and the values interpolated between them; how a value is
    rendered is left to the logger. *)

From stdpp Require Import base tactics option list strings.
From Stdlib Require Import ZArith.
From S2P Require Import Prelude PyValue.

Inductive log_level : Type := LDebug | LError.

#[export] Instance log_level_eq_dec : EqDecision log_level.
Proof. solve_decision. Defined.

(** One piece of an f-string: literal text, an interpolated value, an
    interpolated exception. *)
Inductive fragment : Type :=
| Lit (s : string)
| Val (v : pyval)
| Exc (e : exn).

#[export] Instance fragment_eq_dec : EqDecision fragment.
Proof. solve_decision. Defined.

Record log_record : Type := mkLog {
  lr_level : log_level;
  lr_message : list fragment
}.

#[export] Instance log_record_eq_dec : EqDecision log_record.
Proof. solve_decision. Defined.

Record world : Type := mkWorld {
  w_log : list log_record;
  w_stdout : list (list fragment);
  w_uuids : nat → string;
  w_uuid_next : nat
}.

(** A state that contains a world.  The readers run in a state that also
    holds the caller's [keys] object; the Spark code runs in the world
    alone. *)
Class HasWorld (St : Type) : Type := {
  get_world : St → world;
  set_world : world → St → St;
  get_set_world : ∀ w s, get_world (set_world w s) = w;
  set_get_world : ∀ s, set_world (get_world s) s = s;
  set_set_world : ∀ w w' s, set_world w' (set_world w s) = set_world w' s
}.

#[export, refine] Instance world_has_world : HasWorld world := {
  get_world w := w;
  set_world w _ := w
}.
Proof. all: done. Defined.

(** The state of a reader call: the world and the object the [keys]
    parameter is bound to, which the call can mutate. *)
Record hstate : Type := mkHState {
  hs_world : world;
  hs_keys : pyval
}.

#[export, refine] Instance hstate_has_world : HasWorld hstate := {
  get_world := hs_world;
  set_world w s := mkHState w (hs_keys s)
}.
Proof.
  - done.
  - by intros [].
  - done.
Defined.

(** The world of a fresh process: nothing logged, nothing printed, no
    uuid drawn. *)
Definition new_world (uuids : nat → string) : world := mkWorld [] [] uuids 0.

Definition add_log (r : log_record) (w : world) : world :=
  mkWorld (w_log w ++ [r]) (w_stdout w) (w_uuids w) (w_uuid_next w).

Definition add_stdout (line : list fragment) (w : world) : world :=
  mkWorld (w_log w) (w_stdout w ++ [line]) (w_uuids w) (w_uuid_next w).

Definition take_uuid (w : world) : world :=
  mkWorld (w_log w) (w_stdout w) (w_uuids w) (S (w_uuid_next w)).

Section Effects.
Context {St : Type} `{HasWorld St}.

Definition on_world (f : world → world) (s : St) : St :=
  set_world (f (get_world s)) s.

(** [logger.debug(msg)] and [logger.error(msg)]. *)
Definition logger_debug (msg : list fragment) : SE St exn unit :=
  modify (on_world (add_log (mkLog LDebug msg))).

Definition logger_error (msg : list fragment) : SE St exn unit :=
  modify (on_world (add_log (mkLog LError msg))).

(** [print(line)]. *)
Definition py_print (line : list fragment) : SE St exn unit :=
  modify (on_world (add_stdout line)).

(** [str(uuid.uuid4())]: the next string of the supply. *)
Definition uuid4_str : SE St exn string :=
  u <- gets (λ s, w_uuids (get_world s) (w_uuid_next (get_world s))) ;;
  modify (on_world take_uuid) ;;;
  ret u.

(** The entries logged so far. *)
Definition log_of (s : St) : list log_record := w_log (get_world s).

(** How many uuids were drawn so far. *)
Definition uuids_drawn (s : St) : nat := w_uuid_next (get_world s).

Lemma logger_debug_run msg (s : St) :
  logger_debug msg s = (Ok tt, on_world (add_log (mkLog LDebug msg)) s).
Proof. done. Qed.

Lemma logger_error_run msg (s : St) :
  logger_error msg s = (Ok tt, on_world (add_log (mkLog LError msg)) s).
Proof. done. Qed.

Lemma uuid4_str_run (s : St) :
  uuid4_str s
  = (Ok (w_uuids (get_world s) (uuids_drawn s)), on_world take_uuid s).
Proof. done. Qed.

Lemma log_of_add_log r (s : St) :
  log_of (on_world (add_log r) s) = log_of s ++ [r].
Proof. unfold log_of, on_world. by rewrite get_set_world. Qed.

Lemma log_of_take_uuid (s : St) : log_of (on_world take_uuid s) = log_of s.
Proof. unfold log_of, on_world. by rewrite get_set_world. Qed.

Lemma uuids_drawn_add_log r (s : St) :
  uuids_drawn (on_world (add_log r) s) = uuids_drawn s.
Proof. unfold uuids_drawn, on_world. by rewrite get_set_world. Qed.

Lemma uuids_drawn_take_uuid (s : St) :
  uuids_drawn (on_world take_uuid s) = S (uuids_drawn s).
Proof. unfold uuids_drawn, on_world. by rewrite get_set_world. Qed.

Lemma never_raises_logger_debug msg : never_raises (logger_debug msg).
Proof. by intros s. Qed.

Lemma never_raises_logger_error msg : never_raises (logger_error msg).
Proof. by intros s. Qed.

Lemma never_raises_uuid4_str : never_raises uuid4_str.
Proof. by intros s. Qed.

End Effects.

#[export] Hint Resolve never_raises_logger_debug never_raises_logger_error
  never_raises_uuid4_str : py.
#[export] Hint Rewrite @logger_debug_run @logger_error_run @uuid4_str_run
  @log_of_add_log @log_of_take_uuid @uuids_drawn_add_log
  @uuids_drawn_take_uuid : se.

(** ** What a piece of code did to the world

    [world_step entries k w w']: from [w] to [w'] the entries were
    logged, [k] uuids were drawn, and nothing else changed. *)
Definition world_step (entries : list log_record) (k : nat) (w w' : world) :
    Prop :=
  w_log w' = w_log w ++ entries ∧ w_stdout w' = w_stdout w ∧
  w_uuids w' = w_uuids w ∧ w_uuid_next w' = w_uuid_next w + k.

Lemma world_step_refl (w : world) : world_step [] 0 w w.
Proof. unfold world_step. by rewrite app_nil_r, Nat.add_0_r. Qed.

Lemma world_step_eq (w w' : world) : w' = w → world_step [] 0 w w'.
Proof. intros ->. apply world_step_refl. Qed.

Lemma world_step_add_log (r : log_record) (w : world) :
  world_step [r] 0 w (add_log r w).
Proof. unfold world_step. simpl. by rewrite Nat.add_0_r. Qed.

Lemma world_step_take_uuid (w : world) : world_step [] 1 w (take_uuid w).
Proof. unfold world_step. simpl. rewrite app_nil_r. split_and!; [done..|lia]. Qed.

Lemma world_step_trans es1 es2 k1 k2 (w1 w2 w3 : world) :
  world_step es1 k1 w1 w2 → world_step es2 k2 w2 w3 →
  world_step (es1 ++ es2) (k1 + k2) w1 w3.
Proof.
  intros (Hl1 & Ho1 & Hu1 & Hn1) (Hl2 & Ho2 & Hu2 & Hn2). unfold world_step.
  rewrite Hl2, Hl1, Ho2, Ho1, Hu2, Hu1, Hn2, Hn1, app_assoc.
  split_and!; [done..|lia].
Qed.

Lemma world_step_log es k (w w' : world) :
  world_step es k w w' → w_log w `prefix_of` w_log w'.
Proof. intros (-> & _). by apply prefix_app_r. Qed.

#[export] Hint Resolve world_step_refl world_step_add_log
  world_step_take_uuid : py.

(** The keys object survives every effect on the world. *)
Lemma hs_keys_on_world (f : world → world) (s : hstate) :
  hs_keys (on_world f s) = hs_keys s.
Proof. done. Qed.

Lemma hs_world_on_world (f : world → world) (s : hstate) :
  hs_world (on_world f s) = f (hs_world s).
Proof. done. Qed.

#[export] Hint Rewrite hs_keys_on_world hs_world_on_world : se.
