(* ===== verification/DocId.v ===== *)
(** * The document id loop

    Both readers start with the same six lines
    (DynamoDBTableItemReader.py 66-71, DynamoDBStreamsRecordReader.py
    60-65):
<<
    docId : str = None
    for keyValue in keys.values():
        if docId is None:
            docId = keyValue
        else:
            docId += ('|'+keyValue)
>>
    [docId = keyValue] binds the name to the very object stored in
    [keys].  When that object is a list, [docId += ...] extends it in
    place, so the caller's [keys] change; every other value is immutable
    or rejects [+=].  [docref] says which of the two the name is bound
    to, and the loop runs in the handler state, which holds [keys]. *)

From stdpp Require Import base tactics option list strings.
From Stdlib Require Import ZArith.
From S2P Require Import Prelude PyValue Runtime.

(** What the local name [docId] is bound to. *)
Inductive docref : Type :=
| DocNone                (* None *)
| DocVal (v : pyval)     (* a value no other name can change *)
| DocAlias (i : nat).    (* the list that is the [i]-th value of [keys] *)

#[export] Instance docref_eq_dec : EqDecision docref.
Proof. solve_decision. Defined.

(** The [i]-th value of the dict [keys]. *)
Definition key_value (i : nat) (keys : pyval) : option pyval :=
  match keys with
  | PDict d => snd <$> d !! i
  | _ => None
  end.

(** The dict [keys] after its [i]-th value object got the contents [v]. *)
Definition set_key_value (i : nat) (v : pyval) (keys : pyval) : pyval :=
  match keys with
  | PDict d => PDict (alter (λ kv, (kv.1, v)) i d)
  | _ => keys
  end.

(** The value the name denotes, given the current [keys]. *)
Definition deref (docId : docref) (keys : pyval) : pyval :=
  match docId with
  | DocNone => PNone
  | DocVal v => v
  | DocAlias i => default PNone (key_value i keys)
  end.

(** [docId is None]. *)
Definition docId_is_none (docId : docref) : bool :=
  match docId with
  | DocNone => true
  | DocVal v => is_none v
  | DocAlias _ => false
  end.

(** [docId = keyValue], for the value at position [i]. *)
Definition bind_docId (i : nat) (keyValue : pyval) : docref :=
  match keyValue with
  | PNone => DocNone
  | PList _ => DocAlias i
  | v => DocVal v
  end.

Definition set_keys (keys : pyval) (s : hstate) : hstate :=
  mkHState (hs_world s) keys.

(** [docId += s]: a new str for a str, the shared list extended in place
    for a list, a TypeError for anything else. *)
Definition docId_iadd (docId : docref) (s : string) : SE hstate exn docref :=
  keys <- gets hs_keys ;;
  v <- lift (iadd_str (deref docId keys) s) ;;
  match docId, v with
  | DocAlias i, PList _ =>
      modify (set_keys (set_key_value i v keys)) ;;; ret docId
  | _, _ => ret (DocVal v)
  end.

(** The body of the loop, for the value at position [i]. *)
Definition docId_step (i : nat) (keyValue : pyval) (docId : docref) :
    SE hstate exn docref :=
  if docId_is_none docId then ret (bind_docId i keyValue)
  else
    s <- lift (str_concat "|" keyValue) ;;
    docId_iadd docId s.

(** The loop over the values, from [docId = None]. *)
Definition docId_loop (values : list pyval) : SE hstate exn docref :=
  for_each docId_step 0 values DocNone.

(** The six lines: the values of [keys], then the loop. *)
Definition derive_docId : SE hstate exn docref :=
  keys <- gets hs_keys ;;
  values <- lift (py_values keys) ;;
  docId_loop values.

(** The value of [docId] where the handler uses it. *)
Definition read_docId (docId : docref) : SE hstate exn pyval :=
  gets (λ s, deref docId (hs_keys s)).

(** ** Reference definitions *)

(** The derived identifier of the specification: the key values joined
    with a vertical bar, undefined (None) for no value at all. *)
Definition join_ids (ss : list string) : pyval :=
  match ss with
  | [] => PNone
  | _ => PStr (str_join "|" ss)
  end.

(** What the loop appends to a first value: a bar and the value, for
    each later value. *)
Definition bar_suffix (ss : list string) : string :=
  foldr (λ s acc, "|" +:+ s +:+ acc) "" ss.

(** The loop state is well formed: a name bound by value is bound to
    neither None nor a list, and an alias points at a list of [keys]. *)
Definition docref_wf (docId : docref) (keys : pyval) : bool :=
  match docId with
  | DocNone => true
  | DocVal v => negb (is_none v) && negb (is_list v)
  | DocAlias i =>
      match key_value i keys with
      | Some v => is_list v
      | None => false
      end
  end.

(** The names of the entries of a dict. *)
Definition key_names (keys : pyval) : list string :=
  match keys with
  | PDict d => d.*1
  | _ => []
  end.

(** ** The step, case by case *)

Section Step.
Implicit Types (st : hstate) (docId : docref) (v : pyval) (i j : nat).

Lemma docId_step_unbound i v docId st :
  docId_is_none docId = true →
  docId_step i v docId st = (Ok (bind_docId i v), st).
Proof. intros H. unfold docId_step. by rewrite H. Qed.

Lemma docId_step_str i a t st :
  docId_step i (PStr t) (DocVal (PStr a)) st
  = (Ok (DocVal (PStr (a +:+ "|" +:+ t))), st).
Proof. done. Qed.

Lemma docId_step_not_str i v docId st :
  docId_is_none docId = false → is_str v = false →
  docId_step i v docId st = (Raised (TypeError (msg_cannot_concat v)), st).
Proof.
  intros Hd Hv. unfold docId_step. rewrite Hd.
  apply bind_raised. unfold lift. by rewrite str_concat_raises.
Qed.

Lemma docId_step_alias i j l t st :
  key_value j (hs_keys st) = Some (PList l) →
  docId_step i (PStr t) (DocAlias j) st
  = (Ok (DocAlias j),
     set_keys (set_key_value j (PList (l ++ (PStr <$> chars ("|" +:+ t))))
                 (hs_keys st)) st).
Proof. intros H. unfold docId_step, docId_iadd. se_unfold. by rewrite H. Qed.

Lemma docId_step_unsupported i v t st :
  is_none v = false → is_str v = false → is_list v = false →
  docId_step i (PStr t) (DocVal v) st
  = (Raised (TypeError (msg_unsupported_iadd v)), st).
Proof. by destruct v. Qed.

End Step.

(** ** Dict updates *)

Lemma key_value_set_same i v keys w :
  key_value i keys = Some w → key_value i (set_key_value i v keys) = Some v.
Proof.
  destruct keys as [| | | | |d]; try done. simpl.
  rewrite list_lookup_alter_eq. by destruct (d !! i).
Qed.

Lemma key_value_set_other i j v keys :
  i ≠ j → key_value j (set_key_value i v keys) = key_value j keys.
Proof.
  intros Hij. destruct keys as [| | | | |d]; try done. simpl.
  by rewrite list_lookup_alter_ne.
Qed.

Lemma key_names_set i v keys :
  key_names (set_key_value i v keys) = key_names keys.
Proof.
  destruct keys as [| | | | |d]; try done. simpl.
  apply list_eq. intros j. rewrite !list_lookup_fmap.
  destruct (decide (i = j)) as [->|Hij].
  - rewrite list_lookup_alter_eq. by destruct (d !! j).
  - by rewrite list_lookup_alter_ne.
Qed.

Lemma set_key_value_head k v w d :
  set_key_value 0 v (PDict ((k, w) :: d)) = PDict ((k, v) :: d).
Proof. done. Qed.

Lemma set_key_value_twice i v w keys :
  set_key_value i v (set_key_value i w keys) = set_key_value i v keys.
Proof.
  destruct keys as [| | | | |d]; try done. simpl. f_equal.
  rewrite list_alter_alter_eq. by apply list_alter_ext.
Qed.

(** ** The loop on strings *)

Lemma bar_suffix_cons (s : string) (ss : list string) :
  bar_suffix (s :: ss) = "|" +:+ s +:+ bar_suffix ss.
Proof. done. Qed.

Lemma bar_suffix_join (a : string) (ss : list string) :
  a +:+ bar_suffix ss = str_join "|" (a :: ss).
Proof.
  revert a. induction ss as [|s ss IH]; intros a.
  - apply string_app_nil_r.
  - by rewrite str_join_cons, <- IH, bar_suffix_cons.
Qed.

Lemma bar_suffix_app (ss1 ss2 : list string) :
  bar_suffix (ss1 ++ ss2) = bar_suffix ss1 +:+ bar_suffix ss2.
Proof.
  induction ss1 as [|s ss1 IH]; simpl; [done|].
  by rewrite IH, !string_app_assoc.
Qed.

(** From a str, over strings: the state is untouched and the bar-joined
    suffix is appended. *)
Lemma loop_str_values (ss : list string) (a : string) (i : nat)
    (st : hstate) :
  for_each docId_step i (PStr <$> ss) (DocVal (PStr a)) st
  = (Ok (DocVal (PStr (a +:+ bar_suffix ss))), st).
Proof.
  revert a i. induction ss as [|s ss IH]; intros a i; simpl.
  - by rewrite string_app_nil_r.
  - erewrite bind_ok by apply docId_step_str.
    by rewrite IH, !string_app_assoc.
Qed.

(** From a list, over strings: the list of [keys] is extended by the
    characters of the suffix. *)
Lemma loop_alias_values (ss : list string) (j i : nat) (l : list pyval)
    (st : hstate) :
  key_value j (hs_keys st) = Some (PList l) →
  for_each docId_step i (PStr <$> ss) (DocAlias j) st
  = (Ok (DocAlias j),
     set_keys (set_key_value j (PList (l ++ (PStr <$> chars (bar_suffix ss))))
                 (hs_keys st)) st).
Proof.
  revert i l st. induction ss as [|s ss IH]; intros i l [w keys] Hl.
  - simpl. unfold ret, set_keys. simpl in *. f_equal. f_equal.
    rewrite app_nil_r. destruct keys as [| | | | |d]; try done. simpl in *.
    f_equal. apply list_eq. intros k. destruct (decide (j = k)) as [->|Hjk].
    + rewrite list_lookup_alter_eq. destruct (d !! k) as [[n v]|]; [|done].
      simpl in *. by simplify_eq.
    + by rewrite list_lookup_alter_ne.
  - rewrite fmap_cons. cbn [for_each].
    erewrite bind_ok by by apply docId_step_alias.
    erewrite IH by by eapply key_value_set_same.
    unfold set_keys; cbn [hs_keys hs_world]. rewrite set_key_value_twice.
    by rewrite bar_suffix_cons, <- app_assoc, <- fmap_app, <- chars_app,
      !string_app_assoc.
Qed.

(** Leading None values leave the name unbound. *)
Lemma loop_skip_none (n i : nat) (vs : list pyval) (st : hstate) :
  for_each docId_step i (replicate n PNone ++ vs) DocNone st
  = for_each docId_step (i + n) vs DocNone st.
Proof.
  revert i. induction n as [|n IH]; intros i; simpl.
  - by rewrite Nat.add_0_r.
  - erewrite bind_ok by by apply docId_step_unbound.
    cbn [bind_docId]. rewrite IH. f_equal. lia.
Qed.

(** ** What a step can do to the state *)

(** The effect of one step, whatever its outcome: the world is untouched,
    and [keys] either stays or has the list the name aliases extended. *)
Lemma docId_step_effect i v docId st o st' :
  docId_step i v docId st = (o, st') →
  hs_world st' = hs_world st ∧
  (hs_keys st' = hs_keys st ∨
   ∃ j l l', docId = DocAlias j ∧ key_value j (hs_keys st) = Some (PList l) ∧
             hs_keys st' = set_key_value j (PList (l ++ l')) (hs_keys st)).
Proof.
  unfold docId_step. destruct (docId_is_none docId).
  { intros [= <- <-]. auto. }
  destruct v; try (intros [= <- <-]; by auto).
  destruct docId as [|u|j]; [intros [= <- <-]; by auto|..].
  - destruct u; intros [= <- <-]; by auto.
  - unfold docId_iadd. se_unfold.
    destruct (key_value j (hs_keys st)) as [u|] eqn:Hk; simpl;
      [|intros [= <- <-]; by auto].
    destruct u; simpl; intros [= <- <-]; eauto 10.
Qed.

Lemma key_value_set_list i j l v keys :
  key_value j keys = Some (PList l) → is_list v = true →
  ∃ l', key_value j (set_key_value i v keys) = Some (PList l').
Proof.
  intros Hj Hv. destruct (decide (i = j)) as [->|Hij].
  - erewrite key_value_set_same by done. destruct v; try done. eauto.
  - rewrite key_value_set_other by done. eauto.
Qed.

(** A list of [keys] is still a list after a step. *)
Lemma docId_step_lists_stay i v docId st o st' k l :
  docId_step i v docId st = (o, st') →
  key_value k (hs_keys st) = Some (PList l) →
  ∃ l', key_value k (hs_keys st') = Some (PList l').
Proof.
  intros Hstep Hk. apply docId_step_effect in Hstep as [_ [->|Hset]]; [eauto|].
  destruct Hset as (j & l1 & l2 & _ & _ & ->). by eapply key_value_set_list.
Qed.

Lemma docId_step_key_names i v docId st o st' :
  docId_step i v docId st = (o, st') →
  key_names (hs_keys st') = key_names (hs_keys st).
Proof.
  intros Hstep. apply docId_step_effect in Hstep as [_ [->|Hset]]; [done|].
  destruct Hset as (j & l1 & l2 & _ & _ & ->). apply key_names_set.
Qed.

(** The values the loop has yet to visit, as far as they are lists, are
    lists of [keys] at their positions. *)
Definition lists_in_place (i : nat) (vs : list pyval) (keys : pyval) : Prop :=
  ∀ k v, vs !! k = Some v → is_list v = true →
         ∃ l, key_value (i + k) keys = Some (PList l).

Lemma lists_in_place_values d : lists_in_place 0 d.*2 (PDict d).
Proof.
  intros k v Hk Hv. simpl. rewrite list_lookup_fmap in Hk.
  destruct (d !! k) as [[n u]|]; simplify_eq/=. destruct v; try done. eauto.
Qed.

Lemma lists_in_place_step i v vs docId st o st' :
  lists_in_place i (v :: vs) (hs_keys st) →
  docId_step i v docId st = (o, st') →
  lists_in_place (S i) vs (hs_keys st').
Proof.
  intros Hin Hstep k u Hk Hu.
  destruct (Hin (S k) u Hk Hu) as [l Hl].
  replace (S i + k) with (i + S k) by lia.
  by eapply docId_step_lists_stay.
Qed.

(** One step keeps the loop state well formed. *)
Lemma docId_step_wf i v docId st docId' st' :
  docref_wf docId (hs_keys st) = true →
  (is_list v = true → ∃ l, key_value i (hs_keys st) = Some (PList l)) →
  docId_step i v docId st = (Ok docId', st') →
  docref_wf docId' (hs_keys st') = true.
Proof.
  intros Hwf Hv. unfold docId_step.
  destruct (docId_is_none docId) eqn:Hnone.
  { intros [= <- <-]. destruct v; try done. simpl.
    by destruct Hv as [l' ->]. }
  destruct v; try done. destruct docId as [|u|j]; [done|..].
  - destruct u; by intros [= <- <-].
  - unfold docId_iadd. se_unfold.
    destruct (key_value j (hs_keys st)) as [u|] eqn:Hk; [|done].
    destruct u; try done. simpl. intros [= <- <-]. simpl.
    by erewrite key_value_set_same.
Qed.

Lemma for_each_docId_wf vs i docId st docId' st' :
  docref_wf docId (hs_keys st) = true →
  lists_in_place i vs (hs_keys st) →
  for_each docId_step i vs docId st = (Ok docId', st') →
  docref_wf docId' (hs_keys st') = true.
Proof.
  revert i docId st. induction vs as [|v vs IH]; intros i docId st Hwf Hin.
  { by intros [= <- <-]. }
  simpl. unfold bind at 1.
  destruct (docId_step i v docId st) as [[d1|e] st1] eqn:Hstep; [|done].
  apply IH.
  - eapply docId_step_wf; [done| |done].
    intros Hv. specialize (Hin 0 v eq_refl Hv). by rewrite Nat.add_0_r in Hin.
  - by eapply lists_in_place_step.
Qed.

Lemma for_each_docId_frame vs i docId st o st' :
  for_each docId_step i vs docId st = (o, st') →
  hs_world st' = hs_world st ∧ key_names (hs_keys st') = key_names (hs_keys st).
Proof.
  revert i docId st. induction vs as [|v vs IH]; intros i docId st.
  { by intros [= <- <-]. }
  simpl. unfold bind at 1.
  destruct (docId_step i v docId st) as [[d1|e] st1] eqn:Hstep.
  - intros [Hw Hn]%IH. rewrite Hw, Hn. split.
    + by apply docId_step_effect in Hstep as [? _].
    + by eapply docId_step_key_names.
  - intros [= <- <-]. split.
    + by apply docId_step_effect in Hstep as [? _].
    + by eapply docId_step_key_names.
Qed.

(** Without an alias the loop cannot touch the state. *)
Lemma for_each_docId_no_list vs i docId st o st' :
  Forall (λ v, is_list v = false) vs →
  (∀ j, docId ≠ DocAlias j) →
  for_each docId_step i vs docId st = (o, st') → st' = st.
Proof.
  intros Hvs. revert i docId st.
  induction Hvs as [|v vs Hv _ IH]; intros i docId st Hd.
  { by intros [= <- <-]. }
  simpl. unfold bind at 1.
  destruct (docId_step i v docId st) as [[d1|e] st1] eqn:Hstep.
  - intros Hloop. pose proof Hstep as Heff.
    apply docId_step_effect in Heff as [Hw [Hk|(j & ? & ? & -> & _)]];
      [|by destruct (Hd j)].
    assert (st1 = st) as -> by (destruct st, st1; simpl in *; congruence).
    eapply IH; [|done]. intros j ->.
    unfold docId_step in Hstep. destruct (docId_is_none docId).
    + injection Hstep as Hb. by destruct v.
    + destruct v; try done. destruct docId as [|u|j']; [done| |by destruct (Hd j')].
      by destruct u.
  - intros [= <- <-].
    apply docId_step_effect in Hstep as [Hw [Hk|(j & ? & ? & -> & _)]];
      [|by destruct (Hd j)].
    destruct st, st1; simpl in *; congruence.
Qed.

(** ** The derivation as a whole *)

Lemma derive_docId_dict (w : world) (d : list (string * pyval)) :
  derive_docId (mkHState w (PDict d)) = docId_loop d.*2 (mkHState w (PDict d)).
Proof. done. Qed.

(** Over strings, from an unbound name: the join of the reference. *)
Lemma for_each_strings (i : nat) (st : hstate) (ss : list string) :
  for_each docId_step i (PStr <$> ss) DocNone st
  = (Ok (bind_docId 0 (join_ids ss)), st).
Proof.
  destruct ss as [|a ss]; [done|].
  rewrite fmap_cons. cbn [for_each].
  erewrite bind_ok by by apply docId_step_unbound.
  cbn [bind_docId]. by rewrite loop_str_values, bar_suffix_join.
Qed.

(** On string values the six lines give the join and leave the state. *)
Lemma derive_docId_strings (w : world) (d : list (string * pyval))
    (ss : list string) :
  str_values d = Some ss →
  derive_docId (mkHState w (PDict d))
  = (Ok (bind_docId 0 (join_ids ss)), mkHState w (PDict d)).
Proof.
  intros Hss%str_values_fmap. rewrite derive_docId_dict. unfold docId_loop.
  by rewrite Hss, for_each_strings.
Qed.

Lemma deref_join_ids (ss : list string) (keys : pyval) :
  deref (bind_docId 0 (join_ids ss)) keys = join_ids ss.
Proof. by destruct ss. Qed.

(** C3: on a key mapping whose values are all strings, the six lines
    compute the values joined by a vertical bar, in iteration order (None
    for an empty mapping), cannot raise, and leave the state as it was. *)
Theorem derive_docId_join (w : world) (d : list (string * pyval))
    (ss : list string) :
  str_values d = Some ss →
  (docId <- derive_docId ;; read_docId docId) (mkHState w (PDict d))
  = (Ok (join_ids ss), mkHState w (PDict d)).
Proof.
  intros Hss. erewrite bind_ok by by apply derive_docId_strings.
  unfold read_docId, gets. by rewrite deref_join_ids.
Qed.

Lemma derive_docId_join_witness :
  (docId <- derive_docId ;; read_docId docId)
    (mkHState (new_world (λ _, ""))
       (PDict [("pk", PStr "A"); ("sk", PStr "B")]))
  = (Ok (PStr "A|B"),
     mkHState (new_world (λ _, ""))
       (PDict [("pk", PStr "A"); ("sk", PStr "B")])).
Proof.
  apply (derive_docId_join (new_world (λ _, ""))
           [("pk", PStr "A"); ("sk", PStr "B")] ["A"; "B"]).
  reflexivity.
Defined.

(** Whenever the six lines finish, the name [docId] is bound to
    None, to a value that is neither None nor a list, or to a list that
    is a value of [keys] as they are then. *)
Theorem derive_docId_wf (st st' : hstate) (docId : docref) :
  derive_docId st = (Ok docId, st') →
  docref_wf docId (hs_keys st') = true.
Proof.
  destruct st as [w keys]. destruct keys as [| | | | |d]; try done.
  rewrite derive_docId_dict. apply for_each_docId_wf; [done|].
  apply lists_in_place_values.
Qed.

Lemma derive_docId_wf_witness :
  docref_wf (DocAlias 0)
    (PDict [("pk", PList [PStr "|"; PStr "B"]); ("sk", PStr "B")]) = true.
Proof.
  apply (derive_docId_wf
           (mkHState (new_world (λ _, ""))
              (PDict [("pk", PList []); ("sk", PStr "B")]))
           (mkHState (new_world (λ _, ""))
              (PDict [("pk", PList [PStr "|"; PStr "B"]); ("sk", PStr "B")]))).
  reflexivity.
Defined.

(** The six lines do not touch the world. *)
Lemma derive_docId_world (st st' : hstate) (o : outcome exn docref) :
  derive_docId st = (o, st') → hs_world st' = hs_world st.
Proof.
  destruct st as [w keys].
  destruct keys as [| | | | |d]; try by intros [= <- <-].
  rewrite derive_docId_dict. by intros [? _]%for_each_docId_frame.
Qed.

(** Whatever their outcome, the six lines write no log entry, draw
    no uuid and print nothing, and the entries of [keys] keep their
    names and their order. *)
Theorem derive_docId_frame (st st' : hstate) (o : outcome exn docref) :
  derive_docId st = (o, st') →
  hs_world st' = hs_world st ∧
  key_names (hs_keys st') = key_names (hs_keys st).
Proof.
  destruct st as [w keys].
  destruct keys as [| | | | |d]; try by intros [= <- <-].
  rewrite derive_docId_dict. apply for_each_docId_frame.
Qed.

Lemma derive_docId_frame_witness :
  hs_world (mkHState (new_world (λ _, ""))
              (PDict [("pk", PList [PStr "|"; PStr "B"]); ("sk", PStr "B")]))
  = hs_world (mkHState (new_world (λ _, ""))
                (PDict [("pk", PList []); ("sk", PStr "B")])) ∧
  key_names (hs_keys (mkHState (new_world (λ _, ""))
              (PDict [("pk", PList [PStr "|"; PStr "B"]); ("sk", PStr "B")])))
  = key_names (hs_keys (mkHState (new_world (λ _, ""))
                (PDict [("pk", PList []); ("sk", PStr "B")]))).
Proof. apply (derive_docId_frame _ _ (Ok (DocAlias 0))). reflexivity. Defined.

(** C17: when the first key value is a list and the others are strings,
    no exception is raised and the caller's list is extended in place by
    the characters of the bar-joined rest: [docId] is that list. *)
Theorem derive_docId_extends_list (w : world) (k : string) (l : list pyval)
    (d : list (string * pyval)) (ss : list string) :
  str_values d = Some ss →
  derive_docId (mkHState w (PDict ((k, PList l) :: d)))
  = (Ok (DocAlias 0),
     mkHState w (PDict ((k, PList (l ++ (PStr <$> chars (bar_suffix ss))))
                        :: d))).
Proof.
  intros Hss%str_values_fmap. rewrite derive_docId_dict.
  unfold docId_loop. rewrite fmap_cons. cbn [for_each snd].
  erewrite bind_ok by by apply docId_step_unbound.
  rewrite Hss. cbn [bind_docId]. by erewrite loop_alias_values.
Qed.

Lemma derive_docId_extends_list_witness :
  derive_docId (mkHState (new_world (λ _, ""))
                  (PDict [("pk", PList [PInt 1]); ("sk", PStr "B")]))
  = (Ok (DocAlias 0),
     mkHState (new_world (λ _, ""))
       (PDict [("pk", PList [PInt 1; PStr "|"; PStr "B"]); ("sk", PStr "B")])).
Proof.
  apply (derive_docId_extends_list (new_world (λ _, "")) "pk" [PInt 1]
           [("sk", PStr "B")] ["B"]).
  reflexivity.
Defined.

(** C18: when the first value is a string, so are the next ones up to a
    value that is no string, the loop raises the TypeError of the
    concatenation at that value, and the state is as it was. *)
Theorem derive_docId_raises_on_non_str (w : world)
    (d1 d2 : list (string * pyval)) (a : string) (ss : list string)
    (k : string) (v : pyval) :
  str_values d1 = Some (a :: ss) → is_str v = false →
  derive_docId (mkHState w (PDict (d1 ++ (k, v) :: d2)))
  = (Raised (TypeError (msg_cannot_concat v)),
     mkHState w (PDict (d1 ++ (k, v) :: d2))).
Proof.
  intros Hss%str_values_fmap Hv. rewrite derive_docId_dict.
  unfold docId_loop. rewrite fmap_app, Hss, (for_each_app _ _ _ _ _ _).
  erewrite bind_ok by apply for_each_strings.
  rewrite fmap_cons. cbn [for_each bind_docId join_ids].
  apply bind_raised. by apply docId_step_not_str.
Qed.

Lemma derive_docId_raises_on_non_str_witness :
  derive_docId (mkHState (new_world (λ _, ""))
                  (PDict ([("pk", PStr "A")] ++ ("sk", PInt 7) :: [])))
  = (Raised (TypeError (msg_cannot_concat (PInt 7))),
     mkHState (new_world (λ _, ""))
       (PDict ([("pk", PStr "A")] ++ ("sk", PInt 7) :: []))).
Proof.
  apply (derive_docId_raises_on_non_str (new_world (λ _, ""))
           [("pk", PStr "A")] [] "A" [] "sk" (PInt 7)); reflexivity.
Defined.

(** C19: key values that are None at the head of the mapping do not
    appear in the identifier: the mapping with them and the mapping
    without them get the same one. *)
Theorem derive_docId_skips_leading_none (w : world) (n : nat)
    (names : list string) (d : list (string * pyval)) (ss : list string) :
  length names = n → str_values d = Some ss →
  (docId <- derive_docId ;; read_docId docId)
    (mkHState w (PDict (zip names (replicate n PNone) ++ d)))
  = (Ok (join_ids ss),
     mkHState w (PDict (zip names (replicate n PNone) ++ d))).
Proof.
  intros Hn Hss%str_values_fmap.
  erewrite bind_ok.
  2: { rewrite derive_docId_dict. unfold docId_loop.
       rewrite fmap_app, snd_zip; [|rewrite length_replicate; lia].
       by rewrite loop_skip_none, Hss, for_each_strings. }
  by destruct ss.
Qed.

Lemma derive_docId_skips_leading_none_witness :
  (docId <- derive_docId ;; read_docId docId)
    (mkHState (new_world (λ _, ""))
       (PDict (zip ["pk"] (replicate 1 PNone) ++ [("sk", PStr "B")])))
  = (Ok (PStr "B"),
     mkHState (new_world (λ _, ""))
       (PDict (zip ["pk"] (replicate 1 PNone) ++ [("sk", PStr "B")]))).
Proof.
  apply (derive_docId_skips_leading_none (new_world (λ _, "")) 1 ["pk"]
           [("sk", PStr "B")] ["B"]); reflexivity.
Defined.
