(* ===== verification/TableItemReader.v ===== *)
(** * DynamoDBTableItemReader.parseDynamoDBItem

    The handler of
    [src/letsdata_interfaces/readers/dynamodb/DynamoDBTableItemReader.py],
    lines 64-84: a try block (the id loop, the guard on [item], the two
    returns) and its except clause.  The parameter [keys] is the object
    held by the handler state ([hs_keys]): the loop can change it, and
    both the log lines and the error documents show it as it is when they
    are built. *)

From stdpp Require Import base tactics option list strings.
From Stdlib Require Import ZArith.
From S2P Require Import Prelude PyValue Documents Runtime DocId.

(** The class has no attribute: [__init__] is [pass]. *)
Variant DynamoDBTableItemReader : Type := mkDynamoDBTableItemReader.

(** Line 74, the f-string of [logger.error]. *)
Definition log_item_is_null (tableName segmentNumber keys : pyval) :
    list fragment :=
  [Lit "item is null, returning skip - tableName: "; Val tableName;
   Lit ", segmentNumber: "; Val segmentNumber; Lit ", keys: "; Val keys].

(** Line 75, [ErrorDoc(docId, "DDB_ERROR", docId, {}, {}, {"keys": keys},
    {"keys": keys}, "empty record")]. *)
Definition empty_record_doc (docId keys : pyval) : ErrorDoc :=
  mkErrorDoc docId "DDB_ERROR" docId empty_dict empty_dict
    (dict1 "keys" keys) (dict1 "keys" keys) "empty record".

(** Line 78, the f-string of [logger.debug]. *)
Definition log_processing_record (docId : pyval) : list fragment :=
  [Lit "processing record, returning success - docId: "; Val docId].

(** Line 79, [Document(DocumentType.Document, docId, "DOCUMENT", docId, {},
    item)]. *)
Definition item_document (docId item : pyval) : Document :=
  mkDocument DocumentType_Document docId "DOCUMENT" docId empty_dict item.

(** Line 81, the f-string of [logger.debug] in the except clause. *)
Definition log_item_exception (tableName segmentNumber keys : pyval)
    (ex : exn) : list fragment :=
  [Lit "Exception in reading the document - tableName: "; Val tableName;
   Lit ", segmentNumber: "; Val segmentNumber; Lit ", keys: "; Val keys;
   Lit ", ex: "; Exc ex].

(** Line 83, [ErrorDoc(docIdUUID, "DDB_ERROR", docIdUUID, {}, {},
    {"keys": keys}, {"keys": keys}, f"Exception - {ex}")]. *)
Definition item_exception_doc (docIdUUID : string) (keys : pyval) (ex : exn) :
    ErrorDoc :=
  mkErrorDoc (PStr docIdUUID) "DDB_ERROR" (PStr docIdUUID) empty_dict
    empty_dict (dict1 "keys" keys) (dict1 "keys" keys)
    ("Exception - " +:+ exn_str ex).

(** Lines 73-76: the branch taken when the item is None or empty. *)
Definition return_empty_record (tableName segmentNumber : pyval)
    (docId : docref) : SE hstate exn ParseDocumentResult :=
  keys <- gets hs_keys ;;
  logger_error (log_item_is_null tableName segmentNumber keys) ;;;
  id <- read_docId docId ;;
  ret (mkParseDocumentResult PNone (IsErrorDoc (empty_record_doc id keys))
         "ERROR").

(** Lines 78-79: the success branch. *)
Definition return_document (docId : docref) (item : pyval) :
    SE hstate exn ParseDocumentResult :=
  id <- read_docId docId ;;
  logger_debug (log_processing_record id) ;;;
  ret (mkParseDocumentResult PNone (IsDocument (item_document id item))
         "SUCCESS").

(** Lines 66-79: the body of the try block. *)
Definition parseDynamoDBItem_try (tableName segmentNumber item : pyval) :
    SE hstate exn ParseDocumentResult :=
  docId <- derive_docId ;;
  empty <- lift (is_none_or_empty item) ;;
  if (empty : bool) then return_empty_record tableName segmentNumber docId
  else return_document docId item.

(** Lines 80-84: the except clause. *)
Definition parseDynamoDBItem_except (tableName segmentNumber : pyval)
    (ex : exn) : SE hstate exn ParseDocumentResult :=
  keys <- gets hs_keys ;;
  logger_debug (log_item_exception tableName segmentNumber keys ex) ;;;
  docIdUUID <- uuid4_str ;;
  ret (mkParseDocumentResult PNone
         (IsErrorDoc (item_exception_doc docIdUUID keys ex)) "ERROR").

(** Lines 64-84: the method.  [keys] is the object of the state. *)
Definition parseDynamoDBItem (self : DynamoDBTableItemReader)
    (tableName segmentNumber item : pyval) :
    SE hstate exn ParseDocumentResult :=
  try_except (parseDynamoDBItem_try tableName segmentNumber item)
    (parseDynamoDBItem_except tableName segmentNumber).

(** A call from the platform: the world before, the four arguments; the
    outcome, the world after and [keys] as the call leaves them. *)
Definition call_parseDynamoDBItem (w : world)
    (tableName segmentNumber keys item : pyval) :
    outcome exn ParseDocumentResult * hstate :=
  parseDynamoDBItem mkDynamoDBTableItemReader tableName segmentNumber item
    (mkHState w keys).

(** ** The branches *)

Section Branches.
Context (tableName segmentNumber item : pyval).
Implicit Types (st : hstate) (docId : docref) (ex : exn).

Lemma return_empty_record_run docId st :
  return_empty_record tableName segmentNumber docId st
  = (Ok (mkParseDocumentResult PNone
           (IsErrorDoc (empty_record_doc (deref docId (hs_keys st))
                          (hs_keys st))) "ERROR"),
     on_world (add_log (mkLog LError
                 (log_item_is_null tableName segmentNumber (hs_keys st)))) st).
Proof. done. Qed.

Lemma return_document_run docId st :
  return_document docId item st
  = (Ok (mkParseDocumentResult PNone
           (IsDocument (item_document (deref docId (hs_keys st)) item))
           "SUCCESS"),
     on_world (add_log (mkLog LDebug
                 (log_processing_record (deref docId (hs_keys st))))) st).
Proof. done. Qed.

Lemma parseDynamoDBItem_except_run ex st :
  parseDynamoDBItem_except tableName segmentNumber ex st
  = (Ok (mkParseDocumentResult PNone
           (IsErrorDoc (item_exception_doc
                          (w_uuids (hs_world st) (uuids_drawn st))
                          (hs_keys st) ex)) "ERROR"),
     on_world take_uuid
       (on_world (add_log (mkLog LDebug
          (log_item_exception tableName segmentNumber (hs_keys st) ex))) st)).
Proof. done. Qed.

(** The try block, by what the loop and the guard do. *)
Lemma parseDynamoDBItem_try_run docId st st1 (empty : bool) :
  derive_docId st = (Ok docId, st1) →
  is_none_or_empty item = Ok empty →
  parseDynamoDBItem_try tableName segmentNumber item st
  = if empty then return_empty_record tableName segmentNumber docId st1
    else return_document docId item st1.
Proof.
  intros Hd He. unfold parseDynamoDBItem_try.
  erewrite bind_ok by done. unfold lift. rewrite He. by destruct empty.
Qed.

Lemma parseDynamoDBItem_try_loop_raises ex st st1 :
  derive_docId st = (Raised ex, st1) →
  parseDynamoDBItem_try tableName segmentNumber item st = (Raised ex, st1).
Proof. intros Hd. by apply bind_raised. Qed.

Lemma parseDynamoDBItem_try_guard_raises docId ex st st1 :
  derive_docId st = (Ok docId, st1) →
  is_none_or_empty item = Raised ex →
  parseDynamoDBItem_try tableName segmentNumber item st = (Raised ex, st1).
Proof.
  intros Hd He. unfold parseDynamoDBItem_try.
  erewrite bind_ok by done. unfold lift. by rewrite He.
Qed.

Lemma never_raises_parseDynamoDBItem_except ex :
  never_raises (parseDynamoDBItem_except tableName segmentNumber ex).
Proof. by intros st. Qed.

End Branches.

#[export] Hint Resolve never_raises_parseDynamoDBItem_except : py.

(** ** The handler *)

(** C1: fault containment.  Whatever the arguments, the [keys] object
    and the world, [parseDynamoDBItem] returns a result: no exception
    leaves the handler. *)
Theorem parseDynamoDBItem_never_raises (self : DynamoDBTableItemReader)
    (tableName segmentNumber item : pyval) :
  never_raises (parseDynamoDBItem self tableName segmentNumber item).
Proof. apply try_except_never_raises. auto with py. Qed.

(** The three ways a call can go, as a relation between the state before
    and the outcome: the three rules are the three [return]s. *)
Inductive item_call (tableName segmentNumber item : pyval) (st : hstate) :
    outcome exn ParseDocumentResult * hstate → Prop :=
| item_call_document docId st1 :
    derive_docId st = (Ok docId, st1) →
    is_none_or_empty item = Ok false →
    item_call tableName segmentNumber item st (return_document docId item st1)
| item_call_empty docId st1 :
    derive_docId st = (Ok docId, st1) →
    is_none_or_empty item = Ok true →
    item_call tableName segmentNumber item st
      (return_empty_record tableName segmentNumber docId st1)
| item_call_exception ex st1 :
    parseDynamoDBItem_try tableName segmentNumber item st = (Raised ex, st1) →
    item_call tableName segmentNumber item st
      (parseDynamoDBItem_except tableName segmentNumber ex st1).

(** Every call follows one of the three rules. *)
Lemma parseDynamoDBItem_item_call self tableName segmentNumber item st :
  item_call tableName segmentNumber item st
    (parseDynamoDBItem self tableName segmentNumber item st).
Proof.
  unfold parseDynamoDBItem.
  destruct (derive_docId st) as [[docId|ex] st1] eqn:Hd.
  - destruct (is_none_or_empty item) as [[|]|ex] eqn:He.
    + rewrite (try_except_returns _ _ _
                 (return_empty_record tableName segmentNumber docId st1));
        [by eapply item_call_empty
        |by rewrite (parseDynamoDBItem_try_run _ _ _ _ _ _ _ Hd He)|done].
    + rewrite (try_except_returns _ _ _ (return_document docId item st1));
        [by eapply item_call_document
        |by rewrite (parseDynamoDBItem_try_run _ _ _ _ _ _ _ Hd He)|done].
    + rewrite (try_except_raised _ _ _ ex st1);
        [eapply item_call_exception|];
        by eapply parseDynamoDBItem_try_guard_raises.
  - rewrite (try_except_raised _ _ _ ex st1);
      [eapply item_call_exception|];
      by eapply parseDynamoDBItem_try_loop_raises.
Qed.

(** Case analysis on a call that gave [(o, st')]. *)
Ltac item_call_inv H :=
  let Hc := fresh "Hc" in
  match type of H with
  | parseDynamoDBItem ?self ?tn ?sn ?item ?st = _ =>
      pose proof (parseDynamoDBItem_item_call self tn sn item st) as Hc;
      rewrite H in Hc; inversion Hc; clear Hc;
      rewrite ?return_document_run, ?return_empty_record_run,
        ?parseDynamoDBItem_except_run in *;
      simplify_eq
  end.

(** C4: when the id loop finishes and the item is neither None nor
    empty, the handler returns SUCCESS with a Document whose id and
    partition key are the derived id, whose tag is "DOCUMENT", whose
    metadata is empty and whose payload is the item itself; it logs one
    debug line and draws no uuid. *)
Theorem parseDynamoDBItem_success (self : DynamoDBTableItemReader)
    (tableName segmentNumber item : pyval) (st st1 : hstate)
    (docId : docref) :
  derive_docId st = (Ok docId, st1) →
  is_none_or_empty item = Ok false →
  parseDynamoDBItem self tableName segmentNumber item st
  = (Ok (mkParseDocumentResult PNone
           (IsDocument
              (mkDocument DocumentType_Document (deref docId (hs_keys st1))
                 "DOCUMENT" (deref docId (hs_keys st1)) (PDict []) item))
           "SUCCESS"),
     on_world (add_log (mkLog LDebug
                 (log_processing_record (deref docId (hs_keys st1))))) st1).
Proof.
  intros Hd He. apply try_except_ok.
  by rewrite (parseDynamoDBItem_try_run _ _ _ _ _ _ _ Hd He).
Qed.

Lemma parseDynamoDBItem_success_witness :
  call_parseDynamoDBItem (new_world (λ _, "")) (PStr "t") (PInt 0)
    (PDict [("pk", PStr "A"); ("sk", PStr "B")]) (PDict [("x", PStr "1")])
  = (Ok (mkParseDocumentResult PNone
           (IsDocument
              (mkDocument DocumentType_Document (PStr "A|B") "DOCUMENT"
                 (PStr "A|B") (PDict []) (PDict [("x", PStr "1")])))
           "SUCCESS"),
     mkHState
       (mkWorld [mkLog LDebug (log_processing_record (PStr "A|B"))] []
          (λ _, "") 0)
       (PDict [("pk", PStr "A"); ("sk", PStr "B")])).
Proof.
  apply (parseDynamoDBItem_success mkDynamoDBTableItemReader (PStr "t")
           (PInt 0) (PDict [("x", PStr "1")])
           (mkHState (new_world (λ _, ""))
              (PDict [("pk", PStr "A"); ("sk", PStr "B")]))
           (mkHState (new_world (λ _, ""))
              (PDict [("pk", PStr "A"); ("sk", PStr "B")]))
           (DocVal (PStr "A|B"))); reflexivity.
Defined.

(** C5: when the id loop finishes and the item is None or empty, the
    handler returns ERROR with an ErrorDoc whose id and partition key are
    the derived id (no uuid is drawn), reason code "DDB_ERROR", reason
    "empty record", and [{"keys": keys}] in both context slots; it logs
    one error line. *)
Theorem parseDynamoDBItem_empty (self : DynamoDBTableItemReader)
    (tableName segmentNumber item : pyval) (st st1 : hstate)
    (docId : docref) :
  derive_docId st = (Ok docId, st1) →
  is_none_or_empty item = Ok true →
  parseDynamoDBItem self tableName segmentNumber item st
  = (Ok (mkParseDocumentResult PNone
           (IsErrorDoc
              (mkErrorDoc (deref docId (hs_keys st1)) "DDB_ERROR"
                 (deref docId (hs_keys st1)) (PDict []) (PDict [])
                 (PDict [("keys", hs_keys st1)])
                 (PDict [("keys", hs_keys st1)]) "empty record"))
           "ERROR"),
     on_world (add_log (mkLog LError
                 (log_item_is_null tableName segmentNumber (hs_keys st1))))
       st1).
Proof.
  intros Hd He. apply try_except_ok.
  by rewrite (parseDynamoDBItem_try_run _ _ _ _ _ _ _ Hd He).
Qed.

Lemma parseDynamoDBItem_empty_witness :
  call_parseDynamoDBItem (new_world (λ _, "")) (PStr "t") (PInt 0)
    (PDict [("pk", PStr "A")]) (PDict [])
  = (Ok (mkParseDocumentResult PNone
           (IsErrorDoc
              (mkErrorDoc (PStr "A") "DDB_ERROR" (PStr "A") (PDict [])
                 (PDict []) (PDict [("keys", PDict [("pk", PStr "A")])])
                 (PDict [("keys", PDict [("pk", PStr "A")])]) "empty record"))
           "ERROR"),
     mkHState
       (mkWorld [mkLog LError
                   (log_item_is_null (PStr "t") (PInt 0)
                      (PDict [("pk", PStr "A")]))] [] (λ _, "") 0)
       (PDict [("pk", PStr "A")])).
Proof.
  apply (parseDynamoDBItem_empty mkDynamoDBTableItemReader (PStr "t") (PInt 0)
           (PDict [])
           (mkHState (new_world (λ _, "")) (PDict [("pk", PStr "A")]))
           (mkHState (new_world (λ _, "")) (PDict [("pk", PStr "A")]))
           (DocVal (PStr "A"))); reflexivity.
Defined.

(** C6: when the id loop or the guard raises [ex], the handler returns
    ERROR with an ErrorDoc whose id and partition key are the next uuid
    of the supply, reason code "DDB_ERROR", reason "Exception - " followed
    by the message of [ex], and [{"keys": keys}] in both context slots;
    it logs one debug line and draws exactly that uuid. *)
Theorem parseDynamoDBItem_exception (self : DynamoDBTableItemReader)
    (tableName segmentNumber item : pyval) (st st1 : hstate) (ex : exn) :
  derive_docId st = (Raised ex, st1) ∨
  (∃ docId, derive_docId st = (Ok docId, st1) ∧
            is_none_or_empty item = Raised ex) →
  parseDynamoDBItem self tableName segmentNumber item st
  = (Ok (mkParseDocumentResult PNone
           (IsErrorDoc
              (mkErrorDoc (PStr (w_uuids (hs_world st1) (uuids_drawn st1)))
                 "DDB_ERROR"
                 (PStr (w_uuids (hs_world st1) (uuids_drawn st1)))
                 (PDict []) (PDict []) (PDict [("keys", hs_keys st1)])
                 (PDict [("keys", hs_keys st1)])
                 ("Exception - " +:+ exn_str ex)))
           "ERROR"),
     on_world take_uuid
       (on_world (add_log (mkLog LDebug
          (log_item_exception tableName segmentNumber (hs_keys st1) ex)))
          st1)).
Proof.
  intros H. unfold parseDynamoDBItem.
  rewrite (try_except_raised _ _ _ ex st1); [done|].
  destruct H as [Hd|(docId & Hd & He)].
  - by apply parseDynamoDBItem_try_loop_raises.
  - by eapply parseDynamoDBItem_try_guard_raises.
Qed.

Lemma parseDynamoDBItem_exception_witness :
  call_parseDynamoDBItem (new_world (λ n, "uuid")) (PStr "t") (PInt 0)
    (PDict [("pk", PStr "A"); ("sk", PInt 7)]) (PDict [("x", PStr "1")])
  = (Ok (mkParseDocumentResult PNone
           (IsErrorDoc
              (mkErrorDoc (PStr "uuid") "DDB_ERROR" (PStr "uuid") (PDict [])
                 (PDict [])
                 (PDict [("keys", PDict [("pk", PStr "A"); ("sk", PInt 7)])])
                 (PDict [("keys", PDict [("pk", PStr "A"); ("sk", PInt 7)])])
                 ("Exception - " +:+ msg_cannot_concat (PInt 7))))
           "ERROR"),
     mkHState
       (mkWorld [mkLog LDebug
                   (log_item_exception (PStr "t") (PInt 0)
                      (PDict [("pk", PStr "A"); ("sk", PInt 7)])
                      (TypeError (msg_cannot_concat (PInt 7))))] []
          (λ n, "uuid") 1)
       (PDict [("pk", PStr "A"); ("sk", PInt 7)])).
Proof.
  apply (parseDynamoDBItem_exception mkDynamoDBTableItemReader (PStr "t")
           (PInt 0) (PDict [("x", PStr "1")])
           (mkHState (new_world (λ n, "uuid"))
              (PDict [("pk", PStr "A"); ("sk", PInt 7)]))
           (mkHState (new_world (λ n, "uuid"))
              (PDict [("pk", PStr "A"); ("sk", PInt 7)]))
           (TypeError (msg_cannot_concat (PInt 7)))).
  left. reflexivity.
Defined.

(** The status string of every result is one of "SUCCESS", "SKIP",
    "ERROR" and names the class of the document beside it. *)
Theorem parseDynamoDBItem_consistent (self : DynamoDBTableItemReader)
    (tableName segmentNumber item : pyval) (st st' : hstate)
    (r : ParseDocumentResult) :
  parseDynamoDBItem self tableName segmentNumber item st = (Ok r, st') →
  result_consistent r = true.
Proof.
  intros H. item_call_inv H; done.
Qed.

Lemma parseDynamoDBItem_consistent_witness :
  result_consistent
    (mkParseDocumentResult PNone
       (IsDocument (item_document (PStr "A") (PDict [("x", PStr "1")])))
       "SUCCESS") = true.
Proof.
  apply (parseDynamoDBItem_consistent mkDynamoDBTableItemReader (PStr "t")
           (PInt 0) (PDict [("x", PStr "1")])
           (mkHState (new_world (λ _, "")) (PDict [("pk", PStr "A")]))
           (mkHState
              (mkWorld [mkLog LDebug (log_processing_record (PStr "A"))] []
                 (λ _, "") 0)
              (PDict [("pk", PStr "A")]))).
  reflexivity.
Defined.

(** A SUCCESS result is returned only for an item that is neither
    None nor empty, and its payload is that item, unchanged. *)
Theorem parseDynamoDBItem_success_payload (self : DynamoDBTableItemReader)
    (tableName segmentNumber item : pyval) (st st' : hstate)
    (r : ParseDocumentResult) :
  parseDynamoDBItem self tableName segmentNumber item st = (Ok r, st') →
  pdr_status r = "SUCCESS" →
  is_none_or_empty item = Ok false ∧
  ∃ d, pdr_document r = IsDocument d ∧ doc_documentKeyValuesMap d = item.
Proof.
  intros H Hs. item_call_inv H; try done. eauto.
Qed.

Lemma parseDynamoDBItem_success_payload_witness :
  is_none_or_empty (PStr "payload") = Ok false ∧
  ∃ d, pdr_document
         (mkParseDocumentResult PNone
            (IsDocument (item_document (PInt 5) (PStr "payload"))) "SUCCESS")
       = IsDocument d ∧ doc_documentKeyValuesMap d = PStr "payload".
Proof.
  apply (parseDynamoDBItem_success_payload mkDynamoDBTableItemReader
           (PStr "t") (PInt 0) (PStr "payload")
           (mkHState (new_world (λ _, "")) (PDict [("pk", PInt 5)]))
           (mkHState
              (mkWorld [mkLog LDebug (log_processing_record (PInt 5))] []
                 (λ _, "") 0)
              (PDict [("pk", PInt 5)]))); reflexivity.
Defined.

(** A try block that raises has not touched the world. *)
Lemma parseDynamoDBItem_try_world tableName segmentNumber item st ex st' :
  parseDynamoDBItem_try tableName segmentNumber item st = (Raised ex, st') →
  hs_world st' = hs_world st.
Proof.
  unfold parseDynamoDBItem_try. unfold bind at 1.
  destruct (derive_docId st) as [[docId|e] st2] eqn:Hd;
    apply derive_docId_world in Hd as Hw.
  - unfold bind, lift. destruct (is_none_or_empty item) as [[]|];
      by intros [= <- <-].
  - by intros [= <- <-].
Qed.

(** What a call does to the world: one log entry, and either no uuid or
    one uuid that becomes the id of the result. *)
Lemma parseDynamoDBItem_world_step self tableName segmentNumber item st o st' :
  parseDynamoDBItem self tableName segmentNumber item st = (o, st') →
  ∃ entry k,
    world_step [entry] k (hs_world st) (hs_world st') ∧
    (k = 0 ∨
     k = 1 ∧ outcome_map result_id o
             = Ok (PStr (w_uuids (hs_world st) (uuids_drawn st)))).
Proof.
  intros H. item_call_inv H.
  all: match goal with
       | Hd : derive_docId _ = _ |- _ =>
           apply derive_docId_world in Hd as Hw
       | Ht : parseDynamoDBItem_try _ _ _ _ = _ |- _ =>
           apply parseDynamoDBItem_try_world in Ht as Hw
       end; cbn [hs_world]; unfold uuids_drawn; simpl;
       rewrite Hw; eexists _, _; split.
  1, 3: by auto with py.
  - by left.
  - by left.
  - eapply (world_step_trans [_] [] 0 1); auto with py.
  - by right.
Qed.

(** A call writes exactly one log entry, and draws either no uuid
    or exactly one, which is then the id of the error document it
    returns. *)
Theorem parseDynamoDBItem_effects (self : DynamoDBTableItemReader)
    (tableName segmentNumber item : pyval) (st st' : hstate)
    (o : outcome exn ParseDocumentResult) :
  parseDynamoDBItem self tableName segmentNumber item st = (o, st') →
  (∃ entry, log_of st' = log_of st ++ [entry]) ∧
  (uuids_drawn st' = uuids_drawn st ∨
   uuids_drawn st' = S (uuids_drawn st) ∧
   outcome_map result_id o
   = Ok (PStr (w_uuids (hs_world st) (uuids_drawn st)))).
Proof.
  intros (entry & k & (Hlog & _ & _ & Hnext) & Hk)%parseDynamoDBItem_world_step.
  split; [by exists entry|]. unfold uuids_drawn in *. simpl.
  destruct Hk as [->|[-> Hid]]; [left|right; split; [|done]]; lia.
Qed.

Lemma parseDynamoDBItem_effects_witness :
  (∃ entry,
     log_of (mkHState
               (mkWorld [mkLog LDebug
                           (log_item_exception (PStr "t") (PInt 0) PNone
                              (AttributeError
                                 (msg_no_attribute PNone "values")))] []
                  (λ n, "uuid") 1) PNone)
     = log_of (mkHState (new_world (λ n, "uuid")) PNone) ++ [entry]) ∧
  (uuids_drawn (mkHState
                  (mkWorld [mkLog LDebug
                              (log_item_exception (PStr "t") (PInt 0) PNone
                                 (AttributeError
                                    (msg_no_attribute PNone "values")))] []
                     (λ n, "uuid") 1) PNone)
   = uuids_drawn (mkHState (new_world (λ n, "uuid")) PNone) ∨
   uuids_drawn (mkHState
                  (mkWorld [mkLog LDebug
                              (log_item_exception (PStr "t") (PInt 0) PNone
                                 (AttributeError
                                    (msg_no_attribute PNone "values")))] []
                     (λ n, "uuid") 1) PNone)
   = S (uuids_drawn (mkHState (new_world (λ n, "uuid")) PNone)) ∧
   outcome_map (E:=exn) result_id
     (Ok (mkParseDocumentResult PNone
            (IsErrorDoc (item_exception_doc "uuid" PNone
                           (AttributeError (msg_no_attribute PNone "values"))))
            "ERROR"))
   = Ok (PStr (w_uuids (hs_world (mkHState (new_world (λ n, "uuid")) PNone))
                 (uuids_drawn (mkHState (new_world (λ n, "uuid")) PNone))))).
Proof.
  apply (parseDynamoDBItem_effects mkDynamoDBTableItemReader (PStr "t")
           (PInt 0) (PDict [])). reflexivity.
Defined.
