(* ===== verification/StreamsRecordReader.v ===== *)
(** * DynamoDBStreamsRecordReader.parseRecord

    The handler of
    [src/letsdata_interfaces/readers/dynamodbstreams/DynamoDBStreamsRecordReader.py],
    lines 58-81.  It has the shape of [parseDynamoDBItem]: the id loop, a
    guard on [newImage], two returns, an except clause.  An absent or
    empty [newImage] is a SKIP, not an ERROR, and the context slots of the
    diagnostic documents hold the sequence number instead of the keys.
    [oldImage] and five of the event fields are received and never
    read. *)

From stdpp Require Import base tactics option list strings.
From Stdlib Require Import ZArith.
From S2P Require Import Prelude PyValue Documents Runtime DocId.

(** The class has no attribute: [__init__] is [pass]. *)
Variant DynamoDBStreamsRecordReader : Type := mkDynamoDBStreamsRecordReader.

(** The parameters of [parseRecord] other than [self] and [keys], in the
    order of the signature (line 58; the docstring above it describes
    them).  [keys] is the object of the handler state. *)
Record StreamRecord : Type := mkStreamRecord {
  streamArn : pyval;
  shardId : pyval;
  eventId : pyval;
  eventName : pyval;
  identityPrincipalId : pyval;
  identityType : pyval;
  sequenceNumber : pyval;
  sizeBytes : pyval;
  streamViewType : pyval;
  approximateCreationDateTime : pyval;
  oldImage : pyval;
  newImage : pyval
}.

(** The event context both long log lines start with (lines 68 and 78). *)
Definition log_event_context (r : StreamRecord) (keys : pyval) :
    list fragment :=
  [Lit "streamArn: "; Val (streamArn r); Lit ", shardId: "; Val (shardId r);
   Lit ", eventName: "; Val (eventName r);
   Lit ", sequenceNumber: "; Val (sequenceNumber r);
   Lit ", approximateArrivalTimestamp: ";
   Val (approximateCreationDateTime r); Lit ", keys: "; Val keys].

(** Line 68, the f-string of [logger.error]. *)
Definition log_newImage_is_null (r : StreamRecord) (keys : pyval) :
    list fragment :=
  Lit "newImage is null, returning skip - " :: log_event_context r keys.

(** Line 69, [SkipDoc(docId, "DYNAMODBSTREAMS_SKIP", docId, {}, {},
    {"sequenceNumber": sequenceNumber}, {"sequenceNumber": sequenceNumber},
    "delete record")]. *)
Definition delete_record_doc (docId : pyval) (r : StreamRecord) : SkipDoc :=
  mkSkipDoc docId "DYNAMODBSTREAMS_SKIP" docId empty_dict empty_dict
    (dict1 "sequenceNumber" (sequenceNumber r))
    (dict1 "sequenceNumber" (sequenceNumber r)) "delete record".

(** Lines 73 and 75, the f-strings of the two [logger.debug]. *)
Definition log_processing_sequence (r : StreamRecord) : list fragment :=
  [Lit "processing record - sequenceNumber: "; Val (sequenceNumber r)].

Definition log_returning_success (docId : pyval) : list fragment :=
  [Lit "returning success - docId: "; Val docId].

(** Line 76, [Document(DocumentType.Document, docId, "DOCUMENT", docId, {},
    newImage)]. *)
Definition image_document (docId : pyval) (r : StreamRecord) : Document :=
  mkDocument DocumentType_Document docId "DOCUMENT" docId empty_dict
    (newImage r).

(** Line 78, the f-string of [logger.debug] in the except clause. *)
Definition log_record_exception (r : StreamRecord) (keys : pyval) (ex : exn) :
    list fragment :=
  Lit "Exception in reading the document - "
    :: log_event_context r keys ++ [Lit ", ex: "; Exc ex].

(** Line 80, [ErrorDoc(docIdUUID, "KINESIS_ERROR", docIdUUID, {}, {},
    {"sequenceNumber": sequenceNumber}, {"sequenceNumber": sequenceNumber},
    f"Exception - {ex}")]. *)
Definition record_exception_doc (docIdUUID : string) (r : StreamRecord)
    (ex : exn) : ErrorDoc :=
  mkErrorDoc (PStr docIdUUID) "KINESIS_ERROR" (PStr docIdUUID) empty_dict
    empty_dict (dict1 "sequenceNumber" (sequenceNumber r))
    (dict1 "sequenceNumber" (sequenceNumber r))
    ("Exception - " +:+ exn_str ex).

(** Lines 67-70: the branch taken when [newImage] is None or empty. *)
Definition return_delete_record (r : StreamRecord) (docId : docref) :
    SE hstate exn ParseDocumentResult :=
  keys <- gets hs_keys ;;
  logger_error (log_newImage_is_null r keys) ;;;
  id <- read_docId docId ;;
  ret (mkParseDocumentResult PNone (IsSkipDoc (delete_record_doc id r))
         "SKIP").

(** Lines 73-76: the success branch, with its two log lines. *)
Definition return_image (r : StreamRecord) (docId : docref) :
    SE hstate exn ParseDocumentResult :=
  logger_debug (log_processing_sequence r) ;;;
  id <- read_docId docId ;;
  logger_debug (log_returning_success id) ;;;
  ret (mkParseDocumentResult PNone (IsDocument (image_document id r))
         "SUCCESS").

(** Lines 60-76: the body of the try block. *)
Definition parseRecord_try (r : StreamRecord) :
    SE hstate exn ParseDocumentResult :=
  docId <- derive_docId ;;
  empty <- lift (is_none_or_empty (newImage r)) ;;
  if (empty : bool) then return_delete_record r docId
  else return_image r docId.

(** Lines 77-81: the except clause. *)
Definition parseRecord_except (r : StreamRecord) (ex : exn) :
    SE hstate exn ParseDocumentResult :=
  keys <- gets hs_keys ;;
  logger_debug (log_record_exception r keys ex) ;;;
  docIdUUID <- uuid4_str ;;
  ret (mkParseDocumentResult PNone
         (IsErrorDoc (record_exception_doc docIdUUID r ex)) "ERROR").

(** Lines 58-81: the method.  [keys] is the object of the state. *)
Definition parseRecord (self : DynamoDBStreamsRecordReader)
    (r : StreamRecord) : SE hstate exn ParseDocumentResult :=
  try_except (parseRecord_try r) (parseRecord_except r).

(** A call from the platform. *)
Definition call_parseRecord (w : world) (r : StreamRecord) (keys : pyval) :
    outcome exn ParseDocumentResult * hstate :=
  parseRecord mkDynamoDBStreamsRecordReader r (mkHState w keys).

(** The fields of a record the handler reads. *)
Definition read_fields (r : StreamRecord) : list pyval :=
  [streamArn r; shardId r; eventName r; sequenceNumber r;
   approximateCreationDateTime r; newImage r].

(** ** The branches *)

Section Branches.
Context (r : StreamRecord).
Implicit Types (st : hstate) (docId : docref) (ex : exn).

Lemma return_delete_record_run docId st :
  return_delete_record r docId st
  = (Ok (mkParseDocumentResult PNone
           (IsSkipDoc (delete_record_doc (deref docId (hs_keys st)) r))
           "SKIP"),
     on_world (add_log (mkLog LError (log_newImage_is_null r (hs_keys st))))
       st).
Proof. done. Qed.

Lemma return_image_run docId st :
  return_image r docId st
  = (Ok (mkParseDocumentResult PNone
           (IsDocument (image_document (deref docId (hs_keys st)) r))
           "SUCCESS"),
     on_world (add_log (mkLog LDebug
                 (log_returning_success (deref docId (hs_keys st)))))
       (on_world (add_log (mkLog LDebug (log_processing_sequence r))) st)).
Proof. done. Qed.

Lemma parseRecord_except_run ex st :
  parseRecord_except r ex st
  = (Ok (mkParseDocumentResult PNone
           (IsErrorDoc (record_exception_doc
                          (w_uuids (hs_world st) (uuids_drawn st)) r ex))
           "ERROR"),
     on_world take_uuid
       (on_world (add_log (mkLog LDebug
          (log_record_exception r (hs_keys st) ex))) st)).
Proof. done. Qed.

Lemma parseRecord_try_run docId st st1 (empty : bool) :
  derive_docId st = (Ok docId, st1) →
  is_none_or_empty (newImage r) = Ok empty →
  parseRecord_try r st
  = if empty then return_delete_record r docId st1
    else return_image r docId st1.
Proof.
  intros Hd He. unfold parseRecord_try.
  erewrite bind_ok by done. unfold lift. rewrite He. by destruct empty.
Qed.

Lemma parseRecord_try_loop_raises ex st st1 :
  derive_docId st = (Raised ex, st1) →
  parseRecord_try r st = (Raised ex, st1).
Proof. intros Hd. by apply bind_raised. Qed.

Lemma parseRecord_try_guard_raises docId ex st st1 :
  derive_docId st = (Ok docId, st1) →
  is_none_or_empty (newImage r) = Raised ex →
  parseRecord_try r st = (Raised ex, st1).
Proof.
  intros Hd He. unfold parseRecord_try.
  erewrite bind_ok by done. unfold lift. by rewrite He.
Qed.

(** A try block that raises has not touched the world. *)
Lemma parseRecord_try_world st ex st' :
  parseRecord_try r st = (Raised ex, st') → hs_world st' = hs_world st.
Proof.
  unfold parseRecord_try. unfold bind at 1.
  destruct (derive_docId st) as [[docId|e] st2] eqn:Hd;
    apply derive_docId_world in Hd as Hw.
  - unfold bind, lift. destruct (is_none_or_empty (newImage r)) as [[]|];
      by intros [= <- <-].
  - by intros [= <- <-].
Qed.

Lemma never_raises_parseRecord_except ex :
  never_raises (parseRecord_except r ex).
Proof. by intros st. Qed.

End Branches.

#[export] Hint Resolve never_raises_parseRecord_except : py.

(** C2: fault containment.  Whatever the record, the [keys] object and
    the world, [parseRecord] returns a result: no exception leaves the
    handler. *)
Theorem parseRecord_never_raises (self : DynamoDBStreamsRecordReader)
    (r : StreamRecord) :
  never_raises (parseRecord self r).
Proof. apply try_except_never_raises. auto with py. Qed.

(** The three ways a call can go: the three rules are the three
    [return]s. *)
Inductive record_call (r : StreamRecord) (st : hstate) :
    outcome exn ParseDocumentResult * hstate → Prop :=
| record_call_image docId st1 :
    derive_docId st = (Ok docId, st1) →
    is_none_or_empty (newImage r) = Ok false →
    record_call r st (return_image r docId st1)
| record_call_delete docId st1 :
    derive_docId st = (Ok docId, st1) →
    is_none_or_empty (newImage r) = Ok true →
    record_call r st (return_delete_record r docId st1)
| record_call_exception ex st1 :
    parseRecord_try r st = (Raised ex, st1) →
    record_call r st (parseRecord_except r ex st1).

(** Every call follows one of the three rules. *)
Lemma parseRecord_record_call self r st :
  record_call r st (parseRecord self r st).
Proof.
  unfold parseRecord.
  destruct (derive_docId st) as [[docId|ex] st1] eqn:Hd.
  - destruct (is_none_or_empty (newImage r)) as [[|]|ex] eqn:He.
    + rewrite (try_except_returns _ _ _ (return_delete_record r docId st1));
        [by eapply record_call_delete
        |by rewrite (parseRecord_try_run _ _ _ _ _ Hd He)|done].
    + rewrite (try_except_returns _ _ _ (return_image r docId st1));
        [by eapply record_call_image
        |by rewrite (parseRecord_try_run _ _ _ _ _ Hd He)|done].
    + rewrite (try_except_raised _ _ _ ex st1);
        [eapply record_call_exception|];
        by eapply parseRecord_try_guard_raises.
  - rewrite (try_except_raised _ _ _ ex st1);
      [eapply record_call_exception|];
      by eapply parseRecord_try_loop_raises.
Qed.

(** Case analysis on a call that gave [(o, st')]. *)
Ltac record_call_inv H :=
  let Hc := fresh "Hc" in
  match type of H with
  | parseRecord ?self ?r ?st = _ =>
      pose proof (parseRecord_record_call self r st) as Hc;
      rewrite H in Hc; inversion Hc; clear Hc;
      rewrite ?return_image_run, ?return_delete_record_run,
        ?parseRecord_except_run in *;
      simplify_eq
  end.

(** ** The handler *)

(** A record for the examples: an event of the given name and sequence
    number with the given images, the other fields None. *)
Definition sample_record (name seq old new : pyval) : StreamRecord :=
  mkStreamRecord (PStr "arn") (PStr "shard") PNone name PNone PNone seq PNone
    PNone PNone old new.

(** C7: when the id loop finishes and [newImage] is neither None nor
    empty, the handler returns SUCCESS with a Document whose id and
    partition key are the derived id, whose tag is "DOCUMENT" and whose
    payload is [newImage] itself; it logs two debug lines and draws no
    uuid. *)
Theorem parseRecord_success (self : DynamoDBStreamsRecordReader)
    (r : StreamRecord) (st st1 : hstate) (docId : docref) :
  derive_docId st = (Ok docId, st1) →
  is_none_or_empty (newImage r) = Ok false →
  parseRecord self r st
  = (Ok (mkParseDocumentResult PNone
           (IsDocument
              (mkDocument DocumentType_Document (deref docId (hs_keys st1))
                 "DOCUMENT" (deref docId (hs_keys st1)) (PDict [])
                 (newImage r)))
           "SUCCESS"),
     on_world (add_log (mkLog LDebug
                 (log_returning_success (deref docId (hs_keys st1)))))
       (on_world (add_log (mkLog LDebug (log_processing_sequence r))) st1)).
Proof.
  intros Hd He. apply try_except_ok.
  by rewrite (parseRecord_try_run _ _ _ _ _ Hd He).
Qed.

Lemma parseRecord_success_witness :
  call_parseRecord (new_world (λ _, ""))
    (sample_record (PStr "INSERT") (PStr "100") PNone
       (PDict [("x", PStr "1")]))
    (PDict [("pk", PStr "A"); ("sk", PStr "B")])
  = (Ok (mkParseDocumentResult PNone
           (IsDocument
              (mkDocument DocumentType_Document (PStr "A|B") "DOCUMENT"
                 (PStr "A|B") (PDict []) (PDict [("x", PStr "1")])))
           "SUCCESS"),
     mkHState
       (mkWorld
          [mkLog LDebug
             [Lit "processing record - sequenceNumber: "; Val (PStr "100")];
           mkLog LDebug (log_returning_success (PStr "A|B"))] []
          (λ _, "") 0)
       (PDict [("pk", PStr "A"); ("sk", PStr "B")])).
Proof.
  apply (parseRecord_success mkDynamoDBStreamsRecordReader
           (sample_record (PStr "INSERT") (PStr "100") PNone
              (PDict [("x", PStr "1")]))
           (mkHState (new_world (λ _, ""))
              (PDict [("pk", PStr "A"); ("sk", PStr "B")]))
           (mkHState (new_world (λ _, ""))
              (PDict [("pk", PStr "A"); ("sk", PStr "B")]))
           (DocVal (PStr "A|B"))); reflexivity.
Defined.

(** C8: when the id loop finishes and [newImage] is None or empty, the
    handler returns SKIP with a SkipDoc whose id and partition key are the
    derived id, reason code "DYNAMODBSTREAMS_SKIP", reason "delete
    record", and [{"sequenceNumber": sequenceNumber}] in both context
    slots; it logs one error line and draws no uuid. *)
Theorem parseRecord_skip (self : DynamoDBStreamsRecordReader)
    (r : StreamRecord) (st st1 : hstate) (docId : docref) :
  derive_docId st = (Ok docId, st1) →
  is_none_or_empty (newImage r) = Ok true →
  parseRecord self r st
  = (Ok (mkParseDocumentResult PNone
           (IsSkipDoc
              (mkSkipDoc (deref docId (hs_keys st1)) "DYNAMODBSTREAMS_SKIP"
                 (deref docId (hs_keys st1)) (PDict []) (PDict [])
                 (PDict [("sequenceNumber", sequenceNumber r)])
                 (PDict [("sequenceNumber", sequenceNumber r)])
                 "delete record"))
           "SKIP"),
     on_world (add_log (mkLog LError (log_newImage_is_null r (hs_keys st1))))
       st1).
Proof.
  intros Hd He. apply try_except_ok.
  by rewrite (parseRecord_try_run _ _ _ _ _ Hd He).
Qed.

Lemma parseRecord_skip_witness :
  call_parseRecord (new_world (λ _, ""))
    (sample_record (PStr "REMOVE") (PStr "101") (PDict [("x", PStr "1")])
       PNone)
    (PDict [("pk", PStr "A")])
  = (Ok (mkParseDocumentResult PNone
           (IsSkipDoc
              (mkSkipDoc (PStr "A") "DYNAMODBSTREAMS_SKIP" (PStr "A")
                 (PDict []) (PDict [])
                 (PDict [("sequenceNumber", PStr "101")])
                 (PDict [("sequenceNumber", PStr "101")]) "delete record"))
           "SKIP"),
     mkHState
       (mkWorld
          [mkLog LError
             (log_newImage_is_null
                (sample_record (PStr "REMOVE") (PStr "101")
                   (PDict [("x", PStr "1")]) PNone)
                (PDict [("pk", PStr "A")]))] [] (λ _, "") 0)
       (PDict [("pk", PStr "A")])).
Proof.
  apply (parseRecord_skip mkDynamoDBStreamsRecordReader
           (sample_record (PStr "REMOVE") (PStr "101")
              (PDict [("x", PStr "1")]) PNone)
           (mkHState (new_world (λ _, "")) (PDict [("pk", PStr "A")]))
           (mkHState (new_world (λ _, "")) (PDict [("pk", PStr "A")]))
           (DocVal (PStr "A"))); reflexivity.
Defined.

(** C9: when the id loop or the guard raises [ex], the handler returns
    ERROR with an ErrorDoc whose id and partition key are the next uuid
    of the supply, reason code "KINESIS_ERROR", reason "Exception - "
    followed by the message of [ex], and the sequence number in both
    context slots; it logs one debug line and draws exactly that uuid. *)
Theorem parseRecord_exception (self : DynamoDBStreamsRecordReader)
    (r : StreamRecord) (st st1 : hstate) (ex : exn) :
  derive_docId st = (Raised ex, st1) ∨
  (∃ docId, derive_docId st = (Ok docId, st1) ∧
            is_none_or_empty (newImage r) = Raised ex) →
  parseRecord self r st
  = (Ok (mkParseDocumentResult PNone
           (IsErrorDoc
              (mkErrorDoc (PStr (w_uuids (hs_world st1) (uuids_drawn st1)))
                 "KINESIS_ERROR"
                 (PStr (w_uuids (hs_world st1) (uuids_drawn st1)))
                 (PDict []) (PDict [])
                 (PDict [("sequenceNumber", sequenceNumber r)])
                 (PDict [("sequenceNumber", sequenceNumber r)])
                 ("Exception - " +:+ exn_str ex)))
           "ERROR"),
     on_world take_uuid
       (on_world (add_log (mkLog LDebug
          (log_record_exception r (hs_keys st1) ex))) st1)).
Proof.
  intros H. unfold parseRecord.
  rewrite (try_except_raised _ _ _ ex st1); [done|].
  destruct H as [Hd|(docId & Hd & He)].
  - by apply parseRecord_try_loop_raises.
  - by eapply parseRecord_try_guard_raises.
Qed.

Lemma parseRecord_exception_witness :
  call_parseRecord (new_world (λ n, "uuid"))
    (sample_record (PStr "MODIFY") (PStr "102") PNone (PInt 3))
    (PDict [("pk", PStr "A")])
  = (Ok (mkParseDocumentResult PNone
           (IsErrorDoc
              (mkErrorDoc (PStr "uuid") "KINESIS_ERROR" (PStr "uuid")
                 (PDict []) (PDict [])
                 (PDict [("sequenceNumber", PStr "102")])
                 (PDict [("sequenceNumber", PStr "102")])
                 ("Exception - " +:+ msg_no_len (PInt 3))))
           "ERROR"),
     mkHState
       (mkWorld
          [mkLog LDebug
             (log_record_exception
                (sample_record (PStr "MODIFY") (PStr "102") PNone (PInt 3))
                (PDict [("pk", PStr "A")]) (TypeError (msg_no_len (PInt 3))))]
          [] (λ n, "uuid") 1)
       (PDict [("pk", PStr "A")])).
Proof.
  apply (parseRecord_exception mkDynamoDBStreamsRecordReader
           (sample_record (PStr "MODIFY") (PStr "102") PNone (PInt 3))
           (mkHState (new_world (λ n, "uuid")) (PDict [("pk", PStr "A")]))
           (mkHState (new_world (λ n, "uuid")) (PDict [("pk", PStr "A")]))
           (TypeError (msg_no_len (PInt 3)))).
  right. exists (DocVal (PStr "A")). split; reflexivity.
Defined.

(** C10: the outcome and the state a call leaves depend on the record
    only through the six fields the code reads: [oldImage], [eventId],
    the two identity fields, [sizeBytes] and [streamViewType] have no
    influence. *)
Theorem parseRecord_ignores_unread (self : DynamoDBStreamsRecordReader)
    (r r' : StreamRecord) (st : hstate) :
  read_fields r = read_fields r' →
  parseRecord self r st = parseRecord self r' st.
Proof.
  destruct r, r'. unfold read_fields. simpl. intros [= -> -> -> -> -> ->].
  reflexivity.
Qed.

Lemma parseRecord_ignores_unread_witness :
  parseRecord mkDynamoDBStreamsRecordReader
    (sample_record (PStr "REMOVE") (PStr "7") (PDict [("x", PStr "1")]) PNone)
    (mkHState (new_world (λ _, "")) (PDict [("pk", PStr "A")]))
  = parseRecord mkDynamoDBStreamsRecordReader
      (sample_record (PStr "REMOVE") (PStr "7") PNone PNone)
      (mkHState (new_world (λ _, "")) (PDict [("pk", PStr "A")])).
Proof. apply parseRecord_ignores_unread. reflexivity. Defined.

(** The status string of every result is one of "SUCCESS", "SKIP",
    "ERROR" and names the class of the document beside it. *)
Theorem parseRecord_consistent (self : DynamoDBStreamsRecordReader)
    (r : StreamRecord) (st st' : hstate) (res : ParseDocumentResult) :
  parseRecord self r st = (Ok res, st') → result_consistent res = true.
Proof. intros H. record_call_inv H; done. Qed.

Lemma parseRecord_consistent_witness :
  result_consistent
    (mkParseDocumentResult PNone
       (IsSkipDoc (delete_record_doc (PStr "A")
                     (sample_record (PStr "REMOVE") (PStr "7") PNone PNone)))
       "SKIP") = true.
Proof.
  apply (parseRecord_consistent mkDynamoDBStreamsRecordReader
           (sample_record (PStr "REMOVE") (PStr "7") PNone PNone)
           (mkHState (new_world (λ _, "")) (PDict [("pk", PStr "A")]))
           (mkHState
              (mkWorld
                 [mkLog LError
                    (log_newImage_is_null
                       (sample_record (PStr "REMOVE") (PStr "7") PNone PNone)
                       (PDict [("pk", PStr "A")]))] [] (λ _, "") 0)
              (PDict [("pk", PStr "A")]))).
  reflexivity.
Defined.

(** A SKIP result is returned exactly for a [newImage] that is None
    or empty, and a SUCCESS result carries [newImage] unchanged. *)
Theorem parseRecord_status_inv (self : DynamoDBStreamsRecordReader)
    (r : StreamRecord) (st st' : hstate) (res : ParseDocumentResult) :
  parseRecord self r st = (Ok res, st') →
  (pdr_status res = "SKIP" → is_none_or_empty (newImage r) = Ok true) ∧
  (pdr_status res = "SUCCESS" →
   is_none_or_empty (newImage r) = Ok false ∧
   ∃ d, pdr_document res = IsDocument d ∧
        doc_documentKeyValuesMap d = newImage r).
Proof. intros H. record_call_inv H; split; try done; eauto. Qed.

Lemma parseRecord_status_inv_witness :
  (pdr_status
     (mkParseDocumentResult PNone
        (IsSkipDoc (delete_record_doc (PStr "A")
                      (sample_record (PStr "REMOVE") (PStr "7") PNone PNone)))
        "SKIP") = "SKIP" →
   is_none_or_empty
     (newImage (sample_record (PStr "REMOVE") (PStr "7") PNone PNone))
   = Ok true) ∧
  (pdr_status
     (mkParseDocumentResult PNone
        (IsSkipDoc (delete_record_doc (PStr "A")
                      (sample_record (PStr "REMOVE") (PStr "7") PNone PNone)))
        "SKIP") = "SUCCESS" →
   is_none_or_empty
     (newImage (sample_record (PStr "REMOVE") (PStr "7") PNone PNone))
   = Ok false ∧
   ∃ d, pdr_document
          (mkParseDocumentResult PNone
             (IsSkipDoc (delete_record_doc (PStr "A")
                           (sample_record (PStr "REMOVE") (PStr "7") PNone
                              PNone)))
             "SKIP") = IsDocument d ∧
        doc_documentKeyValuesMap d
        = newImage (sample_record (PStr "REMOVE") (PStr "7") PNone PNone)).
Proof.
  apply (parseRecord_status_inv mkDynamoDBStreamsRecordReader
           (sample_record (PStr "REMOVE") (PStr "7") PNone PNone)
           (mkHState (new_world (λ _, "")) (PDict [("pk", PStr "A")]))
           (mkHState
              (mkWorld
                 [mkLog LError
                    (log_newImage_is_null
                       (sample_record (PStr "REMOVE") (PStr "7") PNone PNone)
                       (PDict [("pk", PStr "A")]))] [] (λ _, "") 0)
              (PDict [("pk", PStr "A")]))).
  reflexivity.
Defined.

(** What a call does to the world: one or two log entries, and either no
    uuid or one uuid that becomes the id of the result. *)
Lemma parseRecord_world_step self r st o st' :
  parseRecord self r st = (o, st') →
  ∃ entries k,
    world_step entries k (hs_world st) (hs_world st') ∧
    (length entries = 1 ∨ length entries = 2) ∧
    (k = 0 ∨
     k = 1 ∧ outcome_map result_id o
             = Ok (PStr (w_uuids (hs_world st) (uuids_drawn st)))).
Proof.
  intros H. record_call_inv H.
  all: match goal with
       | Hd : derive_docId _ = _ |- _ =>
           apply derive_docId_world in Hd as Hw
       | Ht : parseRecord_try _ _ = _ |- _ =>
           apply parseRecord_try_world in Ht as Hw
       end; cbn [hs_world]; unfold uuids_drawn; simpl; rewrite Hw.
  - eexists [_; _], 0. split_and!; [|by right|by left].
    eapply (world_step_trans [_] [_] 0 0); auto with py.
  - eexists [_], 0. split_and!; [|by left|by left]. auto with py.
  - eexists [_], 1. split_and!; [|by left|by right].
    eapply (world_step_trans [_] [] 0 1); auto with py.
Qed.

(** A call writes one log entry, or two when it returns SUCCESS,
    and draws either no uuid or exactly one, which is then the id of the
    error document it returns. *)
Theorem parseRecord_effects (self : DynamoDBStreamsRecordReader)
    (r : StreamRecord) (st st' : hstate)
    (o : outcome exn ParseDocumentResult) :
  parseRecord self r st = (o, st') →
  (∃ entries, log_of st' = log_of st ++ entries ∧
              (length entries = 1 ∨ length entries = 2)) ∧
  (uuids_drawn st' = uuids_drawn st ∨
   uuids_drawn st' = S (uuids_drawn st) ∧
   outcome_map result_id o
   = Ok (PStr (w_uuids (hs_world st) (uuids_drawn st)))).
Proof.
  intros (es & k & (Hlog & _ & _ & Hnext) & Hlen & Hk)%parseRecord_world_step.
  split; [by exists es|]. unfold uuids_drawn in *. simpl.
  destruct Hk as [->|[-> Hid]]; [left|right; split; [|done]]; lia.
Qed.

Lemma parseRecord_effects_witness :
  (∃ entries,
     log_of (mkHState
               (mkWorld
                  [mkLog LDebug
                     (log_processing_sequence
                        (sample_record (PStr "INSERT") (PStr "7") PNone
                           (PStr "image")));
                   mkLog LDebug (log_returning_success PNone)] []
                  (λ _, "") 0) (PDict []))
     = log_of (mkHState (new_world (λ _, "")) (PDict [])) ++ entries ∧
     (length entries = 1 ∨ length entries = 2)) ∧
  (uuids_drawn (mkHState
                  (mkWorld
                     [mkLog LDebug
                        (log_processing_sequence
                           (sample_record (PStr "INSERT") (PStr "7") PNone
                              (PStr "image")));
                      mkLog LDebug (log_returning_success PNone)] []
                     (λ _, "") 0) (PDict []))
   = uuids_drawn (mkHState (new_world (λ _, "")) (PDict [])) ∨
   uuids_drawn (mkHState
                  (mkWorld
                     [mkLog LDebug
                        (log_processing_sequence
                           (sample_record (PStr "INSERT") (PStr "7") PNone
                              (PStr "image")));
                      mkLog LDebug (log_returning_success PNone)] []
                     (λ _, "") 0) (PDict []))
   = S (uuids_drawn (mkHState (new_world (λ _, "")) (PDict []))) ∧
   outcome_map (E:=exn) result_id
     (Ok (mkParseDocumentResult PNone
            (IsDocument
               (image_document PNone
                  (sample_record (PStr "INSERT") (PStr "7") PNone
                     (PStr "image")))) "SUCCESS"))
   = Ok (PStr (w_uuids (hs_world (mkHState (new_world (λ _, "")) (PDict [])))
                 (uuids_drawn (mkHState (new_world (λ _, "")) (PDict [])))))).
Proof.
  apply (parseRecord_effects mkDynamoDBStreamsRecordReader
           (sample_record (PStr "INSERT") (PStr "7") PNone (PStr "image"))).
  reflexivity.
Defined.
