(* ===== verification/ReaderContract.v ===== *)
(** * The record-to-result contract

    What the platform relies on when it calls a reader, stated once as a
    type class and discharged by both readers; a sequence of calls, one
    per record, with theorems proved against the class only; and the
    abstract specification of the classification (sections 4.2 and 4.3
    of the specification), which the readers implement on well-typed
    input.

    The sequence of calls is the caller's side of the contract (section
    5 of the specification: one synchronous call per record); what the
    platform does with the results is outside the repository and is not
    modelled. *)

From stdpp Require Import base tactics option list strings.
From Stdlib Require Import ZArith.
From S2P Require Import Prelude PyValue Documents Runtime DocId.
From S2P Require Import TableItemReader StreamsRecordReader.

(** ** The abstract outcome *)

(** The outcome variants of the specification: what a result means, apart
    from how its document is laid out. *)
Inductive Outcome : Type :=
| Success (id payload : pyval)
| Skip (id : pyval) (code reason : string)
| Error (id : pyval) (code reason : string).

#[export] Instance Outcome_eq_dec : EqDecision Outcome.
Proof. solve_decision. Defined.

Definition outcome_of_result (r : ParseDocumentResult) : Outcome :=
  match pdr_document r with
  | IsDocument d => Success (doc_documentId d) (doc_documentKeyValuesMap d)
  | IsSkipDoc s => Skip (skip_documentId s) (skip_recordType s)
                     (skip_skipMessage s)
  | IsErrorDoc e => Error (err_documentId e) (err_recordType e)
                      (err_errorMessage e)
  end.

(** A payload as the specification sees it: absent, or a mapping. *)
Definition payload_value (p : option (list (string * pyval))) : pyval :=
  match p with
  | None => PNone
  | Some m => PDict m
  end.

(** Section 4.2 of the specification, for a key mapping with the string
    values [key_values] in iteration order. *)
Definition classify_item (key_values : list string)
    (item : option (list (string * pyval))) : Outcome :=
  match item with
  | None | Some [] => Error (join_ids key_values) "DDB_ERROR" "empty record"
  | Some m => Success (join_ids key_values) (PDict m)
  end.

(** Section 4.3 of the specification. *)
Definition classify_record (key_values : list string)
    (new_image : option (list (string * pyval))) : Outcome :=
  match new_image with
  | None | Some [] =>
      Skip (join_ids key_values) "DYNAMODBSTREAMS_SKIP" "delete record"
  | Some m => Success (join_ids key_values) (PDict m)
  end.

(** ** The contract between a handler and the platform *)

(** What the platform relies on when it calls a handler with arguments
    [a] in a state holding the record's keys: a result comes back, its
    status names the class of its document, the log is only appended to,
    the uuid supply is only advanced, by at most one uuid, which is then
    the id of the result. *)
Class RecordHandler (Args : Type) : Type := {
  handle : Args → SE hstate exn ParseDocumentResult;
  handle_never_raises : ∀ a, never_raises (handle a);
  handle_consistent : ∀ a st r st',
    handle a st = (Ok r, st') → result_consistent r = true;
  handle_log : ∀ a st o st',
    handle a st = (o, st') → log_of st `prefix_of` log_of st';
  handle_supply : ∀ a st o st',
    handle a st = (o, st') → w_uuids (hs_world st') = w_uuids (hs_world st);
  handle_uuid : ∀ a st o st',
    handle a st = (o, st') →
    uuids_drawn st' = uuids_drawn st ∨
    uuids_drawn st' = S (uuids_drawn st) ∧
    outcome_map result_id o
    = Ok (PStr (w_uuids (hs_world st) (uuids_drawn st)))
}.

Section Platform.
Context {Args : Type} `{RecordHandler Args}.

(** A sequence of calls in one process, one per record with its keys:
    the handler is called on one record after the other, each call in
    the world the previous call left.  Calls are atomic here: a handler
    neither blocks nor yields (section 5 of the specification), so
    calls made at once are a sequence of whole calls in some order. *)
Fixpoint run_batch (records : list (Args * pyval)) (w : world) :
    outcome exn (list ParseDocumentResult) * world :=
  match records with
  | [] => (Ok [], w)
  | (a, keys) :: records' =>
      match handle a (mkHState w keys) with
      | (Ok r, st') =>
          match run_batch records' (hs_world st') with
          | (Ok rs, w') => (Ok (r :: rs), w')
          | (Raised e, w') => (Raised e, w')
          end
      | (Raised e, st') => (Raised e, hs_world st')
      end
  end.

(** No record makes the loop stop: one result per record. *)
Lemma run_batch_total records w :
  ∃ rs w', run_batch records w = (Ok rs, w') ∧ length rs = length records.
Proof.
  revert w. induction records as [|[a keys] records IH]; intros w.
  { by exists [], w. }
  simpl. destruct (never_raises_run (handle a) (mkHState w keys))
    as (r & st' & ->); [apply handle_never_raises|].
  destruct (IH (hs_world st')) as (rs & w' & -> & Hlen).
  exists (r :: rs), w'. simpl. by rewrite Hlen.
Qed.

(** The log a batch leaves extends the log it found. *)
Lemma run_batch_log records w o w' :
  run_batch records w = (o, w') → w_log w `prefix_of` w_log w'.
Proof.
  revert w o w'. induction records as [|[a keys] records IH]; intros w o w'.
  { by intros [= <- <-]. }
  simpl. destruct (handle a (mkHState w keys)) as [[r|e] st'] eqn:Hh;
    apply handle_log in Hh; unfold log_of in Hh; simpl in Hh.
  - destruct (run_batch records (hs_world st')) as [[rs'|e] w''] eqn:Hb;
      apply IH in Hb; intros [= <- <-]; by etrans.
  - by intros [= <- <-].
Qed.

(** The uuids a batch draws are ids of its results, one per record at
    most, and the supply itself is not replaced. *)
Lemma run_batch_uuids records w rs w' :
  run_batch records w = (Ok rs, w') →
  w_uuids w' = w_uuids w ∧
  ∃ k, w_uuid_next w' = w_uuid_next w + k ∧ k ≤ length records ∧
       ∀ i, i < k → PStr (w_uuids w (w_uuid_next w + i)) ∈ result_id <$> rs.
Proof.
  revert w rs w'.
  induction records as [|[a keys] records IH]; intros w rs w'.
  { intros [= <- <-]. split; [done|]. exists 0. split_and!; [lia..|].
    intros i Hi. lia. }
  simpl. destruct (handle a (mkHState w keys)) as [[r|e] st'] eqn:Hh; [|done].
  destruct (run_batch records (hs_world st')) as [[rs'|e] w''] eqn:Hb; [|done].
  intros [= <- <-]. apply IH in Hb as (Hsup & k & Hnext & Hk & Hids).
  pose proof (handle_supply _ _ _ _ Hh) as Hsup'.
  pose proof (handle_uuid _ _ _ _ Hh) as Hu.
  unfold uuids_drawn in Hu. simpl in *. rewrite Hsup' in Hsup, Hids.
  split; [done|]. destruct Hu as [Hu|[Hu Hid]]; rewrite Hu in *.
  - exists k. split_and!; [done|lia|]. intros i Hi. right. by apply Hids.
  - exists (S k). split_and!; [lia..|]. intros [|i] Hi.
    + rewrite Nat.add_0_r. injection Hid as ->. by left.
    + right. replace (w_uuid_next w + S i) with (S (w_uuid_next w) + i) by lia.
      apply Hids. lia.
Qed.

End Platform.

(** ** The two readers satisfy the contract *)

(** The arguments of [parseDynamoDBItem] other than [self] and [keys]. *)
Record ItemArgs : Type := mkItemArgs {
  arg_tableName : pyval;
  arg_segmentNumber : pyval;
  arg_item : pyval
}.

(** The uuid law of the contract, from what a call did to the world. *)
Lemma uuid_law_of_world_step (st st' : hstate)
    (o : outcome exn ParseDocumentResult) es k :
  world_step es k (hs_world st) (hs_world st') →
  k = 0 ∨ k = 1 ∧ outcome_map result_id o
                  = Ok (PStr (w_uuids (hs_world st) (uuids_drawn st))) →
  uuids_drawn st' = uuids_drawn st ∨
  uuids_drawn st' = S (uuids_drawn st) ∧
  outcome_map result_id o = Ok (PStr (w_uuids (hs_world st) (uuids_drawn st))).
Proof.
  intros (_ & _ & _ & Hnext) Hk. unfold uuids_drawn in *. simpl.
  destruct Hk as [->|[-> Hid]]; [left|right; split; [|done]]; lia.
Qed.

#[export, refine] Instance table_item_handler : RecordHandler ItemArgs := {
  handle a :=
    parseDynamoDBItem mkDynamoDBTableItemReader (arg_tableName a)
      (arg_segmentNumber a) (arg_item a)
}.
Proof.
  - intros a. apply try_except_never_raises. auto with py.
  - intros a st r st' H. item_call_inv H; done.
  - intros a st o st' (e & k & Hws & _)%parseDynamoDBItem_world_step.
    by eapply world_step_log.
  - intros a st o st' (e & k & Hws & _)%parseDynamoDBItem_world_step.
    apply Hws.
  - intros a st o st' (e & k & Hws & Hk)%parseDynamoDBItem_world_step.
    by eapply uuid_law_of_world_step.
Defined.

#[export, refine] Instance stream_record_handler : RecordHandler StreamRecord
  := { handle r := parseRecord mkDynamoDBStreamsRecordReader r }.
Proof.
  - intros r. apply try_except_never_raises. auto with py.
  - intros r st res st' H. record_call_inv H; done.
  - intros r st o st' (es & k & Hws & _)%parseRecord_world_step.
    by eapply world_step_log.
  - intros r st o st' (es & k & Hws & _)%parseRecord_world_step.
    apply Hws.
  - intros r st o st' (es & k & Hws & _ & Hk)%parseRecord_world_step.
    by eapply uuid_law_of_world_step.
Defined.

(** ** Refinement of the abstract classification *)

Lemma is_none_or_empty_payload (p : option (list (string * pyval))) :
  is_none_or_empty (payload_value p)
  = Ok (match p with None | Some [] => true | Some _ => false end).
Proof.
  destruct p as [m|]; [|done]. simpl. rewrite is_none_or_empty_dict.
  by destruct m.
Qed.

(** C11: on a key mapping with string values and an item that is absent
    or a mapping, [parseDynamoDBItem] implements section 4.2 of the
    specification: its result means the outcome [classify_item] gives,
    the keys are left as they were, one log entry is written and no uuid
    is drawn. *)
Theorem parseDynamoDBItem_refines (w : world) (tableName segmentNumber : pyval)
    (d : list (string * pyval)) (ss : list string)
    (item : option (list (string * pyval))) :
  str_values d = Some ss →
  ∃ r entry,
    call_parseDynamoDBItem w tableName segmentNumber (PDict d)
      (payload_value item)
    = (Ok r, mkHState (add_log entry w) (PDict d)) ∧
    outcome_of_result r = classify_item ss item.
Proof.
  intros Hd%(derive_docId_strings w).
  pose proof (is_none_or_empty_payload item) as He.
  unfold call_parseDynamoDBItem, parseDynamoDBItem.
  rewrite (try_except_returns _ _ _ _
             (parseDynamoDBItem_try_run _ _ _ _ _ _ _ Hd He));
    [|by destruct item as [[]|]].
  destruct item as [[|kv m]|]; eexists _, _;
    (split; [reflexivity|]); unfold outcome_of_result; simpl;
    by rewrite deref_join_ids.
Qed.

Lemma parseDynamoDBItem_refines_witness :
  ∃ r entry,
    call_parseDynamoDBItem (new_world (λ _, "")) (PStr "t") (PInt 0)
      (PDict [("pk", PStr "A"); ("sk", PStr "B")])
      (payload_value (Some [("x", PStr "1")]))
    = (Ok r, mkHState (add_log entry (new_world (λ _, "")))
               (PDict [("pk", PStr "A"); ("sk", PStr "B")])) ∧
    outcome_of_result r
    = classify_item ["A"; "B"] (Some [("x", PStr "1")]).
Proof.
  apply (parseDynamoDBItem_refines (new_world (λ _, "")) (PStr "t") (PInt 0)
           [("pk", PStr "A"); ("sk", PStr "B")] ["A"; "B"]
           (Some [("x", PStr "1")])).
  reflexivity.
Defined.

(** C12: on a key mapping with string values and a new image that is
    absent or a mapping, [parseRecord] implements section 4.3 of the
    specification: its result means the outcome [classify_record] gives,
    the keys are left as they were and no uuid is drawn. *)
Theorem parseRecord_refines (w : world) (r : StreamRecord)
    (d : list (string * pyval)) (ss : list string)
    (new_image : option (list (string * pyval))) :
  str_values d = Some ss → newImage r = payload_value new_image →
  ∃ res st',
    call_parseRecord w r (PDict d) = (Ok res, st') ∧
    outcome_of_result res = classify_record ss new_image ∧
    hs_keys st' = PDict d ∧ uuids_drawn st' = w_uuid_next w.
Proof.
  intros Hd%(derive_docId_strings w) Hnew.
  pose proof (is_none_or_empty_payload new_image) as He.
  rewrite <- Hnew in He.
  unfold call_parseRecord, parseRecord.
  rewrite (try_except_returns _ _ _ _ (parseRecord_try_run _ _ _ _ _ Hd He));
    [|by destruct new_image as [[]|]].
  destruct new_image as [[|kv m]|]; eexists _, _;
    (split; [reflexivity|]); unfold outcome_of_result; simpl;
    by rewrite deref_join_ids, ?Hnew.
Qed.

Lemma parseRecord_refines_witness :
  ∃ res st',
    call_parseRecord (new_world (λ _, ""))
      (sample_record (PStr "REMOVE") (PStr "7") (PDict [("x", PStr "1")])
         PNone)
      (PDict [("pk", PStr "A")]) = (Ok res, st') ∧
    outcome_of_result res = classify_record ["A"] None ∧
    hs_keys st' = PDict [("pk", PStr "A")] ∧
    uuids_drawn st' = w_uuid_next (new_world (λ _, "")).
Proof.
  apply (parseRecord_refines (new_world (λ _, ""))
           (sample_record (PStr "REMOVE") (PStr "7")
              (PDict [("x", PStr "1")]) PNone)
           [("pk", PStr "A")] ["A"] None); reflexivity.
Defined.

(** ** Sequences of calls of each reader *)

(** A batch of table items never stops the sequence of calls: every
    record gets exactly one result, whatever the records hold. *)
Theorem table_batch_total (records : list (ItemArgs * pyval)) (w : world) :
  ∃ rs w', run_batch (H:=table_item_handler) records w = (Ok rs, w') ∧
           length rs = length records.
Proof. apply run_batch_total. Qed.

(** A batch of stream records never stops the sequence of calls:
    every record gets exactly one result. *)
Theorem stream_batch_total (records : list (StreamRecord * pyval))
    (w : world) :
  ∃ rs w', run_batch (H:=stream_record_handler) records w = (Ok rs, w') ∧
           length rs = length records.
Proof. apply run_batch_total. Qed.

(** Over a batch of table items, every uuid drawn from the supply
    is the id of one of the results, at most one uuid is drawn per
    record, and the supply is the same afterwards. *)
Theorem table_batch_uuids (records : list (ItemArgs * pyval)) (w w' : world)
    (rs : list ParseDocumentResult) :
  run_batch (H:=table_item_handler) records w = (Ok rs, w') →
  w_uuids w' = w_uuids w ∧
  ∃ k, w_uuid_next w' = w_uuid_next w + k ∧ k ≤ length records ∧
       ∀ i, i < k → PStr (w_uuids w (w_uuid_next w + i)) ∈ result_id <$> rs.
Proof. apply run_batch_uuids. Qed.

Lemma table_batch_uuids_witness :
  w_uuids (mkWorld
             [mkLog LDebug
                (log_item_exception (PStr "t") (PInt 0) PNone
                   (AttributeError (msg_no_attribute PNone "values")))] []
             (λ n, "uuid") 1)
  = w_uuids (new_world (λ n, "uuid")) ∧
  ∃ k, w_uuid_next
         (mkWorld
            [mkLog LDebug
               (log_item_exception (PStr "t") (PInt 0) PNone
                  (AttributeError (msg_no_attribute PNone "values")))] []
            (λ n, "uuid") 1)
       = w_uuid_next (new_world (λ n, "uuid")) + k ∧
       k ≤ length [(mkItemArgs (PStr "t") (PInt 0) (PDict []), PNone)] ∧
       ∀ i, i < k →
            PStr (w_uuids (new_world (λ n, "uuid"))
                    (w_uuid_next (new_world (λ n, "uuid")) + i))
            ∈ result_id <$>
              [mkParseDocumentResult PNone
                 (IsErrorDoc
                    (item_exception_doc "uuid" PNone
                       (AttributeError (msg_no_attribute PNone "values"))))
                 "ERROR"].
Proof.
  apply (table_batch_uuids
           [(mkItemArgs (PStr "t") (PInt 0) (PDict []), PNone)]).
  reflexivity.
Defined.

(** A batch of stream records only appends to the log: what was
    logged before the batch is a prefix of the log after it, whether or
    not the loop completes. *)
Theorem stream_batch_log (records : list (StreamRecord * pyval)) (w w' : world)
    (o : outcome exn (list ParseDocumentResult)) :
  run_batch (H:=stream_record_handler) records w = (o, w') →
  w_log w `prefix_of` w_log w'.
Proof. apply run_batch_log. Qed.

Lemma stream_batch_log_witness :
  w_log (new_world (λ _, ""))
  `prefix_of`
  w_log (mkWorld
           [mkLog LError
              (log_newImage_is_null
                 (sample_record (PStr "REMOVE") (PStr "7") PNone PNone)
                 (PDict [("pk", PStr "A")]))] [] (λ _, "") 0).
Proof.
  apply (stream_batch_log
           [(sample_record (PStr "REMOVE") (PStr "7") PNone PNone,
             PDict [("pk", PStr "A")])] _ _
           (Ok [mkParseDocumentResult PNone
                  (IsSkipDoc
                     (delete_record_doc (PStr "A")
                        (sample_record (PStr "REMOVE") (PStr "7") PNone
                           PNone))) "SKIP"])).
  reflexivity.
Defined.
