(* ===== verification/Stateless.v ===== *)
(** * Statelessness of the handlers

    The specification gives statelessness as the concurrency contract of
    the handlers: a call reads its arguments and the [keys] object,
    appends to the log and may draw a uuid, and nothing else of the
    world reaches its result.  This file states that as a relation
    between two runs of one computation from states that hold the same
    [keys]: the runs return the same outcome, leave the same [keys] and
    append the same log entries, provided the uuids they draw are the
    same.

    The relation is proved operation by operation (return, bind, try,
    loop, logger, uuid, the steps of the id loop) and then for the two
    handlers, which an instance of [StatelessHandler] records for the
    clients of the contract. *)

From stdpp Require Import base tactics option list strings.
From Stdlib Require Import Lia.
From S2P Require Import Prelude PyValue Documents Runtime DocId.
From S2P Require Import TableItemReader StreamsRecordReader ReaderContract.

(** ** Definitions *)

(** The world after [entries] were logged and [k] uuids drawn. *)
Definition advance (entries : list log_record) (k : nat) (w : world) : world :=
  mkWorld (w_log w ++ entries) (w_stdout w) (w_uuids w) (w_uuid_next w + k).

(** The next [k] uuids of two worlds are the same. *)
Definition same_supply (k : nat) (w1 w2 : world) : Prop :=
  ∀ i, i < k →
       w_uuids w1 (w_uuid_next w1 + i) = w_uuids w2 (w_uuid_next w2 + i).

(** A computation that sees of the world only the uuids it draws: run
    from another state with the same [keys] and the same next uuids, it
    returns the same outcome, leaves the same [keys], and does to the
    world what it did in the first run. *)
Definition stateless {A} (m : SE hstate exn A) : Prop :=
  ∀ st1 o st1', m st1 = (o, st1') →
  ∃ entries k,
    world_step entries k (hs_world st1) (hs_world st1') ∧
    ∀ st2, hs_keys st2 = hs_keys st1 →
           same_supply k (hs_world st1) (hs_world st2) →
           ∃ st2', m st2 = (o, st2') ∧ hs_keys st2' = hs_keys st1' ∧
                   world_step entries k (hs_world st2) (hs_world st2').

(** A handler of the contract each of whose calls is stateless. *)
Class StatelessHandler (Args : Type) `{RecordHandler Args} : Prop :=
  handle_stateless : ∀ a : Args, stateless (handle a).

Create HintDb stateless discriminated.

(** ** Worlds *)

Lemma world_step_advance es k (w w' : world) :
  world_step es k w w' ↔ w' = advance es k w.
Proof.
  unfold world_step, advance. split; [|by intros ->].
  destruct w'. simpl. by intros (-> & -> & -> & ->).
Qed.

Lemma same_supply_le k k' (w1 w2 : world) :
  k' ≤ k → same_supply k w1 w2 → same_supply k' w1 w2.
Proof. intros Hk Hs i Hi. apply Hs. lia. Qed.

(** After the same step in both worlds the supplies still agree. *)
Lemma same_supply_step es k1 k2 (w1 w1' w2 w2' : world) :
  world_step es k1 w1 w1' → world_step es k1 w2 w2' →
  same_supply (k1 + k2) w1 w2 → same_supply k2 w1' w2'.
Proof.
  intros (_ & _ & Hu1 & Hn1) (_ & _ & Hu2 & Hn2) Hs i Hi.
  rewrite Hu1, Hu2, Hn1, Hn2, <- !Nat.add_assoc. apply Hs. lia.
Qed.

(** ** The operations of the monad *)

Section Reads.
Context {A : Type}.

(** A computation that leaves the state as it is and returns a function
    of [keys]. *)
Lemma stateless_reads (f : pyval → outcome exn A) :
  stateless (λ st, (f (hs_keys st), st)).
Proof.
  intros st1 o st1' [= <- <-]. exists [], 0. split; [apply world_step_refl|].
  intros st2 Hk _. exists st2. rewrite Hk.
  split_and!; [done..|apply world_step_refl].
Qed.

Lemma stateless_ret (a : A) : stateless (ret a).
Proof. apply (stateless_reads (λ _, Ok a)). Qed.

Lemma stateless_lift (o : outcome exn A) : stateless (lift o).
Proof. apply (stateless_reads (λ _, o)). Qed.

Lemma stateless_gets (f : pyval → A) : stateless (gets (λ st, f (hs_keys st))).
Proof. apply (stateless_reads (λ keys, Ok (f keys))). Qed.

End Reads.

Section Operations.
Context {A B : Type}.

Lemma stateless_bind (m : SE hstate exn A) (f : A → SE hstate exn B) :
  stateless m → (∀ a, stateless (f a)) → stateless (bind m f).
Proof.
  intros Hm Hf st1 o st1'. unfold bind.
  destruct (m st1) as [[a|e] st1m] eqn:H1; intros H2.
  - destruct (Hm _ _ _ H1) as (es1 & k1 & Hw1 & Hm2).
    destruct (Hf a _ _ _ H2) as (es2 & k2 & Hw2 & Hf2).
    exists (es1 ++ es2), (k1 + k2). split; [by eapply world_step_trans|].
    intros st2 Hk Hs.
    destruct (Hm2 st2 Hk) as (st2m & -> & Hkm & Hw2m);
      [eapply same_supply_le; [|done]; lia|].
    destruct (Hf2 st2m Hkm) as (st2' & ? & ? & ?);
      [by eapply same_supply_step|].
    exists st2'. split_and!; [done..|by eapply world_step_trans].
  - injection H2 as <- <-.
    destruct (Hm _ _ _ H1) as (es1 & k1 & Hw1 & Hm2).
    exists es1, k1. split; [done|]. intros st2 Hk Hs.
    destruct (Hm2 st2 Hk Hs) as (st2m & -> & ? & ?). by exists st2m.
Qed.

Lemma stateless_try_except (m : SE hstate exn A) (h : exn → SE hstate exn A) :
  stateless m → (∀ e, stateless (h e)) → stateless (try_except m h).
Proof.
  intros Hm Hh st1 o st1'. unfold try_except.
  destruct (m st1) as [[a|e] st1m] eqn:H1; intros H2.
  - injection H2 as <- <-.
    destruct (Hm _ _ _ H1) as (es1 & k1 & Hw1 & Hm2).
    exists es1, k1. split; [done|]. intros st2 Hk Hs.
    destruct (Hm2 st2 Hk Hs) as (st2m & -> & ? & ?). by exists st2m.
  - destruct (Hm _ _ _ H1) as (es1 & k1 & Hw1 & Hm2).
    destruct (Hh e _ _ _ H2) as (es2 & k2 & Hw2 & Hh2).
    exists (es1 ++ es2), (k1 + k2). split; [by eapply world_step_trans|].
    intros st2 Hk Hs.
    destruct (Hm2 st2 Hk) as (st2m & -> & Hkm & Hw2m);
      [eapply same_supply_le; [|done]; lia|].
    destruct (Hh2 st2m Hkm) as (st2' & ? & ? & ?);
      [by eapply same_supply_step|].
    exists st2'. split_and!; [done..|by eapply world_step_trans].
Qed.

End Operations.

Section Loops.
Context {A B : Type}.

Lemma stateless_for_each (body : nat → A → B → SE hstate exn B) i xs acc :
  (∀ i x acc, stateless (body i x acc)) →
  stateless (for_each body i xs acc).
Proof.
  intros Hbody. revert i acc.
  induction xs as [|x xs IH]; intros i acc; [apply stateless_ret|].
  cbn [for_each]. apply stateless_bind; [apply Hbody|]. intros acc'. apply IH.
Qed.

End Loops.

(** ** The effects *)

(** Replacing the [keys] object. *)
Lemma stateless_set_keys (keys : pyval) : stateless (modify (set_keys keys)).
Proof.
  intros st1 o st1' [= <- <-]. exists [], 0. split; [apply world_step_refl|].
  intros st2 _ _. exists (set_keys keys st2).
  split_and!; [done..|apply world_step_refl].
Qed.

Lemma stateless_add_log (r : log_record) :
  stateless (modify (on_world (add_log r))).
Proof.
  intros st1 o st1' [= <- <-]. exists [r], 0.
  split; [apply world_step_add_log|].
  intros st2 Hk _. exists (on_world (add_log r) st2).
  split_and!; [done..|apply world_step_add_log].
Qed.

Lemma stateless_logger_debug msg : stateless (logger_debug msg).
Proof. apply stateless_add_log. Qed.

Lemma stateless_logger_error msg : stateless (logger_error msg).
Proof. apply stateless_add_log. Qed.

(** The one operation whose result comes from the world: it is the next
    uuid, which the two runs share. *)
Lemma stateless_uuid4_str : stateless uuid4_str.
Proof.
  intros st1 o st1'. rewrite uuid4_str_run. intros [= <- <-].
  exists [], 1. split; [apply world_step_take_uuid|].
  intros st2 Hk Hs. exists (on_world take_uuid st2). rewrite uuid4_str_run.
  specialize (Hs 0 (Nat.lt_0_1)). rewrite !Nat.add_0_r in Hs.
  unfold uuids_drawn. simpl. rewrite Hs.
  split_and!; [done..|apply world_step_take_uuid].
Qed.

#[export] Hint Resolve stateless_ret stateless_lift stateless_set_keys
  stateless_logger_debug stateless_logger_error stateless_uuid4_str
  : stateless.

(** One step of a proof that a computation is stateless: the rule of
    the operation at its head, or a case analysis on what it branches
    on. *)
Ltac stateless_step :=
  match goal with
  | |- stateless (bind _ _) => apply stateless_bind; [|intros ?]
  | |- stateless (try_except _ _) => apply stateless_try_except; [|intros ?]
  | |- stateless (for_each _ _ _ _) => apply stateless_for_each; intros ? ? ?
  | |- stateless (gets hs_keys) => apply (stateless_gets id)
  | |- stateless (gets (λ s, ?f (hs_keys s))) => apply (stateless_gets f)
  | |- stateless (if ?b then _ else _) => destruct b
  | |- stateless (match ?x with _ => _ end) => destruct x
  | |- stateless _ => solve [auto with stateless]
  end.

Ltac solve_stateless := repeat stateless_step.

(** ** The id loop *)

Lemma stateless_read_docId docId : stateless (read_docId docId).
Proof. apply (stateless_gets (deref docId)). Qed.

Lemma stateless_docId_iadd docId s : stateless (docId_iadd docId s).
Proof. unfold docId_iadd. solve_stateless. Qed.

Lemma stateless_docId_step i keyValue docId :
  stateless (docId_step i keyValue docId).
Proof.
  unfold docId_step. pose proof stateless_docId_iadd. solve_stateless.
Qed.

Lemma stateless_derive_docId : stateless derive_docId.
Proof.
  unfold derive_docId, docId_loop. pose proof stateless_docId_step.
  solve_stateless.
Qed.

#[export] Hint Resolve stateless_read_docId stateless_derive_docId
  : stateless.

(** ** The handlers *)

Lemma stateless_parseDynamoDBItem self tableName segmentNumber item :
  stateless (parseDynamoDBItem self tableName segmentNumber item).
Proof.
  unfold parseDynamoDBItem, parseDynamoDBItem_try, parseDynamoDBItem_except,
    return_empty_record, return_document. solve_stateless.
Qed.

Lemma stateless_parseRecord self r : stateless (parseRecord self r).
Proof.
  unfold parseRecord, parseRecord_try, parseRecord_except,
    return_delete_record, return_image. solve_stateless.
Qed.

#[export] Instance table_item_stateless : StatelessHandler ItemArgs.
Proof. intros a. apply stateless_parseDynamoDBItem. Qed.

#[export] Instance stream_record_stateless : StatelessHandler StreamRecord.
Proof. intros r. apply stateless_parseRecord. Qed.

(** ** What statelessness gives a caller *)

Lemma world_step_unique es1 es2 k1 k2 (w w' : world) :
  world_step es1 k1 w w' → world_step es2 k2 w w' → es1 = es2 ∧ k1 = k2.
Proof.
  intros (Hl1 & _ & _ & Hn1) (Hl2 & _ & _ & Hn2).
  rewrite Hl1 in Hl2. apply app_inv_head in Hl2. split; [done|lia].
Qed.

(** A call in one world tells what the call does in every world with
    the same next uuids. *)
Lemma stateless_call {A} (m : SE hstate exn A) w1 keys o st1 :
  stateless m → m (mkHState w1 keys) = (o, st1) →
  ∃ entries k,
    world_step entries k w1 (hs_world st1) ∧
    ∀ w2, same_supply k w1 w2 →
          m (mkHState w2 keys)
          = (o, mkHState (advance entries k w2) (hs_keys st1)).
Proof.
  intros Hm H1. destruct (Hm _ _ _ H1) as (es & k & Hw & H2).
  exists es, k. split; [done|]. intros w2 Hs.
  destruct (H2 (mkHState w2 keys) eq_refl Hs)
    as ([w2' keys'] & -> & Hk & Hw2%world_step_advance).
  simpl in *. by subst.
Qed.

(** A call that drew no uuid does the same in every world. *)
Lemma stateless_call_quiet {A} (m : SE hstate exn A) w1 keys o st1 :
  stateless m → m (mkHState w1 keys) = (o, st1) →
  uuids_drawn st1 = w_uuid_next w1 →
  ∀ w2, m (mkHState w2 keys)
        = (o, mkHState (advance (drop (length (w_log w1)) (log_of st1)) 0 w2)
                (hs_keys st1)).
Proof.
  intros Hm H1 Hq w2.
  destruct (stateless_call m w1 keys o st1 Hm H1) as (es & k & Hw & H2).
  pose proof Hw as (Hl & _ & _ & Hn). unfold uuids_drawn, log_of in *.
  simpl in *. assert (k = 0) as -> by lia.
  rewrite Hl, drop_app_length. apply H2. intros i Hi. lia.
Qed.

(** ** Properties *)

(** C13: the outcome of [parseDynamoDBItem], the [keys] it leaves and the
    log entries it appends do not depend on the world it is called in,
    the uuid it draws apart: a call draws at most one uuid, and in every
    world whose next uuids are the same it returns the same outcome,
    leaves the same [keys] and appends the same entries. *)
Theorem parseDynamoDBItem_stateless (w1 : world)
    (tableName segmentNumber keys item : pyval)
    (o : outcome exn ParseDocumentResult) (st1 : hstate) :
  call_parseDynamoDBItem w1 tableName segmentNumber keys item = (o, st1) →
  ∃ entries k,
    k ≤ 1 ∧ hs_world st1 = advance entries k w1 ∧
    ∀ w2, same_supply k w1 w2 →
          call_parseDynamoDBItem w2 tableName segmentNumber keys item
          = (o, mkHState (advance entries k w2) (hs_keys st1)).
Proof.
  intros H1.
  destruct (parseDynamoDBItem_world_step mkDynamoDBTableItemReader
              _ _ _ _ _ _ H1) as (e & k' & Hw' & Hk).
  destruct (stateless_call _ _ _ _ _
              (stateless_parseDynamoDBItem mkDynamoDBTableItemReader
                 tableName segmentNumber item) H1) as (es & k & Hw & H2).
  destruct (world_step_unique _ _ _ _ _ _ Hw Hw') as [_ ->].
  exists es, k'. split_and!; [lia|by apply world_step_advance|done].
Qed.

Lemma parseDynamoDBItem_stateless_witness :
  ∃ entries k,
    k ≤ 1 ∧
    mkWorld [mkLog LDebug (log_processing_record (PStr "A|B"))] []
      (λ _, "") 0
    = advance entries k (new_world (λ _, "")) ∧
    ∀ w2, same_supply k (new_world (λ _, "")) w2 →
          call_parseDynamoDBItem w2 (PStr "t") (PInt 0)
            (PDict [("pk", PStr "A"); ("sk", PStr "B")])
            (PDict [("x", PStr "1")])
          = (Ok (mkParseDocumentResult PNone
                   (IsDocument
                      (mkDocument DocumentType_Document (PStr "A|B")
                         "DOCUMENT" (PStr "A|B") (PDict [])
                         (PDict [("x", PStr "1")])))
                   "SUCCESS"),
             mkHState (advance entries k w2)
               (PDict [("pk", PStr "A"); ("sk", PStr "B")])).
Proof.
  apply (parseDynamoDBItem_stateless (new_world (λ _, "")) (PStr "t")
           (PInt 0) (PDict [("pk", PStr "A"); ("sk", PStr "B")])
           (PDict [("x", PStr "1")]) _
           (mkHState
              (mkWorld [mkLog LDebug (log_processing_record (PStr "A|B"))]
                 [] (λ _, "") 0)
              (PDict [("pk", PStr "A"); ("sk", PStr "B")]))).
  reflexivity.
Defined.

(** C16: the outcome of [parseRecord], the [keys] it leaves and the log
    entries it appends do not depend on the world it is called in, the
    uuid it draws apart: a call draws at most one uuid, and in every
    world whose next uuids are the same it returns the same outcome,
    leaves the same [keys] and appends the same entries. *)
Theorem parseRecord_stateless (w1 : world) (r : StreamRecord) (keys : pyval)
    (o : outcome exn ParseDocumentResult) (st1 : hstate) :
  call_parseRecord w1 r keys = (o, st1) →
  ∃ entries k,
    k ≤ 1 ∧ hs_world st1 = advance entries k w1 ∧
    ∀ w2, same_supply k w1 w2 →
          call_parseRecord w2 r keys
          = (o, mkHState (advance entries k w2) (hs_keys st1)).
Proof.
  intros H1.
  destruct (parseRecord_world_step mkDynamoDBStreamsRecordReader
              _ _ _ _ H1) as (e & k' & Hw' & _ & Hk).
  destruct (stateless_call _ _ _ _ _
              (stateless_parseRecord mkDynamoDBStreamsRecordReader r) H1)
    as (es & k & Hw & H2).
  destruct (world_step_unique _ _ _ _ _ _ Hw Hw') as [_ ->].
  exists es, k'. split_and!; [lia|by apply world_step_advance|done].
Qed.

(** A record whose [keys] is not a mapping: the call takes the except
    clause and draws a uuid. *)
Definition faulty_call : outcome exn ParseDocumentResult * hstate :=
  call_parseRecord (new_world (λ _, "u"))
    (sample_record (PStr "INSERT") (PStr "100") PNone
       (PDict [("x", PStr "1")]))
    (PInt 0).

Lemma parseRecord_stateless_witness :
  ∃ entries k,
    k ≤ 1 ∧ hs_world faulty_call.2 = advance entries k (new_world (λ _, "u")) ∧
    ∀ w2, same_supply k (new_world (λ _, "u")) w2 →
          call_parseRecord w2
            (sample_record (PStr "INSERT") (PStr "100") PNone
               (PDict [("x", PStr "1")]))
            (PInt 0)
          = (faulty_call.1,
             mkHState (advance entries k w2) (hs_keys faulty_call.2)).
Proof.
  apply (parseRecord_stateless (new_world (λ _, "u"))
           (sample_record (PStr "INSERT") (PStr "100") PNone
              (PDict [("x", PStr "1")]))
           (PInt 0) faulty_call.1 faulty_call.2).
  reflexivity.
Defined.
