(* ===== verification/Segments.v ===== *)
(** * Concurrent segments

    A handler is called for the records of several segments or shards
    at once (section 5 of the specification).  A call is one synchronous
    function call that neither blocks nor yields, so a concurrent run is
    modelled as a sequence of whole calls over an interleaving of the
    segments, in the one world the calls share: the log and the uuid
    generator.  The caller is not code of the repository; what is
    proved is a property of the handlers under every such sequence.

    This file defines interleavings, as a relation and as the function
    of a schedule, and proves against the contract of a stateless
    handler that the schedule does not matter for records that take no
    except clause: every record gets the result it gets when handled
    alone in a fresh process, and the log is an interleaving of the logs
    of the segments.  The records that take the except clause get the
    uuids of the supply one after the other in the order of the calls:
    their ids follow the schedule, and no two of them are the same when
    the supply does not repeat itself. *)

From stdpp Require Import base tactics option list strings pretty.
From Stdlib Require Import Lia.
From S2P Require Import Prelude PyValue Documents Runtime DocId.
From S2P Require Import TableItemReader StreamsRecordReader ReaderContract.
From S2P Require Import Stateless.

(** ** Interleavings *)

Section Interleavings.
Context {A : Type}.
Implicit Types (segs : list (list A)) (l s : list A) (schedule : list nat).

(** The list a schedule makes of the segments: at each step the segment
    the schedule names gives its first element; at the end every
    segment is used up. *)
Fixpoint merge (schedule : list nat) (segs : list (list A)) :
    option (list A) :=
  match schedule with
  | [] => if decide (Forall (λ s, s = []) segs) then Some [] else None
  | i :: schedule' =>
      match segs !! i with
      | Some (x :: s) => cons x <$> merge schedule' (<[i:=s]> segs)
      | _ => None
      end
  end.

(** [l] is an interleaving of the segments: the elements of each
    segment, in the order of the segment. *)
Inductive interleaved : list (list A) → list A → Prop :=
| interleaved_done segs :
    Forall (λ s, s = []) segs → interleaved segs []
| interleaved_next segs i x s l :
    segs !! i = Some (x :: s) → interleaved (<[i:=s]> segs) l →
    interleaved segs (x :: l).

End Interleavings.

(** ** Records handled alone *)

Section Alone.
Context {Args : Type} `{RecordHandler Args}.

(** The call for a record in a fresh process: nothing logged, no uuid
    drawn. *)
Definition alone (rc : Args * pyval) :
    outcome exn ParseDocumentResult * hstate :=
  handle rc.1 (mkHState (new_world (λ _, "")) rc.2).

(** The result of that call, and the entries it logs. *)
Definition answer (rc : Args * pyval) : outcome exn ParseDocumentResult :=
  (alone rc).1.

Definition entries_alone (rc : Args * pyval) : list log_record :=
  log_of (alone rc).2.

(** A record whose call draws no uuid: it does not take the except
    clause. *)
Definition quiet (rc : Args * pyval) : bool :=
  bool_decide (uuids_drawn (alone rc).2 = 0).

(** The ids of the results of the records that are not quiet, in the
    order of the records. *)
Definition fault_ids (l : list (Args * pyval))
    (rs : list ParseDocumentResult) : list pyval :=
  omap (λ p, if quiet p.1 then None else Some (result_id p.2)) (zip l rs).

End Alone.

(** ** Laws of interleavings *)

Section InterleavingLaws.
Context {A : Type}.
Implicit Types (segs : list (list A)) (l s : list A) (schedule : list nat).

(** The relation is the graph of the function. *)
Lemma merge_interleaved schedule segs l :
  merge schedule segs = Some l → interleaved segs l.
Proof.
  revert segs l. induction schedule as [|i schedule IH]; intros segs l; simpl.
  - destruct (decide _); [|done]. intros [= <-]. by constructor.
  - destruct (segs !! i) as [[|x s]|] eqn:Hi; [done| |done].
    destruct (merge schedule _) as [l'|] eqn:Hm; [|done].
    intros [= <-]. econstructor; eauto.
Qed.

Lemma interleaved_merge segs l :
  interleaved segs l → ∃ schedule, merge schedule segs = Some l.
Proof.
  induction 1 as [segs Hnil|segs i x s l Hi _ [schedule IH]].
  - exists []. simpl. by rewrite decide_True.
  - exists (i :: schedule). simpl. by rewrite Hi, IH.
Qed.

(** Taking [x] from the segment at [i] takes it from the concatenation,
    up to the order. *)
Lemma concat_insert_head segs i x s :
  segs !! i = Some (x :: s) → concat segs ≡ₚ x :: concat (<[i:=s]> segs).
Proof.
  intros Hi. rewrite insert_take_drop by apply (lookup_lt_Some _ _ _ Hi).
  rewrite <- (take_drop_middle segs i (x :: s) Hi) at 1.
  rewrite !concat_app, !concat_cons. simpl. symmetry. apply Permutation_middle.
Qed.

(** An interleaving has the elements of the segments, no more and no
    fewer. *)
Lemma interleaved_Permutation segs l : interleaved segs l → l ≡ₚ concat segs.
Proof.
  induction 1 as [segs Hnil|segs i x s l Hi _ IH].
  - induction Hnil as [|s segs -> _ IH]; [done|]. by rewrite concat_cons.
  - by rewrite (concat_insert_head segs i x s Hi), IH.
Qed.

(** A segment can give a block of its elements at once. *)
Lemma interleaved_app segs i (b s l : list A) :
  segs !! i = Some (b ++ s) → interleaved (<[i:=s]> segs) l →
  interleaved segs (b ++ l).
Proof.
  revert segs. induction b as [|x b IH]; intros segs Hi Hl.
  - by rewrite list_insert_id in Hl.
  - apply (interleaved_next segs i x (b ++ s)); [done|]. apply IH.
    + apply list_lookup_insert_eq, (lookup_lt_Some _ _ _ Hi).
    + by rewrite list_insert_insert_eq.
Qed.

End InterleavingLaws.

Section InterleavingMaps.
Context {A B : Type}.

(** Mapping commutes with interleaving, schedule by schedule. *)
Lemma merge_fmap (f : A → B) schedule (segs : list (list A)) :
  merge schedule (fmap (M:=list) f <$> segs)
  = fmap (M:=list) f <$> merge schedule segs.
Proof.
  revert segs. induction schedule as [|i schedule IH]; intros segs; simpl.
  - assert (Forall (λ s, s = []) (fmap (M:=list) f <$> segs)
            ↔ Forall (λ s, s = []) segs) as Hnil.
    { rewrite Forall_fmap. apply Forall_proper; [|done]. intros s. simpl.
      split; [apply fmap_nil_inv|by intros ->]. }
    destruct (decide (Forall _ segs)) as [Hs|Hs];
      [rewrite decide_True by by apply Hnil|
       rewrite decide_False by by rewrite Hnil]; done.
  - rewrite list_lookup_fmap. destruct (segs !! i) as [[|x s]|]; [done| |done].
    simpl. rewrite <- list_fmap_insert, IH.
    by destruct (merge schedule _).
Qed.

(** What each element expands to is interleaved as a block. *)
Lemma interleaved_bind (f : A → list B) (segs : list (list A)) (l : list A) :
  interleaved segs l →
  interleaved ((λ s, s ≫= f) <$> segs) (l ≫= f).
Proof.
  induction 1 as [segs Hnil|segs i x s l Hi _ IH].
  - constructor. apply Forall_fmap. eapply Forall_impl; [done|].
    by intros s ->.
  - rewrite bind_cons. apply (interleaved_app _ i (f x) (s ≫= f)).
    + by rewrite list_lookup_fmap, Hi.
    + by rewrite <- (list_fmap_insert (λ s, s ≫= f)).
Qed.

End InterleavingMaps.

(** ** Sequences of calls on quiet records *)

Lemma advance_nil (w : world) : advance [] 0 w = w.
Proof. destruct w. unfold advance. simpl. by rewrite app_nil_r, Nat.add_0_r. Qed.

Lemma advance_advance es1 es2 k1 k2 (w : world) :
  advance es2 k2 (advance es1 k1 w) = advance (es1 ++ es2) (k1 + k2) w.
Proof. unfold advance. simpl. by rewrite app_assoc, Nat.add_assoc. Qed.

Lemma zip_fmap_self {A B} (f : A → B) (l : list A) :
  zip l (f <$> l) = (λ x, (x, f x)) <$> l.
Proof. induction l as [|x l IH]; [done|]. csimpl. by rewrite IH. Qed.

Section Segments.
Context {Args : Type} `{StatelessHandler Args}.
Implicit Types (rc : Args * pyval) (w : world).

Lemma answer_ok rc : ∃ r, answer rc = Ok r.
Proof.
  unfold answer, alone.
  destruct (never_raises_run (handle rc.1) (mkHState (new_world (λ _, "")) rc.2))
    as (r & st & ->); [apply handle_never_raises|]. by exists r.
Qed.

(** A quiet record gets, in every world, the answer it gets alone, and
    its call appends the entries it logs alone. *)
Lemma handle_quiet rc w :
  quiet rc = true →
  handle rc.1 (mkHState w rc.2)
  = (answer rc,
     mkHState (advance (entries_alone rc) 0 w) (hs_keys (alone rc).2)).
Proof.
  intros Hq%bool_decide_eq_true. unfold answer, entries_alone.
  destruct (alone rc) as [o st1] eqn:Ha.
  by apply (stateless_call_quiet (handle rc.1) (new_world (λ _, "")) rc.2 o
              st1 (handle_stateless rc.1)).
Qed.

(** On quiet records the loop is a map: the results are the answers, in
    the order of the records, and the log grows by their entries. *)
Lemma run_batch_quiet (l : list (Args * pyval)) w :
  Forall (λ rc, quiet rc = true) l →
  ∃ rs, run_batch l w = (Ok rs, advance (l ≫= entries_alone) 0 w) ∧
        Ok <$> rs = answer <$> l.
Proof.
  revert w. induction l as [|[a keys] l IH]; intros w Hq.
  { exists []. simpl. by rewrite advance_nil. }
  apply Forall_cons in Hq as [Hq Hl].
  destruct (answer_ok (a, keys)) as [r Hr]. cbn [run_batch].
  pose proof (handle_quiet (a, keys) w Hq) as Hh. cbn [fst snd] in Hh.
  rewrite Hh, Hr. cbn [hs_world].
  destruct (IH (advance (entries_alone (a, keys)) 0 w) Hl) as (rs & -> & Hrs).
  exists (r :: rs). rewrite advance_advance, bind_cons, !fmap_cons, Hr, Hrs.
  done.
Qed.

(** The records of an interleaving of quiet segments are quiet. *)
Lemma interleaved_quiet (segs : list (list (Args * pyval))) l :
  interleaved segs l →
  Forall (Forall (λ rc, quiet rc = true)) segs →
  Forall (λ rc, quiet rc = true) l.
Proof.
  intros Hl%interleaved_Permutation Hq. rewrite Hl. by apply Forall_concat.
Qed.

(** Whatever the schedule, the loop over an interleaving of quiet
    segments gives every record the answer it gets alone, in the order
    of the schedule, and leaves a log that is an interleaving of the
    logs of the segments. *)
Lemma run_schedule (schedule : list nat) (segs : list (list (Args * pyval)))
    l w :
  merge schedule segs = Some l →
  Forall (Forall (λ rc, quiet rc = true)) segs →
  ∃ rs, run_batch l w = (Ok rs, advance (l ≫= entries_alone) 0 w) ∧
        merge schedule (fmap (M:=list) answer <$> segs) = Some (Ok <$> rs) ∧
        interleaved ((λ seg, seg ≫= entries_alone) <$> segs)
          (l ≫= entries_alone).
Proof.
  intros Hm Hq. pose proof (merge_interleaved _ _ _ Hm) as Hl.
  destruct (run_batch_quiet l w (interleaved_quiet segs l Hl Hq))
    as (rs & Hrun & Hrs).
  exists rs. split_and!; [done| |by apply interleaved_bind].
  by rewrite merge_fmap, Hm, Hrs.
Qed.

(** Two schedules of the same quiet segments give every record the same
    result and draw no uuid; their logs have the same entries. *)
Lemma run_two_schedules (s1 s2 : list nat)
    (segs : list (list (Args * pyval))) l1 l2 w :
  merge s1 segs = Some l1 → merge s2 segs = Some l2 →
  Forall (Forall (λ rc, quiet rc = true)) segs →
  ∃ rs1 rs2 w1 w2,
    run_batch l1 w = (Ok rs1, w1) ∧ run_batch l2 w = (Ok rs2, w2) ∧
    zip l1 (Ok (E:=exn) <$> rs1) ≡ₚ zip l2 (Ok (E:=exn) <$> rs2) ∧
    w_log w1 ≡ₚ w_log w2 ∧
    w_uuid_next w1 = w_uuid_next w ∧ w_uuid_next w2 = w_uuid_next w.
Proof.
  intros Hm1%merge_interleaved Hm2%merge_interleaved Hq.
  destruct (run_batch_quiet l1 w (interleaved_quiet segs l1 Hm1 Hq))
    as (rs1 & Hr1 & Hrs1).
  destruct (run_batch_quiet l2 w (interleaved_quiet segs l2 Hm2 Hq))
    as (rs2 & Hr2 & Hrs2).
  apply interleaved_Permutation in Hm1 as Hl1, Hm2 as Hl2.
  eexists rs1, rs2, _, _. split_and!; [done|done| | |simpl; lia..].
  - by rewrite Hrs1, Hrs2, !zip_fmap_self, Hl1, Hl2.
  - simpl. by rewrite Hl1, Hl2.
Qed.

(** *** Records that take the except clause *)

(** A call in any world: a quiet record gets its answer and draws no
    uuid; any other record draws the next uuid, which is the id of its
    result. *)
Lemma handle_cases rc w :
  ∃ r st,
    handle rc.1 (mkHState w rc.2) = (Ok r, st) ∧
    w_uuids (hs_world st) = w_uuids w ∧
    if quiet rc
    then answer rc = Ok r ∧ uuids_drawn st = w_uuid_next w
    else result_id r = PStr (w_uuids w (w_uuid_next w)) ∧
         uuids_drawn st = S (w_uuid_next w).
Proof.
  destruct (never_raises_run (handle rc.1) (mkHState w rc.2))
    as (r & st & Hh); [apply handle_never_raises|].
  exists r, st. split_and!; [done|apply (handle_supply _ _ _ _ Hh)|].
  destruct (quiet rc) eqn:Hq.
  - rewrite (handle_quiet rc w Hq) in Hh. injection Hh as Ha <-.
    split; [done|]. unfold uuids_drawn. simpl. lia.
  - destruct (handle_uuid _ _ _ _ Hh) as [Hu|[Hu Hid]].
    + pose proof (stateless_call_quiet _ _ _ _ _ (handle_stateless rc.1) Hh
                    Hu (new_world (λ _, ""))) as Ha.
      apply bool_decide_eq_false in Hq. destruct Hq.
      unfold alone. by rewrite Ha.
    + simpl in Hid. by injection Hid.
Qed.

(** The loop on any records: the quiet ones get their answers, the
    others the uuids of the supply one after the other, in the order of
    the calls. *)
Lemma run_batch_faults (l : list (Args * pyval)) w :
  ∃ rs w',
    run_batch l w = (Ok rs, w') ∧
    Forall2 (λ rc r, quiet rc = true → answer rc = Ok r) l rs ∧
    fault_ids l rs
    = (λ j, PStr (w_uuids w j))
      <$> seq (w_uuid_next w) (length (filter (λ rc, quiet rc = false) l)).
Proof.
  revert w. induction l as [|[a keys] l IH]; intros w.
  { by exists [], w. }
  destruct (handle_cases (a, keys) w) as (r & st & Hh & Hsup & Hcase).
  destruct (IH (hs_world st)) as (rs & w' & Hrun & Hans & Hids).
  exists (r :: rs), w'. cbn [run_batch]. cbn [fst snd] in Hh.
  rewrite Hh, Hrun. rewrite Hsup in Hids. unfold fault_ids in *.
  cbn [zip zip_with omap list_omap fst snd]. rewrite filter_cons.
  unfold uuids_drawn in Hcase. simpl in Hcase.
  destruct (quiet (a, keys)) eqn:Hq; destruct Hcase as [Hr Hn];
    rewrite Hn in Hids.
  - rewrite decide_False by done.
    split_and!; [done|by constructor|done].
  - rewrite decide_True by done.
    split_and!; [done|constructor; [by rewrite Hq|done]|].
    simpl. by rewrite Hr, Hids.
Qed.

(** When the supply never repeats a uuid, the error documents of the
    records that take the except clause get ids that differ from one
    another, whatever the order of the calls. *)
Lemma run_batch_fresh (l : list (Args * pyval)) w rs w' :
  Inj (=) (=) (w_uuids w) → run_batch l w = (Ok rs, w') →
  NoDup (fault_ids l rs).
Proof.
  intros Hinj Hrun.
  destruct (run_batch_faults l w) as (rs' & w'' & Hrun' & _ & Hids).
  rewrite Hrun in Hrun'. simplify_eq. rewrite Hids.
  apply NoDup_fmap_2, NoDup_seq. intros i j [= Hij]. by apply Hinj.
Qed.

End Segments.

(** ** Well-typed records are quiet *)

(** A table item with string key values and an item that is absent or a
    mapping. *)
Lemma typed_item_quiet (tableName segmentNumber : pyval)
    (d : list (string * pyval)) (ss : list string)
    (item : option (list (string * pyval))) :
  str_values d = Some ss →
  quiet (mkItemArgs tableName segmentNumber (payload_value item), PDict d)
  = true.
Proof.
  intros Hd%(derive_docId_strings (new_world (λ _, ""))).
  pose proof (is_none_or_empty_payload item) as He.
  apply bool_decide_eq_true. unfold alone. cbn [handle table_item_handler].
  unfold parseDynamoDBItem. cbn [fst snd arg_tableName arg_segmentNumber
    arg_item].
  rewrite (try_except_returns _ _ _ _
             (parseDynamoDBItem_try_run _ _ _ _ _ _ _ Hd He));
    by destruct item as [[]|].
Qed.

(** A stream record with string key values and a new image that is
    absent or a mapping. *)
Lemma typed_record_quiet (r : StreamRecord) (d : list (string * pyval))
    (ss : list string) (new_image : option (list (string * pyval))) :
  str_values d = Some ss → newImage r = payload_value new_image →
  quiet (r, PDict d) = true.
Proof.
  intros Hd%(derive_docId_strings (new_world (λ _, ""))) Hnew.
  pose proof (is_none_or_empty_payload new_image) as He.
  rewrite <- Hnew in He.
  apply bool_decide_eq_true. unfold alone. cbn [handle stream_record_handler].
  unfold parseRecord. cbn [fst snd].
  rewrite (try_except_returns _ _ _ _ (parseRecord_try_run _ _ _ _ _ Hd He));
    by destruct new_image as [[]|].
Qed.

(** ** Properties *)

(** C14: segments of a table scanned at once: whatever the schedule of the
    calls, [parseDynamoDBItem] gives every item that takes no except
    clause the result it gets when handled alone in a fresh process, the
    results come in the order of the schedule, no uuid is drawn, and
    the log is an interleaving of the logs of the segments. *)
Theorem table_segments_any_schedule (schedule : list nat)
    (segs : list (list (ItemArgs * pyval))) (l : list (ItemArgs * pyval))
    (w : world) :
  merge schedule segs = Some l →
  Forall (Forall (λ rc, quiet rc = true)) segs →
  ∃ rs, run_batch (H:=table_item_handler) l w
        = (Ok rs, advance (l ≫= entries_alone) 0 w) ∧
        merge schedule (fmap (M:=list) answer <$> segs) = Some (Ok <$> rs) ∧
        interleaved ((λ seg, seg ≫= entries_alone) <$> segs)
          (l ≫= entries_alone).
Proof. apply run_schedule. Qed.

(** The same for the shards of a stream and [parseRecord]. *)
Theorem stream_shards_any_schedule (schedule : list nat)
    (segs : list (list (StreamRecord * pyval)))
    (l : list (StreamRecord * pyval)) (w : world) :
  merge schedule segs = Some l →
  Forall (Forall (λ rc, quiet rc = true)) segs →
  ∃ rs, run_batch (H:=stream_record_handler) l w
        = (Ok rs, advance (l ≫= entries_alone) 0 w) ∧
        merge schedule (fmap (M:=list) answer <$> segs) = Some (Ok <$> rs) ∧
        interleaved ((λ seg, seg ≫= entries_alone) <$> segs)
          (l ≫= entries_alone).
Proof. apply run_schedule. Qed.

(** C15: calls of [parseDynamoDBItem] in any order, faults included: an item
    that takes no except clause gets the result it gets alone; the
    others get the uuids of the supply one after the other in the order
    of the calls, so that, when the supply does not repeat itself, no
    two error documents of faults have the same id. *)
Theorem table_calls_fresh_ids (l : list (ItemArgs * pyval)) (w : world) :
  Inj (=) (=) (w_uuids w) →
  ∃ rs w',
    run_batch (H:=table_item_handler) l w = (Ok rs, w') ∧
    Forall2 (λ rc r, quiet rc = true → answer rc = Ok r) l rs ∧
    fault_ids l rs
    = (λ j, PStr (w_uuids w j))
      <$> seq (w_uuid_next w) (length (filter (λ rc, quiet rc = false) l)) ∧
    NoDup (fault_ids l rs).
Proof.
  intros Hinj. destruct (run_batch_faults l w) as (rs & w' & Hrun & Hans & Hids).
  exists rs, w'. split_and!; [done..|by eapply run_batch_fresh].
Qed.

(** ** Examples *)

(** Two segments of a table: an item, an empty item, and an item of the
    second segment. *)
Definition item_A : ItemArgs * pyval :=
  (mkItemArgs (PStr "t") (PInt 0) (PDict [("x", PStr "1")]),
   PDict [("pk", PStr "A")]).

Definition item_B : ItemArgs * pyval :=
  (mkItemArgs (PStr "t") (PInt 0) (PDict []), PDict [("pk", PStr "B")]).

Definition item_C : ItemArgs * pyval :=
  (mkItemArgs (PStr "t") (PInt 1) (PDict [("y", PStr "2")]),
   PDict [("pk", PStr "C")]).

Definition scan_segments : list (list (ItemArgs * pyval)) :=
  [[item_A; item_B]; [item_C]].

Lemma table_segments_any_schedule_witness :
  ∃ rs, run_batch (H:=table_item_handler) [item_C; item_A; item_B]
          (new_world (λ _, ""))
        = (Ok rs, advance ([item_C; item_A; item_B] ≫= entries_alone) 0
                    (new_world (λ _, ""))) ∧
        merge [1; 0; 0] (fmap (M:=list) answer <$> scan_segments)
        = Some (Ok <$> rs) ∧
        interleaved ((λ seg, seg ≫= entries_alone) <$> scan_segments)
          ([item_C; item_A; item_B] ≫= entries_alone).
Proof.
  apply (table_segments_any_schedule [1; 0; 0] scan_segments
           [item_C; item_A; item_B] (new_world (λ _, "")));
    [reflexivity|by repeat constructor].
Defined.

(** Two shards of a stream: an insert, and a delete in the second
    shard. *)
Definition record_A : StreamRecord * pyval :=
  (sample_record (PStr "INSERT") (PStr "100") PNone (PDict [("x", PStr "1")]),
   PDict [("pk", PStr "A")]).

Definition record_B : StreamRecord * pyval :=
  (sample_record (PStr "REMOVE") (PStr "7") (PDict [("x", PStr "1")]) PNone,
   PDict [("pk", PStr "B")]).

Lemma stream_shards_any_schedule_witness :
  ∃ rs, run_batch (H:=stream_record_handler) [record_B; record_A]
          (new_world (λ _, ""))
        = (Ok rs, advance ([record_B; record_A] ≫= entries_alone) 0
                    (new_world (λ _, ""))) ∧
        merge [1; 0] (fmap (M:=list) answer <$> [[record_A]; [record_B]])
        = Some (Ok <$> rs) ∧
        interleaved ((λ seg, seg ≫= entries_alone)
                       <$> [[record_A]; [record_B]])
          ([record_B; record_A] ≫= entries_alone).
Proof.
  apply (stream_shards_any_schedule [1; 0] [[record_A]; [record_B]]
           [record_B; record_A] (new_world (λ _, "")));
    [reflexivity|by repeat constructor].
Defined.

(** Two items whose [keys] is not a mapping, one per segment: each call
    takes the except clause and draws a uuid. *)
Definition fault_A : ItemArgs * pyval :=
  (mkItemArgs (PStr "t") (PInt 0) (PDict [("x", PStr "1")]), PInt 7).

Definition fault_B : ItemArgs * pyval :=
  (mkItemArgs (PStr "t") (PInt 1) (PDict [("y", PStr "2")]), PInt 8).

Definition two_uuids (n : nat) : string :=
  match n with 0 => "u0" | _ => "u1" end.

Lemma table_calls_fresh_ids_witness :
  ∃ rs w',
    run_batch (H:=table_item_handler) [fault_B; item_A; fault_A]
      (new_world pretty) = (Ok rs, w') ∧
    Forall2 (λ rc r, quiet rc = true → answer rc = Ok r)
      [fault_B; item_A; fault_A] rs ∧
    fault_ids [fault_B; item_A; fault_A] rs
    = (λ j, PStr (w_uuids (new_world pretty) j))
      <$> seq (w_uuid_next (new_world pretty))
            (length (filter (λ rc, quiet rc = false)
                       [fault_B; item_A; fault_A])) ∧
    NoDup (fault_ids [fault_B; item_A; fault_A] rs).
Proof.
  apply (table_calls_fresh_ids [fault_B; item_A; fault_A] (new_world pretty)).
  apply _.
Defined.

(** The ids of error documents follow the schedule: the item of the
    first segment gets the first uuid when its call comes first and the
    second uuid when it comes second. *)
Example fault_ids_follow_schedule :
  merge [0; 1] [[fault_A]; [fault_B]] = Some [fault_A; fault_B] ∧
  merge [1; 0] [[fault_A]; [fault_B]] = Some [fault_B; fault_A] ∧
  quiet fault_A = false ∧
  outcome_map (fmap result_id)
    (run_batch (H:=table_item_handler) [fault_A; fault_B]
       (new_world two_uuids)).1
  = Ok [PStr "u0"; PStr "u1"] ∧
  outcome_map (fmap result_id)
    (run_batch (H:=table_item_handler) [fault_B; fault_A]
       (new_world two_uuids)).1
  = Ok [PStr "u0"; PStr "u1"].
Proof. by vm_compute. Qed.
