(* ===== verification/ToMap.v ===== *)
(** * The to_map udf of the Spark mapper

    [to_map] of [SparkMapperInterface.py] turns the token list of a WARC
    header, [[h; k1; v1; k2; v2; ...]], into the dict [{k1: v1, k2: v2,
    ...}].  It walks the odd indices with [range(1, len(arr), 2)], reads
    [arr[i]] and [arr[i+1]], and catches every exception: what was
    inserted before the exception is returned, and one line is printed.

    The dict under construction is part of the state, since it outlives
    the exception.  It can hold keys of any hashable kind, so it is an
    association list in insertion order, compared the way Python
    compares dict keys ([True] and [1] are the same key). *)

From stdpp Require Import base tactics option list strings gmap.
From Stdlib Require Import ZArith Lia.
From S2P Require Import Prelude PyValue Runtime.

(** ** The dict that is built *)

Definition pymap : Type := list (pyval * pyval).

(** Keys are compared by [==]: a bool is the int it equals. *)
Definition key_norm (k : pyval) : pyval :=
  match k with
  | PBool b => PInt (if b then 1 else 0)
  | _ => k
  end.

Definition same_key (k1 k2 : pyval) : bool :=
  bool_decide (key_norm k1 = key_norm k2).

(** Lists and dicts cannot be keys. *)
Definition hashable (k : pyval) : bool :=
  match k with
  | PList _ | PDict _ => false
  | _ => true
  end.

(** [m[k] = v] on a hashable key: an existing entry keeps its place and
    its key object and gets the new value, a new entry goes last. *)
Fixpoint pymap_set (k v : pyval) (m : pymap) : pymap :=
  match m with
  | [] => [(k, v)]
  | (k', v') :: m' =>
      if same_key k' k then (k', v) :: m' else (k', v') :: pymap_set k v m'
  end.

(** [m.get(k)]. *)
Fixpoint pymap_get (k : pyval) (m : pymap) : option pyval :=
  match m with
  | [] => None
  | (k', v') :: m' => if same_key k' k then Some v' else pymap_get k m'
  end.

(** No two entries have the same key. *)
Definition pymap_wf (m : pymap) : Prop := NoDup (key_norm <$> m.*1).

(** ** The state of a call *)

Record tm_state : Type := mkTm {
  tm_world : world;
  map_value : pymap
}.

#[export, refine] Instance tm_state_has_world : HasWorld tm_state := {
  get_world := tm_world;
  set_world w s := mkTm w (map_value s)
}.
Proof.
  - done.
  - by intros [].
  - done.
Defined.

(** [map_value[key] = value]. *)
Definition map_value_setitem (key value : pyval) : SE tm_state exn unit :=
  if hashable key
  then modify (λ s, mkTm (tm_world s) (pymap_set key value (map_value s)))
  else raise (TypeError (msg_unhashable key)).

(** The body of the loop, lines 27 to 29. *)
Definition to_map_body (arr : pyval) (i : nat) : SE tm_state exn unit :=
  key <- lift (py_getitem arr i) ;;
  value <- lift (py_getitem arr (i + 1)) ;;
  map_value_setitem key value.

(** The try block, lines 26 to 29. *)
Definition to_map_try (arr : pyval) : SE tm_state exn unit :=
  n <- lift (py_len arr) ;;
  for_each (λ _ i _, to_map_body arr i) 0 (py_range 1 (Z.to_nat n) 2) tt.

(** The line the except clause prints. *)
Definition to_map_error_line (err : exn) (arr : pyval) : list fragment :=
  [Lit "error: "; Exc err; Lit ", arr: "; Val arr].

(** The except clause, lines 30 to 32. *)
Definition to_map_except (arr : pyval) (err : exn) : SE tm_state exn unit :=
  py_print (to_map_error_line err arr).

(** [to_map(arr)], lines 23 to 33. *)
Definition to_map (arr : pyval) : SE tm_state exn pymap :=
  modify (λ s, mkTm (tm_world s) []) ;;;
  try_except (to_map_try arr) (to_map_except arr) ;;;
  gets map_value.

(** A call from a world: the dict returned and the world afterwards. *)
Definition call_to_map (w : world) (arr : pyval) : outcome exn pymap * world :=
  let '(o, s) := to_map arr (mkTm w []) in (o, tm_world s).

(** ** The reference definition

    What the loop does to the dict, by recursion on the elements from
    index 1 on, two at a time: a dangling last key is an IndexError, an
    unhashable key a TypeError, and both leave what was inserted. *)
Fixpoint insert_pairs (l : list pyval) (m : pymap) : outcome exn unit * pymap :=
  match l with
  | [] => (Ok tt, m)
  | [_] => (Raised (IndexError msg_index_out_of_range), m)
  | k :: v :: l' =>
      if hashable k then insert_pairs l' (pymap_set k v m)
      else (Raised (TypeError (msg_unhashable k)), m)
  end.

(** The complete pairs of a token list, without its first element. *)
Fixpoint pairs_of (l : list string) : list (string * string) :=
  match l with
  | k :: v :: l' => (k, v) :: pairs_of l'
  | _ => []
  end.

(** The header map of a token list as a finite map: later pairs win. *)
Definition header_map (tokens : list string) : gmap string string :=
  foldl (λ m kv, <[kv.1:=kv.2]> m) ∅ (pairs_of (tail tokens)).

(** ** The dict operations *)

Lemma same_key_refl (k : pyval) : same_key k k = true.
Proof. unfold same_key. by apply bool_decide_eq_true_2. Qed.

Lemma same_key_sym (k1 k2 : pyval) : same_key k1 k2 = same_key k2 k1.
Proof. unfold same_key. apply bool_decide_ext. naive_solver. Qed.

Lemma same_key_trans (k1 k2 k3 : pyval) :
  same_key k1 k2 = true → same_key k2 k3 = same_key k1 k3.
Proof.
  unfold same_key. intros H%bool_decide_eq_true_1.
  apply bool_decide_ext. by rewrite H.
Qed.

Lemma same_key_str (a b : string) :
  same_key (PStr a) (PStr b) = bool_decide (a = b).
Proof. unfold same_key. apply bool_decide_ext. simpl. naive_solver. Qed.

Lemma pymap_get_set_same (k k' v : pyval) (m : pymap) :
  same_key k k' = true → pymap_get k' (pymap_set k v m) = Some v.
Proof.
  intros Hk. induction m as [|[k1 v1] m IH]; simpl.
  - by rewrite Hk.
  - destruct (same_key k1 k) eqn:H1; simpl.
    + by rewrite <- (same_key_trans _ _ _ H1), Hk.
    + by rewrite (same_key_sym k1 k'), (same_key_trans k k' k1 Hk),
        (same_key_sym k k1), H1.
Qed.

Lemma pymap_get_set_other (k k' v : pyval) (m : pymap) :
  same_key k k' = false → pymap_get k' (pymap_set k v m) = pymap_get k' m.
Proof.
  intros Hk. induction m as [|[k1 v1] m IH]; simpl.
  - by rewrite Hk.
  - destruct (same_key k1 k) eqn:H1; simpl; [|by rewrite IH].
    by rewrite <- (same_key_trans _ _ _ H1), Hk.
Qed.

Lemma pymap_set_keys (k v : pyval) (m : pymap) :
  key_norm <$> (pymap_set k v m).*1
  = if bool_decide (key_norm k ∈ key_norm <$> m.*1)
    then key_norm <$> m.*1 else (key_norm <$> m.*1) ++ [key_norm k].
Proof.
  induction m as [|[k1 v1] m IH]; [by simpl|].
  cbn [pymap_set]. unfold same_key at 1.
  destruct (decide (key_norm k1 = key_norm k)) as [H1|H1].
  - rewrite !bool_decide_eq_true_2; [done| |done].
    rewrite !fmap_cons. cbn [fst]. rewrite H1. by left.
  - rewrite (bool_decide_eq_false_2 _ H1), !fmap_cons, IH. cbn [fst].
    destruct (decide (key_norm k ∈ key_norm <$> m.*1)) as [H2|H2].
    + by rewrite !bool_decide_eq_true_2 by (by try right).
    + rewrite !bool_decide_eq_false_2; [done| |done].
      intros [?|?]%elem_of_cons; congruence.
Qed.

Lemma pymap_set_wf (k v : pyval) (m : pymap) :
  pymap_wf m → pymap_wf (pymap_set k v m).
Proof.
  unfold pymap_wf. rewrite pymap_set_keys. case_bool_decide as H; [done|].
  intros Hm. apply NoDup_app. split_and!; [done| |apply NoDup_singleton].
  intros x Hx ->%list_elem_of_singleton. done.
Qed.

(** ** The loop and the reference definition *)

Section Run.
Implicit Types (s : tm_state) (l : list pyval).

Lemma map_value_setitem_run (k v : pyval) s :
  map_value_setitem k v s
  = if hashable k
    then (Ok tt, mkTm (tm_world s) (pymap_set k v (map_value s)))
    else (Raised (TypeError (msg_unhashable k)), s).
Proof. unfold map_value_setitem. by destruct (hashable k). Qed.

Lemma insert_pairs_loop l (rest pre : list pyval) (j : nat) s :
  l = pre ++ rest →
  for_each (λ _ i _, to_map_body (PList l) i) j
    (py_range (length pre) (length l) 2) tt s
  = ((insert_pairs rest (map_value s)).1,
     mkTm (tm_world s) (insert_pairs rest (map_value s)).2).
Proof.
  intros ->. revert pre j s.
  induction rest as [|x|x y rest IH] using list_pair_ind; intros pre j s.
  - rewrite py_range_nil by (rewrite ?length_app; simpl; lia).
    by destruct s.
  - rewrite py_range_cons by (rewrite ?length_app; simpl; lia).
    cbn [for_each]. unfold to_map_body at 1, bind at 1 2, lift.
    rewrite (py_getitem_list _ _ x) by by rewrite list_lookup_middle.
    rewrite py_getitem_list_out by (rewrite length_app; simpl; lia).
    by destruct s.
  - rewrite py_range_cons by (rewrite ?length_app; simpl; lia).
    cbn [for_each]. unfold to_map_body at 1, bind at 1 2 3, lift.
    rewrite (py_getitem_list _ _ x) by by rewrite list_lookup_middle.
    rewrite (py_getitem_list _ _ y) by apply list_lookup_middle_next.
    rewrite map_value_setitem_run. cbn [insert_pairs].
    destruct (hashable x); [|by destruct s].
    replace (pre ++ x :: y :: rest) with ((pre ++ [x; y]) ++ rest)
      by by rewrite <- app_assoc.
    replace (length pre + 2) with (length (pre ++ [x; y]))
      by (rewrite length_app; simpl; lia).
    by rewrite IH.
Qed.

Lemma to_map_try_list l s :
  to_map_try (PList l) s
  = ((insert_pairs (tail l) (map_value s)).1,
     mkTm (tm_world s) (insert_pairs (tail l) (map_value s)).2).
Proof.
  unfold to_map_try, bind at 1, lift. cbn [py_len]. rewrite Nat2Z.id.
  destruct l as [|h t].
  - rewrite py_range_nil by (simpl; lia). by destruct s.
  - by rewrite (insert_pairs_loop (h :: t) t [h]).
Qed.

Lemma never_raises_to_map_except (arr : pyval) (err : exn) :
  never_raises (to_map_except arr err).
Proof. by intros s. Qed.

Lemma to_map_run (arr : pyval) s :
  to_map arr s
  = match to_map_try arr (mkTm (tm_world s) []) with
    | (Ok _, s') => (Ok (map_value s'), s')
    | (Raised e, s') =>
        (Ok (map_value s'),
         mkTm (add_stdout (to_map_error_line e arr) (tm_world s'))
           (map_value s'))
    end.
Proof.
  unfold to_map, bind, modify, try_except.
  by destruct (to_map_try arr _) as [[[]|e] s'].
Qed.

Lemma insert_pairs_wf (l : list pyval) (m : pymap) :
  pymap_wf m → pymap_wf (insert_pairs l m).2.
Proof.
  revert m. induction l as [|x|x y l IH] using list_pair_ind; intros m Hm;
    cbn [insert_pairs]; [done..|].
  destruct (hashable x); [|done]. by apply IH, pymap_set_wf.
Qed.

(** On string tokens nothing is unhashable: the loop inserts the pairs
    and fails only on a dangling key. *)
Lemma insert_pairs_strings (tokens : list string) (m : pymap) :
  insert_pairs (PStr <$> tokens) m
  = (if Nat.even (length tokens) then Ok tt
     else Raised (IndexError msg_index_out_of_range),
     foldl (λ m kv, pymap_set (PStr kv.1) (PStr kv.2) m) m (pairs_of tokens)).
Proof.
  revert m. induction tokens as [|x|x y l IH] using list_pair_ind; intros m;
    [done..|].
  rewrite !fmap_cons. cbn [insert_pairs hashable pairs_of foldl].
  by rewrite IH.
Qed.

Lemma foldl_pymap_get (ps : list (string * string)) (m : pymap)
    (g : gmap string string) (k : string) :
  pymap_get (PStr k) m = PStr <$> g !! k →
  pymap_get (PStr k)
    (foldl (λ m kv, pymap_set (PStr kv.1) (PStr kv.2) m) m ps)
  = PStr <$> foldl (λ m kv, <[kv.1:=kv.2]> m) g ps !! k.
Proof.
  revert m g. induction ps as [|[a b] ps IH]; intros m g Hm; [done|].
  cbn [foldl]. apply IH. simpl. destruct (decide (a = k)) as [->|Hne].
  - by rewrite pymap_get_set_same, lookup_insert_eq by apply same_key_refl.
  - rewrite pymap_get_set_other, lookup_insert_ne; [done..|].
    rewrite same_key_str. by apply bool_decide_eq_false_2.
Qed.

End Run.

Lemma to_map_body_wf (arr : pyval) (i : nat) (s : tm_state) :
  pymap_wf (map_value s) → pymap_wf (map_value (to_map_body arr i s).2).
Proof.
  intros Hs. unfold to_map_body, bind, lift.
  destruct (py_getitem arr i) as [key|]; [|done].
  destruct (py_getitem arr (i + 1)) as [value|]; [|done].
  rewrite map_value_setitem_run. destruct (hashable key); [|done].
  by apply pymap_set_wf.
Qed.

Lemma to_map_try_wf (arr : pyval) (s : tm_state) :
  pymap_wf (map_value s) → pymap_wf (map_value (to_map_try arr s).2).
Proof.
  intros Hs. unfold to_map_try, bind at 1, lift.
  destruct (py_len arr); [|done].
  apply (for_each_inv (λ s, pymap_wf (map_value s))); [|done].
  intros. by apply to_map_body_wf.
Qed.

Lemma to_map_try_world (arr : pyval) (s : tm_state) :
  tm_world (to_map_try arr s).2 = tm_world s.
Proof.
  unfold to_map_try, bind at 1, lift. destruct (py_len arr); [|done].
  apply (for_each_inv (λ s', tm_world s' = tm_world s)); [|done].
  intros i x [] s' Hs'. unfold to_map_body, bind, lift.
  destruct (py_getitem arr x) as [key|]; [|done].
  destruct (py_getitem arr (x + 1)) as [value|]; [|done].
  rewrite map_value_setitem_run. by destruct (hashable key).
Qed.

(** A call on a list, by the reference definition. *)
Lemma call_to_map_list (l : list pyval) (w : world) :
  call_to_map w (PList l)
  = match insert_pairs (tail l) [] with
    | (Ok _, m) => (Ok m, w)
    | (Raised e, m) =>
        (Ok m, add_stdout (to_map_error_line e (PList l)) w)
    end.
Proof.
  unfold call_to_map. rewrite to_map_run, to_map_try_list. cbn [map_value].
  by destruct (insert_pairs (tail l) []) as [[[]|e] m].
Qed.

(** A call on string tokens: the complete pairs are inserted in order. *)
Lemma call_to_map_strings (tokens : list string) (w : world) :
  (call_to_map w (PList (PStr <$> tokens))).1
  = Ok (foldl (λ m kv, pymap_set (PStr kv.1) (PStr kv.2) m) []
          (pairs_of (tail tokens))).
Proof.
  rewrite call_to_map_list, <- fmap_tail, insert_pairs_strings.
  by destruct (Nat.even _).
Qed.

(** ** Properties *)

(** C20: [to_map] returns a dict on every argument: whatever the loop
    raises is caught, and the except clause cannot raise. *)
Theorem to_map_never_raises (arr : pyval) (w : world) :
  ∃ m w', call_to_map w arr = (Ok m, w').
Proof.
  unfold call_to_map. rewrite to_map_run.
  destruct (to_map_try arr _) as [[[]|e] s']; eauto.
Qed.

(** C21: on a list, the index loop of [to_map] does what the recursion
    over the elements after the first does, two at a time: it returns
    the entries inserted before the first failure, and prints one line
    when there was a failure. *)
Theorem to_map_insert_pairs (l : list pyval) (w : world) :
  call_to_map w (PList l)
  = match insert_pairs (tail l) [] with
    | (Ok _, m) => (Ok m, w)
    | (Raised e, m) =>
        (Ok m, add_stdout (to_map_error_line e (PList l)) w)
    end.
Proof. apply call_to_map_list. Qed.

(** C22: on a list of string tokens, looking a key up in the dict
    [to_map] returns is looking it up in the header map of the
    specification, in which the last pair of a key wins. *)
Theorem to_map_header_map (tokens : list string) (w : world) :
  ∃ m w', call_to_map w (PList (PStr <$> tokens)) = (Ok m, w') ∧
          ∀ k, pymap_get (PStr k) m = PStr <$> header_map tokens !! k.
Proof.
  rewrite call_to_map_list, <- fmap_tail, insert_pairs_strings.
  destruct (Nat.even _); eexists _, _; (split; [reflexivity|]);
    intros k; by apply foldl_pymap_get.
Qed.

(** C23: on a list of string tokens [to_map] prints exactly when a key
    has no value after it, which is when the list has an even, non-zero
    number of tokens; the line names the IndexError and the list. *)
Theorem to_map_dangling_key (tokens : list string) (w : world) :
  (call_to_map w (PList (PStr <$> tokens))).2
  = if Nat.odd (length (tail tokens))
    then add_stdout
           (to_map_error_line (IndexError msg_index_out_of_range)
              (PList (PStr <$> tokens))) w
    else w.
Proof.
  rewrite call_to_map_list, <- fmap_tail, insert_pairs_strings.
  rewrite <- Nat.negb_even. by destruct (Nat.even _).
Qed.

(** The dict [to_map] returns has no two entries with the same
    key, whatever the argument. *)
Theorem to_map_wf (arr : pyval) (w w' : world) (m : pymap) :
  call_to_map w arr = (Ok m, w') → pymap_wf m.
Proof.
  unfold call_to_map. rewrite to_map_run.
  pose proof (to_map_try_wf arr (mkTm w [])) as Hwf.
  destruct (to_map_try arr _) as [[[]|e] s']; intros [= <- _];
    apply Hwf, NoDup_nil_2.
Qed.

Lemma to_map_wf_witness :
  pymap_wf [(PInt 1, PStr "y")].
Proof.
  apply (to_map_wf
           (PList [PNone; PInt 1; PStr "x"; PBool true; PStr "y"])
           (new_world (λ _, "")) (new_world (λ _, ""))).
  reflexivity.
Defined.

(** [to_map] touches nothing but the standard output, to which it
    adds at most one line: the log and the uuid supply are as before. *)
Theorem to_map_world (arr : pyval) (w : world) :
  ∃ lines, length lines ≤ 1 ∧
    (call_to_map w arr).2
    = mkWorld (w_log w) (w_stdout w ++ lines) (w_uuids w) (w_uuid_next w).
Proof.
  unfold call_to_map. rewrite to_map_run.
  pose proof (to_map_try_world arr (mkTm w [])) as Hw.
  destruct (to_map_try arr _) as [[[]|e] s']; cbn [snd tm_world] in *;
    rewrite Hw.
  - exists []. rewrite app_nil_r. split; [simpl; lia | by destruct w].
  - eexists [_]. split; [simpl; lia | done].
Qed.

(** Reading a key back after [map_value[k] = v] gives [v] for a
    key equal to [k] and what was there before for any other key. *)
Theorem pymap_get_set (k k' v : pyval) (m : pymap) :
  pymap_get k' (pymap_set k v m)
  = if same_key k k' then Some v else pymap_get k' m.
Proof.
  destruct (same_key k k') eqn:Hk;
    [by apply pymap_get_set_same | by apply pymap_get_set_other].
Qed.

(** An argument that has no length (None, a bool, an int) gives
    the empty dict, and the TypeError of [len] is printed. *)
Theorem to_map_unsized (arr : pyval) (w : world) :
  py_len arr = Raised (TypeError (msg_no_len arr)) →
  call_to_map w arr
  = (Ok [], add_stdout
              (to_map_error_line (TypeError (msg_no_len arr)) arr) w).
Proof.
  intros H. unfold call_to_map. rewrite to_map_run.
  unfold to_map_try, bind, lift. by rewrite H.
Qed.

Lemma to_map_unsized_witness :
  call_to_map (new_world (λ _, "")) PNone
  = (Ok [], add_stdout
              (to_map_error_line (TypeError (msg_no_len PNone)) PNone)
              (new_world (λ _, ""))).
Proof. apply (to_map_unsized PNone (new_world (λ _, ""))). reflexivity. Defined.
