(* ===== verification/SparkEngine.v ===== *)
(** * The dataframe engine the Spark handlers call

    [mapper] and [reducer] contain no algorithm of their own: they wire
    operators of pyspark ([select], [withColumn], [where], [drop],
    [groupBy], [agg], [orderBy], [union]) and column functions
    ([regexp_replace], [split], [expr], [cast], [to_timestamp],
    [percentile], [count]).  Neither pyspark nor [letsdata_utils] is part
    of the repository, so this file models them from their documented
    behaviour, as far as the two handlers use them:

    - a dataframe is a list of column names and a list of rows; columns
      are resolved by name, a reference to a missing column raises;
    - the three regular expressions of the mapper are modelled as what
      they match: white space at both ends, and alternatives of literal
      separators;
    - ANSI mode is off: an index out of range, a missing map key and a
      string that is no numeral give null where ANSI mode raises;
    - the cast of a string to integer accepts blanks at both ends, a
      sign, digits and a fraction that is dropped, within 32 bits;
    - percentiles are computed in exact rationals, where the engine
      uses doubles, and [to_timestamp] is a parameter;
    - the order of the groups of [groupBy] and of rows with equal sort
      keys, which the engine does not fix, is fixed (groups in the
      order of their last rows, a stable sort);
    - the engine's static typing is not modelled: an operator applied to
      a value of another type gives null;
    - evaluation is eager and sequential; laziness, partitioning and the
      order of rows across partitions are not modelled. *)

From stdpp Require Import base tactics option list strings gmap sorting.
From Stdlib Require Import Ascii ZArith QArith Qround Lia.
From S2P Require Import Prelude PyValue Runtime ToMap.

Local Open Scope Z_scope.

(** ** Strings *)

Definition cr : Ascii.ascii := Ascii.ascii_of_nat 13.
Definition lf : Ascii.ascii := Ascii.ascii_of_nat 10.

(** ['\r\n'] and ['\r\n\r\n']. *)
Definition crlf : string := String cr (String lf "").
Definition blank_line : string := String cr (String lf crlf).

(** What a leading [\s+] removes. *)
Fixpoint lstrip (s : string) : string :=
  match s with
  | String c s' => if Ascii.is_space c then lstrip s' else s
  | EmptyString => ""
  end.

(** What a trailing [\s+] removes. *)
Fixpoint rstrip (s : string) : string :=
  match s with
  | EmptyString => ""
  | String c s' =>
      match rstrip s' with
      | EmptyString => if Ascii.is_space c then "" else String c ""
      | t => String c t
      end
  end.

Definition trim (s : string) : string := rstrip (lstrip s).

(** The first separator of [seps] that [s] starts with. *)
Definition sep_at (seps : list string) (s : string) : option string :=
  List.find (λ sep, String.prefix sep s) seps.

(** The pieces of [s] between the leftmost, non-overlapping occurrences
    of the separators, empty pieces included: [skip] is the number of
    characters of a matched separator still to pass. *)
Fixpoint split_go (seps : list string) (s : string) (skip : nat) :
    list string :=
  match s with
  | EmptyString => [""]
  | String c s' =>
      match skip with
      | S k => split_go seps s' k
      | O =>
          match sep_at seps s with
          | Some sep => "" :: split_go seps s' (String.length sep - 1)
          | None =>
              match split_go seps s' 0 with
              | t :: ts => String c t :: ts
              | [] => [String c ""]
              end
          end
      end
  end.

Definition split_on (seps : list string) (s : string) : list string :=
  split_go seps s 0.

(** The patterns of the mapper: [^\s+|\s+$], and an alternative of
    literal separators (['\r\n\r\n'], [': |\r\n']). *)
Inductive pattern : Type :=
| TrimSpaces
| Seps (seps : list string).

#[export] Instance pattern_eq_dec : EqDecision pattern.
Proof. solve_decision. Defined.

(** [regexp_replace(s, p, r)]: every match replaced by [r]. *)
Definition regexp_replace (p : pattern) (r : string) (s : string) : string :=
  match p with
  | TrimSpaces =>
      (if bool_decide (lstrip s = s) then "" else r) +:+ trim s
      +:+ (if bool_decide (rstrip (lstrip s) = lstrip s) then "" else r)
  | Seps seps => str_join r (split_on seps s)
  end.

(** [split(s, p)] with the default limit, which keeps empty pieces. *)
Definition split (p : pattern) (s : string) : list string :=
  match p with
  | TrimSpaces => [s]
  | Seps seps => split_on seps s
  end.

(** ** Casting a string to a 32-bit integer *)

Definition int_min : Z := - 2 ^ 31.
Definition int_max : Z := 2 ^ 31 - 1.

(** The value of a string of decimal digits. *)
Fixpoint digits_value (s : string) (acc : Z) : option Z :=
  match s with
  | EmptyString => Some acc
  | String c s' =>
      match Ascii.is_nat c with
      | Some d => digits_value s' (10 * acc + Z.of_nat d)
      | None => None
      end
  end.

(** The characters the cast removes at both ends: the codes up to 0x20,
    white space and the control characters below it. *)
Definition is_blank (c : Ascii.ascii) : bool :=
  bool_decide (Ascii.nat_of_ascii c ≤ 32)%nat.

Fixpoint drop_blank (s : string) : string :=
  match s with
  | String c s' => if is_blank c then drop_blank s' else s
  | EmptyString => ""
  end.

Definition trim_blank (s : string) : string :=
  String.rev (drop_blank (String.rev (drop_blank s))).

(** An optional sign and what follows it. *)
Definition split_sign (t : string) : bool * string :=
  match t with
  | String "-"%char t' => (true, t')
  | String "+"%char t' => (false, t')
  | _ => (false, t)
  end.

(** What stands before the first period and, when there is one, what
    follows it. *)
Fixpoint split_point (s : string) : string * option string :=
  match s with
  | EmptyString => ("", None)
  | String "."%char s' => ("", Some s')
  | String c s' => let '(whole, fraction) := split_point s' in
                   (String c whole, fraction)
  end.

(** [cast(s as integer)] with ANSI mode off: blanks are removed at both
    ends, then come an optional sign, decimal digits and, optionally, a
    period with further digits, which are dropped.  The result is null
    when nothing follows the blanks or the sign, when another character
    occurs, or when the value does not fit 32 bits. *)
Definition cast_integer (s : string) : option Z :=
  let '(neg, body) := split_sign (trim_blank s) in
  if bool_decide (body = "") then None
  else
    let '(whole, fraction) := split_point body in
    n ← digits_value whole 0;
    _ ← digits_value (default "" fraction) 0;
    let v := if neg : bool then - n else n in
    if bool_decide (int_min ≤ v ≤ int_max) then Some v else None.

(** ** Values, rows and dataframes *)

(** The values of a cell.  Arrays and maps hold strings, which is what
    [split] and the udf produce. *)
Inductive sqlval : Type :=
| SNull
| SString (s : string)
| SInt (z : Z)
| SLong (z : Z)
| SDouble (q : Q)
| STimestamp (t : Z)
| SBool (b : bool)
| SArray (l : list (option string))
| SMap (m : list (string * option string)).

#[export] Instance Q_eq_dec : EqDecision Q.
Proof. solve_decision. Defined.

#[export] Instance sqlval_eq_dec : EqDecision sqlval.
Proof. solve_decision. Defined.

#[export] Instance sqlval_inhabited : Inhabited sqlval := populate SNull.

Definition row : Type := list sqlval.

Record DataFrame : Type := mkDataFrame {
  df_columns : list string;
  df_rows : list row
}.

#[export] Instance dataframe_eq_dec : EqDecision DataFrame.
Proof. solve_decision. Defined.

(** Every row has a cell for every column. *)
Definition df_wf (df : DataFrame) : Prop :=
  Forall (λ r : row, length r = length (df_columns df)) (df_rows df).

#[export] Instance df_wf_dec (df : DataFrame) : Decision (df_wf df).
Proof. unfold df_wf. apply _. Defined.

(** The position of a column. *)
Fixpoint col_index (name : string) (cols : list string) : option nat :=
  match cols with
  | [] => None
  | c :: cols' =>
      if bool_decide (c = name) then Some O else S <$> col_index name cols'
  end.

(** The cell of a row under a column; null when there is none. *)
Definition cell (cols : list string) (r : row) (name : string) : sqlval :=
  match col_index name cols with
  | Some i => default SNull (r !! i)
  | None => SNull
  end.

(** ** The udf boundary

    The engine passes an array to the udf as a Python list (null as
    None) and reads the dict it returns as a map of strings. *)
Definition py_of_sql (v : sqlval) : pyval :=
  match v with
  | SArray l => PList ((λ o, match o with
                             | Some s => PStr s
                             | None => PNone
                             end) <$> l)
  | SString s => PStr s
  | _ => PNone
  end.

Definition sql_entry (kv : pyval * pyval) :
    option (string * option string) :=
  match kv with
  | (PStr k, PStr v) => Some (k, Some v)
  | (PStr k, _) => Some (k, None)
  | _ => None
  end.

Definition sql_of_pymap (m : pymap) : sqlval := SMap (omap sql_entry m).

(** The dict [to_map] returns; what it prints stays on the executor. *)
Definition to_map_value (arr : pyval) : pymap :=
  match (call_to_map (new_world (λ _, "")) arr).1 with
  | Ok m => m
  | Raised _ => []
  end.

(** [m[k]] of a map: null for a missing key. *)
Fixpoint map_get (k : string) (m : list (string * option string)) : sqlval :=
  match m with
  | [] => SNull
  | (k', v) :: m' =>
      if bool_decide (k' = k)
      then match v with Some s => SString s | None => SNull end
      else map_get k m'
  end.

(** ** Column expressions *)

(** The one type the handlers cast to. *)
Variant sqltype : Type := IntegerType.

(** The columns the handlers build: [col('x')], [df.x] and a name in
    [expr] are [Col]; [lit]; [.alias]; [regexp_replace]; [split];
    [s[i]] and [m['k']] of [expr]; [.cast]; [to_timestamp]; the udf
    [array_to_map]; [==]. *)
Inductive column : Type :=
| Col (name : string)
| CLit (s : string)
| Alias (c : column) (name : string)
| RegexpReplace (c : column) (p : pattern) (r : string)
| Split (c : column) (p : pattern)
| GetItem (c : column) (i : nat)
| GetKey (c : column) (key : string)
| Cast (c : column) (t : sqltype)
| ToTimestamp (c : column)
| ArrayToMap (c : column)
| EqTo (c1 c2 : column).

(** The names a column refers to. *)
Fixpoint column_refs (c : column) : list string :=
  match c with
  | Col name => [name]
  | CLit _ => []
  | Alias c _ | RegexpReplace c _ _ | Split c _ | GetItem c _ | GetKey c _
  | Cast c _ | ToTimestamp c | ArrayToMap c => column_refs c
  | EqTo c1 c2 => column_refs c1 ++ column_refs c2
  end.

(** The name of the column in the result of a [select].  The handlers
    select names and aliases only; the name the engine makes up for
    another expression is not modelled. *)
Fixpoint column_name (c : column) : string :=
  match c with
  | Col name => name
  | Alias _ name => name
  | CLit s => s
  | RegexpReplace c _ _ | Split c _ | GetItem c _ | GetKey c _ | Cast c _
  | ToTimestamp c | ArrayToMap c => column_name c
  | EqTo c1 _ => column_name c1
  end.

Definition msg_unresolved (name : string) : string :=
  "cannot resolve column '" +:+ name +:+ "'".

Definition msg_no_df_attribute (name : string) : string :=
  "'DataFrame' object has no attribute '" +:+ name +:+ "'".

Definition msg_union_columns : string :=
  "Union can only be performed on tables with the same number of columns".

(** Every name the columns refer to is a column of the dataframe. *)
Definition resolve (cols : list string) (cs : list column) :
    outcome exn unit :=
  match List.find (λ n, bool_decide (n ∉ cols)) (cs ≫= column_refs) with
  | Some n => Raised (AnalysisException (msg_unresolved n))
  | None => Ok tt
  end.

Section Engine.
(** [to_timestamp] on a string: the engine's parser, left open. *)
Context (to_timestamp : string → option Z).

(** The value of a column on a row. *)
Fixpoint eval (cols : list string) (r : row) (c : column) : sqlval :=
  match c with
  | Col name => cell cols r name
  | CLit s => SString s
  | Alias c _ => eval cols r c
  | RegexpReplace c p rep =>
      match eval cols r c with
      | SString s => SString (regexp_replace p rep s)
      | _ => SNull
      end
  | Split c p =>
      match eval cols r c with
      | SString s => SArray (Some <$> split p s)
      | _ => SNull
      end
  | GetItem c i =>
      match eval cols r c with
      | SArray l =>
          match l !! i with Some (Some s) => SString s | _ => SNull end
      | _ => SNull
      end
  | GetKey c k =>
      match eval cols r c with
      | SMap m => map_get k m
      | _ => SNull
      end
  | Cast c IntegerType =>
      match eval cols r c with
      | SString s =>
          match cast_integer s with Some z => SInt z | None => SNull end
      | SInt z => SInt z
      | _ => SNull
      end
  | ToTimestamp c =>
      match eval cols r c with
      | SString s =>
          match to_timestamp s with Some t => STimestamp t | None => SNull end
      | _ => SNull
      end
  | ArrayToMap c => sql_of_pymap (to_map_value (py_of_sql (eval cols r c)))
  | EqTo c1 c2 =>
      match eval cols r c1, eval cols r c2 with
      | SNull, _ | _, SNull => SNull
      | a, b => SBool (bool_decide (a = b))
      end
  end.

(** [df.name]. *)
Definition df_attr (df : DataFrame) (name : string) : outcome exn column :=
  if bool_decide (name ∈ df_columns df) then Ok (Col name)
  else Raised (AttributeError (msg_no_df_attribute name)).

(** [df.select(cs)]. *)
Definition df_select (cs : list column) (df : DataFrame) :
    outcome exn DataFrame :=
  outcome_map
    (λ _, mkDataFrame (column_name <$> cs)
            ((λ r, eval (df_columns df) r <$> cs) <$> df_rows df))
    (resolve (df_columns df) cs).

(** [df.withColumn(name, c)]: replaces the column of that name, or adds
    one at the end. *)
Definition df_withColumn (name : string) (c : column) (df : DataFrame) :
    outcome exn DataFrame :=
  outcome_map
    (λ _, match col_index name (df_columns df) with
          | Some i =>
              mkDataFrame (df_columns df)
                ((λ r, <[i:=eval (df_columns df) r c]> r) <$> df_rows df)
          | None =>
              mkDataFrame (df_columns df ++ [name])
                ((λ r, r ++ [eval (df_columns df) r c]) <$> df_rows df)
          end)
    (resolve (df_columns df) [c]).

(** [df.where(c)]: the rows on which [c] is true; null is not. *)
Definition df_where (c : column) (df : DataFrame) : outcome exn DataFrame :=
  outcome_map
    (λ _, mkDataFrame (df_columns df)
            (filter (λ r, eval (df_columns df) r c = SBool true)
               (df_rows df)))
    (resolve (df_columns df) [c]).

(** [df.drop(name)]: nothing happens when there is no such column. *)
Definition df_drop (name : string) (df : DataFrame) : DataFrame :=
  match col_index name (df_columns df) with
  | Some i => mkDataFrame (delete i (df_columns df)) (delete i <$> df_rows df)
  | None => df
  end.

(** [df.union(other)]: a new dataframe, by position; [df] is not
    changed. *)
Definition df_union (df other : DataFrame) : outcome exn DataFrame :=
  if bool_decide (length (df_columns df) = length (df_columns other))
  then Ok (mkDataFrame (df_columns df) (df_rows df ++ df_rows other))
  else Raised (AnalysisException msg_union_columns).

End Engine.

(** ** Aggregation and ordering *)

(** [percentile(col, p)], [count(col)] and [.alias]. *)
Inductive aggregate : Type :=
| Percentile (col : string) (p : Q)
| Count (col : string)
| AggAlias (a : aggregate) (name : string).

Fixpoint agg_ref (a : aggregate) : string :=
  match a with
  | Percentile col _ | Count col => col
  | AggAlias a _ => agg_ref a
  end.

Definition agg_name (a : aggregate) : string :=
  match a with
  | Percentile col _ | Count col => col
  | AggAlias _ name => name
  end.

(** The integers among values; nulls are skipped by every aggregate. *)
Definition int_values (vs : list sqlval) : list Z :=
  omap (λ v, match v with SInt z | SLong z => Some z | _ => None end) vs.

(** The exact percentile: the value at position [p * (n - 1)] of the
    sorted values, interpolated between its two neighbours when the
    position is not whole.  Computed in exact rationals. *)
Definition percentile_of (p : Q) (xs : list Z) : sqlval :=
  let sorted := merge_sort Z.le xs in
  match sorted with
  | [] => SNull
  | x0 :: _ =>
      let pos := (p * inject_Z (Z.of_nat (length xs) - 1))%Q in
      let lower := Qfloor pos in
      let higher := Qceiling pos in
      let low := nth (Z.to_nat lower) sorted x0 in
      let high := nth (Z.to_nat higher) sorted x0 in
      if bool_decide (lower = higher) then SDouble (inject_Z low)
      else SDouble (Qred ((inject_Z higher - pos) * inject_Z low
                          + (pos - inject_Z lower) * inject_Z high))
  end.

(** The number of values that are not null. *)
Definition count_of (vs : list sqlval) : sqlval :=
  SLong (Z.of_nat (length (filter (λ v, v ≠ SNull) vs))).

Fixpoint eval_agg (cols : list string) (rows : list row) (a : aggregate) :
    sqlval :=
  match a with
  | Percentile col p =>
      percentile_of p (int_values ((λ r, cell cols r col) <$> rows))
  | Count col => count_of ((λ r, cell cols r col) <$> rows)
  | AggAlias a _ => eval_agg cols rows a
  end.

(** [df.groupBy(key).agg(aggs)]: one row per value of the key column,
    null included, with the aggregates over the rows of that value.  The
    order of the groups is the engine's; here it is the order of the last
    occurrences. *)
Definition df_groupBy_agg (key : string) (aggs : list aggregate)
    (df : DataFrame) : outcome exn DataFrame :=
  outcome_map
    (λ _, mkDataFrame (key :: (agg_name <$> aggs))
            ((λ k, k :: (eval_agg (df_columns df)
                           (filter (λ r, cell (df_columns df) r key = k)
                              (df_rows df)) <$> aggs))
               <$> remove_dups ((λ r, cell (df_columns df) r key)
                                  <$> df_rows df)))
    (resolve (df_columns df) (Col <$> key :: (agg_ref <$> aggs))).

(** The integer a row is ordered by. *)
Definition sort_key (cols : list string) (name : string) (r : row) :
    option Z :=
  match cell cols r name with
  | SInt z | SLong z => Some z
  | _ => None
  end.

(** [r1] may come before [r2] in descending order, nulls last. *)
Definition desc_le (cols : list string) (name : string) (r1 r2 : row) :
    Prop :=
  match sort_key cols name r1, sort_key cols name r2 with
  | Some a, Some b => b ≤ a
  | Some _, None => True
  | None, Some _ => False
  | None, None => True
  end.

#[export] Instance desc_le_dec cols name : RelDecision (desc_le cols name).
Proof.
  intros r1 r2. unfold desc_le.
  destruct (sort_key cols name r1), (sort_key cols name r2); apply _.
Defined.

(** [df.orderBy(desc(name))]. *)
Definition df_orderBy_desc (name : string) (df : DataFrame) :
    outcome exn DataFrame :=
  outcome_map
    (λ _, mkDataFrame (df_columns df)
            (merge_sort (desc_le (df_columns df) name) (df_rows df)))
    (resolve (df_columns df) [Col name]).

(** ** The process and the cluster *)

(** What [SecretManagerUtil.get_spark_aws_credentials] was asked for:
    the credentials are identified by the request. *)
Record credentials : Type := mkCredentials {
  cred_region : string;
  cred_secret_arn : string;
  cred_stage : string;
  cred_direction : string
}.

#[export] Instance credentials_eq_dec : EqDecision credentials.
Proof. solve_decision. Defined.

(** A session, by the arguments it was created with. *)
Record session : Type := mkSession {
  ss_appName : string;
  ss_readDestination : string;
  ss_writeDestination : string;
  ss_readUri : string;
  ss_writeUri : string;
  ss_readCredentials : credentials;
  ss_writeCredentials : credentials
}.

#[export] Instance session_eq_dec : EqDecision session.
Proof. solve_decision. Defined.

Record read_call : Type := mkRead {
  rd_session : session;
  rd_destination : string;
  rd_uri : string;
  rd_format : string;
  rd_options : pyval
}.

Record write_call : Type := mkWrite {
  wr_session : session;
  wr_destination : string;
  wr_uri : string;
  wr_format : string;
  wr_mode : string;
  wr_options : pyval;
  wr_dataframe : DataFrame
}.

(** The state a Spark handler runs in: the environment variables of
    the process, what each uri holds, and the calls made so far. *)
Record spark_world : Type := mkSparkWorld {
  sw_environ : gmap string string;
  sw_files : gmap string DataFrame;
  sw_sessions : list session;
  sw_reads : list read_call;
  sw_writes : list write_call
}.

Definition msg_path_not_found (uri : string) : string :=
  "Path does not exist: " +:+ uri.

Definition msg_path_exists (uri : string) : string :=
  "path " +:+ uri +:+ " already exists".

Definition msg_unknown_mode (mode : string) : string :=
  "Unknown save mode: " +:+ mode.

(** [os.environ[name]]. *)
Definition os_environ (name : string) : SE spark_world exn string :=
  env <- gets sw_environ ;;
  match env !! name with
  | Some v => ret v
  | None => raise (KeyError ("'" +:+ name +:+ "'"))
  end.

(** [SecretManagerUtil.get_spark_aws_credentials]. *)
Definition get_spark_aws_credentials (region arn stage direction : string) :
    SE spark_world exn credentials :=
  ret (mkCredentials region arn stage direction).

(** [createSparkSession]. *)
Definition createSparkSession (appName readDestination writeDestination
    readUri writeUri : string) (readCredentials writeCredentials : credentials) :
    SE spark_world exn session :=
  let spark := mkSession appName readDestination writeDestination readUri
                 writeUri readCredentials writeCredentials in
  modify (λ w, mkSparkWorld (sw_environ w) (sw_files w)
                 (sw_sessions w ++ [spark]) (sw_reads w) (sw_writes w)) ;;;
  ret spark.

(** [readSparkDataframe]: what the uri holds. *)
Definition readSparkDataframe (spark : session) (readDestination readUri
    readFormat : string) (readOptions : pyval) :
    SE spark_world exn DataFrame :=
  modify (λ w, mkSparkWorld (sw_environ w) (sw_files w) (sw_sessions w)
                 (sw_reads w ++ [mkRead spark readDestination readUri
                                   readFormat readOptions])
                 (sw_writes w)) ;;;
  files <- gets sw_files ;;
  match files !! readUri with
  | Some df => ret df
  | None => raise (AnalysisException (msg_path_not_found readUri))
  end.

(** What a uri holds after a write in a save mode. *)
Definition save (mode uri : string) (df : DataFrame)
    (files : gmap string DataFrame) : outcome exn (gmap string DataFrame) :=
  if bool_decide (mode = "overwrite") then Ok (<[uri:=df]> files)
  else if bool_decide (mode = "append") then
    match files !! uri with
    | Some old =>
        Ok (<[uri:=mkDataFrame (df_columns old) (df_rows old ++ df_rows df)]>
              files)
    | None => Ok (<[uri:=df]> files)
    end
  else if bool_decide (mode = "ignore") then
    Ok (if bool_decide (is_Some (files !! uri)) then files
        else <[uri:=df]> files)
  else if bool_decide (mode = "error" ∨ mode = "errorifexists") then
    if bool_decide (is_Some (files !! uri))
    then Raised (AnalysisException (msg_path_exists uri))
    else Ok (<[uri:=df]> files)
  else Raised (IllegalArgumentException (msg_unknown_mode mode)).

(** [writeSparkDataframe]. *)
Definition writeSparkDataframe (spark : session) (writeDestination writeUri
    writeFormat writeMode : string) (writeOptions : pyval) (df : DataFrame) :
    SE spark_world exn unit :=
  files <- gets sw_files ;;
  files' <- lift (save writeMode writeUri df files) ;;
  modify (λ w, mkSparkWorld (sw_environ w) files' (sw_sessions w)
                 (sw_reads w)
                 (sw_writes w ++ [mkWrite spark writeDestination writeUri
                                    writeFormat writeMode writeOptions df])).

(** ** Lemmas on resolution and ordering *)

#[export] Instance desc_le_total cols name : Total (desc_le cols name).
Proof.
  intros r1 r2. unfold desc_le.
  destruct (sort_key cols name r1), (sort_key cols name r2); auto; lia.
Qed.

Lemma resolve_ok (cols : list string) (cs : list column) :
  Forall (λ n, n ∈ cols) (cs ≫= column_refs) → resolve cols cs = Ok tt.
Proof.
  intros H. unfold resolve.
  destruct (List.find _ _) as [n|] eqn:Hf; [|done].
  apply List.find_some in Hf as [Hin Hn%bool_decide_eq_true_1].
  rewrite Forall_forall in H. destruct Hn. apply H. by apply list_elem_of_In.
Qed.

Lemma resolve_inv (cols : list string) (cs : list column) :
  resolve cols cs = Ok tt → Forall (λ n, n ∈ cols) (cs ≫= column_refs).
Proof.
  unfold resolve. destruct (List.find _ _) as [n|] eqn:Hf; [done|]. intros _.
  apply Forall_forall. intros n Hn%list_elem_of_In.
  apply (List.find_none _ _ Hf) in Hn.
  apply bool_decide_eq_false_1 in Hn. by apply dec_stable.
Qed.

(** ** Running the primitives *)

(** The world after more read calls. *)
Definition add_reads (rs : list read_call) (w : spark_world) : spark_world :=
  mkSparkWorld (sw_environ w) (sw_files w) (sw_sessions w) (sw_reads w ++ rs)
    (sw_writes w).

Lemma add_reads_nil (w : spark_world) : add_reads [] w = w.
Proof. unfold add_reads. rewrite app_nil_r. by destruct w. Qed.

Lemma add_reads_app (rs1 rs2 : list read_call) (w : spark_world) :
  add_reads rs2 (add_reads rs1 w) = add_reads (rs1 ++ rs2) w.
Proof. unfold add_reads. simpl. by rewrite app_assoc. Qed.

Lemma readSparkDataframe_run (spark : session) (d u f : string) (o : pyval)
    (w : spark_world) :
  readSparkDataframe spark d u f o w
  = (match sw_files w !! u with
     | Some df => Ok df
     | None => Raised (AnalysisException (msg_path_not_found u))
     end, add_reads [mkRead spark d u f o] w).
Proof.
  unfold readSparkDataframe, bind, modify, gets. simpl.
  by destruct (sw_files w !! u).
Qed.

Lemma os_environ_run (name : string) (w : spark_world) :
  os_environ name w
  = (match sw_environ w !! name with
     | Some v => Ok v
     | None => Raised (KeyError ("'" +:+ name +:+ "'"))
     end, w).
Proof.
  unfold os_environ, bind, gets. by destruct (sw_environ w !! name).
Qed.

(** ** Cells, splitting and trimming *)

Lemma cell_here (c : string) (cols : list string) (v : sqlval) (r : row) :
  cell (c :: cols) (v :: r) c = v.
Proof. unfold cell. simpl. by rewrite bool_decide_eq_true_2. Qed.

Lemma cell_next (c name : string) (cols : list string) (v : sqlval) (r : row) :
  c ≠ name → cell (c :: cols) (v :: r) name = cell cols r name.
Proof.
  intros Hne. unfold cell. simpl. rewrite bool_decide_eq_false_2 by done.
  by destruct (col_index name cols).
Qed.

Lemma cell_nil (name : string) (r : row) : cell [] r name = SNull.
Proof. done. Qed.

(** Evaluate the cells of a row whose columns are known. *)
Ltac cell_simpl :=
  repeat first [rewrite cell_here | rewrite cell_next by done
               | rewrite cell_nil].

Lemma split_go_nonempty (seps : list string) (s : string) (skip : nat) :
  split_go seps s skip ≠ [].
Proof.
  revert skip. induction s as [|c s IH]; intros skip; [done|].
  cbn [split_go]. destruct skip as [|k]; [|apply IH].
  destruct (sep_at seps _); [done|].
  by destruct (split_go seps s 0).
Qed.

Lemma split_on_head (seps : list string) (s : string) :
  ∃ h rest, split_on seps s = h :: rest.
Proof.
  pose proof (split_go_nonempty seps s 0) as H. unfold split_on.
  destruct (split_go seps s 0) as [|h rest]; [done|eauto].
Qed.

Lemma regexp_replace_trim (s : string) :
  regexp_replace TrimSpaces "" s = trim s.
Proof.
  unfold regexp_replace.
  destruct (bool_decide _), (bool_decide _);
    by rewrite string_app_nil_l, string_app_nil_r.
Qed.

(** ** The operators on a resolved dataframe *)

Section Ops.
Context (to_timestamp : string → option Z).

Lemma df_select_ok (cs : list column) (cols : list string) (rows : list row) :
  resolve cols cs = Ok tt →
  df_select to_timestamp cs (mkDataFrame cols rows)
  = Ok (mkDataFrame (column_name <$> cs)
          ((λ r, eval to_timestamp cols r <$> cs) <$> rows)).
Proof. unfold df_select. simpl. by intros ->. Qed.

Lemma df_withColumn_new (name : string) (c : column) (cols : list string)
    (rows : list row) :
  resolve cols [c] = Ok tt → col_index name cols = None →
  df_withColumn to_timestamp name c (mkDataFrame cols rows)
  = Ok (mkDataFrame (cols ++ [name])
          ((λ r, r ++ [eval to_timestamp cols r c]) <$> rows)).
Proof. unfold df_withColumn. simpl. by intros -> ->. Qed.

Lemma df_where_ok (c : column) (cols : list string) (rows : list row) :
  resolve cols [c] = Ok tt →
  df_where to_timestamp c (mkDataFrame cols rows)
  = Ok (mkDataFrame cols
          (filter (λ r, eval to_timestamp cols r c = SBool true) rows)).
Proof. unfold df_where. simpl. by intros ->. Qed.

Lemma df_attr_ok (cols : list string) (rows : list row) (name : string) :
  name ∈ cols → df_attr (mkDataFrame cols rows) name = Ok (Col name).
Proof. intros H. unfold df_attr. simpl. by rewrite bool_decide_eq_true_2. Qed.

End Ops.

Local Close Scope Z_scope.
Local Close Scope Q_scope.

(** ** Splitting and joining *)

Lemma string_prefix_app (a s : string) :
  String.prefix a s = true → ∃ rest, s = a +:+ rest.
Proof.
  revert s. induction a as [|c a IH]; intros s H.
  - exists s. by rewrite string_app_nil_l.
  - destruct s as [|c' s]; [done|]. simpl in H.
    destruct (Ascii.ascii_dec c c') as [->|]; [|done].
    destruct (IH s H) as [rest ->]. exists rest. by rewrite string_app_cons.
Qed.

Lemma sep_at_single (sep s : string) :
  sep_at [sep] s = (if String.prefix sep s then Some sep else None).
Proof. unfold sep_at. simpl. by destruct (String.prefix sep s). Qed.

(** Passing a matched separator: the pieces after [a] are the pieces of
    the rest. *)
Lemma split_go_skip (seps : list string) (a rest : string) :
  split_go seps (a +:+ rest) (String.length a) = split_go seps rest 0.
Proof.
  induction a as [|c a IH]; [by rewrite string_app_nil_l|].
  rewrite string_app_cons. cbn [split_go String.length]. apply IH.
Qed.

Lemma str_join_cons_ne (sep x : string) (l : list string) :
  l ≠ [] → str_join sep (x :: l) = x +:+ sep +:+ str_join sep l.
Proof. destruct l; [done|]. intros _. apply str_join_cons. Qed.

(** Joining the pieces with the separator gives the string back. *)
Lemma split_on_join (sep s : string) :
  sep ≠ "" → str_join sep (split_on [sep] s) = s.
Proof.
  intros Hsep. unfold split_on.
  remember (String.length s) as n eqn:Hn. revert s Hn.
  induction n as [n IH] using lt_wf_ind. intros s ->.
  destruct s as [|c s]; [done|]. cbn [split_go]. rewrite sep_at_single.
  destruct (String.prefix sep (String c s)) eqn:Hp.
  - apply string_prefix_app in Hp as [rest Hs].
    destruct sep as [|c' sep']; [done|]. rewrite string_app_cons in Hs.
    injection Hs as <- ->. cbn [String.length].
    replace (S (String.length sep') - 1) with (String.length sep') by lia.
    rewrite split_go_skip, str_join_cons_ne by apply split_go_nonempty.
    rewrite (IH (String.length rest));
      [|cbn [String.length]; rewrite string_app_length; lia|done].
    by rewrite string_app_nil_l, string_app_cons.
  - pose proof (IH (String.length s) ltac:(simpl; lia) s eq_refl) as Hs.
    destruct (split_go [sep] s 0) as [|t ts] eqn:Hg;
      [by apply split_go_nonempty in Hg|].
    destruct ts as [|t' ts]; simpl in *; by rewrite <- Hs.
Qed.

(** ** The 32-bit cast *)

Lemma cast_integer_bounds (s : string) (z : Z) :
  cast_integer s = Some z → (int_min ≤ z ≤ int_max)%Z.
Proof.
  unfold cast_integer. destruct (split_sign (trim_blank s)) as [neg body].
  case_bool_decide; [done|].
  destruct (split_point body) as [whole fraction].
  destruct (digits_value whole 0) as [n|]; [|done]. simpl.
  destruct (digits_value _ 0); [|done]. simpl.
  case_bool_decide; [|done]. by intros [= <-].
Qed.

(** The spellings of the cast: blanks and a sign, a fraction that is
    dropped, a value out of range, a character that is no digit. *)
Example cast_integer_spellings :
  cast_integer " -42 " = Some (-42)%Z ∧ cast_integer "12.70" = Some 12%Z ∧
  cast_integer "2147483647" = Some int_max ∧
  cast_integer "2147483648" = None ∧ cast_integer "1e3" = None ∧
  cast_integer "1.2.3" = None ∧ cast_integer "+" = None ∧
  cast_integer "" = None.
Proof. by vm_compute. Qed.

Lemma digits_value_nonneg (s : string) (acc n : Z) :
  (0 ≤ acc)%Z → digits_value s acc = Some n → (acc ≤ n)%Z.
Proof.
  revert acc. induction s as [|c s IH]; intros acc Hacc; simpl.
  - intros [= <-]. lia.
  - destruct (Ascii.is_nat c) as [d|]; [|done]. intros H.
    apply IH in H; lia.
Qed.
