(* ===== verification/SparkReducer.v ===== *)
(** * The Spark reducer

    [reducer] of [SparkReducerInterface.py]: it fetches the read and the
    write credentials, creates a session on the first read uri, reads
    every uri, groups the rows by language, computes the 90th percentile
    and the count of the content length per language, orders the groups
    by count and writes the result.

    The loop over the uris calls [dataframe.union(currDataFrame)] and
    drops what it returns: [union] builds a new dataframe and leaves its
    receiver as it is, so the rows of the second and later uris never
    reach the aggregate. *)

From stdpp Require Import base tactics option list strings gmap sorting.
From Stdlib Require Import ZArith QArith Lia.
From S2P Require Import Prelude PyValue Runtime ToMap SparkEngine.

(** The parameters of [reducer], as documented above its signature. *)
Record ReducerArgs : Type := mkReducerArgs {
  r_appName : string;
  r_readDestination : string;
  r_readUris : list string;
  r_readFormat : string;
  r_readOptions : pyval;
  r_writeDestination : string;
  r_writeUri : string;
  r_writeFormat : string;
  r_writeMode : string;
  r_writeOptions : pyval;
  r_spark_credentials_secret_arn : string
}.

(** The class has no state: [__init__] does nothing. *)
Variant SparkReducerInterface : Type := mkSparkReducerInterface.

Module Reducer.

(** The two credential helpers, lines 138 to 145. *)
Definition get_read_destination_credentials
    (region spark_credentials_secret_arn : string) :
    SE spark_world exn credentials :=
  get_spark_aws_credentials region spark_credentials_secret_arn
    "reducer" "read".

Definition get_write_destination_credentials
    (region spark_credentials_secret_arn : string) :
    SE spark_world exn credentials :=
  get_spark_aws_credentials region spark_credentials_secret_arn
    "reducer" "write".

End Reducer.

(** [readUris[0]]. *)
Definition first_uri (readUris : list string) : outcome exn string :=
  match readUris with
  | u :: _ => Ok u
  | [] => Raised (IndexError msg_index_out_of_range)
  end.

(** The body of the loop, lines 118 to 122: [dataframe] is None before
    the first uri; afterwards [union] is evaluated, which can raise, and
    its result is dropped. *)
Definition read_uri (spark : session) (a : ReducerArgs) (readUri : string)
    (dataframe : option DataFrame) : SE spark_world exn (option DataFrame) :=
  currDataFrame <- readSparkDataframe spark (r_readDestination a) readUri
                     (r_readFormat a) (r_readOptions a) ;;
  match dataframe with
  | None => ret (Some currDataFrame)
  | Some df =>
      lift (df_union df currDataFrame) ;;;
      ret (Some df)
  end.

(** The loop, lines 116 to 122. *)
Definition read_uris (spark : session) (a : ReducerArgs) :
    SE spark_world exn (option DataFrame) :=
  for_each (λ _ readUri dataframe, read_uri spark a readUri dataframe)
    0 (r_readUris a) None.

Definition percentile_column : string := "90th Percentile ContentLength".
Definition samples_column : string := "# of Samples".

(** The aggregates of line 128 and 129. *)
Definition reducer_aggregates : list aggregate :=
  [AggAlias (Percentile "contentLength" (9 # 10)) percentile_column;
   AggAlias (Count "contentLength") samples_column].

(** The transformation, lines 125 to 131. *)
Definition reducer_transform (dataframe : option DataFrame) :
    outcome exn DataFrame :=
  match dataframe with
  | None => Raised (AttributeError (msg_no_attribute PNone "groupBy"))
  | Some df =>
      outcome_bind (df_groupBy_agg "language" reducer_aggregates df)
        (df_orderBy_desc samples_column)
  end.

(** [reducer], lines 112 to 133. *)
Definition reducer (a : ReducerArgs) : SE spark_world exn unit :=
  region <- os_environ "AWS_REGION" ;;
  readCredentials <- Reducer.get_read_destination_credentials region
                       (r_spark_credentials_secret_arn a) ;;
  region <- os_environ "AWS_REGION" ;;
  writeCredentials <- Reducer.get_write_destination_credentials region
                        (r_spark_credentials_secret_arn a) ;;
  uri <- lift (first_uri (r_readUris a)) ;;
  spark <- createSparkSession (r_appName a) (r_readDestination a)
             (r_writeDestination a) uri (r_writeUri a) readCredentials
             writeCredentials ;;
  dataframe <- read_uris spark a ;;
  dataframe <- lift (reducer_transform dataframe) ;;
  writeSparkDataframe spark (r_writeDestination a) (r_writeUri a)
    (r_writeFormat a) (r_writeMode a) (r_writeOptions a) dataframe.

(** ** The specification of the aggregate

    What the documentation promises for one language: the number of its
    rows that have a content length. *)
Definition samples_of (cols : list string) (rows : list row)
    (language : sqlval) : Z :=
  Z.of_nat (length (filter (λ r, cell cols r "language" = language
                               ∧ cell cols r "contentLength" ≠ SNull) rows)).

(** The session [reducer] creates. *)
Definition reducer_session (region : string) (a : ReducerArgs) (uri : string) :
    session :=
  mkSession (r_appName a) (r_readDestination a) (r_writeDestination a) uri
    (r_writeUri a)
    (mkCredentials region (r_spark_credentials_secret_arn a) "reducer" "read")
    (mkCredentials region (r_spark_credentials_secret_arn a) "reducer" "write").

(** The read calls of a session on a list of uris. *)
Definition reads_of (spark : session) (a : ReducerArgs) (uris : list string) :
    list read_call :=
  (λ u, mkRead spark (r_readDestination a) u (r_readFormat a)
          (r_readOptions a)) <$> uris.

(** Every uri holds a dataframe with as many columns as [df]. *)
Definition readable_like (w : spark_world) (df : DataFrame)
    (uris : list string) : Prop :=
  Forall (λ u, ∃ df', sw_files w !! u = Some df'
                      ∧ length (df_columns df) = length (df_columns df'))
    uris.

(** ** The aggregate *)

Lemma count_of_group (cols : list string) (rows : list row) (k : sqlval) :
  count_of ((λ r, cell cols r "contentLength")
              <$> filter (λ r, cell cols r "language" = k) rows)
  = SLong (samples_of cols rows k).
Proof.
  unfold count_of, samples_of. do 2 f_equal.
  induction rows as [|r rows IH]; [done|].
  rewrite !filter_cons. destruct (decide (cell cols r "language" = k)) as [Hk|Hk].
  - rewrite fmap_cons, filter_cons.
    destruct (decide (cell cols r "contentLength" ≠ SNull)) as [Hc|Hc].
    + rewrite decide_True by done. simpl. by rewrite IH.
    + rewrite decide_False by tauto. done.
  - by rewrite decide_False by tauto.
Qed.

(** ** The read loop *)

Lemma read_uri_first (spark : session) (a : ReducerArgs) (u : string)
    (df : DataFrame) (w : spark_world) :
  sw_files w !! u = Some df →
  read_uri spark a u None w = (Ok (Some df), add_reads (reads_of spark a [u]) w).
Proof.
  intros H. unfold read_uri, bind at 1.
  by rewrite readSparkDataframe_run, H.
Qed.

Lemma read_uri_next (spark : session) (a : ReducerArgs) (u : string)
    (df df' : DataFrame) (w : spark_world) :
  sw_files w !! u = Some df' →
  length (df_columns df) = length (df_columns df') →
  read_uri spark a u (Some df) w
  = (Ok (Some df), add_reads (reads_of spark a [u]) w).
Proof.
  intros H Hlen. unfold read_uri, bind at 1.
  rewrite readSparkDataframe_run, H. unfold bind, lift, df_union.
  by rewrite bool_decide_eq_true_2.
Qed.

(** After the first uri the loop reads and changes nothing else: the
    dataframe it holds stays the first one. *)
Lemma read_rest (spark : session) (a : ReducerArgs) (us : list string)
    (df : DataFrame) (i : nat) (w : spark_world) :
  readable_like w df us →
  for_each (λ _ u d, read_uri spark a u d) i us (Some df) w
  = (Ok (Some df), add_reads (reads_of spark a us) w).
Proof.
  revert i w. induction us as [|u us IH]; intros i w Hus.
  - by rewrite add_reads_nil.
  - apply Forall_cons in Hus as [(df' & Hu & Hlen) Hus].
    cbn [for_each]. unfold bind at 1.
    rewrite (read_uri_next _ _ _ _ df') by done.
    rewrite IH by done. by rewrite add_reads_app.
Qed.

Lemma read_uris_run (spark : session) (a : ReducerArgs) (u : string)
    (us : list string) (df : DataFrame) (w : spark_world) :
  r_readUris a = u :: us → sw_files w !! u = Some df →
  readable_like w df us →
  read_uris spark a w
  = (Ok (Some df), add_reads (reads_of spark a (u :: us)) w).
Proof.
  intros Ha Hu Hus. unfold read_uris. rewrite Ha. cbn [for_each].
  unfold bind at 1. rewrite (read_uri_first _ _ _ df) by done.
  rewrite read_rest by done. by rewrite add_reads_app.
Qed.

(** ** Properties *)

(** One run of [reducer] on readable uris, statement by statement. *)
Lemma reducer_run (a : ReducerArgs) (w : spark_world)
    (region u : string) (us : list string) (df out : DataFrame)
    (files' : gmap string DataFrame) :
  sw_environ w !! "AWS_REGION" = Some region →
  r_readUris a = u :: us →
  sw_files w !! u = Some df →
  readable_like w df us →
  reducer_transform (Some df) = Ok out →
  save (r_writeMode a) (r_writeUri a) out (sw_files w) = Ok files' →
  reducer a w
  = (Ok tt,
     mkSparkWorld (sw_environ w) files'
       (sw_sessions w ++ [reducer_session region a u])
       (sw_reads w ++ reads_of (reducer_session region a u) a (u :: us))
       (sw_writes w
        ++ [mkWrite (reducer_session region a u) (r_writeDestination a)
              (r_writeUri a) (r_writeFormat a) (r_writeMode a)
              (r_writeOptions a) out])).
Proof.
  intros Hregion Ha Hu Hus Hout Hsave. unfold reducer.
  unfold bind at 1. rewrite os_environ_run, Hregion.
  unfold bind at 1, Reducer.get_read_destination_credentials,
    get_spark_aws_credentials, ret at 1.
  unfold bind at 1. rewrite os_environ_run, Hregion.
  unfold bind at 1, Reducer.get_write_destination_credentials,
    get_spark_aws_credentials, ret at 1.
  rewrite Ha. unfold bind at 1, lift at 1. cbn [first_uri].
  unfold bind at 1, createSparkSession, bind at 1, modify, ret.
  unfold bind at 1.
  rewrite (read_uris_run _ a u us df) by done.
  unfold bind at 1, lift at 1. rewrite Hout.
  unfold writeSparkDataframe, bind, gets, lift, modify. simpl.
  by rewrite Hsave.
Qed.

(** C24: when the region is set, every uri is readable and the write
    succeeds, [reducer] creates one session on the first uri with the
    reducer's read and write credentials, reads every uri in order, and
    writes the aggregate of the first uri alone: the dataframes of the
    other uris do not reach the result. *)
Theorem reducer_first_uri_only (a : ReducerArgs) (w : spark_world)
    (region u : string) (us : list string) (df out : DataFrame)
    (files' : gmap string DataFrame) :
  sw_environ w !! "AWS_REGION" = Some region →
  r_readUris a = u :: us →
  sw_files w !! u = Some df →
  readable_like w df us →
  reducer_transform (Some df) = Ok out →
  save (r_writeMode a) (r_writeUri a) out (sw_files w) = Ok files' →
  reducer a w
  = (Ok tt,
     mkSparkWorld (sw_environ w) files'
       (sw_sessions w ++ [reducer_session region a u])
       (sw_reads w ++ reads_of (reducer_session region a u) a (u :: us))
       (sw_writes w
        ++ [mkWrite (reducer_session region a u) (r_writeDestination a)
              (r_writeUri a) (r_writeFormat a) (r_writeMode a)
              (r_writeOptions a) out])).
Proof. apply reducer_run. Qed.

Lemma reducer_first_uri_only_witness :
  reducer
    (mkReducerArgs "app" "S3" ["u1"; "u2"] "parquet" PNone "S3" "out" "json"
       "overwrite" PNone "arn")
    (mkSparkWorld {["AWS_REGION" := "us-east-1"]}
       {["u1" := mkDataFrame ["language"; "contentLength"]
                   [[SString "en"; SInt 10]];
         "u2" := mkDataFrame ["language"; "contentLength"]
                   [[SString "fr"; SInt 5]]]} [] [] [])
  = (Ok tt,
     mkSparkWorld {["AWS_REGION" := "us-east-1"]}
       (<["out" := mkDataFrame ["language"; percentile_column; samples_column]
                     [[SString "en"; SDouble (10 # 1); SLong 1]]]>
          {["u1" := mkDataFrame ["language"; "contentLength"]
                      [[SString "en"; SInt 10]];
            "u2" := mkDataFrame ["language"; "contentLength"]
                      [[SString "fr"; SInt 5]]]})
       ([] ++ [reducer_session "us-east-1"
                 (mkReducerArgs "app" "S3" ["u1"; "u2"] "parquet" PNone "S3"
                    "out" "json" "overwrite" PNone "arn") "u1"])
       ([] ++ reads_of
                (reducer_session "us-east-1"
                   (mkReducerArgs "app" "S3" ["u1"; "u2"] "parquet" PNone
                      "S3" "out" "json" "overwrite" PNone "arn") "u1")
                (mkReducerArgs "app" "S3" ["u1"; "u2"] "parquet" PNone "S3"
                   "out" "json" "overwrite" PNone "arn") ["u1"; "u2"])
       ([] ++ [mkWrite
                 (reducer_session "us-east-1"
                    (mkReducerArgs "app" "S3" ["u1"; "u2"] "parquet" PNone
                       "S3" "out" "json" "overwrite" PNone "arn") "u1")
                 "S3" "out" "json" "overwrite" PNone
                 (mkDataFrame ["language"; percentile_column; samples_column]
                    [[SString "en"; SDouble (10 # 1); SLong 1]])])).
Proof.
  refine (reducer_first_uri_only
           (mkReducerArgs "app" "S3" ["u1"; "u2"] "parquet" PNone "S3" "out"
              "json" "overwrite" PNone "arn")
           (mkSparkWorld {["AWS_REGION" := "us-east-1"]}
              {["u1" := mkDataFrame ["language"; "contentLength"]
                          [[SString "en"; SInt 10]];
                "u2" := mkDataFrame ["language"; "contentLength"]
                          [[SString "fr"; SInt 5]]]} [] [] [])
           "us-east-1" "u1" ["u2"]
           (mkDataFrame ["language"; "contentLength"] [[SString "en"; SInt 10]])
           (mkDataFrame ["language"; percentile_column; samples_column]
              [[SString "en"; SDouble (10 # 1); SLong 1]])
           (<["out" := mkDataFrame
                         ["language"; percentile_column; samples_column]
                         [[SString "en"; SDouble (10 # 1); SLong 1]]]>
              {["u1" := mkDataFrame ["language"; "contentLength"]
                          [[SString "en"; SInt 10]];
                "u2" := mkDataFrame ["language"; "contentLength"]
                          [[SString "fr"; SInt 5]]]})
           _ _ _ _ _ _).
  - reflexivity.
  - reflexivity.
  - reflexivity.
  - apply Forall_cons. split; [|apply Forall_nil_2].
    exists (mkDataFrame ["language"; "contentLength"] [[SString "fr"; SInt 5]]).
    split; reflexivity.
  - reflexivity.
  - reflexivity.
Defined.

(** A run of [reducer] whose transformation raises: the session exists
    and the uris have been read, and nothing is written. *)
Lemma reducer_run_raises (a : ReducerArgs) (w : spark_world)
    (region u : string) (us : list string) (df : DataFrame) (e : exn) :
  sw_environ w !! "AWS_REGION" = Some region →
  r_readUris a = u :: us →
  sw_files w !! u = Some df →
  readable_like w df us →
  reducer_transform (Some df) = Raised e →
  reducer a w
  = (Raised e,
     mkSparkWorld (sw_environ w) (sw_files w)
       (sw_sessions w ++ [reducer_session region a u])
       (sw_reads w ++ reads_of (reducer_session region a u) a (u :: us))
       (sw_writes w)).
Proof.
  intros Hregion Ha Hu Hus Hout. unfold reducer.
  unfold bind at 1. rewrite os_environ_run, Hregion.
  unfold bind at 1, Reducer.get_read_destination_credentials,
    get_spark_aws_credentials, ret at 1.
  unfold bind at 1. rewrite os_environ_run, Hregion.
  unfold bind at 1, Reducer.get_write_destination_credentials,
    get_spark_aws_credentials, ret at 1.
  rewrite Ha. unfold bind at 1, lift at 1. cbn [first_uri].
  unfold bind at 1, createSparkSession, bind at 1, modify, ret.
  unfold bind at 1.
  rewrite (read_uris_run _ a u us df) by done.
  unfold bind at 1, lift at 1. by rewrite Hout.
Qed.

(** A run of [reducer] without a read uri stops at [readUris[0]]. *)
Lemma reducer_run_no_uris (a : ReducerArgs) (w : spark_world) (region : string) :
  sw_environ w !! "AWS_REGION" = Some region →
  r_readUris a = [] →
  reducer a w = (Raised (IndexError msg_index_out_of_range), w).
Proof.
  intros Hregion Ha. unfold reducer.
  unfold bind at 1. rewrite os_environ_run, Hregion.
  unfold bind at 1, Reducer.get_read_destination_credentials,
    get_spark_aws_credentials, ret at 1.
  unfold bind at 1. rewrite os_environ_run, Hregion.
  unfold bind at 1, Reducer.get_write_destination_credentials,
    get_spark_aws_credentials, ret at 1.
  by rewrite Ha.
Qed.

(** C25: with no read uri [reducer] raises the IndexError of
    [readUris[0]] before it creates a session: nothing is read and
    nothing is written. *)
Theorem reducer_no_uris (a : ReducerArgs) (w : spark_world) (region : string) :
  sw_environ w !! "AWS_REGION" = Some region →
  r_readUris a = [] →
  reducer a w = (Raised (IndexError msg_index_out_of_range), w).
Proof. apply reducer_run_no_uris. Qed.

Lemma reducer_no_uris_witness :
  reducer
    (mkReducerArgs "app" "S3" [] "parquet" PNone "S3" "out" "json"
       "overwrite" PNone "arn")
    (mkSparkWorld {["AWS_REGION" := "us-east-1"]} ∅ [] [] [])
  = (Raised (IndexError msg_index_out_of_range),
     mkSparkWorld {["AWS_REGION" := "us-east-1"]} ∅ [] [] []).
Proof.
  apply (reducer_no_uris
           (mkReducerArgs "app" "S3" [] "parquet" PNone "S3" "out" "json"
              "overwrite" PNone "arn")
           (mkSparkWorld {["AWS_REGION" := "us-east-1"]} ∅ [] [] [])
           "us-east-1"); reflexivity.
Defined.

Lemma reducer_transform_inv (df out : DataFrame) :
  reducer_transform (Some df) = Ok out →
  df_columns out = ["language"; percentile_column; samples_column] ∧
  df_rows out
  = merge_sort (desc_le (df_columns out) samples_column)
      ((λ k, [k;
              percentile_of (9 # 10)
                (int_values ((λ r, cell (df_columns df) r "contentLength")
                               <$> filter (λ r, cell (df_columns df) r
                                                  "language" = k)
                                     (df_rows df)));
              SLong (samples_of (df_columns df) (df_rows df) k)])
         <$> remove_dups ((λ r, cell (df_columns df) r "language")
                            <$> df_rows df)).
Proof.
  unfold reducer_transform, df_groupBy_agg.
  destruct (resolve (df_columns df) _) as [[]|]; [|done].
  cbn [outcome_map outcome_bind]. unfold df_orderBy_desc.
  destruct (resolve _ _) as [[]|]; [|done]. cbn [outcome_map df_columns].
  intros [= <-]. split; [done|]. cbn [df_columns df_rows fmap list_fmap].
  f_equal. apply list_fmap_ext. intros _ k _. cbn [eval_agg reducer_aggregates].
  by rewrite count_of_group.
Qed.

(** C27: the dataframe the reducer writes has the language column and
    the two aggregates, and its rows are in descending order of the
    number of samples. *)
Theorem reducer_transform_sorted (df out : DataFrame) :
  reducer_transform (Some df) = Ok out →
  df_columns out = ["language"; percentile_column; samples_column] ∧
  Sorted (desc_le (df_columns out) samples_column) (df_rows out).
Proof.
  intros [Hc Hr]%reducer_transform_inv. split; [done|].
  rewrite Hr. apply (Sorted_merge_sort _).
Qed.

Lemma reducer_transform_sorted_witness :
  df_columns (mkDataFrame ["language"; percentile_column; samples_column]
                [[SString "en"; SDouble (19 # 1); SLong 2];
                 [SString "fr"; SDouble (5 # 1); SLong 1]])
  = ["language"; percentile_column; samples_column] ∧
  Sorted
    (desc_le
       (df_columns (mkDataFrame ["language"; percentile_column; samples_column]
                      [[SString "en"; SDouble (19 # 1); SLong 2];
                       [SString "fr"; SDouble (5 # 1); SLong 1]]))
       samples_column)
    (df_rows (mkDataFrame ["language"; percentile_column; samples_column]
                [[SString "en"; SDouble (19 # 1); SLong 2];
                 [SString "fr"; SDouble (5 # 1); SLong 1]])).
Proof.
  apply (reducer_transform_sorted
           (mkDataFrame ["language"; "contentLength"]
              [[SString "fr"; SInt 5]; [SString "en"; SInt 10];
               [SString "en"; SInt 20]])).
  reflexivity.
Defined.

(** C26: the rows the reducer writes are, for each language of the
    input (null included), the language, the 90th percentile of its
    content lengths and the number of its rows that have a content
    length; no language has two rows. *)
Theorem reducer_transform_groups (df out : DataFrame) :
  reducer_transform (Some df) = Ok out →
  df_rows out
  ≡ₚ (λ k, [k;
            percentile_of (9 # 10)
              (int_values ((λ r, cell (df_columns df) r "contentLength")
                             <$> filter (λ r, cell (df_columns df) r
                                                "language" = k)
                                   (df_rows df)));
            SLong (samples_of (df_columns df) (df_rows df) k)])
       <$> remove_dups ((λ r, cell (df_columns df) r "language")
                          <$> df_rows df).
Proof.
  intros [_ ->]%reducer_transform_inv. apply merge_sort_Permutation.
Qed.

Lemma reducer_transform_groups_witness :
  df_rows (mkDataFrame ["language"; percentile_column; samples_column]
             [[SString "en"; SDouble (10 # 1); SLong 1]])
  ≡ₚ (λ k, [k;
            percentile_of (9 # 10)
              (int_values
                 ((λ r, cell ["language"; "contentLength"] r "contentLength")
                    <$> filter (λ r, cell ["language"; "contentLength"] r
                                       "language" = k)
                          [[SString "en"; SInt 10]]));
            SLong (samples_of ["language"; "contentLength"]
                     [[SString "en"; SInt 10]] k)])
       <$> remove_dups ((λ r, cell ["language"; "contentLength"] r "language")
                          <$> [[SString "en"; SInt 10]]).
Proof.
  apply (reducer_transform_groups
           (mkDataFrame ["language"; "contentLength"]
              [[SString "en"; SInt 10]])
           (mkDataFrame ["language"; percentile_column; samples_column]
              [[SString "en"; SDouble (10 # 1); SLong 1]])).
  reflexivity.
Defined.
