(* ===== verification/Groups.v ===== *)
(** * The groups of the reducer

    [groupBy("language")] makes one group per language of the input, and
    [count("contentLength")] counts in each group the rows that have a
    content length.  This file proves that the grouping neither loses
    nor repeats anything: every language of the input has exactly one
    row in the result, and the numbers of samples of the result add up
    to the number of rows of the input that have a content length. *)

From stdpp Require Import base tactics option list list_numbers strings.
From stdpp Require Import sorting.
From Stdlib Require Import ZArith QArith Lia.
From S2P Require Import Prelude PyValue ToMap SparkEngine SparkReducer.

Local Close Scope Q_scope.
Local Close Scope Z_scope.

(** ** Definitions *)

(** The languages of the rows of a dataframe, null included. *)
Definition languages_of (df : DataFrame) : list sqlval :=
  (λ r, cell (df_columns df) r "language") <$> df_rows df.

(** The rows of a dataframe that have a content length. *)
Definition with_length (df : DataFrame) : list row :=
  filter (λ r, cell (df_columns df) r "contentLength" ≠ SNull) (df_rows df).

(** The number of samples a row of the result reports. *)
Definition samples_in (cols : list string) (r : row) : nat :=
  match cell cols r samples_column with
  | SLong z | SInt z => Z.to_nat z
  | _ => 0
  end.

Definition total_samples (out : DataFrame) : nat :=
  sum_list_with (samples_in (df_columns out)) (df_rows out).

(** ** Sums over lists *)

Section Sums.
Context {A : Type}.
Implicit Types (f g : A → nat) (l : list A).

Lemma sum_list_with_ext f g l :
  (∀ x, x ∈ l → f x = g x) → sum_list_with f l = sum_list_with g l.
Proof.
  induction l as [|x l IH]; intros Hfg; [done|]. simpl.
  rewrite Hfg, IH; [done| |left]. intros y ?. apply Hfg. by right.
Qed.

Lemma sum_list_with_add f g l :
  sum_list_with (λ x, f x + g x) l = sum_list_with f l + sum_list_with g l.
Proof. induction l as [|x l IH]; simpl; lia. Qed.

Lemma sum_list_with_fmap {B} (h : B → A) f (k : list B) :
  sum_list_with f (h <$> k) = sum_list_with (f ∘ h) k.
Proof. induction k as [|y k IH]; [done|]. csimpl. by f_equal. Qed.

End Sums.

(** ** Counting by key *)

Section Counting.
Context {A K : Type} `{EqDecision K} (key : A → K) (P : A → Prop).
Context `{!∀ x, Decision (P x)}.

(** In a list without repetition a key is met once. *)
Lemma sum_indicator (ks : list K) (k : K) (n : nat) :
  NoDup ks → k ∈ ks →
  sum_list_with (λ k', if decide (k = k') then n else 0) ks = n.
Proof.
  induction 1 as [|k0 ks Hk0 _ IH]; [by intros ?%elem_of_nil|]. simpl.
  intros [->|Hin]%elem_of_cons.
  - rewrite decide_True by done.
    replace (sum_list_with _ ks) with 0; [lia|]. symmetry.
    clear IH. induction ks as [|k1 ks IH]; [done|]. simpl.
    apply not_elem_of_cons in Hk0 as [Hne Hk0].
    rewrite decide_False by done. by apply IH.
  - rewrite decide_False by (by intros ->). by apply IH.
Qed.

(** The groups of a list by key partition it: counted group by group,
    the elements with [P] are as many as in the whole list. *)
Lemma count_by_key (l : list A) (ks : list K) :
  NoDup ks → Forall (λ x, key x ∈ ks) l →
  sum_list_with (λ k, length (filter (λ x, key x = k ∧ P x) l)) ks
  = length (filter P l).
Proof.
  intros Hnd. induction 1 as [|x l Hx _ IH].
  { clear Hnd. induction ks as [|k ks IH]; [done|exact IH]. }
  rewrite <- (sum_list_with_ext
                (λ k, (if decide (key x = k)
                       then (if decide (P x) then 1 else 0) else 0)
                      + length (filter (λ x, key x = k ∧ P x) l))).
  - rewrite sum_list_with_add, IH, sum_indicator by done.
    rewrite filter_cons. by destruct (decide (P x)).
  - intros k _. rewrite filter_cons.
    destruct (decide (key x = k)), (decide (P x));
      [rewrite decide_True by done|rewrite decide_False by tauto..]; done.
Qed.

End Counting.

(** ** The rows of the result *)

(** The rows of the result, up to their order: one per language. *)
Lemma reducer_rows_perm (df out : DataFrame) :
  reducer_transform (Some df) = Ok out →
  df_columns out = ["language"; percentile_column; samples_column] ∧
  df_rows out
  ≡ₚ (λ k, [k;
            percentile_of (9 # 10)
              (int_values ((λ r, cell (df_columns df) r "contentLength")
                             <$> filter (λ r, cell (df_columns df) r
                                                "language" = k)
                                   (df_rows df)));
            SLong (samples_of (df_columns df) (df_rows df) k)])
       <$> remove_dups (languages_of df).
Proof.
  intros [Hc Hr]%reducer_transform_inv. split; [done|].
  by rewrite Hr, merge_sort_Permutation.
Qed.

Lemma reducer_languages (df out : DataFrame) :
  reducer_transform (Some df) = Ok out →
  languages_of out ≡ₚ remove_dups (languages_of df).
Proof.
  intros [Hc Hr]%reducer_rows_perm. unfold languages_of at 1.
  rewrite Hr, Hc, <- list_fmap_compose.
  rewrite <- (list_fmap_id (remove_dups _)) at 2.
  by erewrite list_fmap_ext; [done|intros _ k _].
Qed.

Lemma reducer_total (df out : DataFrame) :
  reducer_transform (Some df) = Ok out →
  total_samples out = length (with_length df).
Proof.
  intros [Hc Hr]%reducer_rows_perm. unfold total_samples, with_length.
  rewrite Hr, Hc, sum_list_with_fmap.
  rewrite <- (count_by_key (λ r, cell (df_columns df) r "language")
                (λ r, cell (df_columns df) r "contentLength" ≠ SNull)
                (df_rows df) (remove_dups (languages_of df))).
  - apply sum_list_with_ext. intros k _.
    unfold samples_in, samples_of, compose.
    change (cell _ [k; _; SLong ?z] samples_column) with (SLong z).
    cbv iota. by rewrite Nat2Z.id.
  - apply NoDup_remove_dups.
  - apply Forall_forall. intros r Hr'.
    apply elem_of_remove_dups, list_elem_of_fmap. eauto.
Qed.

(** ** Properties *)

(** Every language of the input, null included, has exactly one row in
    the result of the reducer, and the result has no other row. *)
Theorem reducer_groups_distinct (df out : DataFrame) :
  reducer_transform (Some df) = Ok out →
  NoDup (languages_of out) ∧
  ∀ k, k ∈ languages_of out ↔ k ∈ languages_of df.
Proof.
  intros Hp%reducer_languages. split.
  - rewrite Hp. apply NoDup_remove_dups.
  - intros k. by rewrite Hp, elem_of_remove_dups.
Qed.

(** C30: no sample is lost and none is counted twice: the numbers of samples
    of the rows of the result add up to the number of rows of the input
    that have a content length. *)
Theorem reducer_samples_total (df out : DataFrame) :
  reducer_transform (Some df) = Ok out →
  total_samples out = length (with_length df).
Proof. apply reducer_total. Qed.

(** Five rows in three languages, one of them without a length. *)
Definition five_rows : DataFrame :=
  mkDataFrame ["language"; "contentLength"]
    [[SString "en"; SInt 4]; [SString "fr"; SInt 8]; [SString "en"; SInt 6];
     [SNull; SInt 5]; [SString "fr"; SNull]].

Definition five_rows_result : DataFrame :=
  mkDataFrame ["language"; percentile_column; samples_column]
    [[SString "en"; SDouble (29 # 5); SLong 2];
     [SString "fr"; SDouble (8 # 1); SLong 1];
     [SNull; SDouble (5 # 1); SLong 1]].

Lemma reducer_groups_distinct_witness :
  NoDup (languages_of five_rows_result) ∧
  ∀ k, k ∈ languages_of five_rows_result ↔ k ∈ languages_of five_rows.
Proof. apply (reducer_groups_distinct five_rows five_rows_result). reflexivity. Defined.

Lemma reducer_samples_total_witness :
  total_samples five_rows_result = length (with_length five_rows).
Proof. apply (reducer_samples_total five_rows five_rows_result). reflexivity. Defined.
