(* ===== verification/SparkMapper.v ===== *)
(** * The Spark mapper

    [mapper] of [SparkMapperInterface.py]: it fetches the credentials,
    creates a session, reads the text file whose records are WARC
    records, and applies a fixed sequence of dataframe operators: trim
    the record, split it at the first blank line into header and
    payload, split the header into tokens, turn the tokens into a map
    with the [to_map] udf, project the known header fields to columns,
    keep the records of type [conversion], drop the file name, write.

    The pipeline is written with the operators of [SparkEngine], one
    definition per statement of the source.  [warc_row] is the reference
    definition: what the pipeline computes for one record, written
    directly on the string. *)

From stdpp Require Import base tactics option list strings gmap.
From Stdlib Require Import ZArith Lia.
From S2P Require Import Prelude PyValue Runtime ToMap SparkEngine.

(** The parameters of [mapper], as documented above its signature. *)
Record MapperArgs : Type := mkMapperArgs {
  m_appName : string;
  m_readDestination : string;
  m_readUri : string;
  m_readFormat : string;
  m_readOptions : pyval;
  m_writeDestination : string;
  m_writeUri : string;
  m_writeFormat : string;
  m_writeMode : string;
  m_writeOptions : pyval;
  m_spark_credentials_secret_arn : string
}.

(** The class has no state: [__init__] does nothing. *)
Variant SparkMapperInterface : Type := mkSparkMapperInterface.

Module Mapper.

(** The two credential helpers, lines 167 to 174. *)
Definition get_read_destination_credentials
    (region spark_credentials_secret_arn : string) :
    SE spark_world exn credentials :=
  get_spark_aws_credentials region spark_credentials_secret_arn
    "mapper" "read".

Definition get_write_destination_credentials
    (region spark_credentials_secret_arn : string) :
    SE spark_world exn credentials :=
  get_spark_aws_credentials region spark_credentials_secret_arn
    "mapper" "write".

End Mapper.

(** [expr("header_map['key']").alias(name)]. *)
Definition header_field (key name : string) : column :=
  Alias (GetKey (Col "header_map") key) name.

(** The columns of the select of lines 146 to 158. *)
Definition header_columns : list column :=
  [header_field "WARC-Filename" "warcFileName";
   Alias (Cast (GetKey (Col "header_map") "Content-Length") IntegerType)
     "contentLength";
   Alias (ToTimestamp (GetKey (Col "header_map") "WARC-Date")) "warcDate";
   header_field "WARC-Record-ID" "warcRecordId";
   header_field "Content-Type" "contentType";
   header_field "WARC-Type" "warcType";
   header_field "WARC-Refers-To" "warcRefersTo";
   header_field "WARC-Identified-Content-Language" "language";
   header_field "WARC-Block-Digest" "blockDigest";
   header_field "WARC-Target-URI" "url";
   header_field "WARC-Target-URI" "docId";
   header_field "WARC-Target-URI" "partitionKey";
   Alias (Col "payload") "docText"].

Section Pipeline.
Context (to_timestamp : string → option Z).

(** Line 128: trim white space at both ends of the record. *)
Definition trim_value (df : DataFrame) : outcome exn DataFrame :=
  value <~ df_attr df "value" ;;
  df_select to_timestamp [Alias (RegexpReplace value TrimSpaces "") "value"] df.

(** Lines 131 to 134: header and payload are the first two pieces of
    the record split at blank lines. *)
Definition split_record (df : DataFrame) : outcome exn DataFrame :=
  value <~ df_attr df "value" ;;
  df <~ df_select to_timestamp [Alias (Split value (Seps [blank_line])) "s"]
          df ;;
  df <~ df_withColumn to_timestamp "header" (GetItem (Col "s") 0) df ;;
  df <~ df_withColumn to_timestamp "payload" (GetItem (Col "s") 1) df ;;
  df_select to_timestamp [Col "header"; Col "payload"] df.

(** Line 139: the header split at [": "] and at line ends. *)
Definition split_header (df : DataFrame) : outcome exn DataFrame :=
  header <~ df_attr df "header" ;;
  df_select to_timestamp
    [Alias (Split header (Seps [": "; crlf])) "h"; Col "payload"] df.

(** Lines 142 to 160: the header map, its known fields as columns, the
    filter on the record type, and the dropped column. *)
Definition project_header (df : DataFrame) : outcome exn DataFrame :=
  h <~ df_attr df "h" ;;
  df <~ df_withColumn to_timestamp "header_map" (ArrayToMap h) df ;;
  df <~ df_select to_timestamp header_columns df ;;
  df <~ df_where to_timestamp (EqTo (Col "warcType") (CLit "conversion")) df ;;
  Ok (df_drop "warcFileName" df).

(** Lines 128 to 160. *)
Definition mapper_transform (df : DataFrame) : outcome exn DataFrame :=
  df <~ trim_value df ;;
  df <~ split_record df ;;
  df <~ split_header df ;;
  project_header df.

(** [mapper], lines 118 to 162. *)
Definition mapper (a : MapperArgs) : SE spark_world exn unit :=
  region <- os_environ "AWS_REGION" ;;
  readCredentials <- Mapper.get_read_destination_credentials region
                       (m_spark_credentials_secret_arn a) ;;
  region <- os_environ "AWS_REGION" ;;
  writeCredentials <- Mapper.get_write_destination_credentials region
                        (m_spark_credentials_secret_arn a) ;;
  spark <- createSparkSession (m_appName a) (m_readDestination a)
             (m_writeDestination a) (m_readUri a) (m_writeUri a)
             readCredentials writeCredentials ;;
  df <- readSparkDataframe spark (m_readDestination a) (m_readUri a)
          (m_readFormat a) (m_readOptions a) ;;
  df <- lift (mapper_transform df) ;;
  writeSparkDataframe spark (m_writeDestination a) (m_writeUri a)
    (m_writeFormat a) (m_writeMode a) (m_writeOptions a) df.

End Pipeline.

(** ** Reference: one record *)

(** The header and the payload of a record: the first two pieces of the
    trimmed record split at blank lines. *)
Definition record_pieces (value : string) : list string :=
  split_on [blank_line] (trim value).

Definition header_tokens (value : string) : list string :=
  split_on [": "; crlf] (default "" (record_pieces value !! 0)).

(** A field of the header map as a cell: null when the key is absent. *)
Definition field (tokens : list string) (key : string) : sqlval :=
  from_option SString SNull (header_map tokens !! key).

Definition output_columns : list string :=
  ["contentLength"; "warcDate"; "warcRecordId"; "contentType"; "warcType";
   "warcRefersTo"; "language"; "blockDigest"; "url"; "docId"; "partitionKey";
   "docText"].

Section Reference.
Context (to_timestamp : string → option Z).

(** The row of the result for a record, before the filter. *)
Definition warc_row (value : string) : row :=
  let t := header_tokens value in
  [match field t "Content-Length" with
   | SString s => from_option SInt SNull (cast_integer s)
   | _ => SNull
   end;
   match field t "WARC-Date" with
   | SString s => from_option STimestamp SNull (to_timestamp s)
   | _ => SNull
   end;
   field t "WARC-Record-ID"; field t "Content-Type"; field t "WARC-Type";
   field t "WARC-Refers-To"; field t "WARC-Identified-Content-Language";
   field t "WARC-Block-Digest"; field t "WARC-Target-URI";
   field t "WARC-Target-URI"; field t "WARC-Target-URI";
   from_option SString SNull (record_pieces value !! 1)].

(** The row a cell of the input column gives, if any: a record whose
    type is [conversion]. *)
Definition mapper_row (v : sqlval) : option row :=
  match v with
  | SString value =>
      if bool_decide (field (header_tokens value) "WARC-Type"
                      = SString "conversion")
      then Some (warc_row value) else None
  | _ => None
  end.

End Reference.

(** The udf on the tokens of a header: a lookup in the map the engine
    reads is a lookup in the header map. *)
Lemma pairs_sql_entries (ps : list (string * string)) (m : pymap) :
  Forall (λ kv, ∃ k v, kv = (PStr k, PStr v)) m →
  Forall (λ kv, ∃ k v, kv = (PStr k, PStr v))
    (foldl (λ m kv, pymap_set (PStr kv.1) (PStr kv.2) m) m ps).
Proof.
  revert m. induction ps as [|[a b] ps IH]; intros m Hm; [done|].
  cbn [foldl]. apply IH. cbn [fst snd].
  induction Hm as [|[k1 v1] m (k & v & [= -> ->]) Hm IHm]; cbn [pymap_set].
  - repeat constructor. eauto.
  - destruct (same_key _ _); constructor; eauto.
Qed.

Lemma map_get_sql_entries (k : string) (m : pymap) :
  Forall (λ kv, ∃ k v, kv = (PStr k, PStr v)) m →
  map_get k (omap sql_entry m)
  = match pymap_get (PStr k) m with
    | Some (PStr v) => SString v
    | _ => SNull
    end.
Proof.
  induction 1 as [|[k1 v1] m (k' & v & [= -> ->]) Hm IHm]; [done|].
  cbn [omap list_omap sql_entry map_get pymap_get]. rewrite same_key_str.
  destruct (decide (k' = k)) as [->|Hne].
  - by rewrite !bool_decide_eq_true_2.
  - by rewrite !bool_decide_eq_false_2.
Qed.

Lemma map_get_to_map (tokens : list string) (k : string) :
  map_get k (omap sql_entry
               (to_map_value (py_of_sql (SArray (Some <$> tokens)))))
  = field tokens k.
Proof.
  unfold to_map_value, py_of_sql. rewrite <- list_fmap_compose.
  change ((λ o : option string, _) ∘ Some) with PStr.
  rewrite call_to_map_strings, map_get_sql_entries
    by (apply pairs_sql_entries; constructor).
  rewrite (foldl_pymap_get _ [] ∅ k) by done.
  unfold field, header_map. by destruct (_ !! k).
Qed.

(** ** The steps of the pipeline *)

Section Steps.
Context (to_timestamp : string → option Z).

(** A cell after line 128. *)
Definition trimmed (v : sqlval) : sqlval :=
  match v with SString s => SString (trim s) | _ => SNull end.

(** The header and payload cells after lines 131 to 134. *)
Definition pieces (v : sqlval) : row :=
  match v with
  | SString s =>
      [from_option SString SNull (split_on [blank_line] s !! 0);
       from_option SString SNull (split_on [blank_line] s !! 1)]
  | _ => [SNull; SNull]
  end.

(** The token and payload cells after line 139. *)
Definition tokens_of (r : row) : row :=
  match r with
  | [SString h; p] => [SArray (Some <$> split_on [": "; crlf] h); p]
  | [_; p] => [SNull; p]
  | _ => [SNull; SNull]
  end.

Lemma trim_value_run (cols : list string) (rows : list row) :
  "value" ∈ cols →
  trim_value to_timestamp (mkDataFrame cols rows)
  = Ok (mkDataFrame ["value"]
          ((λ r, [trimmed (cell cols r "value")]) <$> rows)).
Proof.
  intros Hv. unfold trim_value. rewrite df_attr_ok by done.
  cbn [outcome_bind]. rewrite df_select_ok
    by (apply resolve_ok; by repeat constructor).
  do 2 f_equal. apply list_fmap_ext. intros _ r _. cbn [fmap list_fmap eval].
  unfold trimmed. destruct (cell cols r "value"); try done.
  by rewrite regexp_replace_trim.
Qed.

Lemma split_record_run (vs : list sqlval) :
  split_record to_timestamp (mkDataFrame ["value"] ((λ v, [v]) <$> vs))
  = Ok (mkDataFrame ["header"; "payload"] (pieces <$> vs)).
Proof.
  unfold split_record. rewrite df_attr_ok by (by constructor).
  cbn [outcome_bind]. rewrite df_select_ok by done. cbn [outcome_bind].
  cbn [fmap list_fmap column_name].
  rewrite df_withColumn_new by done. cbn [outcome_bind app].
  rewrite df_withColumn_new by done. cbn [outcome_bind app].
  rewrite df_select_ok by done.
  rewrite <- !list_fmap_compose. do 2 f_equal.
  apply list_fmap_ext. intros _ v _. destruct v; try done.
  cbn [compose fmap list_fmap eval app]. cell_simpl.
  cbn [split pieces]. rewrite !list_lookup_fmap.
  by destruct (split_on [blank_line] s) as [|h [|p rest]].
Qed.

Lemma split_header_run (rs : list row) :
  Forall (λ r : row, length r = 2) rs →
  split_header to_timestamp (mkDataFrame ["header"; "payload"] rs)
  = Ok (mkDataFrame ["h"; "payload"] (tokens_of <$> rs)).
Proof.
  intros Hrs. unfold split_header.
  rewrite df_attr_ok by (by constructor). cbn [outcome_bind].
  rewrite df_select_ok by done. do 2 f_equal.
  apply Forall_fmap_ext_1. eapply Forall_impl; [exact Hrs|].
  intros [|h [|p [|]]] ?; try done. by destruct h.
Qed.

End Steps.

Section Project.
Context (to_timestamp : string → option Z).

(** The thirteen cells of line 146 to 158 for a row of tokens and payload. *)
Lemma header_columns_eval (tokens : list string) (p : sqlval) :
  eval to_timestamp ["h"; "payload"; "header_map"]
    [SArray (Some <$> tokens); p;
     sql_of_pymap (to_map_value (py_of_sql (SArray (Some <$> tokens))))]
  <$> header_columns
  = [field tokens "WARC-Filename";
     match field tokens "Content-Length" with
     | SString s => from_option SInt SNull (cast_integer s)
     | _ => SNull
     end;
     match field tokens "WARC-Date" with
     | SString s => from_option STimestamp SNull (to_timestamp s)
     | _ => SNull
     end;
     field tokens "WARC-Record-ID"; field tokens "Content-Type";
     field tokens "WARC-Type"; field tokens "WARC-Refers-To";
     field tokens "WARC-Identified-Content-Language";
     field tokens "WARC-Block-Digest"; field tokens "WARC-Target-URI";
     field tokens "WARC-Target-URI"; field tokens "WARC-Target-URI"; p].
Proof.
  unfold header_columns, header_field. cbn [fmap list_fmap eval].
  cell_simpl. unfold sql_of_pymap. rewrite !map_get_to_map.
  unfold field. repeat f_equal.
  all: destruct (_ !! _) as [s|]; [|done]; simpl.
  all: by first [destruct (cast_integer s) | destruct (to_timestamp s)].
Qed.

End Project.

Section Transform.
Context (to_timestamp : string → option Z).

(** The row of tokens and payload of a cell of the input column. *)
Definition tokens_row (v : sqlval) : row := tokens_of (pieces (trimmed v)).

Lemma tokens_row_string (s : string) :
  tokens_row (SString s)
  = [SArray (Some <$> header_tokens s);
     from_option SString SNull (record_pieces s !! 1)].
Proof.
  unfold tokens_row, header_tokens, record_pieces. cbn [trimmed pieces].
  by destruct (split_on_head [blank_line] (trim s)) as (h & rest & ->).
Qed.

(** Lines 142 to 160 on the rows of tokens and payload. *)
Lemma project_header_run (vs : list sqlval) :
  project_header to_timestamp (mkDataFrame ["h"; "payload"] (tokens_row <$> vs))
  = Ok (mkDataFrame output_columns (omap (mapper_row to_timestamp) vs)).
Proof.
  unfold project_header. rewrite df_attr_ok by (by constructor).
  cbn [outcome_bind]. rewrite df_withColumn_new by done. cbn [outcome_bind app].
  rewrite df_select_ok by done. cbn [outcome_bind].
  rewrite df_where_ok by done. cbn [outcome_bind].
  unfold df_drop. cbn [df_columns df_rows].
  change (col_index "warcFileName" (column_name <$> header_columns))
    with (Some 0).
  change (delete 0 (column_name <$> header_columns)) with output_columns.
  f_equal. f_equal. rewrite <- !list_fmap_compose, fmap_filter_fmap.
  apply list_omap_ext, Forall_Forall2_diag, Forall_forall. intros v _.
  cbn [compose].
  destruct v as [|s| | | | | | |]; [by vm_compute| |by vm_compute..].
  rewrite tokens_row_string. cbn [app eval]. cell_simpl.
  rewrite (header_columns_eval to_timestamp).
  cbn [eval fmap list_fmap header_columns header_field column_name].
  cell_simpl.
  cbn [mapper_row]. unfold warc_row.
  destruct (field (header_tokens s) "WARC-Type") eqn:Hty; try done.
  destruct (decide (s0 = "conversion")) as [->|Hne].
  - rewrite !bool_decide_eq_true_2 by done. by rewrite decide_True.
  - rewrite !bool_decide_eq_false_2 by congruence. by rewrite decide_False.
Qed.

Lemma mapper_transform_run (cols : list string) (rows : list row) :
  "value" ∈ cols →
  mapper_transform to_timestamp (mkDataFrame cols rows)
  = Ok (mkDataFrame output_columns
          (omap (λ r, mapper_row to_timestamp (cell cols r "value")) rows)).
Proof.
  intros Hv. unfold mapper_transform. rewrite trim_value_run by done.
  cbn [outcome_bind].
  rewrite (list_fmap_compose (λ r, trimmed (cell cols r "value")) (λ v, [v])).
  rewrite split_record_run. cbn [outcome_bind].
  rewrite split_header_run
    by (apply Forall_fmap, Forall_forall; by intros []).
  cbn [outcome_bind]. rewrite <- !list_fmap_compose.
  rewrite (list_fmap_compose (λ r, cell cols r "value") tokens_row).
  rewrite project_header_run. do 2 f_equal.
  by rewrite omap_fmap.
Qed.

End Transform.

(** The session [mapper] creates. *)
Definition mapper_session (region : string) (a : MapperArgs) : session :=
  mkSession (m_appName a) (m_readDestination a) (m_writeDestination a)
    (m_readUri a) (m_writeUri a)
    (mkCredentials region (m_spark_credentials_secret_arn a) "mapper" "read")
    (mkCredentials region (m_spark_credentials_secret_arn a) "mapper" "write").

(** ** Properties *)

Section Properties.
Context (to_timestamp : string → option Z).

(** C29: on a dataframe that has a [value] column, the operator
    pipeline of [mapper] computes, record by record, the row of the
    reference definition: the records whose header gives the type
    [conversion] are kept, in order, with their twelve columns. *)
Theorem mapper_transform_rows (cols : list string) (rows : list row) :
  "value" ∈ cols →
  mapper_transform to_timestamp (mkDataFrame cols rows)
  = Ok (mkDataFrame output_columns
          (omap (λ r, mapper_row to_timestamp (cell cols r "value")) rows)).
Proof. apply mapper_transform_run. Qed.

(** Every row the pipeline produces has twelve cells, the type
    [conversion], and the same value under [url], [docId] and
    [partitionKey]. *)
Theorem mapper_transform_conversion (cols : list string) (rows : list row)
    (out : DataFrame) :
  "value" ∈ cols →
  mapper_transform to_timestamp (mkDataFrame cols rows) = Ok out →
  df_columns out = output_columns ∧
  Forall (λ r, length r = 12 ∧
               cell output_columns r "warcType" = SString "conversion" ∧
               cell output_columns r "docId" = cell output_columns r "url" ∧
               cell output_columns r "partitionKey"
               = cell output_columns r "url")
    (df_rows out).
Proof.
  intros Hv. rewrite mapper_transform_run by done. intros [= <-].
  split; [done|]. apply Forall_forall.
  intros r (r0 & _ & Hr)%list_elem_of_omap.
  destruct (cell cols r0 "value") as [|s| | | | | | |]; try done.
  cbn [mapper_row] in Hr. case_bool_decide as Hty; [|done].
  injection Hr as <-. unfold warc_row, output_columns. cell_simpl.
  by rewrite Hty.
Qed.

(** A dataframe without a [value] column stops the pipeline at its
    first statement, with the AttributeError of [df.value]. *)
Theorem mapper_transform_no_value (df : DataFrame) :
  "value" ∉ df_columns df →
  mapper_transform to_timestamp df
  = Raised (AttributeError (msg_no_df_attribute "value")).
Proof.
  intros Hv. unfold mapper_transform, trim_value, df_attr.
  by rewrite bool_decide_eq_false_2.
Qed.

(** One run of [mapper] on a readable uri, statement by statement. *)
Lemma mapper_run (a : MapperArgs) (w : spark_world)
    (region : string) (df : DataFrame) (files' : gmap string DataFrame) :
  sw_environ w !! "AWS_REGION" = Some region →
  sw_files w !! m_readUri a = Some df →
  "value" ∈ df_columns df →
  save (m_writeMode a) (m_writeUri a)
    (mkDataFrame output_columns
       (omap (λ r, mapper_row to_timestamp (cell (df_columns df) r "value"))
          (df_rows df)))
    (sw_files w) = Ok files' →
  mapper to_timestamp a w
  = (Ok tt,
     mkSparkWorld (sw_environ w) files'
       (sw_sessions w ++ [mapper_session region a])
       (sw_reads w
        ++ [mkRead (mapper_session region a) (m_readDestination a)
              (m_readUri a) (m_readFormat a) (m_readOptions a)])
       (sw_writes w
        ++ [mkWrite (mapper_session region a) (m_writeDestination a)
              (m_writeUri a) (m_writeFormat a) (m_writeMode a)
              (m_writeOptions a)
              (mkDataFrame output_columns
                 (omap (λ r, mapper_row to_timestamp
                               (cell (df_columns df) r "value"))
                    (df_rows df)))])).
Proof.
  intros Hregion Hu Hv Hsave. unfold mapper.
  unfold bind at 1. rewrite os_environ_run, Hregion.
  unfold bind at 1, Mapper.get_read_destination_credentials,
    get_spark_aws_credentials, ret at 1.
  unfold bind at 1. rewrite os_environ_run, Hregion.
  unfold bind at 1, Mapper.get_write_destination_credentials,
    get_spark_aws_credentials, ret at 1.
  unfold bind at 1, createSparkSession, bind at 1, modify, ret.
  unfold bind at 1. rewrite readSparkDataframe_run. cbn [sw_files add_reads].
  rewrite Hu. unfold bind at 1, lift at 1.
  destruct df as [cols rows]. rewrite mapper_transform_run by done.
  unfold writeSparkDataframe, bind, gets, lift, modify. simpl in *.
  by rewrite Hsave.
Qed.

(** C28: with the region set, the read uri readable with a [value]
    column, and the write succeeding, [mapper] creates one session with
    the mapper's read and write credentials, reads the uri once and
    writes the rows of the reference definition. *)
Theorem mapper_writes_rows (a : MapperArgs) (w : spark_world)
    (region : string) (df : DataFrame) (files' : gmap string DataFrame) :
  sw_environ w !! "AWS_REGION" = Some region →
  sw_files w !! m_readUri a = Some df →
  "value" ∈ df_columns df →
  save (m_writeMode a) (m_writeUri a)
    (mkDataFrame output_columns
       (omap (λ r, mapper_row to_timestamp (cell (df_columns df) r "value"))
          (df_rows df)))
    (sw_files w) = Ok files' →
  mapper to_timestamp a w
  = (Ok tt,
     mkSparkWorld (sw_environ w) files'
       (sw_sessions w ++ [mapper_session region a])
       (sw_reads w
        ++ [mkRead (mapper_session region a) (m_readDestination a)
              (m_readUri a) (m_readFormat a) (m_readOptions a)])
       (sw_writes w
        ++ [mkWrite (mapper_session region a) (m_writeDestination a)
              (m_writeUri a) (m_writeFormat a) (m_writeMode a)
              (m_writeOptions a)
              (mkDataFrame output_columns
                 (omap (λ r, mapper_row to_timestamp
                               (cell (df_columns df) r "value"))
                    (df_rows df)))])).
Proof. apply mapper_run. Qed.

End Properties.

(** A record of type [conversion] with a one-line payload. *)
Definition sample_warc : string :=
  "WARC/1.0" +:+ crlf +:+ "WARC-Type: conversion" +:+ crlf
  +:+ "Content-Length: 4" +:+ blank_line +:+ "text".

Definition sample_row : row :=
  [SInt 4; SNull; SNull; SNull; SString "conversion"; SNull; SNull; SNull;
   SNull; SNull; SNull; SString "text"].

Lemma mapper_transform_rows_witness :
  mapper_transform (λ _, None) (mkDataFrame ["value"] [[SString sample_warc]])
  = Ok (mkDataFrame output_columns
          (omap (λ r, mapper_row (λ _, None) (cell ["value"] r "value"))
             [[SString sample_warc]])).
Proof.
  apply (mapper_transform_rows (λ _, None) ["value"] [[SString sample_warc]]).
  constructor.
Defined.

Lemma mapper_transform_conversion_witness :
  df_columns (mkDataFrame output_columns [sample_row]) = output_columns ∧
  Forall (λ r, length r = 12 ∧
               cell output_columns r "warcType" = SString "conversion" ∧
               cell output_columns r "docId" = cell output_columns r "url" ∧
               cell output_columns r "partitionKey"
               = cell output_columns r "url")
    (df_rows (mkDataFrame output_columns [sample_row])).
Proof.
  apply (mapper_transform_conversion (λ _, None) ["value"]
           [[SString sample_warc]] (mkDataFrame output_columns [sample_row])).
  - constructor.
  - vm_compute. reflexivity.
Defined.

Lemma mapper_transform_no_value_witness :
  mapper_transform (λ _, None) (mkDataFrame ["line"] [[SString sample_warc]])
  = Raised (AttributeError (msg_no_df_attribute "value")).
Proof.
  apply (mapper_transform_no_value (λ _, None)
           (mkDataFrame ["line"] [[SString sample_warc]])).
  vm_compute. by intros [[=]|[]%elem_of_nil]%elem_of_cons.
Defined.

Lemma mapper_writes_rows_witness :
  mapper (λ _, None)
    (mkMapperArgs "app" "S3" "in" "text" PNone "S3" "out" "parquet"
       "overwrite" PNone "arn")
    (mkSparkWorld {["AWS_REGION" := "us-east-1"]}
       {["in" := mkDataFrame ["value"] [[SString sample_warc]]]} [] [] [])
  = (Ok tt,
     mkSparkWorld {["AWS_REGION" := "us-east-1"]}
       (<["out" := mkDataFrame output_columns [sample_row]]>
          {["in" := mkDataFrame ["value"] [[SString sample_warc]]]})
       ([] ++ [mapper_session "us-east-1"
                 (mkMapperArgs "app" "S3" "in" "text" PNone "S3" "out"
                    "parquet" "overwrite" PNone "arn")])
       ([] ++ [mkRead
                 (mapper_session "us-east-1"
                    (mkMapperArgs "app" "S3" "in" "text" PNone "S3" "out"
                       "parquet" "overwrite" PNone "arn"))
                 "S3" "in" "text" PNone])
       ([] ++ [mkWrite
                 (mapper_session "us-east-1"
                    (mkMapperArgs "app" "S3" "in" "text" PNone "S3" "out"
                       "parquet" "overwrite" PNone "arn"))
                 "S3" "out" "parquet" "overwrite" PNone
                 (mkDataFrame output_columns
                    (omap (λ r, mapper_row (λ _, None)
                                  (cell ["value"] r "value"))
                       [[SString sample_warc]]))])).
Proof.
  refine (mapper_writes_rows (λ _, None)
            (mkMapperArgs "app" "S3" "in" "text" PNone "S3" "out" "parquet"
               "overwrite" PNone "arn")
            (mkSparkWorld {["AWS_REGION" := "us-east-1"]}
               {["in" := mkDataFrame ["value"] [[SString sample_warc]]]}
               [] [] [])
            "us-east-1" (mkDataFrame ["value"] [[SString sample_warc]])
            (<["out" := mkDataFrame output_columns [sample_row]]>
               {["in" := mkDataFrame ["value"] [[SString sample_warc]]]})
            _ _ _ _).
  - reflexivity.
  - reflexivity.
  - constructor.
  - vm_compute. reflexivity.
Defined.

(** Text of the payload after a second blank line does not reach
    [docText]: the payload column is the second piece of the record
    only. *)
Example mapper_drops_text_after_blank_line :
  mapper_transform (λ _, None)
    (mkDataFrame ["value"]
       [[SString (sample_warc +:+ blank_line +:+ "second paragraph")]])
  = Ok (mkDataFrame output_columns [sample_row]).
Proof. vm_compute. reflexivity. Qed.

(** A header value that contains a colon followed by a space is
    split into two tokens; the keys and values after it change places,
    the record type is not found and the record is dropped. *)
Example mapper_loses_record_with_separator_in_value :
  mapper_transform (λ _, None)
    (mkDataFrame ["value"]
       [[SString ("WARC/1.0" +:+ crlf +:+ "WARC-Target-URI: http://a/b: c"
                  +:+ crlf +:+ "WARC-Type: conversion" +:+ blank_line
                  +:+ "text")]])
  = Ok (mkDataFrame output_columns []).
Proof. vm_compute. reflexivity. Qed.

(** Header and payload are cut out of the record without loss up
    to the second blank line: the pieces of a record, joined by blank
    lines, are the trimmed record. *)
Theorem record_pieces_join (value : string) :
  str_join blank_line (record_pieces value) = trim value.
Proof. by apply split_on_join. Qed.

Section Bounds.
Context (to_timestamp : string → option Z).

(** The content length of every row the pipeline produces is null
    or an integer that fits 32 bits: a Content-Length above 2^31 - 1
    is not wrapped, it becomes null. *)
Theorem mapper_contentLength_int32 (cols : list string) (rows : list row)
    (out : DataFrame) :
  "value" ∈ cols →
  mapper_transform to_timestamp (mkDataFrame cols rows) = Ok out →
  Forall (λ r, cell output_columns r "contentLength" = SNull ∨
               ∃ z, cell output_columns r "contentLength" = SInt z ∧
                    (int_min ≤ z ≤ int_max)%Z)
    (df_rows out).
Proof.
  intros Hv. rewrite mapper_transform_run by done. intros [= <-].
  apply Forall_forall. intros r (r0 & _ & Hr)%list_elem_of_omap.
  destruct (cell cols r0 "value") as [|s| | | | | | |]; try done.
  cbn [mapper_row] in Hr. case_bool_decide; [|done].
  injection Hr as <-. unfold warc_row, output_columns. cell_simpl.
  destruct (field _ "Content-Length") as [|n| | | | | | |]; auto.
  destruct (cast_integer n) as [z|] eqn:Hz; [|by left].
  right. exists z. split; [done|]. by eapply cast_integer_bounds.
Qed.

End Bounds.

Lemma mapper_contentLength_int32_witness :
  Forall (λ r, cell output_columns r "contentLength" = SNull ∨
               ∃ z, cell output_columns r "contentLength" = SInt z ∧
                    (int_min ≤ z ≤ int_max)%Z)
    (df_rows (mkDataFrame output_columns [sample_row])).
Proof.
  apply (mapper_contentLength_int32 (λ _, None) ["value"]
           [[SString sample_warc]] (mkDataFrame output_columns [sample_row])).
  - constructor.
  - vm_compute. reflexivity.
Defined.
