(* ===== verification/RowOrder.v ===== *)
(** * Dataframes up to the order of their rows

    The engine does not promise an order of the rows of a dataframe: a
    file is read in partitions, and the partitions are processed on the
    executors as they come.  This file defines the equivalence of
    dataframes that have the same columns and the same rows in some
    order, shows that every operator the handlers call respects it, and
    concludes that the transformations of [mapper] and [reducer] do:
    what they return does not depend on the order in which the engine
    delivers the rows.

    The transformation of [mapper] is narrow: it works row by row, so it
    can be applied to the partitions of a dataframe one by one.  The
    transformation of [reducer] is wide: its result on a union is not
    the union of its results, but it is the same for every order of the
    parts. *)

From stdpp Require Import base tactics option list strings sorting.
From Stdlib Require Import ZArith QArith.
From S2P Require Import Prelude PyValue ToMap SparkEngine SparkReducer.
From S2P Require Import SparkMapper.

Local Close Scope Q_scope.
Local Close Scope Z_scope.

(** ** The equivalence *)

(** The same columns, and the same rows in some order. *)
Definition df_equiv (df1 df2 : DataFrame) : Prop :=
  df_columns df1 = df_columns df2 ∧ df_rows df1 ≡ₚ df_rows df2.

(** The same exception, or equivalent dataframes. *)
Definition outcome_equiv (o1 o2 : outcome exn DataFrame) : Prop :=
  match o1, o2 with
  | Ok df1, Ok df2 => df_equiv df1 df2
  | Raised e1, Raised e2 => e1 = e2
  | _, _ => False
  end.

(** The rows of a dataframe in partitions: the dataframe of each part,
    and the union of dataframes with the same columns. *)
Definition partition_df (cols : list string) (part : list row) : DataFrame :=
  mkDataFrame cols part.

Definition union_all (cols : list string) (dfs : list DataFrame) : DataFrame :=
  mkDataFrame cols (dfs ≫= df_rows).

(** No two rows of the result of [reducer] have the same number of
    samples. *)
Definition no_ties (out : DataFrame) : Prop :=
  Forall (λ r, Forall (λ r', sort_key (df_columns out) samples_column r
                             = sort_key (df_columns out) samples_column r' →
                             r = r')
                 (df_rows out))
    (df_rows out).

#[export] Instance no_ties_dec out : Decision (no_ties out).
Proof. unfold no_ties. apply _. Defined.

Declare Scope df_scope.
Infix "≡ᵣ" := df_equiv (at level 70, no associativity) : df_scope.
Infix "≡ₒ" := outcome_equiv (at level 70, no associativity) : df_scope.
Notation "(≡ᵣ)" := df_equiv (only parsing) : df_scope.
Notation "(≡ₒ)" := outcome_equiv (only parsing) : df_scope.
Local Open Scope df_scope.

#[export] Instance df_equiv_equivalence : Equivalence (≡ᵣ).
Proof.
  split.
  - by intros df.
  - by intros df1 df2 [Hc Hr].
  - intros df1 df2 df3 [Hc1 Hr1] [Hc2 Hr2].
    split; [congruence|by rewrite Hr1].
Qed.

#[export] Instance outcome_equiv_equivalence : Equivalence (≡ₒ).
Proof.
  split.
  - by intros [df|e].
  - intros [df1|e1] [df2|e2]; simpl; by try symmetry.
  - intros [df1|e1] [df2|e2] [df3|e3]; simpl; try done; intros; by etrans.
Qed.

#[export] Instance df_columns_proper : Proper ((≡ᵣ) ==> (=)) df_columns.
Proof. by intros df1 df2 [Hc _]. Qed.

#[export] Instance df_rows_proper : Proper ((≡ᵣ) ==> (≡ₚ)) df_rows.
Proof. by intros df1 df2 [_ Hr]. Qed.

#[export] Instance mkDataFrame_proper :
  Proper ((=) ==> (≡ₚ) ==> (≡ᵣ)) mkDataFrame.
Proof. by intros cols ? <- rows1 rows2 Hr. Qed.

#[export] Instance Ok_proper : Proper ((≡ᵣ) ==> (≡ₒ)) Ok.
Proof. by intros df1 df2 Hdf. Qed.

#[export] Instance outcome_bind_proper :
  Proper ((≡ₒ) ==> ((≡ᵣ) ==> (≡ₒ)) ==> (≡ₒ)) outcome_bind.
Proof.
  intros [df1|e1] [df2|e2] Ho f1 f2 Hf; simpl in *; try done. by apply Hf.
Qed.

(** Equal dataframes are equivalent, and so are equal outcomes. *)
Lemma outcome_equiv_eq (o1 o2 : outcome exn DataFrame) : o1 = o2 → o1 ≡ₒ o2.
Proof. by intros ->. Qed.

(** Functions that agree, over lists that are permutations. *)
Lemma fmap_perm_ext {A B} (f g : A → B) (l1 l2 : list A) :
  (∀ x, f x = g x) → l1 ≡ₚ l2 → f <$> l1 ≡ₚ g <$> l2.
Proof.
  intros Hfg Hl. rewrite Hl. by rewrite (list_fmap_ext f g l2 (λ _ x _, Hfg x)).
Qed.

(** ** Aggregates *)

(** Sorting forgets the order of what it sorts. *)
Lemma merge_sort_perm (xs ys : list Z) :
  xs ≡ₚ ys → merge_sort Z.le xs = merge_sort Z.le ys.
Proof.
  intros Hp.
  apply (Sorted_unique Z.le); [apply Sorted_merge_sort; apply _..|].
  by rewrite !merge_sort_Permutation.
Qed.

#[export] Instance int_values_proper : Proper ((≡ₚ) ==> (≡ₚ)) int_values.
Proof. intros vs1 vs2 Hvs. unfold int_values. by rewrite Hvs. Qed.

#[export] Instance percentile_of_proper p :
  Proper ((≡ₚ) ==> (=)) (percentile_of p).
Proof.
  intros xs ys Hp. unfold percentile_of.
  by rewrite (merge_sort_perm xs ys Hp), (Permutation_length Hp).
Qed.

#[export] Instance count_of_proper : Proper ((≡ₚ) ==> (=)) count_of.
Proof. intros vs1 vs2 Hvs. unfold count_of. by rewrite Hvs. Qed.

#[export] Instance eval_agg_proper cols :
  Proper ((≡ₚ) ==> (=) ==> (=)) (eval_agg cols).
Proof.
  intros rows1 rows2 Hr a ? <-.
  induction a as [col p|col|a IH name]; simpl; [|by rewrite Hr|done].
  by rewrite Hr.
Qed.

(** The values of a list without repetition, up to their order. *)
#[export] Instance remove_dups_proper `{EqDecision A} :
  Proper ((≡ₚ) ==> (≡ₚ)) (@remove_dups A _).
Proof.
  intros l1 l2 Hl. apply NoDup_Permutation; [apply NoDup_remove_dups..|].
  intros x. by rewrite !elem_of_remove_dups, Hl.
Qed.

(** ** The operators *)

Section Operators.
Context (to_timestamp : string → option Z).

#[global] Instance df_attr_proper :
  Proper ((≡ᵣ) ==> (=) ==> (=)) df_attr.
Proof. intros df1 df2 [Hc _] name ? <-. unfold df_attr. by rewrite Hc. Qed.

#[global] Instance df_select_proper cs :
  Proper ((≡ᵣ) ==> (≡ₒ)) (df_select to_timestamp cs).
Proof.
  intros df1 df2 [Hc Hr]. unfold df_select. rewrite Hc.
  destruct (resolve _ cs); simpl; [|done]. split; simpl; [done|].
  by rewrite Hr.
Qed.

#[global] Instance df_withColumn_proper name c :
  Proper ((≡ᵣ) ==> (≡ₒ)) (df_withColumn to_timestamp name c).
Proof.
  intros df1 df2 [Hc Hr]. unfold df_withColumn. rewrite Hc.
  destruct (resolve _ [c]); simpl; [|done].
  destruct (col_index name _); (split; simpl; [done|by rewrite Hr]).
Qed.

#[global] Instance df_where_proper c :
  Proper ((≡ᵣ) ==> (≡ₒ)) (df_where to_timestamp c).
Proof.
  intros df1 df2 [Hc Hr]. unfold df_where. rewrite Hc.
  destruct (resolve _ [c]); simpl; [|done]. split; simpl; [done|].
  by rewrite Hr.
Qed.

#[global] Instance df_drop_proper name : Proper ((≡ᵣ) ==> (≡ᵣ)) (df_drop name).
Proof.
  intros df1 df2 [Hc Hr]. unfold df_drop. rewrite Hc.
  destruct (col_index name _); [|done]. split; simpl; [done|by rewrite Hr].
Qed.

#[global] Instance df_union_proper :
  Proper ((≡ᵣ) ==> (≡ᵣ) ==> (≡ₒ)) df_union.
Proof.
  intros df1 df2 [Hc Hr] o1 o2 [Hoc Hor]. unfold df_union.
  rewrite Hc, Hoc. case_bool_decide; simpl; [|done].
  split; simpl; [done|by rewrite Hr, Hor].
Qed.

End Operators.

#[export] Instance df_groupBy_agg_proper key aggs :
  Proper ((≡ᵣ) ==> (≡ₒ)) (df_groupBy_agg key aggs).
Proof.
  intros df1 df2 [Hc Hr]. unfold df_groupBy_agg. rewrite Hc.
  destruct (resolve _ _); simpl; [|done]. split; simpl; [done|].
  apply fmap_perm_ext; [|by rewrite Hr].
  intros k. f_equal. apply list_fmap_ext. intros _ agg _. by rewrite Hr.
Qed.

#[export] Instance df_orderBy_desc_proper name :
  Proper ((≡ᵣ) ==> (≡ₒ)) (df_orderBy_desc name).
Proof.
  intros df1 df2 [Hc Hr]. unfold df_orderBy_desc. rewrite Hc.
  destruct (resolve _ _); simpl; [|done]. split; simpl; [done|].
  by rewrite !merge_sort_Permutation.
Qed.

(** ** The stages of the pipelines *)

(** A pipeline of operators respects the order of the rows when each of
    its operators does: an attribute access depends on the columns
    only, and the binds pass equivalent dataframes on. *)
Ltac df_proper :=
  repeat match goal with
    | H : ?df1 ≡ᵣ ?df2 |- context [df_attr ?df1 ?n] =>
        rewrite (df_attr_proper df1 df2 H n n eq_refl);
        destruct (df_attr df2 n); simpl; [|done]
    | |- outcome_bind _ _ ≡ₒ outcome_bind _ _ =>
        apply outcome_bind_proper; [|intros ? ? ?]
    | |- Ok _ ≡ₒ Ok _ => apply Ok_proper
    | |- ?f _ ≡ₒ ?f _ => by apply (_ : Proper ((≡ᵣ) ==> (≡ₒ)) f)
    | |- ?f _ ≡ᵣ ?f _ => by apply (_ : Proper ((≡ᵣ) ==> (≡ᵣ)) f)
    end.

Section Pipelines.
Context (to_timestamp : string → option Z).

#[global] Instance trim_value_proper :
  Proper ((≡ᵣ) ==> (≡ₒ)) (trim_value to_timestamp).
Proof. intros df1 df2 Hdf. unfold trim_value. df_proper. Qed.

#[global] Instance split_record_proper :
  Proper ((≡ᵣ) ==> (≡ₒ)) (split_record to_timestamp).
Proof. intros df1 df2 Hdf. unfold split_record. df_proper. Qed.

#[global] Instance split_header_proper :
  Proper ((≡ᵣ) ==> (≡ₒ)) (split_header to_timestamp).
Proof. intros df1 df2 Hdf. unfold split_header. df_proper. Qed.

#[global] Instance project_header_proper :
  Proper ((≡ᵣ) ==> (≡ₒ)) (project_header to_timestamp).
Proof. intros df1 df2 Hdf. unfold project_header. df_proper. Qed.

#[global] Instance mapper_transform_proper :
  Proper ((≡ᵣ) ==> (≡ₒ)) (mapper_transform to_timestamp).
Proof. intros df1 df2 Hdf. unfold mapper_transform. df_proper. Qed.

(** The union of the partitions of a dataframe, in any order of the
    partitions, is the dataframe. *)
Lemma union_all_partitions (cols : list string) (parts : list (list row)) :
  union_all cols (partition_df cols <$> parts) = mkDataFrame cols (concat parts).
Proof.
  unfold union_all. f_equal. induction parts as [|part parts IH]; [done|].
  csimpl. by rewrite IH.
Qed.

#[global] Instance union_all_proper cols :
  Proper ((≡ₚ) ==> (≡ᵣ)) (union_all cols).
Proof. intros dfs1 dfs2 Hdfs. unfold union_all. by rewrite Hdfs. Qed.

(** The transformation of the mapper on each partition, and on their
    union. *)
Lemma mapper_transform_parts (cols : list string) (parts : list (list row)) :
  "value" ∈ cols →
  ∃ outs,
    Forall2 (λ part out,
               mapper_transform to_timestamp (partition_df cols part) = Ok out)
      parts outs ∧
    mapper_transform to_timestamp (union_all cols (partition_df cols <$> parts))
    = Ok (union_all output_columns outs).
Proof.
  intros Hv.
  exists ((λ part, mkDataFrame output_columns
                     (omap (λ r, mapper_row to_timestamp (cell cols r "value"))
                        part)) <$> parts).
  split.
  - apply Forall2_fmap_r, Forall_Forall2_diag, Forall_forall.
    intros part _. by apply mapper_transform_run.
  - rewrite union_all_partitions, mapper_transform_run by done.
    unfold union_all. do 2 f_equal.
    induction parts as [|part parts IH]; [done|].
    csimpl. by rewrite omap_app, IH.
Qed.

End Pipelines.

#[export] Instance reducer_transform_proper :
  Proper ((≡ᵣ) ==> (≡ₒ)) (λ df, reducer_transform (Some df)).
Proof. intros df1 df2 Hdf. unfold reducer_transform. df_proper. Qed.

(** ** Ties *)

#[export] Instance desc_le_trans cols name : Transitive (desc_le cols name).
Proof.
  intros r1 r2 r3. unfold desc_le.
  destruct (sort_key cols name r1), (sort_key cols name r2),
    (sort_key cols name r3); try done. intros. by etrans.
Qed.

(** Rows that may come in either order have the same key. *)
Lemma desc_le_both cols name (r1 r2 : row) :
  desc_le cols name r1 r2 → desc_le cols name r2 r1 →
  sort_key cols name r1 = sort_key cols name r2.
Proof.
  unfold desc_le.
  destruct (sort_key cols name r1), (sort_key cols name r2); try done.
  intros. f_equal. by apply Z.le_antisymm.
Qed.

Lemma reducer_rows_sorted (df out : DataFrame) :
  reducer_transform (Some df) = Ok out →
  Sorted (desc_le (df_columns out) samples_column) (df_rows out).
Proof.
  intros [_ ->]%reducer_transform_inv. apply Sorted_merge_sort, _.
Qed.

(** Without ties the order of the result is fixed by the keys. *)
Lemma reducer_transform_unique (df1 df2 out1 : DataFrame) :
  df1 ≡ᵣ df2 →
  reducer_transform (Some df1) = Ok out1 → no_ties out1 →
  reducer_transform (Some df2) = Ok out1.
Proof.
  intros Hdf H1 Hties.
  pose proof (reducer_transform_proper _ _ Hdf) as He. cbv beta in He.
  rewrite H1 in He.
  destruct (reducer_transform (Some df2)) as [out2|] eqn:H2; [|done].
  destruct He as [Hc Hr].
  apply reducer_rows_sorted in H1, H2. rewrite <- Hc in H2.
  destruct out1 as [cols rows1], out2 as [cols2 rows2]; simpl in *.
  subst cols2. do 2 f_equal. symmetry.
  apply (Sorted_unique_strong (desc_le cols samples_column)); [|done..].
  intros r1 r2 Hr1 Hr2 H12 H21. unfold no_ties in Hties. simpl in Hties.
  rewrite Forall_forall in Hties. specialize (Hties r1 Hr1).
  rewrite Forall_forall in Hties.
  apply Hties; [by rewrite Hr|by apply desc_le_both].
Qed.

(** ** Properties *)

Section Properties.
Context (to_timestamp : string → option Z).

(** The transformation of the mapper does not depend on the order of
    the rows it is given: on two dataframes with the same columns and
    the same rows in some order it raises the same exception, or returns
    dataframes with the same columns and the same rows in some order. *)
Theorem mapper_transform_row_order (df1 df2 : DataFrame) :
  df1 ≡ᵣ df2 →
  mapper_transform to_timestamp df1 ≡ₒ mapper_transform to_timestamp df2.
Proof. apply mapper_transform_proper. Qed.

(** The transformation of the reducer does not depend on the order of
    the rows it is given: the groups, the percentile and the number of
    samples of each group are the same, and the rows of the two results
    differ at most in their order. *)
Theorem reducer_transform_row_order (df1 df2 : DataFrame) :
  df1 ≡ᵣ df2 →
  reducer_transform (Some df1) ≡ₒ reducer_transform (Some df2).
Proof. apply reducer_transform_proper. Qed.

(** The transformation of the mapper is narrow: on a dataframe with a
    [value] column that is read in partitions, it succeeds on every
    partition, and its result on the whole dataframe is the union of
    its results on the partitions. *)
Theorem mapper_transform_narrow (cols : list string)
    (parts : list (list row)) :
  "value" ∈ cols →
  ∃ outs,
    Forall2 (λ part out,
               mapper_transform to_timestamp (partition_df cols part) = Ok out)
      parts outs ∧
    mapper_transform to_timestamp (union_all cols (partition_df cols <$> parts))
    = Ok (union_all output_columns outs).
Proof. apply mapper_transform_parts. Qed.

End Properties.

(** When no two languages have the same number of samples, the result
    of the reducer is the same dataframe, row for row, for every order
    of the rows of its input. *)
Theorem reducer_transform_no_ties (df1 df2 out1 : DataFrame) :
  df1 ≡ᵣ df2 →
  reducer_transform (Some df1) = Ok out1 → no_ties out1 →
  reducer_transform (Some df2) = Ok out1.
Proof. apply reducer_transform_unique. Qed.

(** Two records of type [conversion], in English and in French. *)
Definition record_of (language : string) : string :=
  "WARC/1.0" +:+ crlf +:+ "WARC-Type: conversion" +:+ crlf
  +:+ "WARC-Identified-Content-Language: " +:+ language +:+ crlf
  +:+ "Content-Length: 4" +:+ blank_line +:+ "text".

(** Rows of the mapper's result with a language and a content length. *)
Definition language_rows (entries : list (string * Z)) : DataFrame :=
  mkDataFrame ["language"; "contentLength"]
    ((λ e, [SString e.1; SInt e.2]) <$> entries).

(** With ties the sort key does not determine the order of the result.
    The engine model fixes one (groups in the order of their last rows,
    a stable sort), so in the model the order of two languages with one
    sample each follows the order of the input; the engine promises
    none. *)
Example reducer_ties_follow_input :
  language_rows [("en", 4); ("fr", 8)]%Z ≡ᵣ language_rows [("fr", 8); ("en", 4)]%Z
  ∧ reducer_transform (Some (language_rows [("en", 4); ("fr", 8)]%Z))
    ≠ reducer_transform (Some (language_rows [("fr", 8); ("en", 4)]%Z)).
Proof. split; [split; [done|apply perm_swap]|by vm_compute]. Qed.

Lemma mapper_transform_row_order_witness :
  mapper_transform (λ _, None)
    (mkDataFrame ["value"] [[SString (record_of "eng")];
                            [SString (record_of "fra")]])
  ≡ₒ mapper_transform (λ _, None)
       (mkDataFrame ["value"] [[SString (record_of "fra")];
                               [SString (record_of "eng")]]).
Proof.
  apply (mapper_transform_row_order (λ _, None)
           (mkDataFrame ["value"] [[SString (record_of "eng")];
                                   [SString (record_of "fra")]])
           (mkDataFrame ["value"] [[SString (record_of "fra")];
                                   [SString (record_of "eng")]])).
  split; [reflexivity|apply perm_swap].
Defined.

Lemma reducer_transform_row_order_witness :
  reducer_transform (Some (language_rows [("en", 4); ("fr", 8); ("en", 6)]%Z))
  ≡ₒ reducer_transform
       (Some (language_rows [("fr", 8); ("en", 4); ("en", 6)]%Z)).
Proof.
  apply (reducer_transform_row_order
           (language_rows [("en", 4); ("fr", 8); ("en", 6)]%Z)
           (language_rows [("fr", 8); ("en", 4); ("en", 6)]%Z)).
  split; [reflexivity|apply perm_swap].
Defined.

Lemma mapper_transform_narrow_witness :
  ∃ outs,
    Forall2 (λ part out,
               mapper_transform (λ _, None) (partition_df ["value"] part)
               = Ok out)
      [[[SString (record_of "eng")]]; [[SString (record_of "fra")]]] outs ∧
    mapper_transform (λ _, None)
      (union_all ["value"]
         (partition_df ["value"]
            <$> [[[SString (record_of "eng")]]; [[SString (record_of "fra")]]]))
    = Ok (union_all output_columns outs).
Proof.
  apply (mapper_transform_narrow (λ _, None) ["value"]
           [[[SString (record_of "eng")]]; [[SString (record_of "fra")]]]).
  by left.
Defined.

Lemma reducer_transform_no_ties_witness :
  reducer_transform (Some (language_rows [("fr", 8); ("en", 4); ("en", 6)]%Z))
  = Ok (mkDataFrame ["language"; percentile_column; samples_column]
          [[SString "en"; SDouble (29 # 5); SLong 2];
           [SString "fr"; SDouble (8 # 1); SLong 1]]).
Proof.
  refine (reducer_transform_no_ties
            (language_rows [("en", 4); ("fr", 8); ("en", 6)]%Z)
            (language_rows [("fr", 8); ("en", 4); ("en", 6)]%Z)
            (mkDataFrame ["language"; percentile_column; samples_column]
               [[SString "en"; SDouble (29 # 5); SLong 2];
                [SString "fr"; SDouble (8 # 1); SLong 1]]) _ _ _);
    [split; [reflexivity|apply perm_swap]|reflexivity|].
  apply (bool_decide_unpack _). by vm_compute.
Defined.
