(* ===== verification/WarcRecord.v ===== *)
(** * WARC records: what the mapper parses

    The comments of [mapper] show the layout of the records it reads: a
    version line and header lines of the form [key: value], separated
    by line ends, then a blank line and the payload.  This file defines
    that layout as a printer, and proves that the splitting of the
    mapper parses what the printer prints.

    The theorems: splitting a printed header at [": "] and at line ends
    gives the version, then every key and value in order, when none of
    them contains a separator; the pairs of these tokens are the fields
    again; a field of the header map is the last value printed under its
    key; no blank line starts within a header of such tokens, so the
    record splits into the printed header and the payload; trimming
    leaves a record alone whose version line starts and whose payload
    ends with a character that is not white space; the row of
    the mapper for a printed record holds the printed fields; of a
    payload with a blank line the row holds the text before that line
    only; a value with [": "] inside is split into tokens of their own,
    after which values are read as keys, and a record whose type comes
    after such a value is dropped. *)

From stdpp Require Import base tactics option list strings gmap.
From Stdlib Require Import ZArith QArith Ascii Lia.
From S2P Require Import Prelude PyValue ToMap SparkEngine SparkMapper.

Local Close Scope Q_scope.
Local Close Scope Z_scope.

(** ** Tokens between separators *)

(** No separator starts within [t] when [rest] follows it. *)
Fixpoint no_sep_before (seps : list string) (t rest : string) : bool :=
  match t with
  | EmptyString => true
  | String c t' =>
      match sep_at seps (t +:+ rest) with
      | Some _ => false
      | None => no_sep_before seps t' rest
      end
  end.

(** The separators of a header line, and a token without them: neither
    [": "] nor a line end starts within it. *)
Definition header_seps : list string := [": "; crlf].

Definition clean (t : string) : bool := no_sep_before header_seps t "".

(** What may follow a clean token: nothing, or a character that does
    not complete a separator. *)
Definition follows (rest : string) : bool :=
  match rest with
  | EmptyString => true
  | String c _ => negb (bool_decide (c = " "%char ∨ c = lf))
  end.

(** ** The layout *)

(** The header lines after the version line. *)
Fixpoint render_fields (fields : list (string * string)) : string :=
  match fields with
  | [] => ""
  | (k, v) :: fields' => crlf +:+ k +:+ ": " +:+ v +:+ render_fields fields'
  end.

Definition render_header (version : string)
    (fields : list (string * string)) : string :=
  version +:+ render_fields fields.

(** A record: the header, a blank line and the payload. *)
Definition render_record (version : string) (fields : list (string * string))
    (payload : string) : string :=
  render_header version fields +:+ blank_line +:+ payload.

(** The tokens of a header: the version, then keys and values in turn. *)
Definition tokens_of_fields (version : string)
    (fields : list (string * string)) : list string :=
  version :: (fields ≫= λ kv, [kv.1; kv.2]).

(** The value printed last under a key. *)
Fixpoint last_value (fields : list (string * string)) (key : string) :
    option string :=
  match fields with
  | [] => None
  | (k, v) :: fields' =>
      match last_value fields' key with
      | Some v' => Some v'
      | None => if decide (k = key) then Some v else None
      end
  end.

(** A record without white space at its ends: trimming leaves it as it
    is. *)
Definition trimmed_record (version : string)
    (fields : list (string * string)) (payload : string) : bool :=
  bool_decide (trim (render_record version fields payload)
               = render_record version fields payload).

(** A string that begins with a character that is not white space, and
    one that ends with such a character. *)
Definition starts_solid (s : string) : bool :=
  match s with
  | String c _ => negb (Ascii.is_space c)
  | EmptyString => false
  end.

Fixpoint ends_solid (s : string) : bool :=
  match s with
  | EmptyString => false
  | String c EmptyString => negb (Ascii.is_space c)
  | String _ s' => ends_solid s'
  end.

(** A record whose header the mapper can take apart: no token of the
    header contains a separator, and the record has no white space at
    its ends. *)
Definition printable_header (version : string)
    (fields : list (string * string)) (payload : string) : bool :=
  clean version
  && forallb (λ kv, clean kv.1 && clean kv.2) fields
  && trimmed_record version fields payload.

(** A header line whose value has [": "] inside, as a uri with a port
    or a title may: the key, and the pieces of the value between the
    separators. *)
Definition field_of_line (l : string * list string) : string * string :=
  (l.1, str_join ": " l.2).

Definition clean_line (l : string * list string) : bool :=
  clean l.1 && bool_decide (l.2 ≠ []) && forallb clean l.2.

(** The tokens of a header with such lines: every piece of a value is a
    token of its own. *)
Definition tokens_of_lines (version : string)
    (lines : list (string * list string)) : list string :=
  version :: (lines ≫= λ l, l.1 :: l.2).

(** A field without a separator in its value, as a line. *)
Definition line_of_field (kv : string * string) : string * list string :=
  (kv.1, [kv.2]).

(** The lines of a header in which one value has one [": "] inside. *)
Definition lines_around (before : list (string * string)) (k v1 v2 : string)
    (after : list (string * string)) : list (string * list string) :=
  (line_of_field <$> before) ++ (k, [v1; v2]) :: (line_of_field <$> after).

(** A record the mapper can take apart: its header can be, and there
    is no blank line in the payload. *)
Definition printable (version : string) (fields : list (string * string))
    (payload : string) : bool :=
  printable_header version fields payload
  && no_sep_before [blank_line] payload "".

(** A record whose payload has a blank line: [text] is the payload up
    to its first blank line, [rest] what follows that line. *)
Definition printable_cut (version : string) (fields : list (string * string))
    (text rest : string) : bool :=
  printable_header version fields (text +:+ blank_line +:+ rest)
  && no_sep_before [blank_line] text (blank_line +:+ rest).

(** The cells of the row of a printed record. *)
Definition cell_of (fields : list (string * string)) (key : string) : sqlval :=
  from_option SString SNull (last_value fields key).

Definition row_of_fields (to_timestamp : string → option Z)
    (fields : list (string * string)) (payload : string) : row :=
  [match last_value fields "Content-Length" with
   | Some s => from_option SInt SNull (cast_integer s)
   | None => SNull
   end;
   match last_value fields "WARC-Date" with
   | Some s => from_option STimestamp SNull (to_timestamp s)
   | None => SNull
   end;
   cell_of fields "WARC-Record-ID"; cell_of fields "Content-Type";
   cell_of fields "WARC-Type"; cell_of fields "WARC-Refers-To";
   cell_of fields "WARC-Identified-Content-Language";
   cell_of fields "WARC-Block-Digest"; cell_of fields "WARC-Target-URI";
   cell_of fields "WARC-Target-URI"; cell_of fields "WARC-Target-URI";
   SString payload].

(** ** Splitting at separators *)

Lemma split_on_token (seps : list string) (t rest : string) :
  no_sep_before seps t rest = true →
  split_on seps (t +:+ rest)
  = match split_on seps rest with
    | h :: ts => (t +:+ h) :: ts
    | [] => [t]
    end.
Proof.
  unfold split_on. induction t as [|c t IH]; intros Ht.
  { rewrite string_app_nil_l. destruct (split_go seps rest 0) eqn:Hg; [|done].
    by apply split_go_nonempty in Hg. }
  cbn [no_sep_before] in Ht. rewrite string_app_cons in Ht |- *.
  cbn [split_go]. destruct (sep_at seps _); [done|].
  rewrite (IH Ht). by destruct (split_go seps rest 0).
Qed.

Lemma split_on_sep (seps : list string) (sep rest : string) :
  sep ≠ "" → sep_at seps (sep +:+ rest) = Some sep →
  split_on seps (sep +:+ rest) = "" :: split_on seps rest.
Proof.
  intros Hne Hsep. unfold split_on. destruct sep as [|c sep]; [done|].
  rewrite string_app_cons in Hsep |- *. cbn [split_go]. rewrite Hsep.
  cbn [String.length].
  replace (S (String.length sep) - 1) with (String.length sep) by lia.
  by rewrite split_go_skip.
Qed.

(** A token, a separator and the rest. *)
Lemma split_on_token_sep (seps : list string) (t sep rest : string) :
  no_sep_before seps t (sep +:+ rest) = true →
  sep ≠ "" → sep_at seps (sep +:+ rest) = Some sep →
  split_on seps (t +:+ sep +:+ rest) = t :: split_on seps rest.
Proof.
  intros Ht Hne Hsep. rewrite split_on_token by done.
  by rewrite split_on_sep, string_app_nil_r.
Qed.

(** A token alone. *)
Lemma split_on_one (seps : list string) (t : string) :
  no_sep_before seps t "" = true → split_on seps t = [t].
Proof.
  intros Ht. rewrite <- (string_app_nil_r t) at 1.
  rewrite split_on_token by done. unfold split_on. cbn [split_go].
  by rewrite string_app_nil_r.
Qed.

(** ** The separators of a header *)

Lemma prefix_nil (s : string) : String.prefix "" s = true.
Proof. by destruct s. Qed.

(** Whether a separator of the header starts a string is decided by
    its first two characters. *)
Lemma sep_at_header_two (c c2 : ascii) (x y : string) :
  sep_at header_seps (String c (String c2 x))
  = sep_at header_seps (String c (String c2 y)).
Proof.
  unfold sep_at, header_seps, crlf. cbn [List.find String.prefix].
  by rewrite !prefix_nil.
Qed.

Lemma sep_at_colon (rest : string) :
  sep_at header_seps (": " +:+ rest) = Some ": ".
Proof. unfold sep_at. rewrite !string_app_cons. simpl. by rewrite prefix_nil. Qed.

Lemma sep_at_crlf (rest : string) :
  sep_at header_seps (crlf +:+ rest) = Some crlf.
Proof.
  unfold sep_at, crlf. rewrite !string_app_cons. simpl.
  by rewrite prefix_nil.
Qed.

Lemma sep_at_blank_line (rest : string) :
  sep_at [blank_line] (blank_line +:+ rest) = Some blank_line.
Proof.
  unfold sep_at, blank_line, crlf. rewrite !string_app_cons. simpl.
  by rewrite prefix_nil.
Qed.

(** A clean token stays free of separators before anything that does
    not complete one. *)
Lemma clean_guard (t rest : string) :
  clean t = true → follows rest = true →
  no_sep_before header_seps t rest = true.
Proof.
  unfold clean. induction t as [|c t IH]; intros Hc Hf; [done|].
  cbn [no_sep_before] in *. rewrite string_app_nil_r in Hc.
  destruct (sep_at header_seps (String c t)) eqn:Hs; [done|].
  rewrite string_app_cons. destruct t as [|c2 t].
  - rewrite string_app_nil_l. destruct rest as [|c' r]; [by rewrite Hs|].
    cbn [follows] in Hf. apply negb_true_iff, bool_decide_eq_false in Hf.
    unfold sep_at, header_seps, crlf in *. cbn [List.find String.prefix] in *.
    repeat destruct (ascii_dec _ _); subst; try done; destruct Hf; auto.
  - rewrite string_app_cons, (sep_at_header_two c c2 _ t), Hs. by apply IH.
Qed.

(** ** Parsing a printed header *)

Lemma split_render_header (version : string)
    (fields : list (string * string)) :
  clean version = true →
  forallb (λ kv, clean kv.1 && clean kv.2) fields = true →
  split_on header_seps (render_header version fields)
  = tokens_of_fields version fields.
Proof.
  unfold render_header, tokens_of_fields. revert version.
  induction fields as [|[k v] fields IH]; intros version Hv Hfs.
  { cbn [render_fields]. rewrite string_app_nil_r. by apply split_on_one. }
  cbn [forallb fst snd] in Hfs.
  apply andb_true_iff in Hfs as [[Hk Hval]%andb_true_iff Hfs].
  cbn [render_fields].
  rewrite split_on_token_sep;
    [|by apply clean_guard|done|apply sep_at_crlf].
  rewrite split_on_token_sep;
    [|by apply clean_guard|done|apply sep_at_colon].
  by rewrite (IH v).
Qed.

(** ** Values with a separator inside *)

Lemma follows_colon (rest : string) : follows (": " +:+ rest) = true.
Proof. by rewrite string_app_cons. Qed.

Lemma follows_crlf (rest : string) : follows (crlf +:+ rest) = true.
Proof. unfold crlf. by rewrite string_app_cons. Qed.

(** The pieces of a value, up to what follows the value. *)
Lemma split_value_pieces (t : string) (ts : list string) (rest : string)
    (more : list string) :
  clean t = true → forallb clean ts = true →
  (∀ u, clean u = true → split_on header_seps (u +:+ rest) = u :: more) →
  split_on header_seps (str_join ": " (t :: ts) +:+ rest) = (t :: ts) ++ more.
Proof.
  intros Ht Hts Hrest. revert t Ht.
  induction ts as [|t' ts IH]; intros t Ht; [by apply Hrest|].
  cbn [forallb] in Hts. apply andb_true_iff in Hts as [Ht' Hts].
  rewrite str_join_cons_ne, !string_app_assoc by done.
  rewrite split_on_token_sep;
    [|apply clean_guard; [done|apply follows_colon]|done|apply sep_at_colon].
  by rewrite IH.
Qed.

(** The tokens of a printed header whose values may have [": "]
    inside: every piece of a value is a token. *)
Lemma split_render_lines (version : string)
    (lines : list (string * list string)) :
  clean version = true → forallb clean_line lines = true →
  split_on header_seps (render_header version (field_of_line <$> lines))
  = tokens_of_lines version lines.
Proof.
  unfold render_header, tokens_of_lines. revert version.
  induction lines as [|[k vs] lines IH]; intros version Hv Hls.
  { cbn [fmap list_fmap render_fields]. rewrite string_app_nil_r.
    by apply split_on_one. }
  cbn [forallb] in Hls. apply andb_true_iff in Hls as [Hl Hls].
  unfold clean_line in Hl. cbn [fst snd] in Hl.
  apply andb_true_iff in Hl as [[Hk Hne%bool_decide_eq_true]%andb_true_iff Hvs].
  destruct vs as [|v vs]; [done|]. cbn [forallb] in Hvs.
  apply andb_true_iff in Hvs as [Hval Hvs].
  cbn [fmap list_fmap render_fields field_of_line fst snd].
  rewrite split_on_token_sep;
    [|apply clean_guard; [done|apply follows_crlf]|done|apply sep_at_crlf].
  rewrite split_on_token_sep;
    [|apply clean_guard; [done|apply follows_colon]|done|apply sep_at_colon].
  rewrite (split_value_pieces v vs _ (lines ≫= λ l, l.1 :: l.2)); [done..|].
  intros u Hu. by apply IH.
Qed.

(** ** No blank line inside a header of clean tokens *)

Lemma no_sep_before_app (seps : list string) (t u rest : string) :
  no_sep_before seps (t +:+ u) rest
  = no_sep_before seps t (u +:+ rest) && no_sep_before seps u rest.
Proof.
  induction t as [|c t IH]; [by rewrite string_app_nil_l|].
  rewrite !string_app_cons. cbn [no_sep_before].
  rewrite !string_app_cons, string_app_assoc.
  by destruct (sep_at seps _).
Qed.

(** Where a blank line starts, a line end starts. *)
Lemma blank_line_is_sep (s : string) :
  String.prefix blank_line s = true → sep_at header_seps s = Some crlf.
Proof.
  intros (rest & ->)%string_prefix_app.
  change blank_line with (crlf +:+ crlf). rewrite string_app_assoc.
  apply sep_at_crlf.
Qed.

Lemma no_blank_line_weaken (t rest : string) :
  no_sep_before header_seps t rest = true →
  no_sep_before [blank_line] t rest = true.
Proof.
  induction t as [|c t IH]; [done|]. cbn [no_sep_before].
  destruct (sep_at header_seps _) eqn:Hs; [done|]. rewrite sep_at_single.
  destruct (String.prefix blank_line _) eqn:Hb; [|done].
  apply blank_line_is_sep in Hb. congruence.
Qed.

(** No blank line starts within a clean token. *)
Lemma clean_no_blank_line (t rest : string) :
  clean t = true → follows rest = true →
  no_sep_before [blank_line] t rest = true.
Proof. intros. by apply no_blank_line_weaken, clean_guard. Qed.

(** A clean key does not begin with a line end. *)
Lemma clean_key_start (k rest : string) :
  clean k = true → String.prefix crlf (k +:+ ": " +:+ rest) = false.
Proof.
  intros Hk. destruct k as [|c k]; [by rewrite string_app_nil_l|].
  pose proof (clean_guard _ (": " +:+ rest) Hk (follows_colon rest)) as Hg.
  cbn [no_sep_before] in Hg.
  destruct (sep_at header_seps _) eqn:Hs; [done|]. clear Hg.
  unfold sep_at, header_seps in Hs. cbn [List.find] in Hs.
  destruct (String.prefix ": " _); [done|].
  by destruct (String.prefix crlf _).
Qed.

(** No blank line starts within the line end before a clean key, nor
    within the separator of key and value. *)
Lemma crlf_no_blank_line (k rest : string) :
  clean k = true →
  no_sep_before [blank_line] crlf (k +:+ ": " +:+ rest) = true.
Proof.
  intros Hk. pose proof (clean_key_start k rest Hk) as Hp.
  set (line := k +:+ ": " +:+ rest) in *.
  change (no_sep_before [blank_line] (String cr (String lf "")) line = true).
  cbn [no_sep_before].
  rewrite !sep_at_single, !string_app_cons, string_app_nil_l.
  change blank_line with (String cr (String lf crlf)). cbn [String.prefix].
  destruct (ascii_dec cr cr); [|done]. destruct (ascii_dec lf lf); [|done].
  rewrite Hp. by destruct (ascii_dec cr lf) as [Heq|]; [vm_compute in Heq|].
Qed.

Lemma colon_no_blank_line (rest : string) :
  no_sep_before [blank_line] ": " rest = true.
Proof. cbn [no_sep_before]. by rewrite !sep_at_single, !string_app_cons. Qed.

Lemma value_no_blank_line (t : string) (ts : list string) (rest : string) :
  clean t = true → forallb clean ts = true → follows rest = true →
  no_sep_before [blank_line] (str_join ": " (t :: ts)) rest = true.
Proof.
  intros Ht Hts Hrest. revert t Ht.
  induction ts as [|t' ts IH]; intros t Ht; [by apply clean_no_blank_line|].
  cbn [forallb] in Hts. apply andb_true_iff in Hts as [Ht' Hts].
  rewrite str_join_cons_ne, !no_sep_before_app, !string_app_assoc by done.
  rewrite clean_no_blank_line, colon_no_blank_line, IH;
    [done..|apply follows_colon].
Qed.

Lemma follows_fields (fields : list (string * string)) (rest : string) :
  follows rest = true → follows (render_fields fields +:+ rest) = true.
Proof.
  destruct fields as [|[k v] fields]; [by rewrite string_app_nil_l|].
  intros _. cbn [render_fields]. rewrite string_app_assoc. apply follows_crlf.
Qed.

Lemma fields_no_blank_line (lines : list (string * list string))
    (rest : string) :
  forallb clean_line lines = true → follows rest = true →
  no_sep_before [blank_line] (render_fields (field_of_line <$> lines)) rest
  = true.
Proof.
  intros Hls Hrest. induction lines as [|[k vs] lines IH]; [done|].
  cbn [forallb] in Hls. apply andb_true_iff in Hls as [Hl Hls].
  unfold clean_line in Hl. cbn [fst snd] in Hl.
  apply andb_true_iff in Hl as [[Hk Hne%bool_decide_eq_true]%andb_true_iff Hvs].
  destruct vs as [|v vs]; [done|]. cbn [forallb] in Hvs.
  apply andb_true_iff in Hvs as [Hval Hvs].
  cbn [fmap list_fmap render_fields field_of_line fst snd].
  rewrite !no_sep_before_app, !string_app_assoc.
  rewrite crlf_no_blank_line, clean_no_blank_line, colon_no_blank_line,
    value_no_blank_line, IH;
    [done..|by apply follows_fields|done|apply follows_colon|done].
Qed.

(** No blank line starts within a header of clean tokens, whatever the
    payload is. *)
Lemma header_no_blank_line (version : string)
    (lines : list (string * list string)) (payload : string) :
  clean version = true → forallb clean_line lines = true →
  no_sep_before [blank_line] (render_header version (field_of_line <$> lines))
    (blank_line +:+ payload) = true.
Proof.
  intros Hv Hls. unfold render_header. rewrite no_sep_before_app.
  assert (follows (blank_line +:+ payload) = true) as Hf
    by (unfold blank_line; by rewrite string_app_cons).
  rewrite clean_no_blank_line, fields_no_blank_line;
    [done..|by apply follows_fields].
Qed.

(** The pairs of a token list that starts with complete fields. *)
Lemma pairs_of_fields (fields : list (string * string)) (l : list string) :
  pairs_of ((fields ≫= λ kv, [kv.1; kv.2]) ++ l) = fields ++ pairs_of l.
Proof.
  induction fields as [|[k v] fields IH]; [done|].
  cbn [mbind list_bind app fst snd pairs_of]. by rewrite <- IH.
Qed.

(** After a value of two pieces every value is read as a key: the keys
    of the pairs from there on are the second piece and the values of
    the fields that follow. *)
Lemma pairs_of_shifted (x : string) (fields : list (string * string)) :
  (pairs_of (x :: (fields ≫= λ kv, [kv.1; kv.2]))).*1 ⊆ x :: fields.*2.
Proof.
  revert x. induction fields as [|[k v] fields IH]; intros x;
    [by intros y ?%elem_of_nil|].
  cbn [mbind list_bind app fst snd pairs_of fmap list_fmap].
  intros y [->|Hy]%elem_of_cons; [by left|]. right. by apply IH.
Qed.

Lemma last_value_absent (fields : list (string * string)) (key : string) :
  key ∉ fields.*1 → last_value fields key = None.
Proof.
  induction fields as [|[k v] fields IH]; [done|].
  cbn [fmap list_fmap fst]. intros [Hk Hfs]%not_elem_of_cons.
  cbn [last_value]. rewrite IH by done. by rewrite decide_False.
Qed.

Lemma field_of_line_of_field (fields : list (string * string)) :
  field_of_line <$> (line_of_field <$> fields) = fields.
Proof.
  rewrite <- list_fmap_compose. rewrite <- (list_fmap_id fields) at 2.
  apply list_fmap_ext. by intros _ [k v] _.
Qed.

Lemma clean_line_of_field (fields : list (string * string)) :
  forallb (λ kv, clean kv.1 && clean kv.2) fields = true →
  forallb clean_line (line_of_field <$> fields) = true.
Proof.
  induction fields as [|[k v] fields IH]; [done|]. cbn [forallb fst snd].
  intros [[Hk Hv]%andb_true_iff Hfs]%andb_true_iff.
  cbn [fmap list_fmap forallb]. rewrite IH by done.
  unfold clean_line, line_of_field. cbn [fst snd forallb].
  by rewrite Hk, Hv, bool_decide_eq_true_2.
Qed.

Lemma tokens_of_line_of_field (fields : list (string * string)) :
  (line_of_field <$> fields) ≫= (λ l, l.1 :: l.2)
  = fields ≫= λ kv, [kv.1; kv.2].
Proof. induction fields as [|[k v] fields IH]; [done|]. csimpl. by rewrite IH. Qed.

(** The fields, the cleanliness and the tokens of a header in which one
    value has one separator inside. *)
Lemma lines_around_fields before k v1 v2 after :
  field_of_line <$> lines_around before k v1 v2 after
  = before ++ (k, v1 +:+ ": " +:+ v2) :: after.
Proof.
  unfold lines_around. by rewrite fmap_app, fmap_cons, !field_of_line_of_field.
Qed.

Lemma lines_around_clean before k v1 v2 after :
  forallb (λ kv, clean kv.1 && clean kv.2) before = true →
  clean k = true → clean v1 = true → clean v2 = true →
  forallb (λ kv, clean kv.1 && clean kv.2) after = true →
  forallb clean_line (lines_around before k v1 v2 after) = true.
Proof.
  intros Hb Hk H1 H2 Ha. unfold lines_around.
  rewrite forallb_app, (clean_line_of_field _ Hb). cbn [forallb andb].
  rewrite (clean_line_of_field _ Ha). unfold clean_line. cbn [fst snd forallb].
  by rewrite Hk, H1, H2, bool_decide_eq_true_2.
Qed.

Lemma lines_around_tokens version before k v1 v2 after :
  tokens_of_lines version (lines_around before k v1 v2 after)
  = version :: (before ≫= λ kv, [kv.1; kv.2])
      ++ k :: v1 :: v2 :: (after ≫= λ kv, [kv.1; kv.2]).
Proof.
  unfold tokens_of_lines, lines_around.
  rewrite bind_app, bind_cons, !tokens_of_line_of_field. done.
Qed.

Lemma pairs_of_tokens (version : string) (fields : list (string * string)) :
  pairs_of (tail (tokens_of_fields version fields)) = fields.
Proof.
  unfold tokens_of_fields. cbn [tail].
  induction fields as [|[k v] fields IH]; [done|].
  cbn [mbind list_bind app fst snd pairs_of]. by rewrite IH.
Qed.

Lemma foldl_insert_last (fields : list (string * string))
    (m : gmap string string) (key : string) :
  foldl (λ m kv, <[kv.1:=kv.2]> m) m fields !! key
  = match last_value fields key with
    | Some v => Some v
    | None => m !! key
    end.
Proof.
  revert m. induction fields as [|[k v] fields IH]; intros m; [done|].
  cbn [foldl last_value fst snd]. rewrite IH.
  destruct (last_value fields key); [done|].
  destruct (decide (k = key)) as [->|Hne].
  - apply lookup_insert_eq.
  - by apply lookup_insert_ne.
Qed.

Lemma field_tokens (version : string) (fields : list (string * string))
    (key : string) :
  field (tokens_of_fields version fields) key = cell_of fields key.
Proof.
  unfold field, cell_of, header_map.
  rewrite pairs_of_tokens, foldl_insert_last.
  by destruct (last_value fields key).
Qed.

(** No key that is neither a key up to the value with the separator,
    nor its second piece, nor a value after it, is in the header map. *)
Lemma header_map_shifted version before k v1 v2 after (key : string) :
  key ∉ before.*1 ++ k :: v2 :: after.*2 →
  field (tokens_of_lines version (lines_around before k v1 v2 after)) key
  = SNull.
Proof.
  intros Hkey. unfold field, header_map.
  rewrite lines_around_tokens. cbn [tail].
  rewrite pairs_of_fields. cbn [pairs_of].
  rewrite foldl_insert_last, last_value_absent; [done|].
  rewrite fmap_app, fmap_cons. cbn [fst]. intros Hin. apply Hkey.
  apply elem_of_app in Hin as [Hin|Hin]; [by apply elem_of_app; left|].
  apply elem_of_app. right.
  apply elem_of_cons in Hin as [->|Hin]; [by left|]. right.
  by apply pairs_of_shifted.
Qed.

(** ** Records that trimming leaves alone *)

Lemma lstrip_solid (s t : string) :
  starts_solid s = true → lstrip (s +:+ t) = s +:+ t.
Proof.
  destruct s as [|c s]; [done|]. rewrite string_app_cons. simpl.
  by intros ->%negb_true_iff.
Qed.

Lemma rstrip_solid (t : string) : ends_solid t = true → rstrip t = t.
Proof.
  induction t as [|c t IH]; [done|]. simpl.
  destruct t as [|c' t]; [by intros ->%negb_true_iff|].
  intros Ht. by rewrite (IH Ht).
Qed.

Lemma ends_solid_app (s t : string) :
  ends_solid t = true → ends_solid (s +:+ t) = true.
Proof.
  intros Ht. induction s as [|c s IH]; [done|].
  rewrite string_app_cons. simpl.
  by destruct (s +:+ t).
Qed.

(** A record whose version line starts, and whose payload ends, with a
    character that is not white space is left as it is by [trim]. *)
Lemma trimmed_record_solid (version : string)
    (fields : list (string * string)) (payload : string) :
  starts_solid version = true → ends_solid payload = true →
  trimmed_record version fields payload = true.
Proof.
  intros Hv Hp. apply bool_decide_eq_true. unfold trim, render_record,
    render_header. rewrite string_app_assoc, (lstrip_solid _ _ Hv).
  apply rstrip_solid. by do 3 apply ends_solid_app.
Qed.

(** ** Parsing a printed record *)

Lemma printable_header_inv (version : string)
    (fields : list (string * string)) (payload : string) :
  printable_header version fields payload = true →
  clean version = true ∧
  forallb (λ kv, clean kv.1 && clean kv.2) fields = true ∧
  trimmed_record version fields payload = true.
Proof. unfold printable_header. rewrite !andb_true_iff. tauto. Qed.

(** A record of clean tokens without white space at its ends is cut at
    the blank line that ends its header. *)
Lemma record_pieces_lines (version : string)
    (lines : list (string * list string)) (payload : string) :
  clean version = true → forallb clean_line lines = true →
  trimmed_record version (field_of_line <$> lines) payload = true →
  record_pieces (render_record version (field_of_line <$> lines) payload)
  = render_header version (field_of_line <$> lines)
      :: split_on [blank_line] payload.
Proof.
  intros Hv Hls Htrim%bool_decide_eq_true.
  unfold record_pieces. rewrite Htrim. unfold render_record.
  by rewrite split_on_token_sep;
    [|apply header_no_blank_line|done|apply sep_at_blank_line].
Qed.

Lemma record_pieces_header (version : string)
    (fields : list (string * string)) (payload : string) :
  printable_header version fields payload = true →
  record_pieces (render_record version fields payload)
  = render_header version fields :: split_on [blank_line] payload.
Proof.
  intros (Hv & Hfs & Htrim)%printable_header_inv.
  rewrite <- (field_of_line_of_field fields) in Htrim |- *.
  by apply record_pieces_lines; [|apply clean_line_of_field|].
Qed.

(** The tokens of a record whose values may have [": "] inside. *)
Lemma header_tokens_lines (version : string)
    (lines : list (string * list string)) (payload : string) :
  clean version = true → forallb clean_line lines = true →
  trimmed_record version (field_of_line <$> lines) payload = true →
  header_tokens (render_record version (field_of_line <$> lines) payload)
  = tokens_of_lines version lines.
Proof.
  intros Hv Hls Htrim. unfold header_tokens.
  rewrite record_pieces_lines by done. cbn [lookup list_lookup default].
  by apply split_render_lines.
Qed.

Lemma record_pieces_render (version : string)
    (fields : list (string * string)) (payload : string) :
  printable version fields payload = true →
  record_pieces (render_record version fields payload)
  = [render_header version fields; payload].
Proof.
  unfold printable. intros [Hh Hp]%andb_true_iff.
  by rewrite record_pieces_header, split_on_one.
Qed.

(** With a blank line in the payload the second piece ends there. *)
Lemma record_pieces_cut (version : string) (fields : list (string * string))
    (text rest : string) :
  printable_cut version fields text rest = true →
  record_pieces
    (render_record version fields (text +:+ blank_line +:+ rest))
  = render_header version fields :: text :: split_on [blank_line] rest.
Proof.
  unfold printable_cut. intros [Hh Ht]%andb_true_iff.
  rewrite record_pieces_header by done.
  by rewrite split_on_token_sep; [|done|done|apply sep_at_blank_line].
Qed.

(** The tokens of a record whose first piece is a printed header. *)
Lemma header_tokens_pieces (value version : string)
    (fields : list (string * string)) (more : list string) :
  record_pieces value = render_header version fields :: more →
  clean version = true →
  forallb (λ kv, clean kv.1 && clean kv.2) fields = true →
  header_tokens value = tokens_of_fields version fields.
Proof.
  intros Hp Hv Hfs. unfold header_tokens. rewrite Hp.
  by apply split_render_header.
Qed.

Section Rows.
Context (to_timestamp : string → option Z).

(** The row of a record whose pieces are a printed header, a text and
    whatever follows the next blank line. *)
Lemma warc_row_pieces (value version : string)
    (fields : list (string * string)) (text : string) (more : list string) :
  record_pieces value = render_header version fields :: text :: more →
  clean version = true →
  forallb (λ kv, clean kv.1 && clean kv.2) fields = true →
  warc_row to_timestamp value = row_of_fields to_timestamp fields text.
Proof.
  intros Hp Hv Hfs. unfold warc_row, row_of_fields.
  rewrite (header_tokens_pieces _ _ _ _ Hp Hv Hfs), Hp, !field_tokens.
  unfold cell_of. cbn [lookup list_lookup from_option].
  by do 2 destruct (last_value fields _).
Qed.

Lemma mapper_row_pieces (value version : string)
    (fields : list (string * string)) (text : string) (more : list string) :
  record_pieces value = render_header version fields :: text :: more →
  clean version = true →
  forallb (λ kv, clean kv.1 && clean kv.2) fields = true →
  mapper_row to_timestamp (SString value)
  = if decide (last_value fields "WARC-Type" = Some "conversion")
    then Some (row_of_fields to_timestamp fields text)
    else None.
Proof.
  intros Hp Hv Hfs. cbn [mapper_row].
  rewrite (header_tokens_pieces _ _ _ _ Hp Hv Hfs), field_tokens,
    (warc_row_pieces _ _ _ _ _ Hp Hv Hfs).
  unfold cell_of. destruct (last_value fields "WARC-Type") as [ty|]; simpl.
  - destruct (decide (ty = "conversion")) as [->|Hne].
    + by rewrite bool_decide_eq_true_2, decide_True.
    + rewrite bool_decide_eq_false_2, decide_False by congruence. done.
  - done.
Qed.

(** ** Properties *)

(** C33: splitting a printed header at the separators of the mapper gives
    back the version line and then every key and value, in order, when
    no token contains a separator; pairing the tokens after the first
    gives back the fields. *)
Theorem header_print_parse (version : string)
    (fields : list (string * string)) :
  clean version = true →
  forallb (λ kv, clean kv.1 && clean kv.2) fields = true →
  split_on header_seps (render_header version fields)
  = tokens_of_fields version fields ∧
  pairs_of (tail (split_on header_seps (render_header version fields)))
  = fields.
Proof.
  intros Hv Hfs. rewrite split_render_header by done.
  split; [done|apply pairs_of_tokens].
Qed.

(** C32: the row of the mapper for a printed record: the record is kept
    when the last [WARC-Type] printed is [conversion], and then its
    cells are the last values printed under the keys of the schema,
    the content length cast to an integer, the date parsed, and the
    payload as the text. *)
Theorem mapper_row_render (version : string)
    (fields : list (string * string)) (payload : string) :
  printable version fields payload = true →
  mapper_row to_timestamp (SString (render_record version fields payload))
  = if decide (last_value fields "WARC-Type" = Some "conversion")
    then Some (row_of_fields to_timestamp fields payload)
    else None.
Proof.
  intros Hp. apply andb_true_iff in Hp as Hh.
  destruct (printable_header_inv _ _ _ (proj1 Hh)) as (Hv & Hfs & _).
  by eapply mapper_row_pieces; [apply record_pieces_render|..].
Qed.

(** C39: the text of a record after the first blank line of its payload does
    not reach the row: for a record printed from clean fields whose
    payload is [text], a blank line and anything, the [docText] of the
    row is [text] alone. *)
Theorem mapper_cuts_text_at_blank_line (version : string)
    (fields : list (string * string)) (text rest : string) :
  printable_cut version fields text rest = true →
  mapper_row to_timestamp
    (SString (render_record version fields (text +:+ blank_line +:+ rest)))
  = if decide (last_value fields "WARC-Type" = Some "conversion")
    then Some (row_of_fields to_timestamp fields text)
    else None.
Proof.
  intros Hp. apply andb_true_iff in Hp as Hh.
  destruct (printable_header_inv _ _ _ (proj1 Hh)) as (Hv & Hfs & _).
  by eapply mapper_row_pieces; [apply record_pieces_cut|..].
Qed.

(** The header is split at [": "] wherever it occurs: for a record of
    clean tokens in which values have [": "] inside, every piece of a
    value between two separators is a token of its own, so the tokens
    after such a value are paired one off. *)
Theorem header_tokens_split_values (version : string)
    (lines : list (string * list string)) (payload : string) :
  clean version = true → forallb clean_line lines = true →
  trimmed_record version (field_of_line <$> lines) payload = true →
  header_tokens (render_record version (field_of_line <$> lines) payload)
  = tokens_of_lines version lines.
Proof. apply header_tokens_lines. Qed.

(** C40: a record with one [": "] inside a header value is dropped when its
    type is given after that value: from there on the values are read
    as keys, and unless [WARC-Type] is an earlier key, the second piece
    of the value or a later value, the header map has no type, whatever
    the record says under [WARC-Type]. *)
Theorem mapper_loses_type_after_separator (version : string)
    (before : list (string * string)) (k v1 v2 : string)
    (after : list (string * string)) (payload : string) :
  clean version = true →
  forallb (λ kv, clean kv.1 && clean kv.2) before = true →
  clean k = true → clean v1 = true → clean v2 = true →
  forallb (λ kv, clean kv.1 && clean kv.2) after = true →
  trimmed_record version (before ++ (k, v1 +:+ ": " +:+ v2) :: after) payload
  = true →
  "WARC-Type" ∉ before.*1 ++ k :: v2 :: after.*2 →
  mapper_row to_timestamp
    (SString (render_record version
                (before ++ (k, v1 +:+ ": " +:+ v2) :: after) payload))
  = None.
Proof.
  intros Hv Hb Hk H1 H2 Ha Htrim Hkey.
  rewrite <- (lines_around_fields before k v1 v2 after) in Htrim |- *.
  cbn [mapper_row].
  rewrite header_tokens_lines, header_map_shifted;
    [done..|by apply lines_around_clean|done].
Qed.

End Rows.

(** The fields of the example in the comment of [mapper]. *)
Definition comment_fields : list (string * string) :=
  [("WARC-Type", "warcinfo"); ("WARC-Date", "2023-12-12T01:40:15Z");
   ("WARC-Filename",
    "CC-MAIN-20231128083443-20231128113443-00003.warc.wet.gz");
   ("WARC-Record-ID", "<urn:uuid:6082596d-524a-4e49-b1dd-86582dc01a2f>");
   ("Content-Type", "application/warc-fields"); ("Content-Length", "382")].

(** A record of type [conversion] with a uri, whose value has a colon. *)
Definition conversion_fields : list (string * string) :=
  [("WARC-Type", "conversion"); ("WARC-Target-URI", "http://example.com/");
   ("WARC-Identified-Content-Language", "eng"); ("Content-Length", "4")].

Lemma header_print_parse_witness :
  split_on header_seps (render_header "WARC/1.0" comment_fields)
  = tokens_of_fields "WARC/1.0" comment_fields ∧
  pairs_of (tail (split_on header_seps
                    (render_header "WARC/1.0" comment_fields)))
  = comment_fields.
Proof.
  apply (header_print_parse "WARC/1.0" comment_fields); by vm_compute.
Defined.

Lemma mapper_row_render_witness :
  mapper_row (λ _, None)
    (SString (render_record "WARC/1.0" conversion_fields "text"))
  = if decide (last_value conversion_fields "WARC-Type" = Some "conversion")
    then Some (row_of_fields (λ _, None) conversion_fields "text")
    else None.
Proof.
  apply (mapper_row_render (λ _, None) "WARC/1.0" conversion_fields "text").
  by vm_compute.
Defined.

Lemma mapper_cuts_text_at_blank_line_witness :
  mapper_row (λ _, None)
    (SString (render_record "WARC/1.0" conversion_fields
                ("text" +:+ blank_line +:+ "second paragraph")))
  = if decide (last_value conversion_fields "WARC-Type" = Some "conversion")
    then Some (row_of_fields (λ _, None) conversion_fields "text")
    else None.
Proof.
  apply (mapper_cuts_text_at_blank_line (λ _, None) "WARC/1.0"
           conversion_fields "text" "second paragraph").
  by vm_compute.
Defined.

(** A record whose uri has the separator inside, before its type. *)
Lemma header_tokens_split_values_witness :
  header_tokens
    (render_record "WARC/1.0"
       (field_of_line
          <$> [("WARC-Target-URI", ["http://a/b"; "c"]);
               ("WARC-Type", ["conversion"])])
       "text")
  = tokens_of_lines "WARC/1.0"
      [("WARC-Target-URI", ["http://a/b"; "c"]);
       ("WARC-Type", ["conversion"])].
Proof.
  apply (header_tokens_split_values "WARC/1.0"
           [("WARC-Target-URI", ["http://a/b"; "c"]);
            ("WARC-Type", ["conversion"])] "text"); by vm_compute.
Defined.

Lemma mapper_loses_type_after_separator_witness :
  mapper_row (λ _, None)
    (SString (render_record "WARC/1.0"
                ([] ++ ("WARC-Target-URI", "http://a/b" +:+ ": " +:+ "c")
                    :: [("WARC-Type", "conversion")])
                "text"))
  = None.
Proof.
  apply (mapper_loses_type_after_separator (λ _, None) "WARC/1.0" []
           "WARC-Target-URI" "http://a/b" "c" [("WARC-Type", "conversion")]
           "text"); try by vm_compute.
  apply (bool_decide_unpack _). by vm_compute.
Defined.
