(* ===== verification/SparkSchema.v ===== *)
(** * Schemas of the dataframes the Spark handlers produce

    The data types the sources name ([StringType], [MapType], the cast
    to [integer], [to_timestamp], [percentile], [count]), a typing of
    cells, rows and dataframes, a static typing of column expressions
    that the evaluation of the engine respects, and the schemas of the
    results of [mapper] and [reducer].

    The theorems: evaluation preserves types; the select list of
    [mapper] has the types of its schema; every dataframe the mapper
    pipeline returns has the mapper schema, whatever the records hold;
    on a dataframe of that schema the reducer pipeline cannot fail and
    returns a dataframe of the reducer schema; the dict of the udf on an
    array of strings conforms to the type the udf is declared with. *)

From stdpp Require Import base tactics option list strings sorting.
From Stdlib Require Import ZArith QArith Lia.
From S2P Require Import Prelude PyValue ToMap SparkEngine SparkReducer.
From S2P Require Import SparkMapper.

Local Close Scope Q_scope.
Local Open Scope Z_scope.

(** ** Types *)

(** The types of [pyspark.sql.types] the handlers meet; arrays and maps
    are of strings, as [MapType(StringType(), StringType())] of the udf. *)
Inductive datatype : Type :=
| StringT | IntegerT | LongT | DoubleT | TimestampT | BooleanT | ArrayT | MapT.

#[export] Instance datatype_eq_dec : EqDecision datatype.
Proof. solve_decision. Defined.

(** A cell has a type; null has every type, and an integer is within
    32 bits. *)
Definition has_type (v : sqlval) (t : datatype) : bool :=
  match v, t with
  | SNull, _ => true
  | SString _, StringT => true
  | SInt z, IntegerT => bool_decide (int_min ≤ z ≤ int_max)
  | SLong _, LongT => true
  | SDouble _, DoubleT => true
  | STimestamp _, TimestampT => true
  | SBool _, BooleanT => true
  | SArray _, ArrayT => true
  | SMap _, MapT => true
  | _, _ => false
  end.

Definition schema : Type := list (string * datatype).

Definition row_typed (sch : schema) (r : row) : Prop :=
  Forall2 (λ v ct, has_type v ct.2 = true) r sch.

Definition df_typed (sch : schema) (df : DataFrame) : Prop :=
  df_columns df = sch.*1 ∧ Forall (row_typed sch) (df_rows df).

#[export] Instance row_typed_dec sch r : Decision (row_typed sch r).
Proof. unfold row_typed. apply _. Defined.

#[export] Instance df_typed_dec sch df : Decision (df_typed sch df).
Proof. unfold df_typed. apply _. Defined.

(** The type of a column of a schema: the first of that name. *)
Fixpoint schema_type (sch : schema) (name : string) : option datatype :=
  match sch with
  | [] => None
  | (n, t) :: sch' => if bool_decide (n = name) then Some t
                      else schema_type sch' name
  end.

(** The type of a column expression over a schema, when every name in
    it is a column of the schema. *)
Fixpoint column_type (sch : schema) (c : column) : option datatype :=
  match c with
  | Col name => schema_type sch name
  | CLit _ => Some StringT
  | Alias c _ => column_type sch c
  | RegexpReplace c _ _ => _ ← column_type sch c; Some StringT
  | Split c _ => _ ← column_type sch c; Some ArrayT
  | GetItem c _ => _ ← column_type sch c; Some StringT
  | GetKey c _ => _ ← column_type sch c; Some StringT
  | Cast c IntegerType => _ ← column_type sch c; Some IntegerT
  | ToTimestamp c => _ ← column_type sch c; Some TimestampT
  | ArrayToMap c => _ ← column_type sch c; Some MapT
  | EqTo c1 c2 => _ ← column_type sch c1; _ ← column_type sch c2; Some BooleanT
  end.

(** The schema of the result of [select]. *)
Definition select_schema (sch : schema) (cs : list column) : option schema :=
  mapM (λ c, t ← column_type sch c; Some (column_name c, t)) cs.

(** ** The schemas of the handlers *)

(** What a text file is read as. *)
Definition text_schema : schema := [("value", StringT)].

(** The dataframe [mapper] selects from in line 146: the tokens, the
    payload and the map of the udf. *)
Definition header_schema : schema :=
  [("h", ArrayT); ("payload", StringT); ("header_map", MapT)].

(** The result of [mapper]: the columns of lines 147 to 158. *)
Definition mapper_schema : schema :=
  [("contentLength", IntegerT); ("warcDate", TimestampT);
   ("warcRecordId", StringT); ("contentType", StringT);
   ("warcType", StringT); ("warcRefersTo", StringT); ("language", StringT);
   ("blockDigest", StringT); ("url", StringT); ("docId", StringT);
   ("partitionKey", StringT); ("docText", StringT)].

(** The result of [reducer]: the group key and the two aggregates. *)
Definition reducer_schema : schema :=
  [("language", StringT); (percentile_column, DoubleT);
   (samples_column, LongT)].

(** ** Typing lemmas *)

Lemma has_type_null (t : datatype) : has_type SNull t = true.
Proof. done. Qed.

Lemma has_type_int (z : Z) (t : datatype) :
  has_type (SInt z) t = true → t = IntegerT ∧ int_min ≤ z ≤ int_max.
Proof. destruct t; try done. simpl. by intros ?%bool_decide_eq_true. Qed.

Lemma map_get_typed (k : string) (m : list (string * option string)) :
  has_type (map_get k m) StringT = true.
Proof.
  induction m as [|[k' [v|]] m IH]; simpl; [done|..];
    by destruct (bool_decide (k' = k)).
Qed.

Lemma schema_type_index (sch : schema) (name : string) (t : datatype) :
  schema_type sch name = Some t →
  ∃ i, col_index name sch.*1 = Some i ∧ sch.*2 !! i = Some t.
Proof.
  induction sch as [|[n t'] sch IH]; [done|].
  rewrite !fmap_cons. cbn [schema_type col_index fst snd].
  destruct (bool_decide (n = name)).
  - intros [= ->]. by exists 0%nat.
  - intros (i & -> & Hi)%IH. by exists (S i).
Qed.

Lemma row_typed_lookup (sch : schema) (r : row) (i : nat) (t : datatype) :
  row_typed sch r → sch.*2 !! i = Some t →
  has_type (default SNull (r !! i)) t = true.
Proof.
  intros Hr Ht. rewrite list_lookup_fmap in Ht.
  apply fmap_Some in Ht as ([n t'] & Hs & ->).
  destruct (r !! i) as [v|] eqn:Hv; [|done].
  exact (Forall2_lookup_lr _ _ _ _ _ _ Hr Hv Hs).
Qed.

Lemma cell_typed (sch : schema) (r : row) (name : string) (t : datatype) :
  row_typed sch r → schema_type sch name = Some t →
  has_type (cell sch.*1 r name) t = true.
Proof.
  intros Hr (i & Hi & Ht)%schema_type_index. unfold cell. rewrite Hi.
  by eapply row_typed_lookup.
Qed.

Section Typing.
Context (to_timestamp : string → option Z).

(** Evaluation preserves types. *)
Lemma eval_typed (sch : schema) (r : row) (c : column) (t : datatype) :
  row_typed sch r → column_type sch c = Some t →
  has_type (eval to_timestamp sch.*1 r c) t = true.
Proof.
  intros Hr. revert t.
  induction c as [name|s|c IH name|c IH p rep|c IH p|c IH i|c IH k|c IH []
                 |c IH|c IH|c1 IH1 c2 IH2]; intros t Ht; simpl in Ht |- *;
    try (destruct (column_type sch c) as [t'|] eqn:Hc; simplify_eq/=).
  - by apply cell_typed.
  - by simplify_eq.
  - by apply IH.
  - by destruct (eval _ _ _ c).
  - by destruct (eval _ _ _ c).
  - destruct (eval _ _ _ c) as [| | | | | | |l|]; try done.
    by destruct (l !! i) as [[?|]|].
  - destruct (eval _ _ _ c); try done. apply map_get_typed.
  - specialize (IH _ eq_refl).
    destruct (eval _ _ _ c) as [|s|z| | | | | |]; try done.
    + destruct (cast_integer s) as [z|] eqn:Hz; [|done].
      simpl. apply bool_decide_eq_true_2, (cast_integer_bounds s z Hz).
    + apply has_type_int in IH as [_ Hb]. simpl.
      by apply bool_decide_eq_true_2.
  - destruct (eval _ _ _ c) as [|s| | | | | | |]; try done.
    by destruct (to_timestamp s).
  - done.
  - destruct (column_type sch c1), (column_type sch c2); simplify_eq/=.
    by destruct (eval _ _ _ c1), (eval _ _ _ c2).
Qed.

(** The rows of a [select] have the schema of the select list. *)
Lemma select_typed (sch sch' : schema) (cs : list column) (r : row) :
  row_typed sch r → select_schema sch cs = Some sch' →
  sch'.*1 = column_name <$> cs ∧
  row_typed sch' (eval to_timestamp sch.*1 r <$> cs).
Proof.
  intros Hr Hs%mapM_Some. unfold row_typed.
  induction Hs as [|c [n t] cs sch' Hc _ [IH1 IH2]]; [done|].
  destruct (column_type sch c) as [t'|] eqn:Ht; simplify_eq/=.
  split; [by f_equal|]. constructor; [|done]. by apply eval_typed.
Qed.

End Typing.

(** A dict of strings is read by the engine entry by entry. *)
Lemma str_entries (m : pymap) :
  Forall (λ kv, ∃ k v, kv = (PStr k, PStr v)) m →
  ∃ ps : list (string * string),
    m = (λ kv, (PStr kv.1, PStr kv.2)) <$> ps ∧
    omap sql_entry m = (λ kv, (kv.1, Some kv.2)) <$> ps.
Proof.
  induction 1 as [|kv m (k & v & ->) _ (ps & -> & IH)]; [by exists []|].
  exists ((k, v) :: ps). split; [done|].
  cbn [omap list_omap sql_entry]. by rewrite IH.
Qed.

(** ** The mapper *)

Lemma field_typed (tokens : list string) (key : string) :
  has_type (field tokens key) StringT = true.
Proof. unfold field. by destruct (_ !! key). Qed.

Section Schemas.
Context (to_timestamp : string → option Z).

Lemma warc_row_typed (value : string) :
  row_typed mapper_schema (warc_row to_timestamp value).
Proof.
  unfold warc_row, mapper_schema.
  repeat (constructor; [try apply field_typed|]); [| | |constructor].
  - destruct (field _ _) as [|s| | | | | | |]; try done.
    destruct (cast_integer s) as [z|] eqn:Hz; [|done].
    apply bool_decide_eq_true_2, (cast_integer_bounds s z Hz).
  - destruct (field _ _) as [|s| | | | | | |]; try done.
    by destruct (to_timestamp s).
  - by destruct (_ !! 1%nat).
Qed.

Lemma mapper_row_typed (v : sqlval) (r : row) :
  mapper_row to_timestamp v = Some r → row_typed mapper_schema r.
Proof.
  destruct v as [|s| | | | | | |]; try done. cbn [mapper_row].
  case_bool_decide; [|done]. intros [= <-]. apply warc_row_typed.
Qed.

(** ** The reducer *)

Lemma percentile_of_typed (p : Q) (xs : list Z) :
  has_type (percentile_of p xs) DoubleT = true.
Proof.
  unfold percentile_of. destruct (merge_sort _ xs); [done|].
  by case_bool_decide.
Qed.

Lemma reducer_transform_total (df : DataFrame) :
  "language" ∈ df_columns df → "contentLength" ∈ df_columns df →
  ∃ out, reducer_transform (Some df) = Ok out.
Proof.
  intros Hl Hc. unfold reducer_transform, df_groupBy_agg.
  rewrite resolve_ok by (by repeat constructor).
  cbn [outcome_map outcome_bind]. unfold df_orderBy_desc.
  rewrite resolve_ok; [by eexists|]. repeat constructor.
Qed.

Lemma reducer_rows_typed (sch : schema) (df out : DataFrame) :
  df_typed sch df → schema_type sch "language" = Some StringT →
  reducer_transform (Some df) = Ok out → df_typed reducer_schema out.
Proof.
  intros [Hcols Hrows] Hl [Hc Hr]%reducer_transform_inv. split; [done|].
  rewrite Hr, (merge_sort_Permutation _). apply Forall_fmap, Forall_forall.
  intros k (r & -> & Hin)%elem_of_remove_dups%list_elem_of_fmap.
  rewrite Forall_forall in Hrows.
  repeat constructor; [|apply percentile_of_typed]. cbn [snd].
  rewrite Hcols. apply cell_typed; auto.
Qed.

Lemma mapper_rows_typed {A} (f : A → sqlval) (l : list A) :
  df_typed mapper_schema
    (mkDataFrame output_columns (omap (λ x, mapper_row to_timestamp (f x)) l)).
Proof.
  split; [done|]. apply Forall_forall.
  intros r (r0 & _ & Hr)%list_elem_of_omap. by eapply mapper_row_typed.
Qed.

Lemma reducer_typed_total (df : DataFrame) :
  df_typed mapper_schema df →
  ∃ out, reducer_transform (Some df) = Ok out ∧ df_typed reducer_schema out.
Proof.
  intros Hdf. destruct (reducer_transform_total df) as [out Hout].
  - rewrite (proj1 Hdf). apply (bool_decide_unpack _). by vm_compute.
  - rewrite (proj1 Hdf). apply (bool_decide_unpack _). by vm_compute.
  - exists out. split; [done|]. by eapply reducer_rows_typed.
Qed.

(** ** Properties *)

(** The select list of [mapper], typed over the columns it selects
    from, has the types of the mapper schema, with the file name column
    that is dropped afterwards in front. *)
Theorem header_columns_schema :
  select_schema header_schema header_columns
  = Some (("warcFileName", StringT) :: mapper_schema).
Proof. reflexivity. Qed.

(** C31: whatever the records of the input hold, every row the pipeline of
    [mapper] returns has the mapper schema: [contentLength] is null or
    an integer of 32 bits, [warcDate] null or a timestamp, every other
    column null or a string. *)
Theorem mapper_transform_typed (cols : list string) (rows : list row)
    (out : DataFrame) :
  "value" ∈ cols →
  mapper_transform to_timestamp (mkDataFrame cols rows) = Ok out →
  df_typed mapper_schema out.
Proof.
  intros Hv. rewrite mapper_transform_run by done. intros [= <-].
  apply mapper_rows_typed.
Qed.

(** On a dataframe of the mapper schema the pipeline of [reducer]
    cannot fail, and its result has the reducer schema: the language,
    the percentile as a double, the number of samples as a long. *)
Theorem reducer_transform_typed (df : DataFrame) :
  df_typed mapper_schema df →
  ∃ out, reducer_transform (Some df) = Ok out ∧ df_typed reducer_schema out.
Proof. apply reducer_typed_total. Qed.

(** The two handlers fit: what the pipeline of [mapper] returns on any
    text input, the pipeline of [reducer] accepts, and the result has
    the reducer schema. *)
Theorem mapper_feeds_reducer (cols : list string) (rows : list row) :
  "value" ∈ cols →
  ∃ mid out,
    mapper_transform to_timestamp (mkDataFrame cols rows) = Ok mid ∧
    reducer_transform (Some mid) = Ok out ∧
    df_typed mapper_schema mid ∧ df_typed reducer_schema out.
Proof.
  intros Hv. rewrite mapper_transform_run by done.
  pose proof (mapper_rows_typed (λ r, cell cols r "value") rows) as Hmid.
  destruct (reducer_typed_total _ Hmid) as (out & Hout & Htyped). eauto 6.
Qed.

End Schemas.

(** The dict of the udf on an array of strings conforms to the type it
    is declared with, a map from strings to strings: every key and every
    value is a string, so the map the engine reads has every entry of
    the dict, none of them null. *)
Theorem to_map_declared_type (tokens : list string) :
  ∃ ps : list (string * string),
    to_map_value (PList (PStr <$> tokens))
    = (λ kv, (PStr kv.1, PStr kv.2)) <$> ps ∧
    sql_of_pymap (to_map_value (PList (PStr <$> tokens)))
    = SMap ((λ kv, (kv.1, Some kv.2)) <$> ps).
Proof.
  unfold to_map_value, sql_of_pymap. rewrite call_to_map_strings.
  destruct (str_entries _ (pairs_sql_entries (pairs_of (tail tokens)) []
                             (Forall_nil_2 _))) as (ps & Hm & Ho).
  exists ps. by rewrite Ho.
Qed.

Lemma mapper_transform_typed_witness :
  df_typed mapper_schema (mkDataFrame output_columns [sample_row]).
Proof.
  apply (mapper_transform_typed (λ _, None) ["value"] [[SString sample_warc]]
           (mkDataFrame output_columns [sample_row])).
  - constructor.
  - vm_compute. reflexivity.
Defined.

Lemma reducer_transform_typed_witness :
  ∃ out, reducer_transform (Some (mkDataFrame output_columns [sample_row]))
         = Ok out ∧ df_typed reducer_schema out.
Proof.
  apply (reducer_transform_typed (mkDataFrame output_columns [sample_row])).
  split; [reflexivity|]. repeat constructor.
Defined.

Lemma mapper_feeds_reducer_witness :
  ∃ mid out,
    mapper_transform (λ _, None) (mkDataFrame ["value"] [[SString sample_warc]])
    = Ok mid ∧
    reducer_transform (Some mid) = Ok out ∧
    df_typed mapper_schema mid ∧ df_typed reducer_schema out.
Proof.
  apply (mapper_feeds_reducer (λ _, None) ["value"] [[SString sample_warc]]).
  constructor.
Defined.
