(* ===== verification/Percentile.v ===== *)
(** * Bounds of the percentile the reducer computes

    [percentile(col, p)] interpolates between two neighbours of the
    sorted values.  This file proves that the result lies between the
    least and the greatest value, and lifts the bound to the rows
    [reducer] writes: the percentile of a language is null or lies
    between any two bounds of the content lengths of the input, so on
    the output of [mapper] it stays within the range of a 32-bit
    integer. *)

From stdpp Require Import base tactics option list strings sorting.
From Stdlib Require Import ZArith QArith Qround Lia Lqa.
From S2P Require Import Prelude PyValue ToMap SparkEngine SparkReducer.
From S2P Require Import SparkMapper SparkSchema.

Local Close Scope Q_scope.
Local Open Scope Z_scope.

(** ** Definitions *)

(** The content lengths of a dataframe: the integers of its
    [contentLength] column, nulls left out. *)
Definition content_lengths (df : DataFrame) : list Z :=
  int_values ((λ r, cell (df_columns df) r "contentLength") <$> df_rows df).

(** A percentile cell is null, or a double between the two bounds. *)
Definition percentile_within (lo hi : Z) (v : sqlval) : Prop :=
  v = SNull ∨ ∃ q, v = SDouble q ∧ (inject_Z lo <= q)%Q ∧ (q <= inject_Z hi)%Q.

(** ** Positions *)

(** The position of the percentile among [n] values lies between the
    first and the last index, and so do its floor and its ceiling. *)
Lemma position_bounds (p : Q) (n : nat) :
  (0 <= p)%Q → (p <= 1)%Q → (0 < n)%nat →
  (0 <= p * inject_Z (Z.of_nat n - 1))%Q ∧
  (p * inject_Z (Z.of_nat n - 1) <= inject_Z (Z.of_nat n - 1))%Q.
Proof.
  intros Hp0 Hp1 Hn.
  assert (0 <= inject_Z (Z.of_nat n - 1))%Q as Hm.
  { change 0%Q with (inject_Z 0). rewrite <- Zle_Qle. lia. }
  split; nra.
Qed.

Lemma floor_ceiling_bounds (x : Q) (m : Z) :
  (0 <= x)%Q → (x <= inject_Z m)%Q →
  0 ≤ Qfloor x ≤ m ∧ 0 ≤ Qceiling x ≤ m ∧ Qfloor x ≤ Qceiling x.
Proof.
  intros H0 Hm. split_and!.
  - rewrite <- (Qfloor_Z 0). by apply Qfloor_resp_le.
  - rewrite <- (Qfloor_Z m). by apply Qfloor_resp_le.
  - rewrite <- (Qceiling_Z 0). by apply Qceiling_resp_le.
  - rewrite <- (Qceiling_Z m). by apply Qceiling_resp_le.
  - rewrite Zle_Qle. eapply Qle_trans; [apply Qfloor_le|apply Qle_ceiling].
Qed.

(** Floor and ceiling that differ are neighbours. *)
Lemma ceiling_floor_succ (x : Q) :
  Qfloor x ≠ Qceiling x → Qceiling x = Qfloor x + 1.
Proof.
  intros Hne.
  assert (Qfloor x ≤ Qceiling x) as Hle.
  { rewrite Zle_Qle. eapply Qle_trans; [apply Qfloor_le|apply Qle_ceiling]. }
  assert (Qceiling x - 1 < Qfloor x + 1) as Hlt.
  { rewrite Zlt_Qlt. eapply Qlt_trans; [apply Qceiling_lt|apply Qlt_floor]. }
  lia.
Qed.

(** A weighted mean of two values within bounds is within the bounds. *)
Lemma interpolation_bounds (a b lo hi low high : Q) :
  (0 <= a)%Q → (0 <= b)%Q → (a + b == 1)%Q →
  (lo <= low)%Q → (low <= hi)%Q → (lo <= high)%Q → (high <= hi)%Q →
  (lo <= a * low + b * high)%Q ∧ (a * low + b * high <= hi)%Q.
Proof. intros. split; nra. Qed.

(** ** The percentile *)

Lemma nth_bounds (l : list Z) (i : nat) (d lo hi : Z) :
  Forall (λ x, lo ≤ x ≤ hi) l → (i < length l)%nat → lo ≤ nth i l d ≤ hi.
Proof.
  intros Hl Hi. rewrite nth_lookup.
  destruct (lookup_lt_is_Some_2 l i Hi) as [x Hx]. rewrite Hx. simpl.
  by eapply (Forall_lookup_1 _ _ _ _ Hl).
Qed.

(** The percentile of values within [lo] and [hi] is within them. *)
Lemma percentile_of_bounds (p : Q) (xs : list Z) (lo hi : Z) :
  (0 <= p)%Q → (p <= 1)%Q → xs ≠ [] → Forall (λ x, lo ≤ x ≤ hi) xs →
  ∃ q, percentile_of p xs = SDouble q ∧
       (inject_Z lo <= q)%Q ∧ (q <= inject_Z hi)%Q.
Proof.
  intros Hp0 Hp1 Hne Hxs. unfold percentile_of.
  pose proof (merge_sort_Permutation Z.le xs) as Hperm.
  assert (length (merge_sort Z.le xs) = length xs) as Hlen by by rewrite Hperm.
  rewrite <- Hperm in Hxs.
  destruct (merge_sort Z.le xs) as [|x0 sorted] eqn:Hs.
  { destruct xs; [done|]. simpl in Hlen. lia. }
  set (pos := (p * inject_Z (Z.of_nat (length xs) - 1))%Q).
  destruct (position_bounds p (length xs) Hp0 Hp1) as [Hpos0 Hposm];
    [rewrite <- Hlen; simpl; lia|].
  destruct (floor_ceiling_bounds pos _ Hpos0 Hposm)
    as ((Hf0 & Hfm) & (Hc0 & Hcm) & Hfc).
  assert (lo ≤ nth (Z.to_nat (Qfloor pos)) (x0 :: sorted) x0 ≤ hi) as Hlow
    by (apply nth_bounds; [done|rewrite Hlen; lia]).
  assert (lo ≤ nth (Z.to_nat (Qceiling pos)) (x0 :: sorted) x0 ≤ hi) as Hhigh
    by (apply nth_bounds; [done|rewrite Hlen; lia]).
  case_bool_decide as Heq.
  - eexists. split; [done|]. rewrite <- !Zle_Qle. lia.
  - eexists. split; [done|]. rewrite Qred_correct.
    apply interpolation_bounds.
    + pose proof (Qle_ceiling pos). lra.
    + pose proof (Qfloor_le pos). lra.
    + rewrite (ceiling_floor_succ pos Heq), inject_Z_plus. ring.
    + rewrite <- Zle_Qle. lia.
    + rewrite <- Zle_Qle. lia.
    + rewrite <- Zle_Qle. lia.
    + rewrite <- Zle_Qle. lia.
Qed.

(** ** The rows of the reducer *)

Lemma int_values_filter (P : Z → Prop) (Q : row → Prop)
    `{!∀ r, Decision (Q r)} (f : row → sqlval) (rows : list row) :
  Forall P (int_values (f <$> rows)) →
  Forall P (int_values (f <$> filter Q rows)).
Proof.
  rewrite !Forall_forall. intros HP z (v & Hv & Hz)%list_elem_of_omap.
  apply list_elem_of_fmap in Hv as (r & -> & [_ Hr]%list_elem_of_filter).
  apply HP, list_elem_of_omap. exists (f r).
  split; [by apply list_elem_of_fmap_2|done].
Qed.

Lemma percentile_of_within (p : Q) (xs : list Z) (lo hi : Z) :
  (0 <= p)%Q → (p <= 1)%Q → Forall (λ x, lo ≤ x ≤ hi) xs →
  percentile_within lo hi (percentile_of p xs).
Proof.
  intros Hp0 Hp1 Hxs. destruct (decide (xs = [])) as [->|Hne]; [by left|].
  right. by apply percentile_of_bounds.
Qed.

Lemma reducer_rows_within (df out : DataFrame) (lo hi : Z) :
  reducer_transform (Some df) = Ok out →
  Forall (λ z, lo ≤ z ≤ hi) (content_lengths df) →
  Forall (λ r, percentile_within lo hi
                 (cell (df_columns out) r percentile_column))
    (df_rows out).
Proof.
  intros (Hcols & Hrows)%reducer_transform_inv Hdf.
  rewrite Hrows, (merge_sort_Permutation _), Hcols, Forall_fmap.
  apply Forall_forall. intros k _.
  change (percentile_within lo hi
            (percentile_of (9 # 10)
               (int_values ((λ r, cell (df_columns df) r "contentLength")
                  <$> filter (λ r, cell (df_columns df) r "language" = k)
                        (df_rows df))))).
  apply percentile_of_within; [done..|]. by apply int_values_filter.
Qed.

Lemma typed_content_lengths (df : DataFrame) :
  df_typed mapper_schema df →
  Forall (λ z, int_min ≤ z ≤ int_max) (content_lengths df).
Proof.
  intros [Hcols Hrows]. apply Forall_forall.
  intros z (v & Hv & Hz)%list_elem_of_omap.
  apply list_elem_of_fmap in Hv as (r & -> & Hr). rewrite Hcols in Hz.
  pose proof (cell_typed mapper_schema r "contentLength" IntegerT
                (proj1 (Forall_forall _ _) Hrows r Hr) eq_refl) as Ht.
  destruct (cell _ r "contentLength"); simplify_eq/=.
  by apply bool_decide_eq_true_1 in Ht.
Qed.

(** ** Properties *)

(** The 90th percentile the reducer writes for a language is null or a
    double between any two bounds of the content lengths of the input:
    interpolating between neighbours never leaves their range. *)
Theorem reducer_percentile_bounds (df out : DataFrame) (lo hi : Z) :
  reducer_transform (Some df) = Ok out →
  Forall (λ z, lo ≤ z ≤ hi) (content_lengths df) →
  Forall (λ r, percentile_within lo hi
                 (cell (df_columns out) r percentile_column))
    (df_rows out).
Proof. apply reducer_rows_within. Qed.

Lemma reducer_percentile_bounds_witness :
  Forall (λ r, percentile_within 10 40
                 (cell ["language"; percentile_column; samples_column] r
                    percentile_column))
    [[SString "en"; SDouble (37 # 1); SLong 3];
     [SString "fr"; SDouble (20 # 1); SLong 1]].
Proof.
  refine (reducer_percentile_bounds
            (mkDataFrame ["language"; "contentLength"]
               [[SString "en"; SInt 10]; [SString "fr"; SInt 20];
                [SString "en"; SInt 40]; [SString "en"; SInt 25]])
            (mkDataFrame ["language"; percentile_column; samples_column]
               [[SString "en"; SDouble (37 # 1); SLong 3];
                [SString "fr"; SDouble (20 # 1); SLong 1]])
            10 40 _ _); [reflexivity|].
  apply (bool_decide_unpack _). by vm_compute.
Defined.

(** C38: on a dataframe of the mapper's schema the reducer succeeds and every
    percentile it writes is within the range of a 32-bit integer: the
    interpolation cannot leave the range of the column it reads. *)
Theorem reducer_percentile_int32 (df : DataFrame) :
  df_typed mapper_schema df →
  ∃ out, reducer_transform (Some df) = Ok out ∧
         Forall (λ r, percentile_within int_min int_max
                        (cell (df_columns out) r percentile_column))
           (df_rows out).
Proof.
  intros Hdf. destruct (reducer_typed_total df Hdf) as (out & Hout & _).
  exists out. split; [done|].
  by eapply reducer_rows_within, typed_content_lengths.
Qed.

Lemma reducer_percentile_int32_witness :
  ∃ out, reducer_transform (Some (mkDataFrame output_columns [sample_row]))
         = Ok out ∧
         Forall (λ r, percentile_within int_min int_max
                        (cell (df_columns out) r percentile_column))
           (df_rows out).
Proof.
  apply (reducer_percentile_int32 (mkDataFrame output_columns [sample_row])).
  apply (bool_decide_unpack _). by vm_compute.
Defined.
