(* ===== verification/SparkJob.v ===== *)
(** * A Spark job: the mappers and the reducer together

    The docstrings of [mapper] and [reducer] describe how a dataset's
    read connector, manifest file and write connector become the
    arguments of the two handlers in the three run configurations, and
    which arguments the system generates.  This file models that
    description: the connectors, the arguments of each mapper task and
    of the reducer task, and the job that runs one mapper per manifest
    file and then the reducer.  Tasks run one after the other, which is
    one of the schedules of the cluster.  The job is run by the
    platform, which is not in the repository: it is modelled from the
    docstrings, and what the theorems assert of it is the result of
    [mapper] and [reducer] on the documented arguments.

    The theorems: the mapper tasks of a job leave one file per manifest
    file (intermediate when a reducer follows, output in a job of
    mappers alone), each the result of the mapper pipeline on that file,
    and touch nothing else; every order of the mapper tasks leaves the
    same files; a job of mappers and reducer ends with the aggregate
    of the first manifest file alone at the write uri; a job of the
    reducer alone over files without a language column reads every file
    and raises the analysis error; a job with an empty manifest fails in
    the reducer. *)

From stdpp Require Import base tactics option list strings gmap.
From Stdlib Require Import ZArith QArith Lia.
From S2P Require Import Prelude PyValue ToMap SparkEngine SparkReducer.
From S2P Require Import SparkMapper SparkSchema.

Local Close Scope Q_scope.
Local Close Scope Z_scope.

(** ** The dataset configuration *)

(** The run configurations the parameter descriptions name. *)
Inductive run_configuration : Type :=
| MAPPER_AND_REDUCER
| MAPPER_ONLY
| REDUCER_ONLY.

#[export] Instance run_configuration_eq_dec : EqDecision run_configuration.
Proof. solve_decision. Defined.

(** The fields of the read connector that are passed to the handlers. *)
Record read_connector : Type := mkReadConnector {
  rc_connectorDestination : string;
  rc_bucketName : string;
  rc_sparkFileFormat : string;
  rc_sparkReadOptions : pyval
}.

(** The manifest: the file names of [fileContents], one per line. *)
Record manifest_file : Type := mkManifestFile {
  mf_region : string;
  mf_fileNames : list string
}.

(** The fields of the write connector that are passed to the handlers. *)
Record write_connector : Type := mkWriteConnector {
  wc_connectorDestination : string;
  wc_sparkFileFormat : string;
  wc_sparkWriteOptions : pyval
}.

(** What the system generates: the app name, the uri of the
    intermediate file of each mapper task, the read options for those
    files, the uri of each output file and the secret's arn. *)
Record system_names : Type := mkSystemNames {
  sys_appName : string;
  sys_intermediateUri : nat → string;
  sys_intermediateReadOptions : pyval;
  sys_writeUri : nat → string;
  sys_spark_credentials_secret_arn : string
}.

Record dataset : Type := mkDataset {
  ds_runSparkInterfaces : run_configuration;
  ds_readConnector : read_connector;
  ds_manifestFile : manifest_file;
  ds_writeConnector : write_connector;
  ds_system : system_names
}.

(** [s3a://<bucketName>/<fileName>]. *)
Definition s3a_uri (bucketName fileName : string) : string :=
  "s3a://" +:+ bucketName +:+ "/" +:+ fileName.

(** ['{"compression":"gzip"}']. *)
Definition gzip_options : pyval := PDict [("compression", PStr "gzip")].

(** The uri a manifest file is read from. *)
Definition read_uri_of (ds : dataset) (fileName : string) : string :=
  s3a_uri (rc_bucketName (ds_readConnector ds)) fileName.

(** The arguments of the mapper task for the manifest file at position
    [i]: with a reducer to follow, the write arguments are those of the
    intermediate file, in parquet, compressed; without, those of the
    write connector. *)
Definition mapper_args (ds : dataset) (i : nat) (fileName : string) :
    MapperArgs :=
  let rc := ds_readConnector ds in
  let wc := ds_writeConnector ds in
  let sys := ds_system ds in
  match ds_runSparkInterfaces ds with
  | MAPPER_AND_REDUCER =>
      mkMapperArgs (sys_appName sys) (rc_connectorDestination rc)
        (read_uri_of ds fileName) (rc_sparkFileFormat rc)
        (rc_sparkReadOptions rc) "S3" (sys_intermediateUri sys i) "parquet"
        "overwrite" gzip_options (sys_spark_credentials_secret_arn sys)
  | _ =>
      mkMapperArgs (sys_appName sys) (rc_connectorDestination rc)
        (read_uri_of ds fileName) (rc_sparkFileFormat rc)
        (rc_sparkReadOptions rc) (wc_connectorDestination wc)
        (sys_writeUri sys i) (wc_sparkFileFormat wc) "overwrite"
        (wc_sparkWriteOptions wc) (sys_spark_credentials_secret_arn sys)
  end.

(** The uri the mapper task of position [i] writes: its intermediate
    file when a reducer follows, its output file otherwise. *)
Definition task_uri (ds : dataset) (i : nat) : string :=
  match ds_runSparkInterfaces ds with
  | MAPPER_AND_REDUCER => sys_intermediateUri (ds_system ds) i
  | _ => sys_writeUri (ds_system ds) i
  end.

(** The uris of the intermediate files of the mapper tasks. *)
Definition intermediate_uris (ds : dataset) : list string :=
  sys_intermediateUri (ds_system ds)
  <$> seq 0 (length (mf_fileNames (ds_manifestFile ds))).

(** The arguments of the reducer task: it reads the manifest files
    themselves when it runs alone, and the intermediate files of the
    mappers otherwise; it writes as the write connector says. *)
Definition reducer_args (ds : dataset) : ReducerArgs :=
  let rc := ds_readConnector ds in
  let wc := ds_writeConnector ds in
  let sys := ds_system ds in
  match ds_runSparkInterfaces ds with
  | REDUCER_ONLY =>
      mkReducerArgs (sys_appName sys) (rc_connectorDestination rc)
        (read_uri_of ds <$> mf_fileNames (ds_manifestFile ds))
        (rc_sparkFileFormat rc) (rc_sparkReadOptions rc)
        (wc_connectorDestination wc) (sys_writeUri sys 0)
        (wc_sparkFileFormat wc) "overwrite" (wc_sparkWriteOptions wc)
        (sys_spark_credentials_secret_arn sys)
  | _ =>
      mkReducerArgs (sys_appName sys) "S3" (intermediate_uris ds) "parquet"
        (sys_intermediateReadOptions sys) (wc_connectorDestination wc)
        (sys_writeUri sys 0) (wc_sparkFileFormat wc) "overwrite"
        (wc_sparkWriteOptions wc) (sys_spark_credentials_secret_arn sys)
  end.

Section Job.
Context (to_timestamp : string → option Z).

(** What the pipeline of [mapper] makes of a dataframe with a [value]
    column. *)
Definition mapper_output (df : DataFrame) : DataFrame :=
  mkDataFrame output_columns
    (omap (λ r, mapper_row to_timestamp (cell (df_columns df) r "value"))
       (df_rows df)).

(** One mapper task per manifest file, in the order of the manifest. *)
Definition run_mappers (ds : dataset) : SE spark_world exn unit :=
  for_each (λ i fileName _, mapper to_timestamp (mapper_args ds i fileName))
    0 (mf_fileNames (ds_manifestFile ds)) tt.

(** What the mapper tasks from position [i] on leave in the files
    [fs], when they read their inputs as [fs0] holds them. *)
Fixpoint write_intermediate (ds : dataset) (fs0 : gmap string DataFrame)
    (i : nat) (fileNames : list string) (fs : gmap string DataFrame) :
    gmap string DataFrame :=
  match fileNames with
  | [] => fs
  | f :: rest =>
      write_intermediate ds fs0 (S i) rest
        match fs0 !! read_uri_of ds f with
        | Some df => <[task_uri ds i:=mapper_output df]> fs
        | None => fs
        end
  end.

(** The mapper tasks of a job, each with its position in the manifest. *)
Definition manifest_tasks (ds : dataset) : list (nat * string) :=
  zip (seq 0 (length (mf_fileNames (ds_manifestFile ds))))
    (mf_fileNames (ds_manifestFile ds)).

(** The mapper tasks in the order of a schedule. *)
Definition run_tasks (ds : dataset) (schedule : list (nat * string)) :
    SE spark_world exn unit :=
  for_each (λ _ t _, mapper to_timestamp (mapper_args ds t.1 t.2)) 0
    schedule tt.

(** What one mapper task writes, when it reads its input as [fs0] holds
    it. *)
Definition task_write (ds : dataset) (fs0 : gmap string DataFrame)
    (t : nat * string) (fs : gmap string DataFrame) : gmap string DataFrame :=
  match fs0 !! read_uri_of ds t.2 with
  | Some df => <[task_uri ds t.1:=mapper_output df]> fs
  | None => fs
  end.

(** The job of a dataset. *)
Definition run_job (ds : dataset) : SE spark_world exn unit :=
  match ds_runSparkInterfaces ds with
  | MAPPER_ONLY => run_mappers ds
  | MAPPER_AND_REDUCER => run_mappers ds ;;; reducer (reducer_args ds)
  | REDUCER_ONLY => reducer (reducer_args ds)
  end.

End Job.

(** The manifest files can be read as text, and no file a mapper task
    of the job writes is one of them or is written twice. *)
Record job_ready (ds : dataset) (w : spark_world) : Prop := mkJobReady {
  ready_region : is_Some (sw_environ w !! "AWS_REGION");
  ready_files :
    Forall (λ f, ∃ df, sw_files w !! read_uri_of ds f = Some df
                       ∧ "value" ∈ df_columns df)
      (mf_fileNames (ds_manifestFile ds));
  ready_apart : ∀ i f,
    i < length (mf_fileNames (ds_manifestFile ds)) →
    f ∈ mf_fileNames (ds_manifestFile ds) →
    task_uri ds i ≠ read_uri_of ds f;
  ready_distinct : ∀ i j,
    i < j < length (mf_fileNames (ds_manifestFile ds)) →
    task_uri ds i ≠ task_uri ds j
}.

(** ** The mapper tasks *)

Section JobLaws.
Context (to_timestamp : string → option Z).
Implicit Types (ds : dataset) (w : spark_world) (fs : gmap string DataFrame).

Local Notation "'int_uri' ds" := (sys_intermediateUri (ds_system ds))
  (at level 10, ds at level 9, only parsing).

Lemma task_uri_intermediate ds i :
  ds_runSparkInterfaces ds = MAPPER_AND_REDUCER → task_uri ds i = int_uri ds i.
Proof. unfold task_uri. by intros ->. Qed.

Lemma task_uri_output ds i :
  ds_runSparkInterfaces ds = MAPPER_ONLY →
  task_uri ds i = sys_writeUri (ds_system ds) i.
Proof. unfold task_uri. by intros ->. Qed.

Lemma write_intermediate_other ds fs0 i fileNames fs (u : string) :
  (∀ k, k < length fileNames → u ≠ task_uri ds (i + k)) →
  write_intermediate to_timestamp ds fs0 i fileNames fs !! u = fs !! u.
Proof.
  revert i fs. induction fileNames as [|f rest IH]; intros i fs Hu; [done|].
  cbn [write_intermediate]. rewrite IH.
  - destruct (fs0 !! _); [|done]. apply lookup_insert_ne.
    specialize (Hu 0). rewrite Nat.add_0_r in Hu. symmetry. apply Hu. simpl. lia.
  - intros k Hk. rewrite Nat.add_succ_comm. apply Hu. simpl. lia.
Qed.

Lemma write_intermediate_lookup ds fs0 i fileNames fs k f df :
  fileNames !! k = Some f → fs0 !! read_uri_of ds f = Some df →
  (∀ k', k < k' < length fileNames →
         task_uri ds (i + k) ≠ task_uri ds (i + k')) →
  write_intermediate to_timestamp ds fs0 i fileNames fs !! task_uri ds (i + k)
  = Some (mapper_output to_timestamp df).
Proof.
  revert i k fs. induction fileNames as [|f' rest IH]; intros i k fs Hk Hf Hd;
    [done|]. cbn [write_intermediate]. destruct k as [|k].
  - injection Hk as ->. rewrite Hf, Nat.add_0_r, write_intermediate_other.
    + apply lookup_insert_eq.
    + intros k Hlt. rewrite Nat.add_succ_comm.
      specialize (Hd (S k)). rewrite Nat.add_0_r in Hd. apply Hd. simpl. lia.
  - rewrite <- Nat.add_succ_comm. apply IH; [done..|].
    intros k' Hk'. rewrite !Nat.add_succ_comm. apply Hd. simpl. lia.
Qed.

(** One mapper task of a job. *)
Lemma mapper_task_run ds i f w region df :
  sw_environ w !! "AWS_REGION" = Some region →
  sw_files w !! read_uri_of ds f = Some df → "value" ∈ df_columns df →
  ∃ w', mapper to_timestamp (mapper_args ds i f) w = (Ok tt, w') ∧
        sw_environ w' = sw_environ w ∧
        sw_files w'
        = <[task_uri ds i:=mapper_output to_timestamp df]> (sw_files w).
Proof.
  intros Hregion Hf Hv. unfold mapper_args, task_uri.
  destruct (ds_runSparkInterfaces ds);
    (eexists; split; [|split]; [by eapply mapper_run|done..]).
Qed.

(** The mapper tasks from position [i] on. *)
Lemma run_mappers_from ds fs0 region fileNames i w :
  sw_environ w !! "AWS_REGION" = Some region →
  Forall (λ f, ∃ df, fs0 !! read_uri_of ds f = Some df
                     ∧ sw_files w !! read_uri_of ds f = Some df
                     ∧ "value" ∈ df_columns df) fileNames →
  (∀ k f, k < length fileNames → f ∈ fileNames →
          task_uri ds (i + k) ≠ read_uri_of ds f) →
  ∃ w', for_each (λ i f _, mapper to_timestamp (mapper_args ds i f)) i
          fileNames tt w = (Ok tt, w') ∧
        sw_environ w' = sw_environ w ∧
        sw_files w'
        = write_intermediate to_timestamp ds fs0 i fileNames (sw_files w).
Proof.
  revert i w.
  induction fileNames as [|f rest IH]; intros i w Hregion Hfs Hap.
  { by exists w. }
  apply Forall_cons in Hfs as [(df & Hf0 & Hf & Hv) Hrest].
  destruct (mapper_task_run ds i f w region df) as (w1 & Hrun1 & He1 & Hfs1);
    [done..|].
  destruct (IH (S i) w1) as (w' & Hrun' & He' & Hfs').
  - by rewrite He1.
  - apply Forall_forall. intros f' Hin. rewrite Forall_forall in Hrest.
    destruct (Hrest f' Hin) as (df' & H0 & H1 & H2).
    exists df'. split_and!; [done| |done].
    rewrite Hfs1, lookup_insert_ne; [done|].
    specialize (Hap 0 f'). rewrite Nat.add_0_r in Hap.
    apply Hap; [simpl; lia|by right].
  - intros k f' Hk Hin. rewrite Nat.add_succ_comm.
    apply Hap; [simpl; lia|by right].
  - exists w'. split_and!.
    + cbn [for_each]. unfold bind. by rewrite Hrun1.
    + by rewrite He', He1.
    + cbn [write_intermediate]. by rewrite Hf0, Hfs', Hfs1.
Qed.

(** All mapper tasks of a job that is ready. *)
Lemma run_mappers_run ds w :
  job_ready ds w →
  ∃ w', run_mappers to_timestamp ds w = (Ok tt, w') ∧
        sw_environ w' = sw_environ w ∧
        sw_files w'
        = write_intermediate to_timestamp ds (sw_files w) 0
            (mf_fileNames (ds_manifestFile ds)) (sw_files w).
Proof.
  intros [[region Hregion] Hfiles Hap _].
  apply (run_mappers_from ds (sw_files w) region); [done..| |done].
  eapply Forall_impl; [exact Hfiles|]. intros f (df & Hf & Hv). eauto.
Qed.

(** After the mapper tasks, the file the task of position [k] writes
    holds the result of the pipeline on the manifest file of that
    position. *)
Lemma intermediate_file ds w k f df :
  job_ready ds w → mf_fileNames (ds_manifestFile ds) !! k = Some f →
  sw_files w !! read_uri_of ds f = Some df →
  write_intermediate to_timestamp ds (sw_files w) 0
    (mf_fileNames (ds_manifestFile ds)) (sw_files w) !! task_uri ds k
  = Some (mapper_output to_timestamp df).
Proof.
  intros [_ _ _ Hd] Hk Hf.
  apply (write_intermediate_lookup ds (sw_files w) 0 _ _ k f df); [done..|].
  intros k' Hk'. by apply Hd.
Qed.

(** The intermediate files after the first are readable by the reducer
    as dataframes with the columns of the first. *)
Lemma intermediate_readable ds w w' (df : DataFrame) :
  ds_runSparkInterfaces ds = MAPPER_AND_REDUCER → job_ready ds w →
  sw_files w'
  = write_intermediate to_timestamp ds (sw_files w) 0
      (mf_fileNames (ds_manifestFile ds)) (sw_files w) →
  readable_like w' (mapper_output to_timestamp df)
    (int_uri ds <$> seq 1 (length (mf_fileNames (ds_manifestFile ds)) - 1)).
Proof.
  intros Hrun Hready Hfs. apply Forall_fmap, Forall_forall.
  intros k [Hk1 Hk2]%elem_of_seq.
  destruct (lookup_lt_is_Some_2 (mf_fileNames (ds_manifestFile ds)) k)
    as [f Hf]; [lia|].
  pose proof (ready_files _ _ Hready) as Hfiles.
  rewrite Forall_forall in Hfiles.
  destruct (Hfiles f) as (df' & Hdf' & _); [by eapply list_elem_of_lookup_2|].
  exists (mapper_output to_timestamp df'). split; [|done].
  rewrite Hfs, <- (task_uri_intermediate ds k Hrun). by eapply intermediate_file.
Qed.

(** The reducer task after the mapper tasks of a job with a first
    manifest file. *)
Lemma reducer_task_run ds w w1 f0 rest df0 out :
  ds_runSparkInterfaces ds = MAPPER_AND_REDUCER → job_ready ds w →
  mf_fileNames (ds_manifestFile ds) = f0 :: rest →
  sw_files w !! read_uri_of ds f0 = Some df0 →
  sw_environ w1 = sw_environ w →
  sw_files w1
  = write_intermediate to_timestamp ds (sw_files w) 0
      (mf_fileNames (ds_manifestFile ds)) (sw_files w) →
  reducer_transform (Some (mapper_output to_timestamp df0)) = Ok out →
  ∃ w', reducer (reducer_args ds) w1 = (Ok tt, w') ∧
        sw_files w' = <[sys_writeUri (ds_system ds) 0:=out]> (sw_files w1).
Proof.
  intros Hrun Hready Hfiles Hf0 He Hfs Hout.
  destruct (ready_region _ _ Hready) as [region Hregion].
  eexists. split.
  - eapply (reducer_run (reducer_args ds) w1 region (int_uri ds 0)
              (int_uri ds <$> seq 1 (length (mf_fileNames (ds_manifestFile ds))
                                     - 1)) (mapper_output to_timestamp df0) out).
    + by rewrite He.
    + unfold reducer_args, intermediate_uris. rewrite Hrun, Hfiles. simpl.
      by rewrite Nat.sub_0_r.
    + rewrite Hfs, <- (task_uri_intermediate ds 0 Hrun).
      eapply intermediate_file; [done| |done]. by rewrite Hfiles.
    + by apply (intermediate_readable ds w).
    + done.
    + unfold reducer_args. rewrite Hrun. reflexivity.
  - unfold reducer_args. by rewrite Hrun.
Qed.

(** ** Schedules of the mapper tasks *)

Lemma foldl_foldr_reverse {A B} (f : A → B → A) (a : A) (l : list B) :
  foldl f a l = foldr (flip f) a (reverse l).
Proof.
  revert a. induction l as [|x l IH]; intros a; [done|].
  by rewrite reverse_cons, foldr_app, <- IH.
Qed.

Lemma write_intermediate_tasks ds fs0 i fileNames fs :
  write_intermediate to_timestamp ds fs0 i fileNames fs
  = foldl (flip (task_write to_timestamp ds fs0)) fs
      (zip (seq i (length fileNames)) fileNames).
Proof.
  revert i fs. induction fileNames as [|f rest IH]; intros i fs; [done|].
  cbn [write_intermediate length seq zip zip_with foldl]. by rewrite IH.
Qed.

(** The mapper tasks in the order of a schedule: each task reads its
    input as it was before the job. *)
Lemma run_tasks_from ds fs0 region schedule i w :
  sw_environ w !! "AWS_REGION" = Some region →
  Forall (λ t, ∃ df, fs0 !! read_uri_of ds t.2 = Some df
                     ∧ sw_files w !! read_uri_of ds t.2 = Some df
                     ∧ "value" ∈ df_columns df) schedule →
  (∀ t t', t ∈ schedule → t' ∈ schedule →
           task_uri ds t.1 ≠ read_uri_of ds t'.2) →
  ∃ w', for_each (λ _ t _, mapper to_timestamp (mapper_args ds t.1 t.2)) i
          schedule tt w = (Ok tt, w') ∧
        sw_environ w' = sw_environ w ∧
        sw_files w'
        = foldl (flip (task_write to_timestamp ds fs0)) (sw_files w) schedule.
Proof.
  revert i w.
  induction schedule as [|[k f] rest IH]; intros i w Hregion Hfs Hap.
  { by exists w. }
  apply Forall_cons in Hfs as [(df & Hf0 & Hf & Hv) Hrest]. cbn [fst snd] in *.
  destruct (mapper_task_run ds k f w region df) as (w1 & Hrun1 & He1 & Hfs1);
    [done..|].
  destruct (IH (S i) w1) as (w' & Hrun' & He' & Hfs').
  - by rewrite He1.
  - apply Forall_forall. intros t Hin. rewrite Forall_forall in Hrest.
    destruct (Hrest t Hin) as (df' & H0 & H1 & H2).
    exists df'. split_and!; [done| |done].
    rewrite Hfs1, lookup_insert_ne; [done|].
    apply (Hap (k, f) t); [by left|by right].
  - intros t t' Ht Ht'. apply Hap; by right.
  - exists w'. split_and!.
    + cbn [for_each fst snd]. unfold bind. by rewrite Hrun1.
    + by rewrite He', He1.
    + cbn [foldl]. unfold flip at 2, task_write at 2. cbn [fst snd].
      by rewrite Hf0, Hfs', Hfs1.
Qed.

(** Two tasks that write different uris can change places. *)
Lemma task_write_commute ds fs0 (t1 t2 : nat * string) fs :
  task_uri ds t1.1 ≠ task_uri ds t2.1 →
  task_write to_timestamp ds fs0 t1 (task_write to_timestamp ds fs0 t2 fs)
  = task_write to_timestamp ds fs0 t2 (task_write to_timestamp ds fs0 t1 fs).
Proof.
  intros Hne. unfold task_write.
  destruct (fs0 !! read_uri_of ds t1.2), (fs0 !! read_uri_of ds t2.2);
    try done.
  by apply insert_insert_ne.
Qed.

Lemma task_writes_permutation ds fs0 fs (s1 s2 : list (nat * string)) :
  NoDup ((λ t, task_uri ds t.1) <$> s1) → s1 ≡ₚ s2 →
  foldl (flip (task_write to_timestamp ds fs0)) fs s1
  = foldl (flip (task_write to_timestamp ds fs0)) fs s2.
Proof.
  intros Hnd Hp. rewrite !foldl_foldr_reverse.
  apply (foldr_permutation eq);
    [solve_proper| |by rewrite !reverse_Permutation].
  intros j1 t1 j2 t2 fs' Hj H1 H2. unfold flip.
  apply task_write_commute. intros Heq. apply Hj.
  rewrite <- reverse_Permutation, <- fmap_reverse in Hnd.
  eapply (NoDup_lookup _ _ _ _ Hnd); rewrite list_lookup_fmap.
  - by rewrite H1.
  - by rewrite H2, Heq.
Qed.

Lemma manifest_tasks_inv ds (t : nat * string) :
  t ∈ manifest_tasks ds →
  t.1 < length (mf_fileNames (ds_manifestFile ds)) ∧
  mf_fileNames (ds_manifestFile ds) !! t.1 = Some t.2.
Proof.
  unfold manifest_tasks. intros (j & Hj)%list_elem_of_lookup_1.
  destruct t as [k f]. apply lookup_zip_with_Some in Hj
    as (k' & f' & [= <- <-] & Hk & Hf).
  apply lookup_seq in Hk as [-> Hlt]. by split.
Qed.

Lemma manifest_tasks_NoDup ds w :
  job_ready ds w → NoDup ((λ t, task_uri ds t.1) <$> manifest_tasks ds).
Proof.
  intros Hready. unfold manifest_tasks.
  change (λ t : nat * string, task_uri ds t.1)
    with (task_uri ds ∘ (@fst nat string)).
  rewrite list_fmap_compose, fst_zip by (by rewrite length_seq).
  apply NoDup_fmap_2_strong; [|apply NoDup_seq].
  intros i j [_ Hi]%elem_of_seq [_ Hj]%elem_of_seq Heq.
  destruct (Nat.lt_trichotomy i j) as [Hlt|[->|Hlt]]; [|done|];
    exfalso; eapply (ready_distinct _ _ Hready); eauto; lia.
Qed.

(** A schedule of the mapper tasks of a ready job. *)
Lemma run_tasks_run ds w schedule :
  job_ready ds w →
  schedule ≡ₚ manifest_tasks ds →
  ∃ w', run_tasks to_timestamp ds schedule w = (Ok tt, w') ∧
        sw_environ w' = sw_environ w ∧
        sw_files w'
        = write_intermediate to_timestamp ds (sw_files w) 0
            (mf_fileNames (ds_manifestFile ds)) (sw_files w).
Proof.
  intros Hready Hp.
  destruct (ready_region _ _ Hready) as [region Hregion].
  assert (∀ t, t ∈ schedule →
               t.1 < length (mf_fileNames (ds_manifestFile ds)) ∧
               t.2 ∈ mf_fileNames (ds_manifestFile ds)) as Hin.
  { intros t Ht. rewrite Hp in Ht.
    apply manifest_tasks_inv in Ht as [Hlt Hf].
    split; [done|by eapply list_elem_of_lookup_2]. }
  destruct (run_tasks_from ds (sw_files w) region schedule 0 w)
    as (w' & Hr & He & Hfs); [done..| | |].
  - apply Forall_forall. intros t [_ Hf]%Hin.
    pose proof (ready_files _ _ Hready) as Hfiles.
    rewrite Forall_forall in Hfiles.
    destruct (Hfiles _ Hf) as (df & Hdf & Hv). eauto.
  - intros t t' [Hlt _]%Hin [_ Hf]%Hin. by apply (ready_apart _ _ Hready).
  - exists w'. split_and!; [done..|].
    rewrite Hfs, write_intermediate_tasks.
    apply task_writes_permutation; [|done].
    rewrite Hp. by eapply manifest_tasks_NoDup.
Qed.

(** The mapper tasks of a ready job: every task succeeds, the file of
    each position holds the result of the pipeline on the manifest file
    of that position, and no other uri is written. *)
Lemma run_mappers_files ds w :
  job_ready ds w →
  ∃ w', run_mappers to_timestamp ds w = (Ok tt, w') ∧
        sw_environ w' = sw_environ w ∧
        (∀ k f df, mf_fileNames (ds_manifestFile ds) !! k = Some f →
                   sw_files w !! read_uri_of ds f = Some df →
                   sw_files w' !! task_uri ds k
                   = Some (mapper_output to_timestamp df)) ∧
        (∀ u, (∀ k, k < length (mf_fileNames (ds_manifestFile ds)) →
                    u ≠ task_uri ds k) →
              sw_files w' !! u = sw_files w !! u).
Proof.
  intros Hready.
  destruct (run_mappers_run ds w Hready) as (w' & Hm & He & Hfs).
  exists w'. split_and!; [done..| |].
  - intros k f df Hk Hf. rewrite Hfs. by eapply intermediate_file.
  - intros u Hu. rewrite Hfs. by apply write_intermediate_other.
Qed.

(** ** Properties *)

(** The mapper tasks of a job with a reducer, on a world that is ready:
    every task succeeds, the intermediate file of each position holds
    the result of the mapper pipeline on the manifest file of that
    position, no other uri is written, and the environment is as it
    was. *)
Theorem job_mappers_write_intermediate ds w :
  ds_runSparkInterfaces ds = MAPPER_AND_REDUCER → job_ready ds w →
  ∃ w', run_mappers to_timestamp ds w = (Ok tt, w') ∧
        sw_environ w' = sw_environ w ∧
        (∀ k f df, mf_fileNames (ds_manifestFile ds) !! k = Some f →
                   sw_files w !! read_uri_of ds f = Some df →
                   sw_files w' !! int_uri ds k
                   = Some (mapper_output to_timestamp df)) ∧
        (∀ u, u ∉ intermediate_uris ds → sw_files w' !! u = sw_files w !! u).
Proof.
  intros Hrun Hready.
  destruct (run_mappers_files ds w Hready) as (w' & Hm & He & Hfs & Hother).
  exists w'. split_and!; [done..| |].
  - intros k f df Hk Hf. rewrite <- (task_uri_intermediate ds k Hrun). eauto.
  - intros u Hu. apply Hother. intros k Hk ->.
    apply Hu, list_elem_of_fmap. exists k.
    split; [by apply task_uri_intermediate|]. apply elem_of_seq. lia.
Qed.

(** A job of mappers alone on a world that is ready: every task
    succeeds, the output file of each position holds the result of the
    mapper pipeline on the manifest file of that position, no other uri
    is written, and no reducer runs. *)
Theorem job_mapper_only ds w :
  ds_runSparkInterfaces ds = MAPPER_ONLY → job_ready ds w →
  ∃ w', run_job to_timestamp ds w = (Ok tt, w') ∧
        sw_environ w' = sw_environ w ∧
        (∀ k f df, mf_fileNames (ds_manifestFile ds) !! k = Some f →
                   sw_files w !! read_uri_of ds f = Some df →
                   sw_files w' !! sys_writeUri (ds_system ds) k
                   = Some (mapper_output to_timestamp df)) ∧
        (∀ u, (∀ k, k < length (mf_fileNames (ds_manifestFile ds)) →
                    u ≠ sys_writeUri (ds_system ds) k) →
              sw_files w' !! u = sw_files w !! u).
Proof.
  intros Hrun Hready.
  destruct (run_mappers_files ds w Hready) as (w' & Hm & He & Hfs & Hother).
  exists w'. split_and!; [by unfold run_job; rewrite Hrun|done| |].
  - intros k f df Hk Hf. rewrite <- (task_uri_output ds k Hrun). eauto.
  - intros u Hu. apply Hother. intros k Hk.
    rewrite (task_uri_output ds k Hrun). by apply Hu.
Qed.

(** A job of mappers and reducer with a first manifest file, task by
    task. *)
Lemma run_job_first_file ds w f0 rest df0 :
  ds_runSparkInterfaces ds = MAPPER_AND_REDUCER → job_ready ds w →
  mf_fileNames (ds_manifestFile ds) = f0 :: rest →
  sw_files w !! read_uri_of ds f0 = Some df0 →
  ∃ w' out,
    run_job to_timestamp ds w = (Ok tt, w') ∧
    reducer_transform (Some (mapper_output to_timestamp df0)) = Ok out ∧
    sw_files w' !! sys_writeUri (ds_system ds) 0 = Some out ∧
    df_typed reducer_schema out.
Proof.
  intros Hrun Hready Hfiles Hf0.
  destruct (run_mappers_run ds w Hready) as (w1 & Hm & He & Hfs).
  destruct (reducer_typed_total (mapper_output to_timestamp df0))
    as (out & Hout & Hty); [apply mapper_rows_typed|].
  destruct (reducer_task_run ds w w1 f0 rest df0 out) as (w' & Hr & Hfs');
    [done..|].
  exists w', out. split_and!; [|done| |done].
  - unfold run_job. rewrite Hrun. unfold bind. by rewrite Hm.
  - rewrite Hfs'. apply lookup_insert_eq.
Qed.

(** C34: a job of mappers and reducer on a world that is ready ends with
    the aggregate of the first manifest file at the write uri, and that
    aggregate has the reducer schema: the records of the other manifest
    files are mapped and written to their intermediate files, and do not
    reach the result. *)
Theorem job_reduces_first_file_only ds w f0 rest df0 :
  ds_runSparkInterfaces ds = MAPPER_AND_REDUCER → job_ready ds w →
  mf_fileNames (ds_manifestFile ds) = f0 :: rest →
  sw_files w !! read_uri_of ds f0 = Some df0 →
  ∃ w' out,
    run_job to_timestamp ds w = (Ok tt, w') ∧
    reducer_transform (Some (mapper_output to_timestamp df0)) = Ok out ∧
    sw_files w' !! sys_writeUri (ds_system ds) 0 = Some out ∧
    df_typed reducer_schema out.
Proof. apply run_job_first_file. Qed.

(** The mapper tasks of a ready job can run in any order: every
    schedule of the tasks of the manifest succeeds and leaves the files
    and the environment that the order of the manifest leaves. *)
Theorem mapper_tasks_any_schedule ds w schedule :
  job_ready ds w → schedule ≡ₚ manifest_tasks ds →
  ∃ w1 w2,
    run_mappers to_timestamp ds w = (Ok tt, w1) ∧
    run_tasks to_timestamp ds schedule w = (Ok tt, w2) ∧
    sw_files w2 = sw_files w1 ∧ sw_environ w2 = sw_environ w1.
Proof.
  intros Hready Hp.
  destruct (run_mappers_run ds w Hready) as (w1 & Hm & He1 & Hfs1).
  destruct (run_tasks_run ds w schedule Hready Hp)
    as (w2 & Ht & He2 & Hfs2).
  exists w1, w2. split_and!; congruence.
Qed.

(** C37: a job of the reducer alone over files without a [language] column,
    as text files are: the reducer creates its session and reads every
    file, then the grouping raises the analysis error of the unresolved
    column, and nothing is written. *)
Theorem job_reducer_only_unresolved ds w region f0 rest df0 :
  ds_runSparkInterfaces ds = REDUCER_ONLY →
  mf_fileNames (ds_manifestFile ds) = f0 :: rest →
  sw_environ w !! "AWS_REGION" = Some region →
  sw_files w !! read_uri_of ds f0 = Some df0 →
  "language" ∉ df_columns df0 →
  readable_like w df0 (read_uri_of ds <$> rest) →
  ∃ w', run_job to_timestamp ds w
        = (Raised (AnalysisException (msg_unresolved "language")), w') ∧
        sw_files w' = sw_files w ∧ sw_writes w' = sw_writes w ∧
        length (sw_reads w') = length (sw_reads w) + S (length rest).
Proof.
  intros Hrun Hfiles Hregion Hf0 Hl Hrest. unfold run_job. rewrite Hrun.
  eexists. split.
  - apply (reducer_run_raises _ w region (read_uri_of ds f0)
             (read_uri_of ds <$> rest) df0); [done| |done..|].
    + unfold reducer_args. by rewrite Hrun, Hfiles.
    + unfold reducer_transform, df_groupBy_agg, resolve. simpl.
      by rewrite bool_decide_eq_true_2.
  - split_and!; [done..|]. cbn [sw_reads]. unfold reads_of.
    rewrite length_app, length_fmap. simpl. by rewrite length_fmap.
Qed.

(** A job with a reducer and an empty manifest fails: no mapper task
    runs, and the reducer raises the IndexError of [readUris[0]] before
    it creates a session. *)
Theorem job_empty_manifest ds w region :
  ds_runSparkInterfaces ds ≠ MAPPER_ONLY →
  mf_fileNames (ds_manifestFile ds) = [] →
  sw_environ w !! "AWS_REGION" = Some region →
  run_job to_timestamp ds w = (Raised (IndexError msg_index_out_of_range), w).
Proof.
  intros Hrun Hfiles Hregion. unfold run_job, run_mappers.
  destruct (ds_runSparkInterfaces ds) eqn:Hr; [|done|]; rewrite ?Hfiles;
    [unfold bind; cbn [for_each ret]|];
    apply (reducer_run_no_uris _ _ region); try done;
    unfold reducer_args, intermediate_uris; by rewrite Hr, Hfiles.
Qed.

End JobLaws.

(** ** The documented example *)

(** The read connector, manifest file and write connector of the
    example in the docstrings, with names for what the system
    generates. *)
Definition documented_files : list string :=
  (λ n, "crawl-data/CC-MAIN-2023-50/segments/1700679099281.67/wet/"
        +:+ "CC-MAIN-20231128083443-20231128113443-0000" +:+ n
        +:+ ".warc.wet.gz") <$> ["0"; "1"; "2"; "3"].

Definition documented_dataset (run : run_configuration)
    (fileNames : list string) : dataset :=
  mkDataset run
    (mkReadConnector "S3" "commoncrawl" "text"
       (PDict [("lineSep", PStr (String lf blank_line))]))
    (mkManifestFile "us-east-1" fileNames)
    (mkWriteConnector "S3" "json" gzip_options)
    (mkSystemNames "app"
       (λ i, "s3a://intermediate/part-" +:+ String (Ascii.ascii_of_nat (48 + i)) "")
       PNone
       (λ i, "s3a://output/part-" +:+ String (Ascii.ascii_of_nat (48 + i)) "")
       "arn").

(** A world in which every documented file holds one record. *)
Definition documented_world : spark_world :=
  mkSparkWorld {["AWS_REGION" := "us-east-1"]}
    (list_to_map
       ((λ f, (s3a_uri "commoncrawl" f,
               mkDataFrame ["value"] [[SString sample_warc]]))
          <$> documented_files)) [] [] [].

Lemma documented_ready (run : run_configuration) :
  job_ready (documented_dataset run documented_files) documented_world.
Proof.
  split.
  - by eexists.
  - repeat (constructor;
            [exists (mkDataFrame ["value"] [[SString sample_warc]]);
             split; [by vm_compute|by constructor]|]).
    constructor.
  - intros i f _ _. destruct run; vm_compute; intros [=].
  - intros i j Hij. simpl in Hij.
    destruct run, i as [|[|[|[|i]]]], j as [|[|[|[|j]]]]; try lia;
      vm_compute; intros [=].
Qed.

Lemma job_mappers_write_intermediate_witness :
  ∃ w', run_mappers (λ _, None)
          (documented_dataset MAPPER_AND_REDUCER documented_files)
          documented_world = (Ok tt, w') ∧
        sw_environ w' = sw_environ documented_world ∧
        (∀ k f df,
           mf_fileNames
             (ds_manifestFile
                (documented_dataset MAPPER_AND_REDUCER documented_files))
           !! k = Some f →
           sw_files documented_world
           !! read_uri_of
                (documented_dataset MAPPER_AND_REDUCER documented_files) f
           = Some df →
           sw_files w'
           !! sys_intermediateUri
                (ds_system
                   (documented_dataset MAPPER_AND_REDUCER documented_files)) k
           = Some (mapper_output (λ _, None) df)) ∧
        (∀ u, u ∉ intermediate_uris
                    (documented_dataset MAPPER_AND_REDUCER documented_files) →
              sw_files w' !! u = sw_files documented_world !! u).
Proof.
  apply (job_mappers_write_intermediate (λ _, None)
           (documented_dataset MAPPER_AND_REDUCER documented_files)
           documented_world); [reflexivity|apply (documented_ready MAPPER_AND_REDUCER)].
Defined.

Lemma job_mapper_only_witness :
  ∃ w', run_job (λ _, None) (documented_dataset MAPPER_ONLY documented_files)
          documented_world = (Ok tt, w') ∧
        sw_environ w' = sw_environ documented_world ∧
        (∀ k f df,
           mf_fileNames
             (ds_manifestFile (documented_dataset MAPPER_ONLY documented_files))
           !! k = Some f →
           sw_files documented_world
           !! read_uri_of (documented_dataset MAPPER_ONLY documented_files) f
           = Some df →
           sw_files w'
           !! sys_writeUri
                (ds_system (documented_dataset MAPPER_ONLY documented_files)) k
           = Some (mapper_output (λ _, None) df)) ∧
        (∀ u, (∀ k, k < length
                          (mf_fileNames
                             (ds_manifestFile
                                (documented_dataset MAPPER_ONLY
                                   documented_files))) →
                    u ≠ sys_writeUri
                          (ds_system
                             (documented_dataset MAPPER_ONLY documented_files))
                          k) →
              sw_files w' !! u = sw_files documented_world !! u).
Proof.
  apply (job_mapper_only (λ _, None)
           (documented_dataset MAPPER_ONLY documented_files) documented_world);
    [reflexivity|apply (documented_ready MAPPER_ONLY)].
Defined.

Lemma job_reduces_first_file_only_witness :
  ∃ w' out,
    run_job (λ _, None)
      (documented_dataset MAPPER_AND_REDUCER documented_files)
      documented_world = (Ok tt, w') ∧
    reducer_transform
      (Some (mapper_output (λ _, None)
               (mkDataFrame ["value"] [[SString sample_warc]]))) = Ok out ∧
    sw_files w' !! "s3a://output/part-0" = Some out ∧
    df_typed reducer_schema out.
Proof.
  apply (job_reduces_first_file_only (λ _, None)
           (documented_dataset MAPPER_AND_REDUCER documented_files)
           documented_world
           ("crawl-data/CC-MAIN-2023-50/segments/1700679099281.67/wet/"
            +:+ "CC-MAIN-20231128083443-20231128113443-00000.warc.wet.gz")
           (tail documented_files)
           (mkDataFrame ["value"] [[SString sample_warc]]));
    [reflexivity|apply (documented_ready MAPPER_AND_REDUCER)|reflexivity|by vm_compute].
Defined.

Lemma mapper_tasks_any_schedule_witness :
  ∃ w1 w2,
    run_mappers (λ _, None)
      (documented_dataset MAPPER_AND_REDUCER documented_files)
      documented_world = (Ok tt, w1) ∧
    run_tasks (λ _, None)
      (documented_dataset MAPPER_AND_REDUCER documented_files)
      (reverse
         (manifest_tasks
            (documented_dataset MAPPER_AND_REDUCER documented_files)))
      documented_world = (Ok tt, w2) ∧
    sw_files w2 = sw_files w1 ∧ sw_environ w2 = sw_environ w1.
Proof.
  apply (mapper_tasks_any_schedule (λ _, None)
           (documented_dataset MAPPER_AND_REDUCER documented_files)
           documented_world);
    [apply (documented_ready MAPPER_AND_REDUCER)|apply reverse_Permutation].
Defined.

Lemma job_reducer_only_unresolved_witness :
  ∃ w', run_job (λ _, None)
          (documented_dataset REDUCER_ONLY documented_files) documented_world
        = (Raised (AnalysisException (msg_unresolved "language")), w') ∧
        sw_files w' = sw_files documented_world ∧
        sw_writes w' = sw_writes documented_world ∧
        length (sw_reads w') = length (sw_reads documented_world) + 4.
Proof.
  apply (job_reducer_only_unresolved (λ _, None)
           (documented_dataset REDUCER_ONLY documented_files) documented_world
           "us-east-1"
           ("crawl-data/CC-MAIN-2023-50/segments/1700679099281.67/wet/"
            +:+ "CC-MAIN-20231128083443-20231128113443-00000.warc.wet.gz")
           (tail documented_files)
           (mkDataFrame ["value"] [[SString sample_warc]]));
    [reflexivity|reflexivity|reflexivity|by vm_compute| |].
  - by intros [[=]|[]%elem_of_nil]%elem_of_cons.
  - repeat (constructor;
            [exists (mkDataFrame ["value"] [[SString sample_warc]]);
             split; [by vm_compute|reflexivity]|]).
    constructor.
Defined.

Lemma job_empty_manifest_witness :
  run_job (λ _, None) (documented_dataset MAPPER_AND_REDUCER [])
    documented_world
  = (Raised (IndexError msg_index_out_of_range), documented_world).
Proof.
  apply (job_empty_manifest (λ _, None)
           (documented_dataset MAPPER_AND_REDUCER []) documented_world
           "us-east-1"); [discriminate|reflexivity|reflexivity].
Defined.
