(* ===== verification/JobSpec.v ===== *)
(** * What a job is meant to compute

    The docstring of [reducer] says that the dataframes of all the uris
    are appended to a combined dataframe, and that the aggregate is
    computed of that.  This file writes this down as the specification
    of a job: every manifest file mapped, the results combined, the
    combination aggregated.  The specification is a function of the
    dataframes the files hold; it has no session, no credentials and no
    intermediate file.

    The theorems: the specification does not depend on the order of the
    files of the manifest, up to the order of the rows of its result; it
    equals one pass of the two transformations over the union of all
    files, so the staging in mappers and a reducer is sound; a job as
    the code runs it implements the specification when no file after
    the first contributes a row, the job of a single file in
    particular; on the documented example of four files it does not. *)

From stdpp Require Import base tactics option list strings gmap sorting.
From Stdlib Require Import ZArith QArith.
From S2P Require Import Prelude PyValue ToMap SparkEngine SparkReducer.
From S2P Require Import SparkMapper RowOrder SparkSchema SparkJob.

Local Close Scope Q_scope.
Local Close Scope Z_scope.
Local Open Scope df_scope.

(** ** The specification *)

(** Every element transformed, up to the first exception. *)
Fixpoint outcome_mapM {A B} (f : A → outcome exn B) (l : list A) :
    outcome exn (list B) :=
  match l with
  | [] => Ok []
  | x :: l => y <~ f x ;; ys <~ outcome_mapM f l ;; Ok (y :: ys)
  end.

(** The combined dataframe: the first with every other appended by
    [union].  Without a dataframe there is no first. *)
Definition combined (dfs : list DataFrame) : outcome exn DataFrame :=
  match dfs with
  | [] => Raised (IndexError msg_index_out_of_range)
  | df :: rest => foldl (λ acc d, acc <~ acc ;; df_union acc d) (Ok df) rest
  end.

(** The reducer as described: the aggregate of the combined
    dataframe. *)
Definition reducer_spec (dfs : list DataFrame) : outcome exn DataFrame :=
  df <~ combined dfs ;; reducer_transform (Some df).

Section Spec.
Context (to_timestamp : string → option Z).

(** The job as described: every file mapped, the results combined and
    aggregated. *)
Definition job_spec (inputs : list DataFrame) : outcome exn DataFrame :=
  mids <~ outcome_mapM (mapper_transform to_timestamp) inputs ;;
  reducer_spec mids.

End Spec.

(** The dataframes the manifest files of a dataset hold. *)
Definition inputs_of (ds : dataset) (w : spark_world) : list DataFrame :=
  omap (λ f, sw_files w !! read_uri_of ds f) (mf_fileNames (ds_manifestFile ds)).

(** ** The combined dataframe *)

Lemma combined_from (cols : list string) (acc : DataFrame)
    (rest : list DataFrame) :
  df_columns acc = cols → Forall (λ d, df_columns d = cols) rest →
  foldl (λ acc d, acc <~ acc ;; df_union acc d) (Ok acc) rest
  = Ok (mkDataFrame cols (df_rows acc ++ (rest ≫= df_rows))).
Proof.
  revert acc. induction rest as [|d rest IH]; intros acc <- Hrest.
  { destruct acc. csimpl. by rewrite app_nil_r. }
  apply Forall_cons in Hrest as [Hd Hrest]. cbn [foldl outcome_bind].
  unfold df_union at 2. rewrite bool_decide_eq_true_2 by congruence.
  rewrite IH by done. csimpl. by rewrite app_assoc.
Qed.

(** Dataframes with the same columns combine to their union. *)
Lemma combined_columns (cols : list string) (df : DataFrame)
    (rest : list DataFrame) :
  Forall (λ d, df_columns d = cols) (df :: rest) →
  combined (df :: rest) = Ok (union_all cols (df :: rest)).
Proof. intros [Hdf Hrest]%Forall_cons. by apply combined_from. Qed.

(** Dataframes without rows add nothing to a union. *)
Lemma union_all_first (d : DataFrame) (rest : list DataFrame) :
  Forall (λ d, df_rows d = []) rest →
  union_all (df_columns d) (d :: rest) = d.
Proof.
  intros Hrest. destruct d as [cols rows]. unfold union_all. csimpl. f_equal.
  replace (rest ≫= df_rows) with (@nil row); [by rewrite app_nil_r|].
  induction Hrest as [|d rest Hd _ IH]; [done|]. csimpl. by rewrite Hd, <- IH.
Qed.

(** ** The specification on files that can be mapped *)

Section SpecLaws.
Context (to_timestamp : string → option Z).

Lemma mapper_transform_output (df : DataFrame) :
  "value" ∈ df_columns df →
  mapper_transform to_timestamp df = Ok (mapper_output to_timestamp df).
Proof. destruct df as [cols rows]. apply mapper_transform_run. Qed.

Lemma outcome_mapM_mapper (inputs : list DataFrame) :
  Forall (λ d, "value" ∈ df_columns d) inputs →
  outcome_mapM (mapper_transform to_timestamp) inputs
  = Ok (mapper_output to_timestamp <$> inputs).
Proof.
  induction 1 as [|d inputs Hd _ IH]; [done|].
  cbn [outcome_mapM]. by rewrite mapper_transform_output, IH.
Qed.

Lemma job_spec_run (d : DataFrame) (rest : list DataFrame) :
  Forall (λ d, "value" ∈ df_columns d) (d :: rest) →
  job_spec to_timestamp (d :: rest)
  = reducer_transform
      (Some (union_all output_columns
               (mapper_output to_timestamp <$> d :: rest))).
Proof.
  intros Hv. unfold job_spec, reducer_spec.
  rewrite outcome_mapM_mapper by done. cbn [outcome_bind fmap list_fmap].
  rewrite (combined_columns output_columns); [done|].
  apply Forall_cons; split; [done|]. by apply Forall_fmap, Forall_true.
Qed.

(** The rows the mapper makes of the rows of several dataframes with
    the same columns. *)
Lemma mapper_output_union (cols : list string) (inputs : list DataFrame) :
  Forall (λ d, df_columns d = cols) inputs →
  mapper_output to_timestamp (union_all cols inputs)
  = union_all output_columns (mapper_output to_timestamp <$> inputs).
Proof.
  intros Hc. unfold mapper_output, union_all. cbn [df_columns df_rows].
  f_equal. induction Hc as [|d inputs Hd _ IH]; [done|].
  csimpl. by rewrite omap_app, IH, Hd.
Qed.

Lemma inputs_of_ready (ds : dataset) (w : spark_world) :
  job_ready ds w →
  Forall2 (λ f d, sw_files w !! read_uri_of ds f = Some d
                  ∧ "value" ∈ df_columns d)
    (mf_fileNames (ds_manifestFile ds)) (inputs_of ds w).
Proof.
  intros Hready. pose proof (ready_files _ _ Hready) as Hfiles.
  unfold inputs_of. induction Hfiles as [|f fs (d & Hf & Hv) _ IH]; [done|].
  cbn [omap list_omap]. rewrite Hf. by constructor.
Qed.

(** ** Properties *)

(** The specification does not depend on the order of the files of
    the manifest: for two orders of files that can be mapped it raises
    the same exception, or returns the same rows in some order. *)
Theorem job_spec_any_order (inputs1 inputs2 : list DataFrame) :
  Forall (λ d, "value" ∈ df_columns d) inputs1 → inputs1 ≡ₚ inputs2 →
  job_spec to_timestamp inputs1 ≡ₒ job_spec to_timestamp inputs2.
Proof.
  intros Hv1 Hp. assert (Forall (λ d, "value" ∈ df_columns d) inputs2) as Hv2
    by by rewrite <- Hp.
  destruct inputs1 as [|d1 rest1], inputs2 as [|d2 rest2].
  - done.
  - by apply Permutation_nil_cons in Hp.
  - symmetry in Hp. by apply Permutation_nil_cons in Hp.
  - rewrite !job_spec_run by done.
    apply reducer_transform_proper, union_all_proper. by rewrite Hp.
Qed.

(** The staging is sound: on files with the same columns the
    specification equals one pass of the transformation of the mapper
    and then of the reducer over the union of all the files. *)
Theorem job_spec_one_pass (cols : list string) (d : DataFrame)
    (rest : list DataFrame) :
  "value" ∈ cols → Forall (λ d, df_columns d = cols) (d :: rest) →
  job_spec to_timestamp (d :: rest)
  = (out <~ mapper_transform to_timestamp (union_all cols (d :: rest)) ;;
     reducer_transform (Some out)).
Proof.
  intros Hv Hc. rewrite job_spec_run.
  - rewrite mapper_transform_output by done. cbn [outcome_bind].
    by rewrite (mapper_output_union cols).
  - eapply Forall_impl; [done|]. by intros d' ->.
Qed.

(** C35: a job of mappers and reducer implements the specification when no
    manifest file after the first contributes a row, and so when the
    manifest has one file: the dataframe it leaves at the write uri is
    the one the specification returns for the files of the manifest. *)
Theorem job_refines_spec (ds : dataset) (w : spark_world) :
  ds_runSparkInterfaces ds = MAPPER_AND_REDUCER → job_ready ds w →
  mf_fileNames (ds_manifestFile ds) ≠ [] →
  Forall (λ d, df_rows (mapper_output to_timestamp d) = [])
    (tail (inputs_of ds w)) →
  ∃ w' out,
    run_job to_timestamp ds w = (Ok tt, w') ∧
    sw_files w' !! sys_writeUri (ds_system ds) 0 = Some out ∧
    job_spec to_timestamp (inputs_of ds w) = Ok out.
Proof.
  intros Hrun Hready Hne Hrest.
  pose proof (inputs_of_ready ds w Hready) as Hin.
  destruct (mf_fileNames (ds_manifestFile ds)) as [|f0 fs] eqn:Hfiles; [done|].
  inversion Hin as [|? d0 ? ds' [Hf0 Hv0] Hin' Heq1 Heq2]; subst.
  rewrite <- Heq2 in Hrest. cbn [tail] in Hrest.
  destruct (run_job_first_file to_timestamp ds w f0 fs d0)
    as (w' & out & Hjob & Hout & Hw & _); [done..|].
  exists w', out. split_and!; [done..|].
  rewrite job_spec_run, <- Hout.
  - do 2 f_equal. apply (union_all_first (mapper_output to_timestamp d0)).
    by apply Forall_fmap.
  - apply Forall_cons. split; [done|].
    eapply Forall2_Forall_r; [exact Hin'|]. apply Forall_true. by intros ? ? [_ ?].
Qed.

End SpecLaws.

(** ** The documented example *)

(** A record that is not of type [conversion]: the mapper drops it. *)
Definition warcinfo_record : string :=
  "WARC/1.0" +:+ crlf +:+ "WARC-Type: warcinfo" +:+ crlf
  +:+ "Content-Length: 4" +:+ blank_line +:+ "text".

(** A world in which the first documented file holds a record of type
    [conversion] and the other files hold no such record. *)
Definition quiet_world : spark_world :=
  mkSparkWorld {["AWS_REGION" := "us-east-1"]}
    (list_to_map
       (zip_with
          (λ f v, (s3a_uri "commoncrawl" f, mkDataFrame ["value"] [[SString v]]))
          documented_files
          [sample_warc; warcinfo_record; warcinfo_record; warcinfo_record]))
    [] [] [].

Lemma quiet_ready :
  job_ready (documented_dataset MAPPER_AND_REDUCER documented_files)
    quiet_world.
Proof.
  split.
  - by eexists.
  - repeat (constructor; [eexists; split; [by vm_compute|by constructor]|]).
    constructor.
  - intros i f _ _. vm_compute. intros [=].
  - intros i j Hij. simpl in Hij.
    destruct i as [|[|[|[|i]]]], j as [|[|[|[|j]]]]; try lia;
      vm_compute; intros [=].
Qed.


Lemma job_spec_any_order_witness :
  job_spec (λ _, None)
    [mkDataFrame ["value"] [[SString (record_of "eng")]];
     mkDataFrame ["value"] [[SString (record_of "fra")]]]
  ≡ₒ job_spec (λ _, None)
       [mkDataFrame ["value"] [[SString (record_of "fra")]];
        mkDataFrame ["value"] [[SString (record_of "eng")]]].
Proof.
  apply (job_spec_any_order (λ _, None)
           [mkDataFrame ["value"] [[SString (record_of "eng")]];
            mkDataFrame ["value"] [[SString (record_of "fra")]]]
           [mkDataFrame ["value"] [[SString (record_of "fra")]];
            mkDataFrame ["value"] [[SString (record_of "eng")]]]).
  - repeat constructor.
  - apply perm_swap.
Defined.

Lemma job_spec_one_pass_witness :
  job_spec (λ _, None)
    [mkDataFrame ["value"] [[SString (record_of "eng")]];
     mkDataFrame ["value"] [[SString (record_of "fra")]]]
  = (out <~ mapper_transform (λ _, None)
              (union_all ["value"]
                 [mkDataFrame ["value"] [[SString (record_of "eng")]];
                  mkDataFrame ["value"] [[SString (record_of "fra")]]]) ;;
     reducer_transform (Some out)).
Proof.
  apply (job_spec_one_pass (λ _, None) ["value"]
           (mkDataFrame ["value"] [[SString (record_of "eng")]])
           [mkDataFrame ["value"] [[SString (record_of "fra")]]]).
  - by left.
  - by repeat constructor.
Defined.

Lemma job_refines_spec_witness :
  ∃ w' out,
    run_job (λ _, None)
      (documented_dataset MAPPER_AND_REDUCER documented_files) quiet_world
    = (Ok tt, w') ∧
    sw_files w'
    !! sys_writeUri
         (ds_system (documented_dataset MAPPER_AND_REDUCER documented_files)) 0
    = Some out ∧
    job_spec (λ _, None)
      (inputs_of (documented_dataset MAPPER_AND_REDUCER documented_files)
         quiet_world)
    = Ok out.
Proof.
  apply (job_refines_spec (λ _, None)
           (documented_dataset MAPPER_AND_REDUCER documented_files)
           quiet_world).
  - reflexivity.
  - apply quiet_ready.
  - discriminate.
  - apply (bool_decide_unpack _). by vm_compute.
Defined.
